(* ===== verification/_CoqProject ===== *)
-Q . S2P
Prelude.v
Slices.v
Heap.v
Platform.v
Reference.v
ApiV1.v
Webhook.v
Runtime.v
Rbac.v
ReadyCheck.v
Crd.v
Submanager.v
SubManagerReconciler.v
Controller.v
Client.v
System.v
Broker.v
BrokerProgress.v
Informers.v
DeepCopy.v
Dies.v
DieLaws.v
DieTheorems.v
DieOps.v
DieContract.v
ApiDies.v
TestResources.v
Main.v
