(* ===== verification/Prelude.v ===== *)
(** * reconciler.io/ducks: a verification development

    ** The program

    A DuckType (api/v1) names a shape of resource; a Duck of that type marks an
    API whose resources have the shape.  The process (cmd/main.go) runs a
    controller for DuckTypes (internal/controller): for each of them it keeps two
    aggregate ClusterRoles and a CustomResourceDefinition for its ducks, and
    starts a manager of its own (reconcilers/submanager.go,
    internal/submanager), whose controller gives every duck two ClusterRoles and
    checks that the API it marks is served.  Webhooks (api/v1) default and
    validate the resources.  Other programs use the duck client and the broker
    (client/), which read, and watch, the objects of every kind the ready ducks
    of a type mark.

    ** Files, and the code they model

    - Prelude.v: Go outcomes (return or panic), results, strings; tactics and
      the lemmas on strings and lists the components share.
    - Slices.v, Heap.v: Go slices over shared arrays (append, indexing), and
      structs that refer to cells of a heap: what they denote, the cells they
      refer to, and what a deep copy of them is, as a class with laws that
      structs, lists and slices inherit from their parts.
    - Platform.v, Runtime.v: the libraries (apimachinery, controller-runtime,
      reconciler.io/runtime) as type classes: one class of operations, one of
      laws that state documented behaviour.  Reference.v has an instance of the
      classes of Platform.v with its laws proved, used by the witnesses; files
      with classes of their own (Rbac.v, Crd.v, Controller.v, Client.v,
      Informers.v, DeepCopy.v, DieContract.v, Main.v) have their instance at the
      end.  In Rbac.v the aggregation of ClusterRoles is such a class, in Crd.v
      the schema validation of the API server and the JSON of metadata,
      conditions and statuses.
    - ApiV1.v: duck_types.go, ducktype_types.go, duck_lifecycle.go,
      ducktype_lifecycle.go, groupversion_info.go.  The JSON of a duck, by the
      tags of duck_types.go, is in Crd.v.
    - Webhook.v: ducktype_webhook.go, duck_webhook.go.
    - Rbac.v, Crd.v, ReadyCheck.v: the sub-reconcilers of
      ducktype_controller.go for roles, the CustomResourceDefinition and the
      readiness of a duck.  A callback is a function of the resource; the time
      the context carries is the argument [now].
    - Submanager.v: submanager.go.  The routing Cache acts on the pair of the
      states of its two caches.
    - SubManagerReconciler.v: reconcilers/submanager.go.  The reconciler's fields
      are [smr_state]; [smr_step] is the interleaving of its calls with the
      goroutines of the managers it started, each of which can exit, and whose
      parent context can end, at any time.
    - Controller.v: the reconcilers of ducktype_controller.go, composed of the
      parts above.  [smr_run] is a call of the sub-manager reconciler to its
      return, a run of [smr_step].
    - Client.v: client.go, in a state and error monad over a world [W].
    - System.v: the Duck reconciler and the duck client together, joined by the
      class ReadyDucks.
    - Broker.v: the type broker of broker.go.  [broker_step] has one step per
      channel operation.  BrokerProgress.v: how a broker comes to rest.
    - Informers.v: the runnable NewBroker adds to the manager; stopping it cancels
      the broker of Broker.v.
    - DeepCopy.v: zz_generated.deepcopy.go of api/v1 over the heap of Heap.v.
    - Dies.v, DieOps.v: the methods every die of zz_generated.die.go has, once
      for any resource type, over that heap: a die is a cell of a store of dies
      of several kinds, so that the die of a status can be used inside a stamp
      of the die of a duck.  DieOps.v groups them as the generated files do,
      with the encoders and the other libraries as a record.
    - ApiDies.v: the six die types of api/v1 with the methods of their own, the
      blank dies and their initialisation, duck_dies.go, ducktype_dies.go.
    - TestResources.v: internal/testresources, the types, deep copies and dies
      of the resource the tests of the client use.
    - DieLaws.v has what a callback and a method do, as a relation on the values
      with a frame, and how these compose; DieTheorems.v the theorems on the
      shared methods; DieContract.v the contract of a die type; the theorems on
      the die types are in ApiDies.v.
    - Main.v: main and the init functions, with the slices of the TLS options.

    A definition has the name of the function it models; a method m of a type T
    is T_m; parts of a function (a loop, a select case, a closure) have
    descriptive names.

    ** What the theorems show

    - Sub-managers (SubManagerReconciler.v, Controller.v): entries of the
      managers map and running managers correspond one to one in every
      reachable state; shutdowns complete; starting is atomic and idempotent; a
      reconciled DuckType has a running sub-manager and is Ready iff its roles
      and its CustomResourceDefinition are; its finalizer goes only after the
      sub-manager has ended.  Starting is for callbacks that succeed: an error of
      LocalTypes is dropped.
    - Access (Rbac.v): in a cluster with the desired roles, stored by name, the
      aggregate roles of a duck type grant exactly the access to the resources
      its ducks mark, if the names of duck types have no dash; with a dash the
      names of roles can collide.  Updates converge.
    - Readiness (ReadyCheck.v, Crd.v, Controller.v): a Ready duck that is not
      being deleted marks an API that is served; each branch of the status
      callbacks, with status, reason and message; the generated
      CustomResourceDefinition is the one the admitted DuckType describes
      (whether the API server accepts its names is not claimed: the webhook does
      not check all its rules), and its schema admits exactly the ducks whose
      conditions and generations are within the limits.
    - Admission (Webhook.v): the webhooks admit exactly the objects of the field
      contract, report exact errors, and are stable under updates.
    - Client (Client.v, System.v): the operations refine a specification on the contents
      of the cluster: the ready ducks that match, in order, and the objects of
      their kinds; over ducks as a reconcile without error left them, Get of a
      kind that is set and not a list kind, and List, read only kinds the API
      server serves.  Submanager.v: the routing cache is its two caches
      side by side.
    - Broker (Broker.v, BrokerProgress.v, Informers.v): events arrive in order
      and at most once; publishing does not wait for subscribers; no delivery
      once subscription and unsubscription were taken; left alone, a running broker settles within a
      bounded number of steps, whatever the interleaving, with every event
      fanned out; one handler per informed duck, all removed on stop; informed
      are the ducks that were ready once and have not been deleted.
    - Copies and dies (DeepCopy.v, DieTheorems.v, ApiDies.v, TestResources.v):
      deep copies share no cell; immutable dies do not change, whatever a
      callback writes; every die type keeps the contract of dies; a
      nested die does what the setter of its field does, and a condition set
      through three nested dies is an update of the list of conditions; AsDuck
      makes a duck of the type.  Main.v: which TLS options each server reads, for
      any growth of slices; main returns only if every step succeeded.
    - Limits of the code, as theorems: colliding role names, errors of
      LocalTypes that are dropped, sub-managers that are not restarted, a
      subscription that leaks when its context ends early, publishers that
      block for ever after the broker stopped, informers that are not
      refreshed, a webhook server that reads the metrics certificate if append
      leaves room in the shared slice.

    ** Bounds

    No definition uses fuel: loops are structural recursions on the lists they
    range over, and goroutines are step relations.  Channel capacities are those
    of the code.  The bound on the steps of a broker counts, for every event, one
    step and one read per subscriber, with channels filled to capacity.
    Map iteration, where its order matters, is over an arbitrary permutation of
    the map's entries.  How far append grows an array is an arbitrary
    function.  Counters of the history in Broker.v are
    not bounded, as no code computes with them.

    ** Not modelled

    Logging; parsing of flags and signals; SetupWebhookWithManager and the
    watches the controllers set up, which only register with the library; the
    libraries themselves (engine, caches, API server, aggregation of roles,
    schema validation, encoders, reflection, condition managers, the dies of
    metav1, the copies of metav1 types), which are class parameters or
    arguments; the blank
    conditions of duck_dies.go and ducktype_dies.go, which are values of a
    library die.  Calls of the sub-manager reconciler do not overlap in the
    model, as the controller runs one worker.  hack pins the versions of build
    tools and has no code. *)

From Stdlib Require Import Ascii.
From stdpp Require Export prelude gmap strings list sets.

(** ** Scope, automation and tactics of the development *)

Declare Scope go_scope.
Delimit Scope go_scope with go.

Create HintDb ducks discriminated.

(** Split every match and conditional the goal or a hypothesis computes on,
    then clean up; used where a handler is a decision tree. *)
Ltac go_cases :=
  repeat (case_match; simplify_eq/=);
  simplify_eq/=.

(** ** Outcomes of Go code

    A call that can panic yields an [outcome]; a call with an [error] result
    yields a [result]. *)

Inductive outcome (A : Type) : Type :=
| Ret (a : A)
| Panic (msg : string).
Arguments Ret {_} _.
Arguments Panic {_} _.

Definition outcome_bind {A B} (o : outcome A) (k : A -> outcome B) : outcome B :=
  match o with
  | Ret a => k a
  | Panic m => Panic m
  end.

Notation "'let!' x := o 'in' k" := (outcome_bind o (fun x => k))
  (at level 10, x pattern, o at level 100, k at level 200) : go_scope.

Lemma outcome_bind_Ret {A B} (o : outcome A) (k : A -> outcome B) b :
  outcome_bind o k = Ret b <-> exists a, o = Ret a /\ k a = Ret b.
Proof. destruct o; naive_solver. Qed.

Inductive result (E A : Type) : Type :=
| Ok (a : A)
| Err (e : E).
Arguments Ok {_ _} _.
Arguments Err {_ _} _.

Definition result_bind {E A B} (r : result E A) (k : A -> result E B) : result E B :=
  match r with
  | Ok a => k a
  | Err e => Err e
  end.

Notation "'let?' x := r 'in' k" := (result_bind r (fun x => k))
  (at level 10, x pattern, r at level 100, k at level 200) : go_scope.

Definition result_map {E A B} (f : A -> B) (r : result E A) : result E B :=
  match r with
  | Ok a => Ok (f a)
  | Err e => Err e
  end.

Lemma result_bind_Ok {E A B} (r : result E A) (k : A -> result E B) b :
  result_bind r k = Ok b <-> exists a, r = Ok a /\ k a = Ok b.
Proof. destruct r; naive_solver. Qed.

(** ** Go strings

    A Go string is a sequence of bytes, which is what [string] is. *)

Definition dq : string := String (ascii_of_nat 34) EmptyString.

Definition is_ascii_byte (c : ascii) : bool := (N_of_ascii c <? 128)%N.

Fixpoint isASCII (s : string) : bool :=
  match s with
  | EmptyString => true
  | String c s' => is_ascii_byte c && isASCII s'
  end.

Definition lower_byte (c : ascii) : ascii :=
  let n := N_of_ascii c in
  if ((65 <=? n) && (n <=? 90))%N then ascii_of_N (n + 32) else c.

Fixpoint lower_bytes (s : string) : string :=
  match s with
  | EmptyString => EmptyString
  | String c s' => String (lower_byte c) (lower_bytes s')
  end.

(** The parts of Go's Unicode tables the code can reach: the branch of
    [strings.ToLower] for strings with a byte above 127, and the branch of
    [strconv.Quote] for them. *)
Class GoUnicode := {
  unicode_ToLower : string -> string;
  unicode_Quote : string -> string;
}.

(** [strings.ToLower] *)
Definition ToLower `{GoUnicode} (s : string) : string :=
  if isASCII s then lower_bytes s else unicode_ToLower s.

Fixpoint drop_bytes (n : nat) (s : string) : string :=
  match n, s with
  | S n', String _ s' => drop_bytes n' s'
  | _, _ => s
  end.

(** [strings.HasSuffix] *)
Definition HasSuffix (s suffix : string) : bool :=
  (String.length suffix <=? String.length s)
  && String.eqb (drop_bytes (String.length s - String.length suffix) s) suffix.

Fixpoint has_byte (c : ascii) (s : string) : bool :=
  match s with
  | EmptyString => false
  | String c' s' => Ascii.eqb c c' || has_byte c s'
  end.

Definition dot : ascii := "."%char.
Definition slash : ascii := "/"%char.
Definition dash : ascii := "-"%char.

Definition hex_digit (n : N) : ascii :=
  if (n <? 10)%N then ascii_of_N (48 + n) else ascii_of_N (87 + n).

(** One byte below 128 as [strconv.Quote] writes it. *)
Definition quote_byte (c : ascii) : string :=
  let bs := String (ascii_of_N 92) in
  let n := N_of_ascii c in
  if (n =? 34)%N || (n =? 92)%N then bs (String c EmptyString)
  else if ((32 <=? n) && (n <? 127))%N then String c EmptyString
  else if (n =? 7)%N then bs "a" else if (n =? 8)%N then bs "b"
  else if (n =? 12)%N then bs "f" else if (n =? 10)%N then bs "n"
  else if (n =? 13)%N then bs "r" else if (n =? 9)%N then bs "t"
  else if (n =? 11)%N then bs "v"
  else bs (String "x" (String (hex_digit (n / 16)) (String (hex_digit (n mod 16)) EmptyString))).

Fixpoint quote_bytes (s : string) : string :=
  match s with
  | EmptyString => EmptyString
  | String c s' => quote_byte c +:+ quote_bytes s'
  end.

(** The [%q] verb on a string, [strconv.Quote]. *)
Definition Quote `{GoUnicode} (s : string) : string :=
  if isASCII s then dq +:+ quote_bytes s +:+ dq else unicode_Quote s.

(** ** Lemmas on strings *)

#[local] Arguments String.append !_ _ / : simpl nomatch.

Lemma string_app_assoc (a b c : string) : a +:+ (b +:+ c) = (a +:+ b) +:+ c.
Proof. induction a as [|x a IH]; [done|]. simpl. by rewrite IH. Qed.

Lemma string_app_nil_r (a : string) : a +:+ "" = a.
Proof. induction a as [|x a IH]; [done|]. simpl. by rewrite IH. Qed.

Lemma string_length_app (a b : string) :
  String.length (a +:+ b) = String.length a + String.length b.
Proof. induction a as [|x a IH]; [done|]. simpl. by rewrite IH. Qed.

Lemma string_app_inj_l (p a b : string) : p +:+ a = p +:+ b -> a = b.
Proof. induction p as [|x p IH]; [done|]. intros [= H]. auto. Qed.

Lemma string_app_inj_r (a b s : string) : a +:+ s = b +:+ s -> a = b.
Proof.
  revert b. induction a as [|x a IH]; intros [|y b] H; [done| | |].
  - apply (f_equal String.length) in H. rewrite !string_length_app in H. simpl in H. lia.
  - apply (f_equal String.length) in H. rewrite !string_length_app in H. simpl in H. lia.
  - injection H as -> H. f_equal. by apply IH.
Qed.

Lemma drop_bytes_app (p s : string) : drop_bytes (String.length p) (p +:+ s) = s.
Proof. induction p; done. Qed.

Lemma drop_bytes_split (n : nat) (s : string) :
  n <= String.length s -> exists p, s = p +:+ drop_bytes n s /\ String.length p = n.
Proof.
  revert s. induction n as [|n IH]; intros s Hn; [by exists ""|].
  destruct s as [|c s]; simpl in Hn; [lia|].
  destruct (IH s) as (p & Hp & Hl); [lia|].
  exists (String c p). simpl. by rewrite <- Hp, Hl.
Qed.

Lemma HasSuffix_spec (s t : string) : HasSuffix s t = true <-> exists p, s = p +:+ t.
Proof.
  unfold HasSuffix. rewrite andb_true_iff, Nat.leb_le, String.eqb_eq. split.
  - intros [Hl Hd].
    destruct (drop_bytes_split (String.length s - String.length t) s) as (p & Hp & _); [lia|].
    exists p. by rewrite Hd in Hp.
  - intros [p ->]. rewrite string_length_app. split; [lia|].
    replace (String.length p + String.length t - String.length t) with (String.length p) by lia.
    apply drop_bytes_app.
Qed.

Lemma lower_byte_idem (c : ascii) : lower_byte (lower_byte c) = lower_byte c.
Proof. by destruct c as [[] [] [] [] [] [] [] []]. Qed.

Lemma lower_byte_ascii (c : ascii) : is_ascii_byte c = true -> is_ascii_byte (lower_byte c) = true.
Proof. by destruct c as [[] [] [] [] [] [] [] []]. Qed.

Lemma lower_bytes_idem (s : string) : lower_bytes (lower_bytes s) = lower_bytes s.
Proof. induction s as [|c s IH]; [done|]. simpl. by rewrite lower_byte_idem, IH. Qed.

Lemma lower_bytes_ascii (s : string) : isASCII s = true -> isASCII (lower_bytes s) = true.
Proof.
  induction s as [|c s IH]; [done|]. simpl. rewrite !andb_true_iff.
  intros [? ?]. auto using lower_byte_ascii.
Qed.

Lemma ToLower_idem_ascii `{GoUnicode} (s : string) :
  isASCII s = true -> ToLower (ToLower s) = ToLower s.
Proof.
  intros Hs. unfold ToLower at 2 3. rewrite Hs. unfold ToLower.
  rewrite lower_bytes_ascii by done. apply lower_bytes_idem.
Qed.

Lemma ToLower_nonempty_ascii `{GoUnicode} (s : string) :
  isASCII s = true -> s <> "" -> ToLower s <> "".
Proof. intros Hs Hne. unfold ToLower. rewrite Hs. by destruct s. Qed.

Lemma has_byte_app (c : ascii) (a b : string) :
  has_byte c (a +:+ b) = has_byte c a || has_byte c b.
Proof. induction a as [|x a IH]; [done|]. simpl. by rewrite IH, orb_assoc. Qed.

(** Splitting at the first occurrence of a byte is unique. *)
Lemma split_first_inj (c : ascii) (a b x y : string) :
  has_byte c a = false -> has_byte c b = false ->
  a +:+ String c x = b +:+ String c y -> a = b /\ x = y.
Proof.
  revert b. induction a as [|ca a IH]; intros [|cb b]; simpl; intros Ha Hb [= Heq].
  - by split.
  - subst. by rewrite Ascii.eqb_refl in Hb.
  - subst. by rewrite Ascii.eqb_refl in Ha.
  - apply orb_false_iff in Ha as [_ Ha], Hb as [_ Hb]. subst.
    destruct (IH b Ha Hb) as [-> ->]; done.
Qed.

Lemma split_first (c : ascii) (s : string) :
  has_byte c s = true -> exists a b, s = a +:+ String c b /\ has_byte c a = false.
Proof.
  induction s as [|x s IH]; [done|]. simpl. destruct (Ascii.eqb_spec c x) as [<-|Hne].
  - intros _. by exists "", s.
  - intros (a & b & -> & Ha)%IH. exists (String x a), b. simpl.
    by apply Ascii.eqb_neq in Hne as ->.
Qed.

Lemma string_app_cons (a b s : string) (c : ascii) : (a +:+ String c b) +:+ s = a +:+ String c (b +:+ s).
Proof. by rewrite <- string_app_assoc. Qed.

Lemma string_app_ne (a b : string) : a <> "" -> a +:+ b <> b.
Proof.
  intros Ha Heq. apply Ha. apply (f_equal String.length) in Heq.
  rewrite string_length_app in Heq. destruct a; [done|]. simpl in Heq. lia.
Qed.

Lemma string_app_inj_length (a b s t : string) :
  String.length s = String.length t -> a +:+ s = b +:+ t -> a = b /\ s = t.
Proof.
  revert b. induction a as [|x a IH]; intros [|y b] Hl Heq; simpl in *.
  - by split.
  - apply (f_equal String.length) in Heq. simpl in Heq. rewrite string_length_app in Heq. lia.
  - apply (f_equal String.length) in Heq. simpl in Heq. rewrite string_length_app in Heq. lia.
  - injection Heq as -> Heq. destruct (IH b Hl Heq) as [-> ->]. done.
Qed.

(** ** Lemmas on lists *)

(** Searching a list with distinct keys finds the element with the key. *)
Lemma find_unique {A K} (key : A -> K) (p : A -> bool) (l : list A) (a : A) :
  NoDup (key <$> l) -> a ∈ l -> (forall x, p x = true <-> key x = key a) ->
  List.find p l = Some a.
Proof.
  intros Hnd Hin Hp. induction l as [|x l IH]; [by apply not_elem_of_nil in Hin|].
  simpl in *. apply NoDup_cons in Hnd as [Hx Hnd].
  destruct (p x) eqn:Hpx.
  - apply elem_of_cons in Hin as [->|Hin]; [done|].
    exfalso. apply Hx, list_elem_of_fmap. exists a. by rewrite <- (proj1 (Hp x) Hpx).
  - apply IH; [done|]. apply elem_of_cons in Hin as [->|Hin]; [|done].
    by rewrite (proj2 (Hp x) eq_refl) in Hpx.
Qed.

(** Filtering a list with distinct keys for one key leaves one element. *)
Lemma filter_unique {A K} (key : A -> K) (p : A -> bool) (l : list A) (a : A) :
  NoDup (key <$> l) -> a ∈ l -> (forall x, x ∈ l -> p x = true <-> key x = key a) ->
  List.filter p l = [a].
Proof.
  induction l as [|x l IH]; intros Hnd Hin Hp; [by apply not_elem_of_nil in Hin|].
  apply NoDup_cons in Hnd as [Hx Hnd]. simpl.
  assert (Hpl : forall y, y ∈ l -> p y = true <-> key y = key a) by (intros; apply Hp; set_solver).
  apply elem_of_cons in Hin as [->|Hin].
  - rewrite (proj2 (Hp x ltac:(set_solver)) eq_refl). f_equal.
    destruct (List.filter p l) as [|y l'] eqn:Hf; [done|].
    assert (Hy : In y (List.filter p l)) by (rewrite Hf; by left).
    apply filter_In in Hy as [Hy Hpy]. apply list_elem_of_In in Hy. exfalso. apply Hx.
    apply list_elem_of_fmap. exists y. split; [|done]. symmetry. by apply Hpl.
  - destruct (p x) eqn:Hpx; [|by apply IH]. exfalso. apply Hx.
    apply list_elem_of_fmap. exists a. split; [|done]. apply Hp; [set_solver|done].
Qed.

Lemma sublist_same_length {A} (l k : list A) :
  l `sublist_of` k -> length k <= length l -> l = k.
Proof.
  induction 1 as [|a l k Hs IH|a l k Hs IH]; intros Hl; [done| |].
  - f_equal. apply IH. simpl in Hl. lia.
  - apply sublist_length in Hs. simpl in Hl. lia.
Qed.

(** The keys whose flag is down, in order. *)
Definition unset {K} (flags : list (bool * K)) : list K :=
  flags ≫= fun bk : bool * K => if bk.1 then [] else [bk.2].

Lemma elem_of_unset {K} (flags : list (bool * K)) (k : K) : k ∈ unset flags <-> (false, k) ∈ flags.
Proof.
  unfold unset. rewrite list_elem_of_bind. split.
  - intros ([[] k'] & Hk & Hin); [by apply not_elem_of_nil in Hk|].
    by apply list_elem_of_singleton in Hk as ->.
  - intros Hin. exists (false, k). split; [by apply list_elem_of_singleton|done].
Qed.

Lemma NoDup_unset {K} (flags : list (bool * K)) : NoDup flags.*2 -> NoDup (unset flags).
Proof.
  induction flags as [|[b k] flags IH]; [done|]. simpl. intros [Hk Hnd]%NoDup_cons.
  destruct b; simpl; [by apply IH|]. apply NoDup_cons. split; [|by apply IH].
  intros Hin%elem_of_unset. apply Hk, list_elem_of_fmap. by exists (false, k).
Qed.
