(* ===== verification/Slices.v ===== *)
(** * Go slices

    A slice is a view of the first [sl_len] elements of an array; slices can
    share an array, so the arrays are cells of a heap, and append writes behind
    a slice in place when the array has room there. *)

From S2P Require Import Prelude.

Abbreviation loc := nat.

(** An array has a capacity and the elements written so far. *)
Record array (A : Type) := MkArray { a_cap : nat; a_elems : list A }.
Arguments MkArray {_} _ _.
Arguments a_cap {_} _.
Arguments a_elems {_} _.

Record slice := MkSlice { sl_arr : option loc; sl_len : nat }.

Definition nil_slice : slice := MkSlice None 0.

(** Heaps whose cells can hold arrays of [A]. *)
Class ArrayCell (cell A : Type) := {
  of_array : array A -> cell;
  to_array : cell -> option (array A);
  to_of_array : forall a, to_array (of_array a) = Some a;
}.

(** A heap of nothing but arrays. *)
#[export] Instance array_array_cell A : ArrayCell (array A) A :=
  {| of_array a := a; to_array := Some; to_of_array a := eq_refl |}.

Section slices.
Context {cell A : Type} `{!ArrayCell cell A}.
Implicit Types (h : gmap loc cell) (s t : slice) (x : A).

Definition array_at h s : option (array A) := l ← sl_arr s; c ← h !! l; to_array c.

Definition slice_cap h s : nat := match array_at h s with Some a => a_cap a | None => 0 end.

Definition slice_read h s : list A :=
  match array_at h s with Some a => take (sl_len s) (a_elems a) | None => [] end.

(** [make([]T, len(xs))], filled with [xs]. *)
Definition slice_make h (xs : list A) : gmap loc cell * slice :=
  let l := fresh (dom h) in
  (<[ l := of_array (MkArray (length xs) xs) ]> h, MkSlice (Some l) (length xs)).

(** [s[i] = x] *)
Definition slice_set h s (i : nat) x : outcome (gmap loc cell) :=
  if i <? sl_len s then
    match sl_arr s, array_at h s with
    | Some l, Some a => Ret (<[ l := of_array (MkArray (a_cap a) (<[ i := x ]> (a_elems a))) ]> h)
    | _, _ => Panic "index out of range"
    end
  else Panic "index out of range".

(** ** Well-formed slices *)

(** The array is there and has the slice's elements. *)
Definition slice_wf h s : Prop :=
  match sl_arr s with
  | None => sl_len s = 0
  | Some _ => exists a, array_at h s = Some a /\ sl_len s <= length (a_elems a)
  end.

Lemma array_at_insert h l a n : array_at (<[ l := of_array a ]> h) (MkSlice (Some l) n) = Some a.
Proof. unfold array_at. simpl. rewrite lookup_insert_eq. apply to_of_array. Qed.

(** Only the slice's own cell matters. *)
Lemma array_at_local h h' s :
  (forall l, sl_arr s = Some l -> h' !! l = h !! l) -> array_at h' s = array_at h s.
Proof. unfold array_at. destruct (sl_arr s) as [l|]; [|done]. intros Hl. simpl. by rewrite Hl. Qed.

Lemma slice_local h h' s :
  (forall l, sl_arr s = Some l -> h' !! l = h !! l) ->
  slice_read h' s = slice_read h s /\ slice_cap h' s = slice_cap h s /\ (slice_wf h s -> slice_wf h' s).
Proof.
  intros Hl%array_at_local. unfold slice_read, slice_cap, slice_wf. rewrite Hl. by destruct (sl_arr s).
Qed.

Lemma slice_wf_dom h s l : slice_wf h s -> sl_arr s = Some l -> l ∈ dom h.
Proof.
  unfold slice_wf, array_at. intros Hw Hs. rewrite Hs in Hw. destruct Hw as (a & Ha & _). simpl in Ha.
  apply elem_of_dom. destruct (h !! l); [by eexists|done].
Qed.

Lemma slice_read_length h s : slice_wf h s -> length (slice_read h s) = sl_len s.
Proof.
  unfold slice_wf, slice_read. destruct (sl_arr s) eqn:Hs.
  - intros (a & -> & Hl). rewrite length_take. lia.
  - unfold array_at. rewrite Hs. by intros ->.
Qed.

Lemma slice_grow h h' s :
  h ⊆ h' -> slice_wf h s ->
  slice_read h' s = slice_read h s /\ slice_cap h' s = slice_cap h s /\ slice_wf h' s.
Proof.
  intros Hsub Hw. destruct (slice_local h h' s) as (Hr & Hc & Hk); [|auto].
  intros l Hl. destruct (proj1 (elem_of_dom h l) (slice_wf_dom _ _ _ Hw Hl)) as [c Hc].
  rewrite Hc. by eapply lookup_weaken.
Qed.

Lemma slice_make_spec h xs h' s :
  slice_make h xs = (h', s) ->
  h ⊆ h' /\ slice_wf h' s /\ slice_read h' s = xs /\ exists l, s = MkSlice (Some l) (length xs) /\ (l ∉ dom h)
  /\ dom h' = {[ l ]} ∪ dom h.
Proof.
  unfold slice_make. set (l := fresh (dom h)). assert (Hf : l ∉ dom h) by apply is_fresh.
  intros [= <- <-]. split_and!.
  - by apply insert_subseteq, not_elem_of_dom.
  - eexists. split; [apply array_at_insert|]. simpl. lia.
  - unfold slice_read. rewrite array_at_insert. simpl. by rewrite take_ge.
  - exists l. split_and!; [done|done|apply dom_insert_L].
Qed.

Lemma slice_set_spec h s i x :
  slice_wf h s -> i < sl_len s ->
  exists h' l, sl_arr s = Some l /\ slice_set h s i x = Ret h' /\ slice_read h' s = <[ i := x ]> (slice_read h s)
    /\ slice_wf h' s /\ dom h' = dom h /\ forall l', l' <> l -> h' !! l' = h !! l'.
Proof.
  intros Hw Hi. unfold slice_set. rewrite (proj2 (Nat.ltb_lt _ _) Hi).
  destruct s as [[l|] n]; unfold slice_wf in Hw; simpl in *; [|lia].
  destruct Hw as (a & Ha & Hl). rewrite Ha. eexists _, l.
  assert (Hd : l ∈ dom h) by (apply (slice_wf_dom h (MkSlice (Some l) n)); [by exists a|done]).
  split_and!; [done|done| | |rewrite dom_insert_L; set_solver|].
  - unfold slice_read. rewrite array_at_insert, Ha. simpl. by rewrite take_insert_lt.
  - eexists. split; [apply array_at_insert|]. simpl. rewrite length_insert. lia.
  - intros l' Hne. by rewrite lookup_insert_ne.
Qed.

(** ** append *)

(** The capacity the runtime gives an array that has to hold [n] elements. *)
Variable grow : nat -> nat.

(** [append(s, x)]: in place if the array has room behind the slice, else in a
    new array. *)
Definition append h s x : gmap loc cell * slice :=
  match sl_arr s, array_at h s with
  | Some l, Some a =>
      if sl_len s <? a_cap a then
        (<[ l := of_array (MkArray (a_cap a)
                   (take (sl_len s) (a_elems a) ++ x :: drop (S (sl_len s)) (a_elems a))) ]> h,
         MkSlice (Some l) (S (sl_len s)))
      else
        let l' := fresh (dom h) in
        (<[ l' := of_array (MkArray (grow (S (sl_len s))) (slice_read h s ++ [x])) ]> h,
         MkSlice (Some l') (S (sl_len s)))
  | _, _ =>
      let l' := fresh (dom h) in
      (<[ l' := of_array (MkArray (grow (S (sl_len s))) (slice_read h s ++ [x])) ]> h,
       MkSlice (Some l') (S (sl_len s)))
  end.

(** What append does: the result reads like the slice with the element behind
    it, and at most one cell changes: the slice's own array or a new one. *)
Lemma append_spec h s x h' s' :
  slice_wf h s -> append h s x = (h', s') ->
  slice_wf h' s' /\ slice_read h' s' = slice_read h s ++ [x]
  /\ exists l, sl_arr s' = Some l /\ (sl_arr s = Some l \/ l ∉ dom h)
     /\ dom h' = {[ l ]} ∪ dom h /\ forall l', l' <> l -> h' !! l' = h !! l'.
Proof.
  intros Hw. pose proof (slice_read_length h s Hw) as Hlen.
  assert (Hnew : let l' := fresh (dom h) in
    (<[ l' := of_array (MkArray (grow (S (sl_len s))) (slice_read h s ++ [x])) ]> h,
     MkSlice (Some l') (S (sl_len s))) = (h', s') ->
    slice_wf h' s' /\ slice_read h' s' = slice_read h s ++ [x]
    /\ exists l, sl_arr s' = Some l /\ (sl_arr s = Some l \/ l ∉ dom h)
       /\ dom h' = {[ l ]} ∪ dom h /\ forall l', l' <> l -> h' !! l' = h !! l').
  { simpl. set (l := fresh (dom h)). assert (Hf : l ∉ dom h) by apply is_fresh. intros [= <- <-].
    split_and!.
    - eexists. split; [apply array_at_insert|]. simpl. rewrite length_app, Hlen. simpl. lia.
    - unfold slice_read at 1. rewrite array_at_insert. simpl. apply take_ge. rewrite length_app, Hlen. simpl. lia.
    - exists l. split_and!; [done|by right|apply dom_insert_L|]. intros l' Hne. by rewrite lookup_insert_ne. }
  unfold append. destruct (sl_arr s) as [l|] eqn:Hs; [|done]. destruct (array_at h s) as [a|] eqn:Ha; [|done].
  destruct (Nat.ltb_spec (sl_len s) (a_cap a)); [|done]. intros [= <- <-]. clear Hnew.
  pose proof Hw as Hw'. unfold slice_wf in Hw'. rewrite Hs, Ha in Hw'. destruct Hw' as (a' & [= <-] & Hl).
  assert (Hr : slice_read h s = take (sl_len s) (a_elems a)) by (unfold slice_read; by rewrite Ha).
  split_and!.
  - eexists. split; [apply array_at_insert|]. simpl. rewrite length_app, length_take. simpl.
    rewrite length_drop. lia.
  - unfold slice_read at 1. rewrite array_at_insert. simpl. rewrite Hr.
    change (x :: drop (S (sl_len s)) (a_elems a)) with ([x] ++ drop (S (sl_len s)) (a_elems a)).
    rewrite app_assoc. apply take_app_length'. rewrite length_app, length_take. simpl. lia.
  - exists l. split_and!; [done|by left| |intros l' Hne; by rewrite lookup_insert_ne].
    apply dom_insert_L.
Qed.

(** Appending to a slice without room behind it makes a new array, and no other
    slice sees it. *)
Lemma append_full h s x h' s' :
  slice_cap h s <= sl_len s -> append h s x = (h', s') ->
  h ⊆ h' /\ slice_cap h' s' = grow (S (sl_len s)) /\ sl_len s' = S (sl_len s).
Proof.
  unfold slice_cap, append. set (l := fresh (dom h)).
  assert (Hf : h !! l = None) by (apply not_elem_of_dom, is_fresh).
  destruct (sl_arr s) as [l0|], (array_at h s) as [a|] eqn:Ha; intros Hc.
  1: rewrite (proj2 (Nat.ltb_ge _ _)) by lia.
  all: intros [= <- <-]; split_and!; [by apply insert_subseteq|by rewrite array_at_insert|done].
Qed.

(** Appending to a slice with room behind it writes into its array: the slice
    itself reads as before, and every append to it gives the same slice. *)
Lemma append_room h s x h' s' :
  slice_wf h s -> sl_len s < slice_cap h s -> append h s x = (h', s') ->
  s' = MkSlice (sl_arr s) (S (sl_len s)) /\ slice_cap h' s = slice_cap h s
  /\ slice_read h' s = slice_read h s /\ slice_wf h' s.
Proof.
  unfold slice_cap, append, slice_wf, slice_read. destruct s as [[l|] n]; simpl; [|unfold array_at; simpl; lia].
  intros (a & Ha & Hl). rewrite Ha. intros Hc%Nat.ltb_lt. rewrite Hc. intros [= <- <-].
  rewrite array_at_insert. simpl. split_and!; [done|done| |].
  - rewrite take_app_le by (rewrite length_take; lia). by rewrite take_take, Nat.min_id.
  - eexists. split; [done|]. simpl. rewrite length_app, length_take. lia.
Qed.

(** Append leaves the slice it is given as it was. *)
Lemma append_keeps h s x h' s' :
  slice_wf h s -> append h s x = (h', s') ->
  slice_read h' s = slice_read h s /\ slice_cap h' s = slice_cap h s /\ slice_wf h' s.
Proof.
  intros Hw Ha. destruct (decide (sl_len s < slice_cap h s)) as [Hc|Hc].
  - by destruct (append_room h s x h' s' Hw Hc Ha) as (_ & ? & ? & ?).
  - destruct (append_full h s x h' s' ltac:(lia) Ha) as [Hs _]. by apply slice_grow.
Qed.

(** Two appends to the same slice: the second is never disturbed; the first is
    overwritten by it exactly if the array had room behind the slice. *)
Lemma append_twice h s x y h1 s1 h2 s2 :
  slice_wf h s -> append h s x = (h1, s1) -> append h1 s y = (h2, s2) ->
  slice_read h2 s2 = slice_read h s ++ [y]
  /\ slice_read h2 s1 = slice_read h s ++ [if decide (sl_len s < slice_cap h s) then y else x].
Proof.
  intros Hw H1 H2. destruct (append_keeps _ _ _ _ _ Hw H1) as (Hr & Hc & Hw1).
  destruct (append_spec _ _ _ _ _ Hw H1) as (Hws1 & Hr1 & _).
  destruct (append_spec _ _ _ _ _ Hw1 H2) as (_ & Hr2 & _). rewrite Hr in Hr2. split; [done|].
  destruct (decide (sl_len s < slice_cap h s)) as [Hl|Hl].
  - destruct (append_room _ _ _ _ _ Hw Hl H1) as [-> _].
    by destruct (append_room _ _ _ _ _ Hw1 ltac:(by rewrite Hc) H2) as [<- _].
  - destruct (append_full h1 s y h2 s2 ltac:(lia) H2) as [Hs _].
    by destruct (slice_grow _ _ _ Hs Hws1) as [-> _].
Qed.
End slices.
