(* ===== verification/Heap.v ===== *)
(** * A heap and deep copies over it

    Struct values hold references into a heap, so a copy is deep when it refers
    to new cells only.  This file has the interface of types with a DeepCopyInto
    and what controller-gen's functions for lists, slices and pointers do. *)

From S2P Require Import Prelude Slices.

(** ** Deep copies over a heap *)

Section heap.
Context {cell : Type}.
Abbreviation heap := (gmap loc cell).

(** Struct values of type [T] that denote values of type [V]: when what they
    refer to is there, the cells they refer to, what they denote, and their
    DeepCopyInto. *)
Class DeepCopyable (T V : Type) := {
  valid : heap -> T -> Prop;
  fp : heap -> T -> gset loc;
  rd : heap -> T -> V;
  copy_into : heap -> T -> heap * T;
}.

(** Only the cells referred to matter; a copy allocates, denotes the same and
    refers to cells that were not there before. *)
Class DeepCopyLaws `{DeepCopyable T V} : Prop := {
  dc_valid : forall h s, valid h s -> fp h s ⊆ dom h;
  dc_local : forall h h' s, (forall l, l ∈ fp h s -> h' !! l = h !! l) ->
    fp h' s = fp h s /\ rd h' s = rd h s /\ (valid h s -> valid h' s);
  dc_copy : forall h s, valid h s ->
    let '(h', s') := copy_into h s in
    h ⊆ h' /\ valid h' s' /\ fp h' s' ## dom h /\ rd h' s' = rd h s;
}.

Lemma dc_grow `{DeepCopyLaws T V} h h' s :
  h ⊆ h' -> valid h s -> fp h' s = fp h s /\ rd h' s = rd h s /\ valid h' s.
Proof.
  intros Hsub Hv. destruct (dc_local h h' s) as (Hf & Hr & Hk); [|auto].
  intros l Hl%(dc_valid h s Hv). apply elem_of_dom in Hl as [c Hc].
  rewrite Hc. by eapply lookup_weaken.
Qed.

(** Strings and structs of strings refer to nothing. *)
Definition copy_plain (V : Type) : DeepCopyable V V :=
  {| valid _ _ := True; fp _ _ := ∅; rd _ v := v; copy_into h v := (h, v) |}.

Lemma copy_plain_laws V : @DeepCopyLaws V V (copy_plain V).
Proof. constructor; simpl; [set_solver|done|]. intros h s _. split_and!; [done|done|set_solver|done]. Qed.

(** ** Structs

    A struct [T] with one part, or two parts copied one after the other, and
    fields that are plain values: [view] is what the fields and the parts
    denote, [mk] replaces the parts.  The parts have no cell in common. *)

Section struct_one.
Context `{DeepCopyLaws A VA} {T V : Type} (part : T -> A) (mk : T -> A -> T) (view : T -> VA -> V).
Hypothesis part_mk : forall s a, part (mk s a) = a.
Hypothesis view_mk : forall s a v, view (mk s a) v = view s v.

Definition copyable_one : DeepCopyable T V := {|
  valid h s := valid h (part s);
  fp h s := fp h (part s);
  rd h s := view s (rd h (part s));
  copy_into h s := let '(h, a) := copy_into h (part s) in (h, mk s a);
|}.

Lemma copyable_one_laws : @DeepCopyLaws _ _ copyable_one.
Proof.
  constructor; simpl.
  - intros h s. apply dc_valid.
  - intros h h' s Hl. by destruct (dc_local h h' (part s) Hl) as (-> & -> & Hv).
  - intros h s Hv. pose proof (dc_copy h (part s) Hv) as Hc. destruct (copy_into h (part s)) as [h' a].
    rewrite part_mk, view_mk. destruct Hc as (? & ? & ? & ->). done.
Qed.
End struct_one.

Section struct_two.
Context `{DeepCopyLaws A VA} `{DeepCopyLaws B VB} {T V : Type}.
Context (part1 : T -> A) (part2 : T -> B) (mk : T -> A -> B -> T) (view : T -> VA -> VB -> V).
Hypothesis part1_mk : forall s a b, part1 (mk s a b) = a.
Hypothesis part2_mk : forall s a b, part2 (mk s a b) = b.
Hypothesis view_mk : forall s a b v w, view (mk s a b) v w = view s v w.

Definition copyable_two : DeepCopyable T V := {|
  valid h s := valid h (part1 s) /\ valid h (part2 s) /\ fp h (part1 s) ## fp h (part2 s);
  fp h s := fp h (part1 s) ∪ fp h (part2 s);
  rd h s := view s (rd h (part1 s)) (rd h (part2 s));
  copy_into h s :=
    let '(h, a) := copy_into h (part1 s) in let '(h, b) := copy_into h (part2 s) in (h, mk s a b);
|}.

Lemma copyable_two_laws : @DeepCopyLaws _ _ copyable_two.
Proof.
  constructor; simpl.
  - intros h s (Ha%dc_valid & Hb%dc_valid & _). set_solver.
  - intros h h' s Hl. destruct (dc_local h h' (part1 s)) as (-> & -> & Ha); [set_solver|].
    destruct (dc_local h h' (part2 s)) as (-> & -> & Hb); [set_solver|]. naive_solver.
  - intros h s (Ha & Hb & _). pose proof (dc_copy h (part1 s) Ha) as Hc.
    destruct (copy_into h (part1 s)) as [h1 a]. destruct Hc as (Hs1 & Hv1 & Hf1 & Hr1).
    destruct (dc_grow h h1 (part2 s) Hs1 Hb) as (_ & Hrb & Hvb).
    assert (Hd1 : dom h ⊆ dom h1) by (by apply subseteq_dom).
    pose proof (dc_copy h1 (part2 s) Hvb) as Hc. destruct (copy_into h1 (part2 s)) as [h2 b].
    destruct Hc as (Hs2 & Hv2 & Hf2 & Hr2). destruct (dc_grow h1 h2 a Hs2 Hv1) as (Hfa & Hra & Hva).
    rewrite part1_mk, part2_mk, view_mk, Hfa, Hra, Hr1, Hr2, Hrb. apply dc_valid in Hv1.
    split_and!; [by etrans|done|done|set_solver|set_solver|done].
Qed.
End struct_two.

(** ** The elements of a slice, one after the other *)

Section elements.
Context `{DeepCopyLaws A VA}.

Definition fp_list (h : heap) (xs : list A) : gset loc := ⋃ (fp h <$> xs).
Definition rd_list (h : heap) (xs : list A) : list VA := rd h <$> xs.

Fixpoint copy_list (h : heap) (xs : list A) : heap * list A :=
  match xs with
  | [] => (h, [])
  | x :: xs' =>
      let '(h1, x') := copy_into h x in
      let '(h2, ys) := copy_list h1 xs' in
      (h2, x' :: ys)
  end.

Definition copyable_list : DeepCopyable (list A) (list VA) :=
  {| valid h := Forall (valid h); fp := fp_list; rd := rd_list; copy_into := copy_list |}.

#[local] Arguments fp_list : simpl never.
#[local] Arguments rd_list : simpl never.

Lemma fp_list_cons h x xs : fp_list h (x :: xs) = fp h x ∪ fp_list h xs.
Proof. done. Qed.

Lemma rd_list_cons h x xs : rd_list h (x :: xs) = rd h x :: rd_list h xs.
Proof. done. Qed.

Lemma copy_list_local h h' xs :
  (forall l, l ∈ fp_list h xs -> h' !! l = h !! l) ->
  fp_list h' xs = fp_list h xs /\ rd_list h' xs = rd_list h xs /\ (Forall (valid h) xs -> Forall (valid h') xs).
Proof.
  induction xs as [|x xs IH]; [done|]. rewrite !fp_list_cons, !rd_list_cons, !Forall_cons. intros Hl.
  destruct (dc_local h h' x) as (-> & -> & Hx); [set_solver|].
  destruct IH as (-> & -> & Hxs); [set_solver|]. naive_solver.
Qed.

Lemma copyable_list_laws : @DeepCopyLaws _ _ copyable_list.
Proof.
  constructor; [|apply copy_list_local|]; intros h xs; simpl.
  { induction 1 as [|x xs Hx%dc_valid _ IH]; [unfold fp_list; set_solver|]. rewrite fp_list_cons. set_solver. }
  revert h. induction xs as [|x xs IH]; intros h Hv; simpl.
  { split_and!; [done|done|unfold fp_list; set_solver|done]. }
  apply Forall_cons in Hv as [Hx Hxs]. rewrite rd_list_cons.
  pose proof (dc_copy h x Hx) as Hc. destruct (copy_into h x) as [h1 x'].
  destruct Hc as (Hs1 & Hv1 & Hf1 & Hr1). assert (Hd1 : dom h ⊆ dom h1) by (by apply subseteq_dom).
  assert (Hg : rd_list h1 xs = rd_list h xs /\ Forall (valid h1) xs).
  { split; [apply list_fmap_ext; intros i y Hy|eapply Forall_impl; [done|intros y Hy]];
      [eapply Forall_lookup_1 in Hxs; [|done]|]; by eapply dc_grow. }
  destruct Hg as [Hg1 Hg2]. specialize (IH h1 Hg2). destruct (copy_list h1 xs) as [h2 ys].
  destruct IH as (Hs2 & Hv2 & Hf2 & Hr2).
  destruct (dc_grow h1 h2 x' Hs2 Hv1) as (Hfx & Hrx & Hvx).
  rewrite fp_list_cons, rd_list_cons, Hfx, Hrx, Hr1, Hr2, Hg1.
  split_and!; [by etrans|by constructor|set_solver|done].
Qed.
End elements.

(** ** Slices *)

Section slice.
Context `{DeepCopyLaws A VA} `{!ArrayCell cell A}.

Definition valid_slice (h : heap) (s : slice) : Prop := slice_wf h s /\ Forall (valid h) (slice_read h s).

Definition fp_slice (h : heap) (s : slice) : gset loc :=
  match sl_arr s with None => ∅ | Some l => {[ l ]} ∪ fp_list h (slice_read h s) end.

Definition rd_slice (h : heap) (s : slice) : list VA := rd_list h (slice_read h s).

(** [if in != nil { *out = make(...); for i := range *in {...} }]; a nil slice
    was copied with the struct it is in. *)
Definition copy_slice (h : heap) (s : slice) : heap * slice :=
  match sl_arr s with
  | None => (h, s)
  | Some _ => let '(h1, xs) := copy_list h (slice_read h s) in slice_make h1 xs
  end.

Definition copyable_slice : DeepCopyable slice (list VA) :=
  {| valid := valid_slice; fp := fp_slice; rd := rd_slice; copy_into := copy_slice |}.

Lemma nil_slice_read h (s : slice) : sl_arr s = None -> slice_read h s = [].
Proof. intros Hs. unfold slice_read, array_at. by rewrite Hs. Qed.

Lemma copyable_slice_laws : @DeepCopyLaws _ _ copyable_slice.
Proof.
  constructor; simpl; unfold valid_slice, fp_slice, rd_slice, copy_slice.
  - intros h s [Hw Hv]. destruct (sl_arr s) as [l|] eqn:Hs; [|set_solver].
    apply (@dc_valid _ _ copyable_list copyable_list_laws) in Hv. simpl in Hv.
    pose proof (slice_wf_dom h s l Hw Hs). set_solver.
  - intros h h' s Hl. destruct (sl_arr s) as [l|] eqn:Hs.
    + destruct (slice_local h h' s) as (-> & _ & Hw); [intros l' [= <-]%(eq_trans (eq_sym Hs)); apply Hl; set_solver|].
      destruct (copy_list_local h h' (slice_read h s)) as (-> & -> & Hv); [set_solver|]. naive_solver.
    + rewrite !nil_slice_read by done. unfold slice_wf. rewrite Hs. split_and!; [done|done|]. by intros [? _].
  - intros h s [Hw Hv]. destruct (sl_arr s) as [l|] eqn:Hs; [|split_and!; [done|done|done|rewrite Hs; set_solver|done]].
    pose proof (@dc_copy _ _ copyable_list copyable_list_laws h (slice_read h s) Hv) as Hc. simpl in Hc.
    destruct (copy_list h (slice_read h s)) as [h1 xs]. destruct Hc as (Hsub & Hvx & Hf & Hr).
    destruct (slice_make h1 xs) as [h2 s2] eqn:Hm.
    apply slice_make_spec in Hm as (Hsub2 & Hw2 & Hread & l' & -> & Hfr & Hdom).
    assert (Hd : dom h ⊆ dom h1) by (by apply subseteq_dom).
    destruct (@dc_grow _ _ copyable_list copyable_list_laws h1 h2 xs Hsub2 Hvx) as (Hfx & Hrx & Hv2).
    simpl in Hfx, Hrx, Hv2 |- *. rewrite Hread, Hfx, Hrx. split_and!; [by etrans|done|done|set_solver|done].
Qed.
End slice.
End heap.

(** A method DeepCopy: nil for nil, else a new struct filled by DeepCopyInto. *)
Definition deep_copy {cell T : Type} (into : gmap loc cell -> T -> gmap loc cell * T)
    (h : gmap loc cell) (in_ : option T) : gmap loc cell * option T :=
  match in_ with
  | None => (h, None)
  | Some v => let '(h', out) := into h v in (h', Some out)
  end.

(** A method DeepCopyObject: an interface value, nil if the copy is. *)
Definition deep_copy_object {cell T : Type} (copy : gmap loc cell -> option T -> gmap loc cell * option T)
    (h : gmap loc cell) (in_ : option T) : gmap loc cell * option T :=
  match copy h in_ with
  | (h', Some c) => (h', Some c)
  | (h', None) => (h', None)
  end.

(** ** Independence *)

(** A copy denotes the same value, and from then on the two are independent:
    writes to the cells of one, and to new cells, do not change the other. *)
Definition independent_copy {cell T V} `{@DeepCopyable cell T V} (h h' : gmap loc cell) (s s' : T) : Prop :=
  rd h' s' = rd h s /\ rd h' s = rd h s
  /\ (forall h'', (forall l, l ∈ dom h' -> l ∉ fp h' s' -> h'' !! l = h' !! l) -> rd h'' s = rd h s)
  /\ (forall h'', (forall l, l ∈ dom h' -> l ∉ fp h' s -> h'' !! l = h' !! l) -> rd h'' s' = rd h s).

Lemma copy_independent {cell T V} `{@DeepCopyLaws cell T V DC} h (s : T) :
  valid h s -> let '(h', s') := copy_into h s in independent_copy h h' s s'.
Proof.
  intros Hv. pose proof (dc_copy h s Hv) as Hc. destruct (copy_into h s) as [h' s'].
  destruct Hc as (Hs & Hv' & Hf & Hr). destruct (dc_grow h h' s Hs Hv) as (Hfg & Hrg & _).
  apply dc_valid in Hv, Hv'. assert (Hd : dom h ⊆ dom h') by (by apply subseteq_dom).
  unfold independent_copy. split_and!; [done|done| |]; intros h'' Hw.
  - rewrite <- Hrg. apply dc_local. intros l Hl. apply Hw; set_solver.
  - rewrite <- Hr. apply dc_local. intros l Hl. apply Hw; set_solver.
Qed.
