(* ===== verification/Platform.v ===== *)
(** * Interfaces of the libraries the program is built on

    The program is a client of k8s.io/apimachinery, controller-runtime and
    reconciler.io/runtime, whose code is not part of the repository.  This file
    gives their struct types as records, and the functions the program calls as
    the operations of type classes; a second class per library holds the
    documented behaviour the program relies on.  The theorems of the other
    files hold for every instance of the operations that satisfies the laws;
    Reference.v has an instance of each class. *)

From S2P Require Import Prelude.

(** ** k8s.io/apimachinery/pkg/runtime/schema *)

Record GroupKind := MkGK { gk_Group : string; gk_Kind : string }.
Record GroupVersion := MkGV { gv_Group : string; gv_Version : string }.
Record GroupVersionKind :=
  MkGVK { gvk_Group : string; gvk_Version : string; gvk_Kind : string }.
Record GroupResource := MkGR { gr_Group : string; gr_Resource : string }.
Record GroupVersionResource :=
  MkGVR { gvr_Group : string; gvr_Version : string; gvr_Resource : string }.
Record TypeMeta := MkTypeMeta { tm_APIVersion : string; tm_Kind : string }.

#[export] Instance GroupKind_eq_dec : EqDecision GroupKind.
Proof. solve_decision. Defined.
#[export] Instance GroupVersionKind_eq_dec : EqDecision GroupVersionKind.
Proof. solve_decision. Defined.
#[export] Instance TypeMeta_eq_dec : EqDecision TypeMeta.
Proof. solve_decision. Defined.
#[export] Instance GroupKind_countable : Countable GroupKind.
Proof.
  refine (inj_countable' (fun g => (gk_Group g, gk_Kind g)) (fun p => MkGK p.1 p.2) _).
  by intros [].
Defined.
#[export] Instance GroupVersionKind_countable : Countable GroupVersionKind.
Proof.
  refine (inj_countable' (fun g => (gvk_Group g, gvk_Version g, gvk_Kind g))
                         (fun p => MkGVK p.1.1 p.1.2 p.2) _).
  by intros [].
Defined.

Class Schema := {
  gvk_GroupKind : GroupVersionKind -> GroupKind;
  gk_Empty : GroupKind -> bool;
  gk_String : GroupKind -> string;
  gk_WithVersion : GroupKind -> string -> GroupVersionKind;
  gv_String : GroupVersion -> string;
  ParseGroupResource : string -> GroupResource;
  gr_String : GroupResource -> string;
  gr_WithVersion : GroupResource -> string -> GroupVersionResource;
  gvr_GroupResource : GroupVersionResource -> GroupResource;
  gvr_GroupVersion : GroupVersionResource -> GroupVersion;
  FromAPIVersionAndKind : string -> string -> GroupVersionKind;
}.

(** What the package documents: the accessors project, [Empty] tests both
    fields, [ParseGroupResource] turns "resource.group" into its two parts, and
    the [String] methods write "resource.group" and "group/version", leaving
    the separator out when the group is empty. *)
Class SchemaLaws `{Schema} : Prop := {
  gvk_GroupKind_eq : forall g, gvk_GroupKind g = MkGK (gvk_Group g) (gvk_Kind g);
  gk_Empty_spec : forall g, gk_Empty g = true <-> gk_Group g = "" /\ gk_Kind g = "";
  gk_WithVersion_eq : forall g v, gk_WithVersion g v = MkGVK (gk_Group g) v (gk_Kind g);
  gv_String_group : forall g v, g <> "" -> gv_String (MkGV g v) = g +:+ "/" +:+ v;
  gv_String_core : forall v, gv_String (MkGV "" v) = v;
  ParseGroupResource_dot : forall r g, has_byte dot r = false ->
    ParseGroupResource (r +:+ "." +:+ g) = MkGR g r;
  ParseGroupResource_nodot : forall r, has_byte dot r = false ->
    ParseGroupResource r = MkGR "" r;
  gr_String_group : forall g r, g <> "" -> gr_String (MkGR g r) = r +:+ "." +:+ g;
  gr_String_core : forall r, gr_String (MkGR "" r) = r;
  gr_WithVersion_eq : forall g v, gr_WithVersion g v = MkGVR (gr_Group g) v (gr_Resource g);
  gvr_GroupResource_eq : forall g, gvr_GroupResource g = MkGR (gvr_Group g) (gvr_Resource g);
  gvr_GroupVersion_eq : forall g, gvr_GroupVersion g = MkGV (gvr_Group g) (gvr_Version g);
  FromAPIVersionAndKind_eq : forall g v k, has_byte slash g = false -> has_byte slash v = false ->
    FromAPIVersionAndKind (gv_String (MkGV g v)) k = MkGVK g v k;
}.

(** ** k8s.io/apimachinery/pkg/apis/meta/v1 *)

Record OwnerReference := MkOwnerReference {
  or_APIVersion : string;
  or_Kind : string;
  or_Name : string;
  or_UID : string;
  or_Controller : option bool;
  or_BlockOwnerDeletion : option bool;
}.

(** The fields of [metav1.ObjectMeta] the program reads or writes. *)
Record ObjectMeta := MkObjectMeta {
  om_Name : string;
  om_Namespace : string;
  om_UID : string;
  om_ResourceVersion : string;
  om_Generation : Z;
  om_DeletionTimestamp : option Z;
  om_Labels : gmap string string;
  om_OwnerReferences : list OwnerReference;
  om_Finalizers : list string;
}.

Definition blank_meta : ObjectMeta := MkObjectMeta "" "" "" "" 0 None ∅ [] [].
Definition meta_named (n : string) : ObjectMeta := MkObjectMeta n "" "" "" 0 None ∅ [] [].
Definition meta_set_Labels (l : gmap string string) (m : ObjectMeta) : ObjectMeta :=
  MkObjectMeta (om_Name m) (om_Namespace m) (om_UID m) (om_ResourceVersion m) (om_Generation m)
    (om_DeletionTimestamp m) l (om_OwnerReferences m) (om_Finalizers m).
Definition meta_set_OwnerReferences (r : list OwnerReference) (m : ObjectMeta) : ObjectMeta :=
  MkObjectMeta (om_Name m) (om_Namespace m) (om_UID m) (om_ResourceVersion m) (om_Generation m)
    (om_DeletionTimestamp m) (om_Labels m) r (om_Finalizers m).

Class MetaLib := {
  NewControllerRef : ObjectMeta -> GroupVersionKind -> OwnerReference;
}.

Class MetaLaws `{Schema} `{MetaLib} : Prop := {
  NewControllerRef_eq : forall m g,
    NewControllerRef m g =
      MkOwnerReference (gv_String (MkGV (gvk_Group g) (gvk_Version g))) (gvk_Kind g)
        (om_Name m) (om_UID m) (Some true) (Some true);
}.

(** ** Errors: Go's [error] values, k8s.io/apimachinery/pkg/api/errors *)

Record StatusDetails := MkStatusDetails { sd_Kind : string; sd_Name : string }.

(** [ELib]: a value made by a library; [ENew]: a package-level [errors.New]
    variable; [EFmt]: the result of [fmt.Errorf]. *)
Inductive error (L : Type) :=
| ELib (e : L)
| ENew (text : string)
| EFmt (text : string).
Arguments ELib {_} _.
Arguments ENew {_} _.
Arguments EFmt {_} _.

Class ErrorLib := {
  liberr : Type;
  IsNotFound : error liberr -> bool;
  IsInvalid : error liberr -> bool;
  IsAlreadyExists : error liberr -> bool;
  ReasonForError : error liberr -> string;
  (** the type assertion [err.(apierrs.APIStatus)], and the [Status().Details]
      of its result, a pointer that can be nil *)
  as_APIStatus : error liberr -> option (option StatusDetails);
  (** reconciler.io/runtime/reconcilers.ErrQuiet *)
  ErrQuiet : error liberr;
}.

Abbreviation err := (error liberr).

(** ** k8s.io/apimachinery/pkg/util/validation/field

    A path is the list of names its [NewPath] and [Child] calls gave. *)

Inductive FieldError :=
| field_Invalid (path : list string) (value detail : string)
| field_Required (path : list string) (detail : string).

Definition NewPath (name : string) : list string := [name].
Definition Child (p : list string) (names : list string) : list string := p ++ names.

#[export] Instance FieldError_eq_dec : EqDecision FieldError.
Proof. solve_decision. Defined.

Class FieldLib `{ErrorLib} := {
  ToAggregate : list FieldError -> option err;
}.

Class FieldLaws `{FieldLib} : Prop := {
  ToAggregate_nil : forall l, ToAggregate l = None <-> l = [];
}.

(** ** reconciler.io/runtime/apis: conditions *)

Record Condition := MkCondition {
  c_Type : string;
  c_Status : string;
  c_ObservedGeneration : Z;
  c_LastTransitionTime : Z;
  c_Reason : string;
  c_Message : string;
}.

#[export] Instance Condition_eq_dec : EqDecision Condition.
Proof. solve_decision. Defined.

Record Status := MkStatus { st_ObservedGeneration : Z; st_Conditions : list Condition }.

#[export] Instance Status_eq_dec : EqDecision Status.
Proof. solve_decision. Defined.

Definition ConditionTrue : string := "True".
Definition ConditionFalse : string := "False".
Definition ConditionUnknown : string := "Unknown".
(** apis.ConditionReady, the happy condition of a living condition set *)
Definition ConditionReady : string := "Ready".

Record ConditionSet := NewLivingConditionSetWithHappyReason {
  cs_happyReason : string;
  cs_dependents : list string;
}.

(** The operations of the manager [ConditionSet.ManageWithContext] returns for
    a status; the context carries the time, and the manager updates the status
    it was made for. *)
Class ConditionLib := {
  InitializeConditions_cm : ConditionSet -> Z -> Status -> Status;
  GetCondition : ConditionSet -> Status -> string -> option Condition;
  MarkTrue : ConditionSet -> Z -> Status -> string -> string -> string -> Status;
  MarkFalse : ConditionSet -> Z -> Status -> string -> string -> string -> Status;
  MarkUnknown : ConditionSet -> Z -> Status -> string -> string -> string -> Status;
  ConditionIsTrue : option Condition -> bool;
}.

Section cond_views.
Context `{ConditionLib}.

Definition cond_is (cs : ConditionSet) (st : Status) (t s r m : string) : Prop :=
  exists c, GetCondition cs st t = Some c /\ c_Status c = s /\ c_Reason c = r /\ c_Message c = m.

Definition cond_true (cs : ConditionSet) (st : Status) (t : string) : bool :=
  ConditionIsTrue (GetCondition cs st t).
End cond_views.

(** Documented behaviour of a living condition set with dependents that differ
    from the happy condition: a mark sets the condition it names and leaves the
    other dependents alone; [MarkTrue] makes the happy condition true if all
    dependents are, [MarkFalse] makes it false, and [MarkUnknown] leaves it not
    true. *)
Class ConditionLaws `{ConditionLib} : Prop := {
  ConditionIsTrue_spec : forall oc,
    ConditionIsTrue oc = true <-> exists c, oc = Some c /\ c_Status c = ConditionTrue;
  MarkTrue_same : forall cs now st t r m, t <> ConditionReady ->
    cond_is cs (MarkTrue cs now st t r m) t ConditionTrue r m;
  MarkFalse_same : forall cs now st t r m, t <> ConditionReady ->
    cond_is cs (MarkFalse cs now st t r m) t ConditionFalse r m;
  MarkUnknown_same : forall cs now st t r m, t <> ConditionReady ->
    cond_is cs (MarkUnknown cs now st t r m) t ConditionUnknown r m;
  MarkTrue_frame : forall cs now st t r m t', t' <> t -> t' <> ConditionReady ->
    GetCondition cs (MarkTrue cs now st t r m) t' = GetCondition cs st t';
  MarkFalse_frame : forall cs now st t r m t', t' <> t -> t' <> ConditionReady ->
    GetCondition cs (MarkFalse cs now st t r m) t' = GetCondition cs st t';
  MarkUnknown_frame : forall cs now st t r m t', t' <> t -> t' <> ConditionReady ->
    GetCondition cs (MarkUnknown cs now st t r m) t' = GetCondition cs st t';
  MarkTrue_happy : forall cs now st t r m,
    t ∈ cs_dependents cs -> ConditionReady ∉ cs_dependents cs ->
    cond_true cs (MarkTrue cs now st t r m) ConditionReady
      = forallb (cond_true cs (MarkTrue cs now st t r m)) (cs_dependents cs);
  MarkFalse_happy : forall cs now st t r m,
    t ∈ cs_dependents cs -> ConditionReady ∉ cs_dependents cs ->
    cond_true cs (MarkFalse cs now st t r m) ConditionReady = false;
  MarkUnknown_happy : forall cs now st t r m,
    t ∈ cs_dependents cs -> ConditionReady ∉ cs_dependents cs ->
    cond_true cs (MarkUnknown cs now st t r m) ConditionReady = false;
}.

Section cond_lemmas.
Context `{ConditionLaws}.

Lemma cond_is_true_iff cs st t s r m :
  cond_is cs st t s r m -> cond_true cs st t = bool_decide (s = ConditionTrue).
Proof.
  intros (c & Hg & Hs & _ & _). unfold cond_true. rewrite Hg.
  destruct (bool_decide_reflect (s = ConditionTrue)) as [Ht|Hf].
  - apply ConditionIsTrue_spec. exists c. by rewrite Hs.
  - apply not_true_iff_false. rewrite ConditionIsTrue_spec. naive_solver congruence.
Qed.

Lemma cond_is_functional cs st t s r m s' r' m' :
  cond_is cs st t s r m -> cond_is cs st t s' r' m' -> s = s' /\ r = r' /\ m = m'.
Proof. unfold cond_is. naive_solver congruence. Qed.
End cond_lemmas.
