(* ===== verification/Reference.v ===== *)
(** * Instances of the library interfaces

    One concrete instance of each class of Platform.v, with its laws proved:
    the interfaces can be satisfied, and the witnesses of the other files
    evaluate the program on them. *)

From Stdlib Require Import Ascii.
From S2P Require Import Prelude Platform.

#[local] Arguments String.append !_ _ / : simpl nomatch.

Definition ref_unicode : GoUnicode := {| unicode_ToLower s := s; unicode_Quote s := s |}.

(** ** schema *)

(** The string before and after the first occurrence of a byte. *)
Fixpoint cut (c : ascii) (s : string) : option (string * string) :=
  match s with
  | EmptyString => None
  | String c' s' =>
      if Ascii.eqb c c' then Some ("", s')
      else match cut c s' with
           | Some (a, b) => Some (String c' a, b)
           | None => None
           end
  end.

Lemma cut_app c a b : has_byte c a = false -> cut c (a +:+ String c b) = Some (a, b).
Proof.
  induction a as [|x a IH]; simpl; [by rewrite Ascii.eqb_refl|].
  intros [Hx Ha]%orb_false_iff. by rewrite Hx, IH.
Qed.

Lemma cut_none c a : has_byte c a = false -> cut c a = None.
Proof.
  induction a as [|x a IH]; simpl; [done|].
  intros [Hx Ha]%orb_false_iff. by rewrite Hx, IH.
Qed.

Definition ref_gv_String (g : GroupVersion) : string :=
  if String.eqb (gv_Group g) "" then gv_Version g
  else gv_Group g +:+ "/" +:+ gv_Version g.

Definition ref_gr_String (g : GroupResource) : string :=
  if String.eqb (gr_Group g) "" then gr_Resource g
  else gr_Resource g +:+ "." +:+ gr_Group g.

Definition ref_schema : Schema := {|
  gvk_GroupKind g := MkGK (gvk_Group g) (gvk_Kind g);
  gk_Empty g := String.eqb (gk_Group g) "" && String.eqb (gk_Kind g) "";
  gk_String g := if String.eqb (gk_Group g) "" then gk_Kind g
                 else gk_Kind g +:+ "." +:+ gk_Group g;
  gk_WithVersion g v := MkGVK (gk_Group g) v (gk_Kind g);
  gv_String := ref_gv_String;
  ParseGroupResource s := match cut dot s with
                          | Some (r, g) => MkGR g r
                          | None => MkGR "" s
                          end;
  gr_String := ref_gr_String;
  gr_WithVersion g v := MkGVR (gr_Group g) v (gr_Resource g);
  gvr_GroupResource g := MkGR (gvr_Group g) (gvr_Resource g);
  gvr_GroupVersion g := MkGV (gvr_Group g) (gvr_Version g);
  FromAPIVersionAndKind a k := match cut slash a with
                               | Some (g, v) => MkGVK g v k
                               | None => MkGVK "" a k
                               end;
|}.

Lemma ref_schema_laws : @SchemaLaws ref_schema.
Proof.
  constructor; try done; simpl.
  - intros [g k]; simpl. rewrite andb_true_iff, !String.eqb_eq. done.
  - intros g v Hg. unfold ref_gv_String; simpl. by apply String.eqb_neq in Hg as ->.
  - intros r g Hr. change ("." +:+ g) with (String dot g). by rewrite cut_app.
  - intros r Hr. by rewrite cut_none.
  - intros g r Hg. unfold ref_gr_String; simpl. by apply String.eqb_neq in Hg as ->.
  - intros g v k Hg Hv. unfold ref_gv_String; simpl.
    destruct (String.eqb_spec g "") as [->|Hne]; [by rewrite cut_none|].
    change ("/" +:+ v) with (String slash v). by rewrite cut_app.
Qed.

Definition ref_meta : MetaLib := {|
  NewControllerRef m g :=
    MkOwnerReference (ref_gv_String (MkGV (gvk_Group g) (gvk_Version g))) (gvk_Kind g)
      (om_Name m) (om_UID m) (Some true) (Some true)
|}.

Lemma ref_meta_laws : @MetaLaws ref_schema ref_meta.
Proof. by constructor. Qed.

(** ** errors: an API status error with its reason and details *)

Record ref_api_error := MkApiError { ae_reason : string; ae_details : option StatusDetails }.

Definition ref_reason (e : error ref_api_error) : string :=
  match e with ELib a => ae_reason a | _ => "" end.

Definition ref_errors : ErrorLib := {|
  liberr := ref_api_error;
  IsNotFound e := String.eqb (ref_reason e) "NotFound";
  IsInvalid e := String.eqb (ref_reason e) "Invalid";
  IsAlreadyExists e := String.eqb (ref_reason e) "AlreadyExists";
  ReasonForError := ref_reason;
  as_APIStatus e := match e with ELib a => Some (ae_details a) | _ => None end;
  ErrQuiet := ENew "quiet";
|}.

Definition api_error (reason : string) : error ref_api_error :=
  ELib (MkApiError reason None).

Definition ref_field : @FieldLib ref_errors :=
  @Build_FieldLib ref_errors
    (fun l => match l with [] => None | _ :: _ => Some (ENew "field errors") end).

Lemma ref_field_laws : @FieldLaws ref_errors ref_field.
Proof. constructor. by intros []. Qed.

(** ** conditions: the list of conditions of a status, updated by type *)

Definition ref_get (st : Status) (t : string) : option Condition :=
  list_find (fun c => c_Type c = t) (st_Conditions st) ≫= fun p => Some p.2.

Definition ref_set (st : Status) (c : Condition) : Status :=
  MkStatus (st_ObservedGeneration st)
    (c :: filter (fun c' => c_Type c' <> c_Type c) (st_Conditions st)).

Definition ref_status_of (oc : option Condition) : string :=
  match oc with Some c => c_Status c | None => ConditionUnknown end.

(** The status the happy condition takes from the dependents: false wins over
    unknown. *)
Definition ref_happy_status (cs : ConditionSet) (st : Status) : string :=
  let ss := map (fun d => ref_status_of (ref_get st d)) (cs_dependents cs) in
  if forallb (String.eqb ConditionTrue) ss then ConditionTrue
  else if existsb (String.eqb ConditionFalse) ss then ConditionFalse
  else ConditionUnknown.

Definition ref_mark (s : string) (cs : ConditionSet) (now : Z) (st : Status)
    (t r m : string) : Status :=
  let st' := ref_set st (MkCondition t s 0 now r m) in
  let h := ref_happy_status cs st' in
  ref_set st' (MkCondition ConditionReady h 0 now
                 (if String.eqb h ConditionTrue then cs_happyReason cs else r) m).

#[local] Arguments ref_mark : simpl never.
#[local] Arguments ref_get : simpl never.

Definition ref_conditions : ConditionLib := {|
  InitializeConditions_cm cs now st :=
    foldl (fun st t => if ref_get st t is Some _ then st
                       else ref_set st (MkCondition t ConditionUnknown 0 now "Initializing" ""))
      st (ConditionReady :: cs_dependents cs);
  GetCondition _ := ref_get;
  MarkTrue := ref_mark ConditionTrue;
  MarkFalse := ref_mark ConditionFalse;
  MarkUnknown := ref_mark ConditionUnknown;
  ConditionIsTrue oc := match oc with
                        | Some c => String.eqb (c_Status c) ConditionTrue
                        | None => false
                        end;
|}.

Lemma ref_get_set_eq st c : ref_get (ref_set st c) (c_Type c) = Some c.
Proof. unfold ref_get, ref_set; simpl. by rewrite decide_True. Qed.

Lemma ref_get_cons g c l t :
  ref_get (MkStatus g (c :: l)) t = if decide (c_Type c = t) then Some c else ref_get (MkStatus g l) t.
Proof.
  unfold ref_get; simpl. case_decide; [done|].
  destruct (list_find _ l) as [[i x]|]; done.
Qed.

Lemma ref_get_set_ne st c t : c_Type c <> t -> ref_get (ref_set st c) t = ref_get st t.
Proof.
  intros Hne. destruct st as [g l]. unfold ref_set; simpl.
  rewrite ref_get_cons, decide_False by done.
  induction l as [|x l IH]; [done|]. rewrite filter_cons.
  rewrite ref_get_cons. case_decide as Hx.
  - rewrite ref_get_cons, IH. done.
  - rewrite decide_False by congruence. done.
Qed.

Lemma ref_mark_same s cs now st t r m :
  t <> ConditionReady ->
  ref_get (ref_mark s cs now st t r m) t = Some (MkCondition t s 0 now r m).
Proof.
  intros Ht. unfold ref_mark. rewrite ref_get_set_ne by done.
  apply (ref_get_set_eq st (MkCondition t s 0 now r m)).
Qed.

Lemma ref_mark_frame s cs now st t r m t' :
  t' <> t -> t' <> ConditionReady ->
  ref_get (ref_mark s cs now st t r m) t' = ref_get st t'.
Proof. intros. unfold ref_mark. by rewrite !ref_get_set_ne by done. Qed.

Lemma ref_mark_happy s cs now st t r m :
  exists c, ref_get (ref_mark s cs now st t r m) ConditionReady = Some c /\
    c_Status c = ref_happy_status cs (ref_set st (MkCondition t s 0 now r m)).
Proof.
  eexists. split; [apply (ref_get_set_eq _ (MkCondition ConditionReady _ _ _ _ _))|]. done.
Qed.

(** The happy status is computed from the dependents as they are afterwards. *)
Lemma ref_happy_after s cs now st t r m :
  ConditionReady ∉ cs_dependents cs ->
  map (fun d => ref_status_of (ref_get (ref_set st (MkCondition t s 0 now r m)) d)) (cs_dependents cs)
  = map (fun d => ref_status_of (ref_get (ref_mark s cs now st t r m) d)) (cs_dependents cs).
Proof.
  intros Hr. apply map_ext_in. intros d Hd. f_equal. unfold ref_mark.
  rewrite (ref_get_set_ne (ref_set st _)); [done|]. simpl.
  intros <-. apply Hr. by apply list_elem_of_In.
Qed.

Lemma ref_happy_true_iff cs st :
  ref_happy_status cs st = ConditionTrue
  <-> forallb (String.eqb ConditionTrue)
        (map (fun d => ref_status_of (ref_get st d)) (cs_dependents cs)) = true.
Proof.
  unfold ref_happy_status. destruct (forallb _ _) eqn:E; [done|].
  destruct (existsb _ _); done.
Qed.

Lemma ref_mark_not_true s cs now st t r m :
  s <> ConditionTrue -> t ∈ cs_dependents cs -> ConditionReady ∉ cs_dependents cs ->
  @cond_true ref_conditions cs (ref_mark s cs now st t r m) ConditionReady = false.
Proof.
  intros Hs Ht Hr. unfold cond_true; cbn [GetCondition ConditionIsTrue ref_conditions].
  destruct (ref_mark_happy s cs now st t r m) as (c & -> & Hc). rewrite Hc.
  apply String.eqb_neq. rewrite ref_happy_true_iff, ref_happy_after, forallb_forall by done.
  intros Hall. apply Hs. symmetry. apply String.eqb_eq, Hall.
  apply in_map_iff. exists t. rewrite ref_mark_same by (by intros ->).
  split; [done|]. by apply list_elem_of_In.
Qed.

Lemma ref_conditions_laws : @ConditionLaws ref_conditions.
Proof.
  constructor; cbn [GetCondition ConditionIsTrue MarkTrue MarkFalse MarkUnknown ref_conditions];
    try (intros; by apply ref_mark_frame);
    try (intros; eexists; split; [by apply ref_mark_same|done]);
    try (intros; by apply ref_mark_not_true).
  - intros [c|]; [rewrite String.eqb_eq|]; naive_solver.
  - intros cs now st t r m Ht Hr. unfold cond_true at 1; cbn [GetCondition ConditionIsTrue ref_conditions].
    destruct (ref_mark_happy ConditionTrue cs now st t r m) as (c & -> & Hc). rewrite Hc.
    apply eq_true_iff_eq.
    rewrite String.eqb_eq, ref_happy_true_iff, ref_happy_after, !forallb_forall by done.
    split.
    + intros Hall d Hd. unfold cond_true; simpl.
      assert (Hx := Hall _ (in_map _ _ _ Hd)). apply String.eqb_eq in Hx.
      unfold ref_status_of in Hx. destruct (ref_get _ d); [|done]. by rewrite <- Hx.
    + intros Hall x (d & <- & Hd)%in_map_iff. specialize (Hall d Hd). revert Hall.
      unfold cond_true; simpl. destruct (ref_get _ d); simpl; [|done].
      by rewrite String.eqb_sym.
Qed.
