(* ===== verification/ApiV1.v ===== *)
(** * api/v1: the DuckType and Duck resources

    The Go types of duck_types.go, ducktype_types.go and groupversion_info.go,
    and the accessors of duck_lifecycle.go and ducktype_lifecycle.go.  A method
    with a pointer receiver that updates its object returns the updated one. *)

From S2P Require Import Prelude Platform.

(** ** groupversion_info.go *)

Definition APIGroupVersion : GroupVersion := MkGV "duck.reconciler.io" "v1".

(** ** ducktype_types.go *)

Record DuckTypeSpec := MkDuckTypeSpec {
  dts_Group : string;
  dts_Plural : string;
  dts_Singular : string;
  dts_Kind : string;
  dts_ListKind : string;
}.

Record DuckTypeStatus := MkDuckTypeStatus { dtst_Status : Status }.

Record DuckType := MkDuckType {
  dt_TypeMeta : TypeMeta;
  dt_ObjectMeta : ObjectMeta;
  dt_Spec : DuckTypeSpec;
  dt_Status : DuckTypeStatus;
}.

(** metav1.ListMeta; RemainingItemCount is a pointer in Go. *)
Record ListMeta := MkListMeta {
  lm_SelfLink : string;
  lm_ResourceVersion : string;
  lm_Continue : string;
  lm_RemainingItemCount : option Z;
}.

Definition zero_ListMeta : ListMeta := MkListMeta "" "" "" None.

Record DuckTypeList := MkDuckTypeList {
  dtl_TypeMeta : TypeMeta;
  dtl_ListMeta : ListMeta;
  dtl_Items : list DuckType;
}.

(** ** duck_types.go *)

Record DuckSpec := MkDuckSpec {
  ds_Group : string;
  ds_Version : string;
  ds_Kind : string;
}.

Record DuckStatus := MkDuckStatus { dst_Status : Status }.

Record Duck := MkDuck {
  d_TypeMeta : TypeMeta;
  d_ObjectMeta : ObjectMeta;
  d_Spec : DuckSpec;
  d_Status : DuckStatus;
}.

Record DuckList := MkDuckList {
  dl_TypeMeta : TypeMeta;
  dl_ListMeta : ListMeta;
  dl_Items : list Duck;
}.

#[export] Instance DuckSpec_eq_dec : EqDecision DuckSpec.
Proof. solve_decision. Defined.
#[export] Instance DuckTypeSpec_eq_dec : EqDecision DuckTypeSpec.
Proof. solve_decision. Defined.

Definition dt_Name (r : DuckType) : string := om_Name (dt_ObjectMeta r).
Definition d_Name (r : Duck) : string := om_Name (d_ObjectMeta r).

Definition dt_set_Spec (s : DuckTypeSpec) (r : DuckType) : DuckType :=
  MkDuckType (dt_TypeMeta r) (dt_ObjectMeta r) s (dt_Status r).
Definition dt_set_Status (s : DuckTypeStatus) (r : DuckType) : DuckType :=
  MkDuckType (dt_TypeMeta r) (dt_ObjectMeta r) (dt_Spec r) s.
Definition d_set_Status (s : DuckStatus) (r : Duck) : Duck :=
  MkDuck (d_TypeMeta r) (d_ObjectMeta r) (d_Spec r) s.

(** ** ducktype_lifecycle.go *)

Definition DuckTypeConditionReady : string := ConditionReady.
Definition DuckTypeConditionRBAC : string := "RBAC".
Definition DuckTypeConditionCustomResourceDefinitionEstablished : string :=
  "CustomResourceDefinitionEstablished".

Definition DuckTypeStatus_GetConditionSet (r : DuckTypeStatus) : ConditionSet :=
  NewLivingConditionSetWithHappyReason "Ready"
    [DuckTypeConditionRBAC; DuckTypeConditionCustomResourceDefinitionEstablished].

Definition DuckType_GetConditionSet (r : DuckType) : ConditionSet :=
  DuckTypeStatus_GetConditionSet (dt_Status r).

Definition DuckType_GetConditionsAccessor (r : DuckType) : Status := dtst_Status (dt_Status r).

(** ** duck_lifecycle.go *)

Definition DuckConditionReady : string := ConditionReady.
Definition DuckConditionRBAC : string := "RBAC".
Definition DuckConditionAvailable : string := "Available".

Definition DuckStatus_GetConditionSet (r : DuckStatus) : ConditionSet :=
  NewLivingConditionSetWithHappyReason "Ready" [DuckConditionRBAC; DuckConditionAvailable].

Definition Duck_GetConditionSet (r : Duck) : ConditionSet :=
  DuckStatus_GetConditionSet (d_Status r).

Definition Duck_GetConditionsAccessor (r : Duck) : Status := dst_Status (d_Status r).

(** ** Condition managers

    A manager is the set of conditions together with the accessor it writes to:
    reading goes through the status, and an update replaces the status of the
    object the manager was taken from. *)

Section managers.
Context `{ConditionLib}.

Definition DuckTypeStatus_GetConditionManager (r : DuckTypeStatus)
    (op : ConditionSet -> Status -> Status) : DuckTypeStatus :=
  MkDuckTypeStatus (op (DuckTypeStatus_GetConditionSet r) (dtst_Status r)).

Definition DuckType_GetConditionManager (r : DuckType)
    (op : ConditionSet -> Status -> Status) : DuckType :=
  dt_set_Status (DuckTypeStatus_GetConditionManager (dt_Status r) op) r.

Definition DuckTypeStatus_InitializeConditions (now : Z) (r : DuckTypeStatus) : DuckTypeStatus :=
  DuckTypeStatus_GetConditionManager r (fun cs => InitializeConditions_cm cs now).

Definition DuckType_GetCondition (r : DuckType) (t : string) : option Condition :=
  GetCondition (DuckType_GetConditionSet r) (DuckType_GetConditionsAccessor r) t.

Definition DuckStatus_GetConditionManager (r : DuckStatus)
    (op : ConditionSet -> Status -> Status) : DuckStatus :=
  MkDuckStatus (op (DuckStatus_GetConditionSet r) (dst_Status r)).

Definition Duck_GetConditionManager (r : Duck)
    (op : ConditionSet -> Status -> Status) : Duck :=
  d_set_Status (DuckStatus_GetConditionManager (d_Status r) op) r.

Definition DuckStatus_InitializeConditions (now : Z) (r : DuckStatus) : DuckStatus :=
  DuckStatus_GetConditionManager r (fun cs => InitializeConditions_cm cs now).

Definition Duck_GetCondition (r : Duck) (t : string) : option Condition :=
  GetCondition (Duck_GetConditionSet r) (Duck_GetConditionsAccessor r) t.

(** The Mark methods of the managers, as the reconcilers call them. *)
Definition dt_MarkTrue (now : Z) (t reason msg : string) (r : DuckType) : DuckType :=
  DuckType_GetConditionManager r (fun cs st => MarkTrue cs now st t reason msg).
Definition dt_MarkFalse (now : Z) (t reason msg : string) (r : DuckType) : DuckType :=
  DuckType_GetConditionManager r (fun cs st => MarkFalse cs now st t reason msg).
Definition dt_MarkUnknown (now : Z) (t reason msg : string) (r : DuckType) : DuckType :=
  DuckType_GetConditionManager r (fun cs st => MarkUnknown cs now st t reason msg).
Definition d_MarkTrue (now : Z) (t reason msg : string) (r : Duck) : Duck :=
  Duck_GetConditionManager r (fun cs st => MarkTrue cs now st t reason msg).
Definition d_MarkFalse (now : Z) (t reason msg : string) (r : Duck) : Duck :=
  Duck_GetConditionManager r (fun cs st => MarkFalse cs now st t reason msg).
Definition d_MarkUnknown (now : Z) (t reason msg : string) (r : Duck) : Duck :=
  Duck_GetConditionManager r (fun cs st => MarkUnknown cs now st t reason msg).

(** [apis.ConditionIsTrue] of a condition of the resource. *)
Definition DuckType_is (r : DuckType) (t : string) : bool :=
  ConditionIsTrue (DuckType_GetCondition r t).
Definition Duck_is (r : Duck) (t : string) : bool :=
  ConditionIsTrue (Duck_GetCondition r t).
Definition DuckType_cond (r : DuckType) (t s reason msg : string) : Prop :=
  cond_is (DuckType_GetConditionSet r) (DuckType_GetConditionsAccessor r) t s reason msg.
Definition Duck_cond (r : Duck) (t s reason msg : string) : Prop :=
  cond_is (Duck_GetConditionSet r) (Duck_GetConditionsAccessor r) t s reason msg.
End managers.

(** ** duck_lifecycle.go: coordinates of the resource a duck stands for *)

Section coordinates.
Context `{Schema}.

Definition Duck_GroupVersionResource (r : Duck) : GroupVersionResource :=
  gr_WithVersion (ParseGroupResource (d_Name r)) (ds_Version (d_Spec r)).

Definition DuckSpec_GroupVersionKind (r : DuckSpec) : GroupVersionKind :=
  MkGVK (ds_Group r) (ds_Version r) (ds_Kind r).

Definition DuckSpec_TypeMeta (r : DuckSpec) : TypeMeta :=
  MkTypeMeta (gv_String (MkGV (ds_Group r) (ds_Version r))) (ds_Kind r).
End coordinates.

(** ** The condition sets are well formed *)

Section condition_lemmas.
Context `{ConditionLaws}.

Lemma ducktype_ready_not_dependent r : ConditionReady ∉ cs_dependents (DuckType_GetConditionSet r).
Proof. by vm_compute; intros ?%list_elem_of_In; naive_solver. Qed.

Lemma duck_ready_not_dependent r : ConditionReady ∉ cs_dependents (Duck_GetConditionSet r).
Proof. by vm_compute; intros ?%list_elem_of_In; naive_solver. Qed.

Lemma ducktype_dependents r t :
  t ∈ cs_dependents (DuckType_GetConditionSet r)
  <-> t = DuckTypeConditionRBAC \/ t = DuckTypeConditionCustomResourceDefinitionEstablished.
Proof. simpl. set_solver. Qed.

Lemma duck_dependents r t :
  t ∈ cs_dependents (Duck_GetConditionSet r)
  <-> t = DuckConditionRBAC \/ t = DuckConditionAvailable.
Proof. simpl. set_solver. Qed.

Lemma DuckType_is_cond r t s reason msg :
  DuckType_cond r t s reason msg -> DuckType_is r t = bool_decide (s = ConditionTrue).
Proof. apply cond_is_true_iff. Qed.

Lemma Duck_is_cond r t s reason msg :
  Duck_cond r t s reason msg -> Duck_is r t = bool_decide (s = ConditionTrue).
Proof. apply cond_is_true_iff. Qed.

(** Ready after marking one dependent true: both dependents are true. *)
Lemma dt_MarkTrue_ready now t reason msg r :
  t ∈ cs_dependents (DuckType_GetConditionSet r) ->
  let r' := dt_MarkTrue now t reason msg r in
  DuckType_is r' DuckTypeConditionReady =
    DuckType_is r' DuckTypeConditionRBAC
    && DuckType_is r' DuckTypeConditionCustomResourceDefinitionEstablished.
Proof.
  intros Ht. pose proof (MarkTrue_happy (DuckType_GetConditionSet r) now
    (dtst_Status (dt_Status r)) t reason msg Ht (ducktype_ready_not_dependent r)) as Hh.
  simpl in Hh. rewrite andb_true_r in Hh. exact Hh.
Qed.

Lemma d_MarkTrue_ready now t reason msg r :
  t ∈ cs_dependents (Duck_GetConditionSet r) ->
  let r' := d_MarkTrue now t reason msg r in
  Duck_is r' DuckConditionReady =
    Duck_is r' DuckConditionRBAC && Duck_is r' DuckConditionAvailable.
Proof.
  intros Ht. pose proof (MarkTrue_happy (Duck_GetConditionSet r) now
    (dst_Status (d_Status r)) t reason msg Ht (duck_ready_not_dependent r)) as Hh.
  simpl in Hh. rewrite andb_true_r in Hh. exact Hh.
Qed.

(** The other marks leave the resource not ready, and every mark sets its own
    condition and leaves the other dependents alone. *)
Lemma dt_MarkFalse_ready now t reason msg r :
  t ∈ cs_dependents (DuckType_GetConditionSet r) ->
  DuckType_is (dt_MarkFalse now t reason msg r) DuckTypeConditionReady = false.
Proof. intros Ht. exact (MarkFalse_happy _ now _ t reason msg Ht (ducktype_ready_not_dependent r)). Qed.

Lemma dt_MarkUnknown_ready now t reason msg r :
  t ∈ cs_dependents (DuckType_GetConditionSet r) ->
  DuckType_is (dt_MarkUnknown now t reason msg r) DuckTypeConditionReady = false.
Proof. intros Ht. exact (MarkUnknown_happy _ now _ t reason msg Ht (ducktype_ready_not_dependent r)). Qed.

Lemma d_MarkFalse_ready now t reason msg r :
  t ∈ cs_dependents (Duck_GetConditionSet r) ->
  Duck_is (d_MarkFalse now t reason msg r) DuckConditionReady = false.
Proof. intros Ht. exact (MarkFalse_happy _ now _ t reason msg Ht (duck_ready_not_dependent r)). Qed.

Lemma d_MarkUnknown_ready now t reason msg r :
  t ∈ cs_dependents (Duck_GetConditionSet r) ->
  Duck_is (d_MarkUnknown now t reason msg r) DuckConditionReady = false.
Proof. intros Ht. exact (MarkUnknown_happy _ now _ t reason msg Ht (duck_ready_not_dependent r)). Qed.

Lemma dt_Mark_cond now t reason msg r :
  t <> ConditionReady ->
  DuckType_cond (dt_MarkTrue now t reason msg r) t ConditionTrue reason msg
  /\ DuckType_cond (dt_MarkFalse now t reason msg r) t ConditionFalse reason msg
  /\ DuckType_cond (dt_MarkUnknown now t reason msg r) t ConditionUnknown reason msg.
Proof.
  intros Ht. split_and!; [by apply MarkTrue_same|by apply MarkFalse_same|by apply MarkUnknown_same].
Qed.

Lemma d_Mark_cond now t reason msg r :
  t <> ConditionReady ->
  Duck_cond (d_MarkTrue now t reason msg r) t ConditionTrue reason msg
  /\ Duck_cond (d_MarkFalse now t reason msg r) t ConditionFalse reason msg
  /\ Duck_cond (d_MarkUnknown now t reason msg r) t ConditionUnknown reason msg.
Proof.
  intros Ht. split_and!; [by apply MarkTrue_same|by apply MarkFalse_same|by apply MarkUnknown_same].
Qed.

Lemma dt_Mark_frame now t reason msg r t' :
  t' <> t -> t' <> ConditionReady ->
  DuckType_GetCondition (dt_MarkTrue now t reason msg r) t' = DuckType_GetCondition r t'
  /\ DuckType_GetCondition (dt_MarkFalse now t reason msg r) t' = DuckType_GetCondition r t'
  /\ DuckType_GetCondition (dt_MarkUnknown now t reason msg r) t' = DuckType_GetCondition r t'.
Proof.
  intros Ht Hr. split_and!; [by apply MarkTrue_frame|by apply MarkFalse_frame|by apply MarkUnknown_frame].
Qed.

Lemma d_Mark_frame now t reason msg r t' :
  t' <> t -> t' <> ConditionReady ->
  Duck_GetCondition (d_MarkTrue now t reason msg r) t' = Duck_GetCondition r t'
  /\ Duck_GetCondition (d_MarkFalse now t reason msg r) t' = Duck_GetCondition r t'
  /\ Duck_GetCondition (d_MarkUnknown now t reason msg r) t' = Duck_GetCondition r t'.
Proof.
  intros Ht Hr. split_and!; [by apply MarkTrue_frame|by apply MarkFalse_frame|by apply MarkUnknown_frame].
Qed.

(** The effect of a mark of one dependent [t] on a resource whose other
    dependent is [t']: only the status changes, [t] is true iff the mark is a
    true one, [t'] keeps its condition, and Ready is the conjunction. *)
Definition dt_marked (r r' : DuckType) (t t' : string) (b : bool) : Prop :=
  dt_TypeMeta r' = dt_TypeMeta r /\ dt_ObjectMeta r' = dt_ObjectMeta r /\ dt_Spec r' = dt_Spec r
  /\ DuckType_is r' t = b /\ DuckType_GetCondition r' t' = DuckType_GetCondition r t'
  /\ DuckType_is r' DuckTypeConditionReady = b && DuckType_is r t'.

Definition d_marked (r r' : Duck) (t t' : string) (b : bool) : Prop :=
  d_TypeMeta r' = d_TypeMeta r /\ d_ObjectMeta r' = d_ObjectMeta r /\ d_Spec r' = d_Spec r
  /\ Duck_is r' t = b /\ Duck_GetCondition r' t' = Duck_GetCondition r t'
  /\ Duck_is r' DuckConditionReady = b && Duck_is r t'.

Lemma dt_Mark_effect now t t' reason msg r :
  (t = DuckTypeConditionRBAC /\ t' = DuckTypeConditionCustomResourceDefinitionEstablished)
  \/ (t' = DuckTypeConditionRBAC /\ t = DuckTypeConditionCustomResourceDefinitionEstablished) ->
  dt_marked r (dt_MarkTrue now t reason msg r) t t' true
  /\ dt_marked r (dt_MarkFalse now t reason msg r) t t' false
  /\ dt_marked r (dt_MarkUnknown now t reason msg r) t t' false.
Proof.
  intros Ht.
  assert (Hdep : t ∈ cs_dependents (DuckType_GetConditionSet r))
    by (apply ducktype_dependents; naive_solver).
  assert (Hne : t <> ConditionReady /\ t' <> ConditionReady /\ t' <> t) by (naive_solver).
  destruct Hne as (Hr & Hr' & Hne).
  destruct (dt_Mark_cond now t reason msg r Hr) as (C1 & C2 & C3).
  destruct (dt_Mark_frame now t reason msg r t' Hne Hr') as (F1 & F2 & F3).
  apply DuckType_is_cond in C1, C2, C3.
  unfold dt_marked, d_marked. split_and!; try done; cbn [andb];
    [|by apply dt_MarkFalse_ready|by apply dt_MarkUnknown_ready].
  rewrite dt_MarkTrue_ready by done.
  assert (Ht' : DuckType_is (dt_MarkTrue now t reason msg r) t' = DuckType_is r t')
    by (unfold DuckType_is; by rewrite F1).
  destruct Ht as [[-> ->]|[-> ->]]; rewrite C1, Ht'; [done|apply andb_true_r].
Qed.

Lemma d_Mark_effect now t t' reason msg r :
  (t = DuckConditionRBAC /\ t' = DuckConditionAvailable)
  \/ (t' = DuckConditionRBAC /\ t = DuckConditionAvailable) ->
  d_marked r (d_MarkTrue now t reason msg r) t t' true
  /\ d_marked r (d_MarkFalse now t reason msg r) t t' false
  /\ d_marked r (d_MarkUnknown now t reason msg r) t t' false.
Proof.
  intros Ht.
  assert (Hdep : t ∈ cs_dependents (Duck_GetConditionSet r))
    by (apply duck_dependents; naive_solver).
  assert (Hne : t <> ConditionReady /\ t' <> ConditionReady /\ t' <> t) by (naive_solver).
  destruct Hne as (Hr & Hr' & Hne).
  destruct (d_Mark_cond now t reason msg r Hr) as (C1 & C2 & C3).
  destruct (d_Mark_frame now t reason msg r t' Hne Hr') as (F1 & F2 & F3).
  apply Duck_is_cond in C1, C2, C3.
  unfold dt_marked, d_marked. split_and!; try done; cbn [andb];
    [|by apply d_MarkFalse_ready|by apply d_MarkUnknown_ready].
  rewrite d_MarkTrue_ready by done.
  assert (Ht' : Duck_is (d_MarkTrue now t reason msg r) t' = Duck_is r t')
    by (unfold Duck_is; by rewrite F1).
  destruct Ht as [[-> ->]|[-> ->]]; rewrite C1, Ht'; [done|apply andb_true_r].
Qed.
End condition_lemmas.
