(* ===== verification/Webhook.v ===== *)
(** * api/v1: defaulting and validation webhooks

    ducktype_webhook.go and duck_webhook.go.  [Default] updates the object it
    is given, so it returns it; the validators default the object first, and
    return it with the admission warnings and the error. *)

From S2P Require Import Prelude Platform Reference ApiV1.

#[local] Open Scope go_scope.

Section webhook.
Context `{GoUnicode} `{ErrorLib} `{!FieldLib}.

(** ** ducktype_webhook.go *)

Definition DuckTypeSpec_Default (r : DuckTypeSpec) : result err DuckTypeSpec :=
  let singular := if String.eqb (dts_Singular r) "" then ToLower (dts_Kind r)
                  else dts_Singular r in
  let listKind := if String.eqb (dts_ListKind r) "" then dts_Kind r +:+ "List"
                  else dts_ListKind r in
  Ok (MkDuckTypeSpec (dts_Group r) (dts_Plural r) singular (dts_Kind r) listKind).

Definition DuckType_Default (obj : DuckType) : result err DuckType :=
  let? spec := DuckTypeSpec_Default (dt_Spec obj) in
  Ok (dt_set_Spec spec obj).

Definition DuckTypeSpec_Validate (r : DuckTypeSpec) (fldPath : list string) : list FieldError :=
  let group_errs :=
    if String.eqb (dts_Group r) "" then [field_Required (Child fldPath ["group"]) ""]
    else if negb (String.eqb (ToLower (dts_Group r)) (dts_Group r))
    then [field_Invalid (Child fldPath ["group"]) (dts_Group r) "must be all lowercase"]
    else [] in
  let plural_errs :=
    if String.eqb (dts_Plural r) "" then [field_Required (Child fldPath ["plural"]) ""]
    else if negb (String.eqb (ToLower (dts_Plural r)) (dts_Plural r))
    then [field_Invalid (Child fldPath ["plural"]) (dts_Plural r) "must be all lowercase"]
    else [] in
  let singular_errs :=
    if String.eqb (dts_Singular r) "" then [field_Required (Child fldPath ["singular"]) ""]
    else if negb (String.eqb (ToLower (dts_Singular r)) (dts_Singular r))
    then [field_Invalid (Child fldPath ["singular"]) (dts_Singular r) "must be all lowercase"]
    else [] in
  let kind_errs :=
    if String.eqb (dts_Kind r) "" then [field_Required (Child fldPath ["kind"]) ""] else [] in
  let listKind_errs :=
    if String.eqb (dts_ListKind r) "" then [field_Required (Child fldPath ["listKind"]) ""]
    else [] in
  group_errs ++ plural_errs ++ singular_errs ++ kind_errs ++ listKind_errs.

Definition DuckType_Validate (r : DuckType) (fldPath : list string) : list FieldError :=
  let name_errs :=
    if negb (String.eqb (dt_Name r) (dts_Plural (dt_Spec r) +:+ "." +:+ dts_Group (dt_Spec r)))
    then [field_Invalid (Child fldPath ["metadata"; "name"]) (dt_Name r)
            "name must take the form `<plural>.<group>`"]
    else [] in
  name_errs ++ DuckTypeSpec_Validate (dt_Spec r) (Child fldPath ["spec"]).

Definition DuckType_ValidateCreate (obj : DuckType) : DuckType * (list string * option err) :=
  match DuckType_Default obj with
  | Err e => (obj, ([], Some e))
  | Ok obj => (obj, ([], ToAggregate (DuckType_Validate obj (NewPath ""))))
  end.

Definition DuckType_ValidateUpdate (oldObj newObj : DuckType)
    : DuckType * (list string * option err) :=
  match DuckType_Default newObj with
  | Err e => (newObj, ([], Some e))
  | Ok newObj => (newObj, ([], ToAggregate (DuckType_Validate newObj (NewPath ""))))
  end.

Definition DuckType_ValidateDelete (obj : DuckType) : DuckType * (list string * option err) :=
  (obj, ([], None)).

(** ** duck_webhook.go *)

Definition DuckSpec_Default (r : DuckSpec) : result err DuckSpec := Ok r.

Definition Duck_Default (obj : Duck) : result err Duck :=
  let? spec := DuckSpec_Default (d_Spec obj) in
  Ok (MkDuck (d_TypeMeta obj) (d_ObjectMeta obj) spec (d_Status obj)).

Definition DuckSpec_Validate (r : DuckSpec) (fldPath : list string) : list FieldError :=
  (if String.eqb (ds_Group r) "" then [field_Required (Child fldPath ["group"]) ""] else []) ++
  (if String.eqb (ds_Version r) "" then [field_Required (Child fldPath ["version"]) ""] else []) ++
  (if String.eqb (ds_Kind r) "" then [field_Required (Child fldPath ["kind"]) ""] else []).

Definition Duck_Validate (r : Duck) (fldPath : list string) : list FieldError :=
  DuckSpec_Validate (d_Spec r) (Child fldPath ["spec"]) ++
  (if negb (HasSuffix (d_Name r) ("." +:+ ds_Group (d_Spec r)))
   then [field_Invalid (Child fldPath ["spec"; "group"]) (ds_Group (d_Spec r))
           "resource name must end with group"]
   else []).

Definition Duck_ValidateCreate (obj : Duck) : Duck * (list string * option err) :=
  match Duck_Default obj with
  | Err e => (obj, ([], Some e))
  | Ok obj => (obj, ([], ToAggregate (Duck_Validate obj (NewPath ""))))
  end.

Definition Duck_ValidateUpdate (oldObj newObj : Duck) : Duck * (list string * option err) :=
  match Duck_Default newObj with
  | Err e => (newObj, ([], Some e))
  | Ok newObj => (newObj, ([], ToAggregate (Duck_Validate newObj (NewPath ""))))
  end.

Definition Duck_ValidateDelete (obj : Duck) : Duck * (list string * option err) :=
  (obj, ([], None)).
End webhook.

(** ** What the validators accept *)

Section acceptance.
Context `{GoUnicode}.

Definition lowercase (s : string) : Prop := s <> "" /\ ToLower s = s.

#[export] Instance lowercase_dec s : Decision (lowercase s) := _.

(** The contract of ducktype_types.go's field comments, on an object as the
    user wrote it: [singular] and [listKind] may be left to the defaults. *)
Definition ducktype_ok (r : DuckType) : Prop :=
  let s := dt_Spec r in
  dt_Name r = dts_Plural s +:+ "." +:+ dts_Group s
  /\ lowercase (dts_Group s) /\ lowercase (dts_Plural s) /\ dts_Kind s <> ""
  /\ (dts_Singular s = "" \/ ToLower (dts_Singular s) = dts_Singular s).

Definition duck_ok (r : Duck) : Prop :=
  let s := d_Spec r in
  ds_Group s <> "" /\ ds_Version s <> "" /\ ds_Kind s <> ""
  /\ exists resource, d_Name r = resource +:+ "." +:+ ds_Group s.
End acceptance.

Definition err_path (e : FieldError) : list string :=
  match e with field_Invalid path _ _ => path | field_Required path _ => path end.

Lemma Child_eq (p a b : list string) : Child p a = Child p b <-> a = b.
Proof. unfold Child. split; [apply app_inv_head|by intros ->]. Qed.

Lemma NoDup_Child (p : list string) l : NoDup l -> NoDup (Child p <$> l).
Proof. apply NoDup_fmap_2. intros a b. apply Child_eq. Qed.

Lemma false_eq_bool_decide (P : Prop) `{Decision P} : false = bool_decide P <-> ~ P.
Proof. case_bool_decide; naive_solver. Qed.

Lemma not_ne (a b : string) : ~ a <> b <-> a = b.
Proof. destruct (decide (a = b)); naive_solver. Qed.

Lemma check_nil (s : string) (e : FieldError) :
  (if String.eqb s "" then [e] else []) = [] <-> s <> "".
Proof. destruct (String.eqb_spec s ""); naive_solver. Qed.

Lemma check_path (s : string) (path : list string) d :
  err_path <$> (if String.eqb s "" then [field_Required path d] else [])
  = if bool_decide (s <> "") then [] else [path].
Proof. destruct (String.eqb_spec s ""); case_bool_decide; naive_solver. Qed.

Section webhook_lemmas.
Context `{GoUnicode} `{ErrorLib} `{!FieldLib}.

Lemma lower_check_nil (s : string) (e e' : FieldError) :
  (if String.eqb s "" then [e] else if negb (String.eqb (ToLower s) s) then [e'] else []) = []
  <-> lowercase s.
Proof.
  unfold lowercase. destruct (String.eqb_spec s ""); [naive_solver|].
  destruct (String.eqb_spec (ToLower s) s); naive_solver.
Qed.

Lemma lower_check_path (s : string) (path : list string) d d' :
  err_path <$> (if String.eqb s "" then [field_Required path d]
                else if negb (String.eqb (ToLower s) s) then [field_Invalid path s d'] else [])
  = if bool_decide (lowercase s) then [] else [path].
Proof.
  case_bool_decide as Hl.
  - destruct Hl as [Hne Hl]. apply String.eqb_neq in Hne as ->. by rewrite Hl, String.eqb_refl.
  - destruct (String.eqb_spec s ""); [done|].
    destruct (String.eqb_spec (ToLower s) s); [|done]. by destruct Hl.
Qed.

Lemma DuckTypeSpec_Validate_nil r p :
  DuckTypeSpec_Validate r p = [] <->
  lowercase (dts_Group r) /\ lowercase (dts_Plural r) /\ lowercase (dts_Singular r)
  /\ dts_Kind r <> "" /\ dts_ListKind r <> "".
Proof.
  unfold DuckTypeSpec_Validate.
  rewrite !app_nil, !lower_check_nil, !check_nil. naive_solver.
Qed.

Lemma DuckType_Validate_nil r p :
  DuckType_Validate r p = [] <->
  dt_Name r = dts_Plural (dt_Spec r) +:+ "." +:+ dts_Group (dt_Spec r)
  /\ DuckTypeSpec_Validate (dt_Spec r) (Child p ["spec"]) = [].
Proof.
  unfold DuckType_Validate. rewrite app_nil.
  destruct (String.eqb_spec (dt_Name r) (dts_Plural (dt_Spec r) +:+ "." +:+ dts_Group (dt_Spec r)));
    naive_solver.
Qed.

Lemma Duck_Validate_nil r p : Duck_Validate r p = [] <-> duck_ok r.
Proof.
  unfold Duck_Validate, DuckSpec_Validate, duck_ok.
  rewrite !app_nil, !check_nil, <- HasSuffix_spec.
  destruct (HasSuffix _ _); naive_solver.
Qed.

Lemma DuckType_Validate_paths r p :
  let s := dt_Spec r in
  err_path <$> DuckType_Validate r p = unset
    [(bool_decide (dt_Name r = dts_Plural s +:+ "." +:+ dts_Group s), Child p ["metadata"; "name"]);
     (bool_decide (lowercase (dts_Group s)), Child p ["spec"; "group"]);
     (bool_decide (lowercase (dts_Plural s)), Child p ["spec"; "plural"]);
     (bool_decide (lowercase (dts_Singular s)), Child p ["spec"; "singular"]);
     (bool_decide (dts_Kind s <> ""), Child p ["spec"; "kind"]);
     (bool_decide (dts_ListKind s <> ""), Child p ["spec"; "listKind"])].
Proof.
  intros s. unfold DuckType_Validate, DuckTypeSpec_Validate.
  rewrite !fmap_app, !lower_check_path, !check_path.
  unfold unset; simpl. rewrite app_nil_r. unfold Child. rewrite <- !(assoc_L (++)). simpl. f_equal.
  subst s. by destruct (String.eqb_spec (dt_Name r) (dts_Plural (dt_Spec r) +:+ "." +:+ dts_Group (dt_Spec r)));
    case_bool_decide.
Qed.

(** The singular a valid object is left with is lowercase. *)
Lemma default_singular_lowercase (kind singular : string) :
  isASCII kind = true -> kind <> "" ->
  lowercase (if String.eqb singular "" then ToLower kind else singular)
  <-> singular = "" \/ ToLower singular = singular.
Proof.
  intros Ha Hk. unfold lowercase. destruct (String.eqb_spec singular "") as [->|Hs].
  - split; [by left|]. intros _. split; [by apply ToLower_nonempty_ascii|by apply ToLower_idem_ascii].
  - naive_solver.
Qed.

Lemma default_listKind_nonempty (kind listKind : string) :
  (if String.eqb listKind "" then kind +:+ "List" else listKind) <> "".
Proof. destruct (String.eqb_spec listKind ""); [by destruct kind|done]. Qed.

Lemma DuckType_Default_idem obj :
  exists obj', DuckType_Default obj = Ok obj' /\ DuckType_Default obj' = Ok obj'.
Proof.
  destruct obj as [tm om [g p sg k lk] st]. eexists. split; [reflexivity|].
  unfold DuckType_Default, DuckTypeSpec_Default, dt_set_Spec; simpl.
  rewrite (proj2 (String.eqb_neq _ "") (default_listKind_nonempty k lk)).
  destruct (String.eqb_spec sg "") as [->|Hs]; simpl.
  - by destruct (String.eqb (ToLower k) "").
  - by apply String.eqb_neq in Hs as ->.
Qed.
End webhook_lemmas.

Section webhook_theorems.
Context `{GoUnicode} `{ErrorLib} `{!FieldLib}.

(** C21: the create webhook of DuckType admits exactly the objects that meet
    the contract of the field comments: the name is <plural>.<group>, group
    and plural are lowercase and non-empty, the kind is set, and a singular
    given by the user is lowercase.  The checks on singular and listKind
    never fail on their own for a kind of ASCII letters, because the object
    is defaulted first. *)
Theorem ducktype_create_accepts_iff `{!FieldLaws} (obj : DuckType) :
  isASCII (dts_Kind (dt_Spec obj)) = true ->
  (DuckType_ValidateCreate obj).2.2 = None <-> ducktype_ok obj.
Proof.
  intros Ha. destruct obj as [tm om [g p s k lk] st]. simpl in Ha.
  unfold DuckType_ValidateCreate, ducktype_ok. simpl.
  rewrite ToAggregate_nil, DuckType_Validate_nil, DuckTypeSpec_Validate_nil. simpl.
  unfold dt_Name; simpl.
  split.
  - intros (Hn & Hg & Hp & Hs & Hk & Hl). rewrite default_singular_lowercase in Hs by done. done.
  - intros (Hn & Hg & Hp & Hk & Hs). rewrite default_singular_lowercase by done.
    pose proof (default_listKind_nonempty k lk). done.
Qed.

(** Defaulting a DuckType succeeds, twice is once, and it changes only the
    fields of the spec the user left empty: singular becomes the kind in
    lower case and listKind the kind followed by List. *)
Theorem ducktype_default_idempotent (obj : DuckType) :
  exists obj', (DuckType_Default obj = Ok obj' /\ DuckType_Default obj' = Ok obj')
  /\ dt_set_Spec (dt_Spec obj) obj' = obj
  /\ dts_Group (dt_Spec obj') = dts_Group (dt_Spec obj)
  /\ dts_Plural (dt_Spec obj') = dts_Plural (dt_Spec obj)
  /\ dts_Kind (dt_Spec obj') = dts_Kind (dt_Spec obj)
  /\ (dts_Singular (dt_Spec obj') = dts_Singular (dt_Spec obj)
      \/ dts_Singular (dt_Spec obj) = "" /\ dts_Singular (dt_Spec obj') = ToLower (dts_Kind (dt_Spec obj)))
  /\ (dts_ListKind (dt_Spec obj') = dts_ListKind (dt_Spec obj)
      \/ dts_ListKind (dt_Spec obj) = "" /\ dts_ListKind (dt_Spec obj') = dts_Kind (dt_Spec obj) +:+ "List")
  /\ dts_ListKind (dt_Spec obj') <> "".
Proof.
  destruct (DuckType_Default_idem obj) as (obj' & Ho & Hoo). exists obj'. split; [done|].
  destruct obj as [tm om [g p sg k lk] st]. injection Ho as <-. simpl.
  split_and!; try done; [| |apply default_listKind_nonempty].
  - destruct (String.eqb_spec sg ""); auto.
  - destruct (String.eqb_spec lk ""); auto.
Qed.

(** C28: the errors the DuckType validator reports are exact: every field has
    at most one, and a field has one iff its own condition fails. *)
Theorem ducktype_validate_exact (r : DuckType) (p : list string) :
  let s := dt_Spec r in
  let at_path path := Child p path ∈ err_path <$> DuckType_Validate r p in
  NoDup (err_path <$> DuckType_Validate r p)
  /\ (at_path ["metadata"; "name"] <-> dt_Name r <> dts_Plural s +:+ "." +:+ dts_Group s)
  /\ (at_path ["spec"; "group"] <-> ~ lowercase (dts_Group s))
  /\ (at_path ["spec"; "plural"] <-> ~ lowercase (dts_Plural s))
  /\ (at_path ["spec"; "singular"] <-> ~ lowercase (dts_Singular s))
  /\ (at_path ["spec"; "kind"] <-> dts_Kind s = "")
  /\ (at_path ["spec"; "listKind"] <-> dts_ListKind s = "").
Proof.
  intros s at_path. unfold at_path. rewrite DuckType_Validate_paths. split.
  { apply NoDup_unset. apply (NoDup_Child p
      [["metadata"; "name"]; ["spec"; "group"]; ["spec"; "plural"]; ["spec"; "singular"];
       ["spec"; "kind"]; ["spec"; "listKind"]]). by apply (bool_decide_unpack _). }
  split_and!; rewrite elem_of_unset, !elem_of_cons, elem_of_nil, !pair_equal_spec, !Child_eq,
    !false_eq_bool_decide, !not_ne; naive_solver.
Qed.

(** C26: the create webhook of Duck admits exactly the objects whose group,
    version and kind are set and whose name ends with the group, and hands
    them on unchanged. *)
Theorem duck_create_accepts_iff `{!FieldLaws} (obj : Duck) :
  (Duck_ValidateCreate obj).1 = obj
  /\ ((Duck_ValidateCreate obj).2.2 = None <-> duck_ok obj).
Proof.
  destruct obj. split; [done|]. unfold Duck_ValidateCreate; simpl.
  by rewrite ToAggregate_nil, Duck_Validate_nil.
Qed.

(** C27: the resource coordinates of an admitted Duck agree with its spec
    exactly when the part of the name before the group has no dot; then the
    group, version and resource are those of the spec and the name, and the
    group resource prints as the name.  The webhook alone does not exclude
    names for which they disagree. *)
Theorem duck_admitted_coordinates `{!FieldLaws} `{SchemaLaws} (obj : Duck) (resource : string) :
  (Duck_ValidateCreate obj).2.2 = None ->
  d_Name obj = resource +:+ "." +:+ ds_Group (d_Spec obj) ->
  let gvr := Duck_GroupVersionResource obj in
  (gvr_Group gvr = ds_Group (d_Spec obj) <-> has_byte dot resource = false)
  /\ (has_byte dot resource = false ->
      gvr = MkGVR (ds_Group (d_Spec obj)) (ds_Version (d_Spec obj)) resource
      /\ gr_String (gvr_GroupResource gvr) = d_Name obj).
Proof.
  destruct obj as [tm om [g v k] st]. unfold Duck_ValidateCreate; simpl.
  rewrite ToAggregate_nil, Duck_Validate_nil. intros (Hg & _ & _ & _) Hn. simpl in *.
  unfold Duck_GroupVersionResource. rewrite Hn; simpl. rewrite gr_WithVersion_eq.
  destruct (has_byte dot resource) eqn:Hd.
  - apply split_first in Hd as (a & b & -> & Ha). rewrite string_app_cons.
    change (a +:+ String dot (b +:+ "." +:+ g)) with (a +:+ "." +:+ (b +:+ "." +:+ g)).
    rewrite ParseGroupResource_dot by done. simpl. split; [|done]. split; [|done].
    rewrite string_app_assoc. intros Hx. exfalso. revert Hx. apply string_app_ne. by destruct b.
  - rewrite ParseGroupResource_dot by done. simpl. split; [done|]. intros _.
    by rewrite gvr_GroupResource_eq, gr_String_group.
Qed.

(** Admission is stable: a DuckType that was admitted, as the webhook left
    it, is admitted unchanged by every later update that does not touch it. *)
Theorem ducktype_admission_stable (obj obj' old : DuckType) ws :
  DuckType_ValidateCreate obj = (obj', (ws, None)) ->
  DuckType_ValidateUpdate old obj' = (obj', ([], None)).
Proof.
  destruct (DuckType_Default_idem obj) as (o & Ho & Hoo). unfold DuckType_ValidateCreate, DuckType_ValidateUpdate.
  rewrite Ho. intros [= <- _ Hv]. by rewrite Hoo, Hv.
Qed.
End webhook_theorems.

(** ** Witnesses *)

Definition w_ducktype : DuckType :=
  MkDuckType (MkTypeMeta "" "") (meta_named "widgets.example.com")
    (MkDuckTypeSpec "example.com" "widgets" "" "Widget" "") (MkDuckTypeStatus (MkStatus 0 [])).

Definition w_duck : Duck :=
  MkDuck (MkTypeMeta "" "") (meta_named "deployments.apps")
    (MkDuckSpec "apps" "v1" "Deployment") (MkDuckStatus (MkStatus 0 [])).

Lemma ducktype_create_accepts_iff_witness :
  (@DuckType_ValidateCreate ref_unicode ref_errors ref_field w_ducktype).2.2 = None.
Proof.
  apply (@ducktype_create_accepts_iff ref_unicode ref_errors ref_field ref_field_laws w_ducktype);
    [reflexivity|]. vm_compute. split_and!; naive_solver.
Defined.

Lemma duck_create_accepts_iff_witness :
  (@Duck_ValidateCreate ref_errors ref_field w_duck).2.2 = None.
Proof.
  apply (@duck_create_accepts_iff ref_errors ref_field ref_field_laws w_duck).
  split_and!; [done..|]. by exists "deployments".
Defined.

Lemma duck_admitted_coordinates_witness :
  @Duck_GroupVersionResource ref_schema w_duck = MkGVR "apps" "v1" "deployments".
Proof.
  apply (@duck_admitted_coordinates ref_errors ref_field ref_field_laws ref_schema ref_schema_laws
           w_duck "deployments"); reflexivity.
Defined.

Lemma ducktype_admission_stable_witness :
  let obj' := (@DuckType_ValidateCreate ref_unicode ref_errors ref_field w_ducktype).1 in
  @DuckType_ValidateUpdate ref_unicode ref_errors ref_field w_ducktype obj' = (obj', ([], None)).
Proof.
  apply (@ducktype_admission_stable ref_unicode ref_errors ref_field w_ducktype _ w_ducktype []).
  reflexivity.
Defined.
