(* ===== verification/Runtime.v ===== *)
(** * reconciler.io/runtime: reconcilers and their composition

    The struct types the controllers fill in (their callbacks are the program's
    code) and the engine that runs them, as the operations of a class with the
    documented behaviour as laws.  A reconciler changes, besides the resource it
    reconciles, the world outside the process [X] and the private fields of the
    program's own reconcilers [F], which the engine's code cannot reach. *)

From S2P Require Import Prelude Platform.

(** k8s.io/api/rbac/v1 *)
Record PolicyRule := MkPolicyRule {
  pr_APIGroups : list string;
  pr_Resources : list string;
  pr_Verbs : list string;
}.

Record LabelSelector := MkLabelSelector { ls_MatchLabels : gmap string string }.
Record AggregationRule := MkAggregationRule { ar_ClusterRoleSelectors : list LabelSelector }.

Record ClusterRole := MkClusterRole {
  cr_ObjectMeta : ObjectMeta;
  cr_Rules : list PolicyRule;
  cr_AggregationRule : option AggregationRule;
}.

Definition cr_Name (r : ClusterRole) : string := om_Name (cr_ObjectMeta r).
Definition cr_Labels (r : ClusterRole) : gmap string string := om_Labels (cr_ObjectMeta r).

(** k8s.io/apimachinery/pkg/apis/meta/v1.APIResource, the fields discovery
    results are read for *)
Record APIResource := MkAPIResource { ares_Name : string; ares_Kind : string }.

Section runtime.
Context `{ErrorLib}.

Class ChildSetLib := {
  ChildSetResult : Type;
  AggregateError : ChildSetResult -> option err;
}.

(** A reconciler of children of one type: [HarmonizeImmutableFields] updates
    the desired child, [MergeBeforeUpdate] the current one, and the reflect
    callback the parent. *)
Record ChildSetReconciler `{ChildSetLib} (P C : Type) := MkChildSetReconciler {
  csr_DesiredChildren : P -> result err (list C);
  csr_IdentifyChild : C -> string;
  csr_HarmonizeImmutableFields : C -> C -> C;
  csr_MergeBeforeUpdate : C -> C -> C;
  csr_ReflectChildrenStatusOnParentWithError : P -> ChildSetResult -> P * option err;
}.

Record ChildReconciler (P C : Type) := MkChildReconciler {
  chr_DesiredChild : P -> result err C;
  chr_MergeBeforeUpdate : C -> C -> C;
  chr_ReflectChildStatusOnParentWithError : P -> option C -> option err -> outcome (P * option err);
}.

Definition SubReconciler (W P : Type) := W -> P -> outcome (W * P * option err).

(** What a reconciled resource offers the engine. *)
Class Reconciled (P : Type) := {
  meta_of : P -> ObjectMeta;
  same_but_finalizers : P -> P -> Prop;
  same_but_finalizers_refl : forall p, same_but_finalizers p p;
}.

Class Engine `{ChildSetLib} (X F : Type) := {
  run_ChildSet : forall P C, ChildSetReconciler P C -> SubReconciler (X * F) P;
  run_Child : forall P C, ChildReconciler P C -> SubReconciler (X * F) P;
  run_Sync : forall P T, (P -> P * list T * option err) -> SubReconciler (X * F) P;
  Sequence : forall P, list (SubReconciler (X * F) P) -> SubReconciler (X * F) P;
  WithFinalizer : forall P `{Reconciled P}, string ->
    SubReconciler (X * F) P -> SubReconciler (X * F) P;
}.
End runtime.

Arguments MkChildSetReconciler {_ _ _ _} _ _ _ _ _.
Arguments MkChildReconciler {_ _ _} _ _ _.
Arguments csr_DesiredChildren {_ _ _ _} _ _.
Arguments csr_IdentifyChild {_ _ _ _} _ _.
Arguments csr_HarmonizeImmutableFields {_ _ _ _} _ _ _.
Arguments csr_MergeBeforeUpdate {_ _ _ _} _ _ _.
Arguments csr_ReflectChildrenStatusOnParentWithError {_ _ _ _} _ _ _.
Arguments chr_DesiredChild {_ _ _} _ _.
Arguments chr_MergeBeforeUpdate {_ _ _} _ _ _.
Arguments chr_ReflectChildStatusOnParentWithError {_ _ _} _ _ _ _.
Arguments run_ChildSet {_ _ _ _ _ _ _} _ _ _.
Arguments run_Child {_ _ _ _ _ _ _} _ _ _.
Arguments run_Sync {_ _ _ _ _ _ _} _ _ _.
Arguments Sequence {_ _ _ _ _ _} _ _ _.
Arguments WithFinalizer {_ _ _ _ _ _ _} _ _ _ _.

(** The documented behaviour of the engine.
    - child reconcilers: errors other than those passed to the reflect callback
      are returned directly, skipping it; otherwise the parent and the error
      are the callback's; the callback can be skipped for a terminating parent;
    - SyncReconciler: calls Sync, and for a terminating parent it can skip it;
    - Sequence: the reconcilers are called in order, and if one errs the further
      ones are skipped;
    - WithFinalizer: the finalizer is added, if not already set, before calling
      the nested reconciler; when the resource is terminating it is cleared
      after the nested reconciler returned without error.
    No law says that a call returns: a panic of a callback propagates. *)
Class EngineLaws `{ErrorLib} `{!ChildSetLib} `{!Engine X F} : Prop := {
  run_ChildSet_reflects : forall P `{Reconciled P} C (r : ChildSetReconciler P C) w p w' p' e,
    run_ChildSet r w p = Ret (w', p', e) ->
    w'.2 = w.2 /\
    ((p' = p /\ (e <> None \/ om_DeletionTimestamp (meta_of p) <> None))
     \/ exists result, csr_ReflectChildrenStatusOnParentWithError r p result = (p', e));
  run_Child_reflects : forall P `{Reconciled P} C (r : ChildReconciler P C) w p w' p' e,
    run_Child r w p = Ret (w', p', e) ->
    w'.2 = w.2 /\
    ((p' = p /\ (e <> None \/ om_DeletionTimestamp (meta_of p) <> None))
     \/ exists child e0, chr_ReflectChildStatusOnParentWithError r p child e0 = Ret (p', e));
  run_Sync_calls : forall P `{Reconciled P} T (sync : P -> P * list T * option err) w p w' p' e,
    run_Sync sync w p = Ret (w', p', e) ->
    w'.2 = w.2 /\
    ((p' = p /\ om_DeletionTimestamp (meta_of p) <> None)
     \/ exists tracked, sync p = (p', tracked, e));
  Sequence_nil : forall P w (p : P), Sequence [] w p = Ret (w, p, None);
  Sequence_cons : forall P (r : SubReconciler (X * F) P) rs w p,
    Sequence (r :: rs) w p =
      outcome_bind (r w p) (fun '(w', p', e) =>
        match e with
        | Some _ => Ret (w', p', e)
        | None => Sequence rs w' p'
        end);
  WithFinalizer_live : forall P `{Reconciled P} f (r : SubReconciler (X * F) P) w p w' p' e,
    om_DeletionTimestamp (meta_of p) = None ->
    WithFinalizer f r w p = Ret (w', p', e) ->
    (w'.2 = w.2 /\ p' = p /\ e <> None)
    \/ exists w1 p1, w1.2 = w.2 /\ same_but_finalizers p p1 /\ f ∈ om_Finalizers (meta_of p1)
         /\ r w1 p1 = Ret (w', p', e);
  WithFinalizer_terminating : forall P `{Reconciled P} f (r : SubReconciler (X * F) P) w p w' p' e,
    om_DeletionTimestamp (meta_of p) <> None ->
    WithFinalizer f r w p = Ret (w', p', e) ->
    exists w1 p1 e1, r w p = Ret (w1, p1, e1) /\ w'.2 = w1.2
      /\ (e1 <> None -> w' = w1 /\ p' = p1 /\ e = e1)
      /\ (e1 = None -> same_but_finalizers p1 p');
}.
