(* ===== verification/Rbac.v ===== *)
(** * internal/controller: the ClusterRoles of duck types and of ducks

    DuckClusterRoleChildSetReconciler gives every DuckType two aggregate roles,
    DuckReconcilerClusterRoleChildSetReconciler gives every Duck two roles with
    the rules for the resource it marks, labelled so that the aggregates select
    them. *)

From S2P Require Import Prelude Platform Reference ApiV1 Webhook Runtime.

#[local] Open Scope go_scope.

Definition label_type : string := "ducks.reconciler.io/type".
Definition label_role : string := "ducks.reconciler.io/role".

(** ** DuckClusterRoleChildSetReconciler *)

(** One element of the [children] literal; the two differ in the role. *)
Definition DuckType_aggregate_role (name role : string) : ClusterRole :=
  MkClusterRole
    (meta_set_Labels {[ label_type := name ]}
       (meta_named ("reconcilerio-ducks-" +:+ name +:+ "-" +:+ role)))
    []
    (Some (MkAggregationRule
             [MkLabelSelector (<[ label_type := name ]> {[ label_role := role ]})])).

Section reconcilers.
Context `{Schema} `{MetaLib} `{ErrorLib} `{!ChildSetLib} `{ConditionLib}.

Definition DuckType_DesiredChildren (resource : DuckType) : result err (list ClusterRole) :=
  Ok [DuckType_aggregate_role (dt_Name resource) "view";
      DuckType_aggregate_role (dt_Name resource) "edit"].

Definition ClusterRole_IdentifyChild (child : ClusterRole) : string := cr_Name child.

Definition ClusterRole_HarmonizeImmutableFields (current desired : ClusterRole) : ClusterRole :=
  match cr_AggregationRule desired with
  | Some _ => MkClusterRole (cr_ObjectMeta desired) (cr_Rules current) (cr_AggregationRule desired)
  | None => desired
  end.

Definition ClusterRole_MergeBeforeUpdate (current desired : ClusterRole) : ClusterRole :=
  MkClusterRole (meta_set_Labels (cr_Labels desired) (cr_ObjectMeta current))
    (cr_Rules desired) (cr_AggregationRule desired).

Definition DuckType_ReflectChildrenStatus (now : Z) (parent : DuckType) (result : ChildSetResult)
    : DuckType * option err :=
  match AggregateError result with
  | Some e =>
      if IsInvalid e then
        (dt_MarkFalse now DuckTypeConditionRBAC "Invalid" (ReasonForError e) parent, None)
      else if IsAlreadyExists e then
        (dt_MarkFalse now DuckTypeConditionRBAC "AlreadyExists" (ReasonForError e) parent, None)
      else
        (dt_MarkUnknown now DuckTypeConditionRBAC "Unknown" "" parent, Some e)
  | None => (dt_MarkTrue now DuckTypeConditionRBAC "Defined" "" parent, None)
  end.

Definition DuckClusterRoleChildSetReconciler (now : Z) : ChildSetReconciler DuckType ClusterRole :=
  MkChildSetReconciler
    DuckType_DesiredChildren
    ClusterRole_IdentifyChild
    ClusterRole_HarmonizeImmutableFields
    ClusterRole_MergeBeforeUpdate
    (DuckType_ReflectChildrenStatus now).

(** ** DuckReconcilerClusterRoleChildSetReconciler *)

(** What the callbacks of the duck reconciler use of reconcilers.Config. *)
Record Config := MkConfig {
  cfg_GroupVersionKindFor : Duck -> result err GroupVersionKind;
  cfg_RESTMapping : GroupKind -> string -> result err GroupVersionResource;
  cfg_ServerResourcesForGroupVersion : string -> result err (list APIResource);
}.

(** One element of the [children] literal: the two differ in the role and in
    the verbs. *)
Definition Duck_role (resource : Duck) (gvk : GroupVersionKind) (mapping : GroupVersionResource)
    (role : string) (verbs : list string) : ClusterRole :=
  let gr := ParseGroupResource (d_Name resource) in
  let type := gr_String (gvr_GroupResource mapping) in
  MkClusterRole
    (meta_set_OwnerReferences [NewControllerRef (d_ObjectMeta resource) gvk]
       (meta_set_Labels (<[ label_type := type ]> {[ label_role := role ]})
          (meta_named ("reconcilerio-ducks-" +:+ type +:+ "-" +:+ d_Name resource +:+ "-" +:+ role))))
    [MkPolicyRule [gr_Group gr] [gr_Resource gr] verbs]
    None.

Definition view_verbs : list string := ["get"; "list"; "watch"].
Definition edit_verbs : list string := ["get"; "list"; "watch"; "patch"].

Definition Duck_DesiredChildren (c : Config) (resource : Duck) : result err (list ClusterRole) :=
  let? gvk := cfg_GroupVersionKindFor c resource in
  let? mapping := cfg_RESTMapping c (gvk_GroupKind gvk) (gvk_Version gvk) in
  Ok [Duck_role resource gvk mapping "view" view_verbs;
      Duck_role resource gvk mapping "edit" edit_verbs].

Definition Duck_ReflectChildrenStatus (now : Z) (parent : Duck) (result : ChildSetResult)
    : Duck * option err :=
  match AggregateError result with
  | Some e =>
      if IsInvalid e then
        (d_MarkFalse now DuckConditionRBAC "Invalid" (ReasonForError e) parent, None)
      else if IsAlreadyExists e then
        (d_MarkFalse now DuckConditionRBAC "AlreadyExists" (ReasonForError e) parent, None)
      else
        (d_MarkUnknown now DuckConditionRBAC "Unknown" "" parent, Some e)
  | None => (d_MarkTrue now DuckConditionRBAC "Defined" "" parent, None)
  end.

Definition DuckReconcilerClusterRoleChildSetReconciler (c : Config) (now : Z)
    : ChildSetReconciler Duck ClusterRole :=
  MkChildSetReconciler
    (Duck_DesiredChildren c)
    ClusterRole_IdentifyChild
    ClusterRole_HarmonizeImmutableFields
    ClusterRole_MergeBeforeUpdate
    (Duck_ReflectChildrenStatus now).
End reconcilers.

Arguments Config {_}.
Arguments MkConfig {_} _ _ _.

(** ** What the cluster makes of the roles

    The aggregation controller of Kubernetes is a parameter: from the
    ClusterRoles of the cluster, which are stored by name, it computes the
    rules of an aggregate role. *)

Definition selector_matches (s : LabelSelector) (labels : gmap string string) : bool :=
  bool_decide (map_Forall (fun k v => labels !! k = Some v) (ls_MatchLabels s)).

Definition aggregates (agg role : ClusterRole) : bool :=
  match cr_AggregationRule agg with
  | Some ar => existsb (fun s => selector_matches s (cr_Labels role)) (ar_ClusterRoleSelectors ar)
  | None => false
  end.

Class AggregationLib := {
  effective_rules : gmap string ClusterRole -> ClusterRole -> list PolicyRule;
}.

(** "The control plane overwrites any values that you manually specify in the
    rules field of an aggregate ClusterRole": they are the rules of the
    ClusterRoles one of its label selectors matches. *)
Class AggregationLaws `{!AggregationLib} := {
  effective_rules_spec : forall cluster agg x,
    is_Some (cr_AggregationRule agg) ->
    x ∈ effective_rules cluster agg
    <-> exists k r, cluster !! k = Some r /\ aggregates agg r = true /\ x ∈ cr_Rules r;
}.

(** A rule lets its holder do a verb on a resource of a group. *)
Definition rule_allows (verb group resource : string) (r : PolicyRule) : Prop :=
  verb ∈ pr_Verbs r /\ group ∈ pr_APIGroups r /\ resource ∈ pr_Resources r.

Definition rules_allow (verb group resource : string) (rs : list PolicyRule) : Prop :=
  Exists (rule_allows verb group resource) rs.

(** ** Lemmas *)

Lemma labels_distinct : label_type <> label_role.
Proof. done. Qed.

Lemma aggregate_selects name role labels :
  existsb (fun s => selector_matches s labels)
    [MkLabelSelector (<[ label_type := name ]> {[ label_role := role ]})] = true
  <-> labels !! label_type = Some name /\ labels !! label_role = Some role.
Proof.
  simpl. rewrite orb_false_r. unfold selector_matches. rewrite bool_decide_eq_true. simpl.
  rewrite map_Forall_insert by (by rewrite lookup_singleton_ne).
  by rewrite map_Forall_singleton.
Qed.

Lemma type_aggregates_iff name role r :
  aggregates (DuckType_aggregate_role name role) r = true
  <-> cr_Labels r !! label_type = Some name /\ cr_Labels r !! label_role = Some role.
Proof. apply aggregate_selects. Qed.

(** An aggregate role carries no role label, so no aggregate selects it. *)
Lemma aggregate_not_aggregated name role name' role' :
  aggregates (DuckType_aggregate_role name role) (DuckType_aggregate_role name' role') = false.
Proof.
  apply not_true_iff_false. rewrite type_aggregates_iff. intros [_ Hr].
  change (cr_Labels _) with ({[ label_type := name' ]} : gmap string string) in Hr.
  by rewrite lookup_singleton_ne in Hr by done.
Qed.

Section role_lemmas.
Context `{Schema} `{MetaLib}.

Lemma Duck_role_labels resource gvk mapping role verbs :
  cr_Labels (Duck_role resource gvk mapping role verbs)
  = <[ label_type := gr_String (gvr_GroupResource mapping) ]> {[ label_role := role ]}.
Proof. done. Qed.

Lemma type_aggregates_duck name role resource gvk mapping role' verbs :
  aggregates (DuckType_aggregate_role name role) (Duck_role resource gvk mapping role' verbs) = true
  <-> name = gr_String (gvr_GroupResource mapping) /\ role = role'.
Proof.
  rewrite type_aggregates_iff, Duck_role_labels, lookup_insert_eq.
  rewrite lookup_insert_ne, lookup_singleton_eq by done. naive_solver.
Qed.
(** *** Names of the roles *)

Definition verbs_of (role : string) : list string :=
  if String.eqb role "view" then view_verbs else edit_verbs.

Definition duck_role_name (d : Duck) (mapping : GroupVersionResource) (role : string) : string :=
  cr_Name (Duck_role d (MkGVK "" "" "") mapping role (verbs_of role)).

Lemma role_suffix_inj (a b r r' : string) :
  r = "view" \/ r = "edit" -> r' = "view" \/ r' = "edit" ->
  a +:+ "-" +:+ r = b +:+ "-" +:+ r' -> a = b /\ r = r'.
Proof.
  intros Hr Hr' Heq. apply string_app_inj_length in Heq as [-> Heq].
  - by apply string_app_inj_l in Heq.
  - by destruct Hr as [-> | ->], Hr' as [-> | ->].
Qed.

(** The names of the roles of ducks determine duck type, duck and role when the
    names of the duck types contain no dash. *)
Lemma duck_role_name_inj (d1 d2 : Duck) (m1 m2 : GroupVersionResource) (r1 r2 : string) :
  let t1 := gr_String (gvr_GroupResource m1) in
  let t2 := gr_String (gvr_GroupResource m2) in
  r1 = "view" \/ r1 = "edit" -> r2 = "view" \/ r2 = "edit" ->
  has_byte dash t1 = false -> has_byte dash t2 = false ->
  duck_role_name d1 m1 r1 = duck_role_name d2 m2 r2 ->
  t1 = t2 /\ d_Name d1 = d_Name d2 /\ r1 = r2.
Proof.
  intros t1 t2 Hr1 Hr2 H1 H2 Heq.
  cbn -[String.append] in Heq. apply string_app_inj_l in Heq.
  apply split_first_inj in Heq as [Ht Hn]; [|done|done].
  apply role_suffix_inj in Hn as [Hn Hr]; done.
Qed.

(** A duck's role never has the name of an aggregate then. *)
Lemma duck_role_name_not_aggregate (d : Duck) (m : GroupVersionResource) (r t2 r2 : string) :
  r2 = "view" \/ r2 = "edit" ->
  has_byte dash (gr_String (gvr_GroupResource m)) = false -> has_byte dash t2 = false ->
  duck_role_name d m r <> cr_Name (DuckType_aggregate_role t2 r2).
Proof.
  intros Hr2 H1 H2 Heq. cbn -[String.append] in Heq. apply string_app_inj_l in Heq.
  apply split_first_inj in Heq as [Ht Hn]; [|done|done].
  apply (f_equal (has_byte dash)) in Hn. rewrite has_byte_app in Hn.
  destruct Hr2 as [-> | ->]; simpl in Hn; by rewrite orb_true_r in Hn.
Qed.

Lemma aggregate_role_name_inj (t1 t2 r1 r2 : string) :
  r1 = "view" \/ r1 = "edit" -> r2 = "view" \/ r2 = "edit" ->
  cr_Name (DuckType_aggregate_role t1 r1) = cr_Name (DuckType_aggregate_role t2 r2) ->
  t1 = t2 /\ r1 = r2.
Proof.
  intros Hr1 Hr2 Heq. cbn -[String.append] in Heq. apply string_app_inj_l in Heq.
  by apply role_suffix_inj.
Qed.
End role_lemmas.

(** ** Theorems *)

Section rbac_theorems.
Context `{Schema} `{MetaLib} `{ErrorLib} `{!ChildSetLib} `{ConditionLib}.

(** A duck's two roles, as the duck reconciler desires them. *)
Definition duck_roles (c : Config) (d : Duck) : list ClusterRole :=
  match Duck_DesiredChildren c d with Ok rs => rs | Err _ => [] end.

(** A duck type's two aggregate roles. *)
Definition ducktype_roles (t : DuckType) : list ClusterRole :=
  match DuckType_DesiredChildren t with Ok rs => rs | Err _ => [] end.

(** The ClusterRoles the two reconcilers keep for the ducks [ds] and the duck
    types [ts], by name, as the API server stores them: of two roles with the
    same name there is only one. *)
Definition desired_roles (c : Config) (ds : list Duck) (ts : list DuckType) : list ClusterRole :=
  flat_map (duck_roles c) ds ++ flat_map ducktype_roles ts.

Definition cluster_roles (c : Config) (ds : list Duck) (ts : list DuckType)
    : gmap string ClusterRole :=
  list_to_map (map (fun r => (cr_Name r, r)) (desired_roles c ds ts)).

(** The resource name of the duck type a duck belongs to. *)
Definition duck_type_of (c : Config) (d : Duck) : option string :=
  match cfg_GroupVersionKindFor c d with
  | Ok gvk => match cfg_RESTMapping c (gvk_GroupKind gvk) (gvk_Version gvk) with
              | Ok m => Some (gr_String (gvr_GroupResource m))
              | Err _ => None
              end
  | Err _ => None
  end.

Lemma duck_roles_in c d x :
  In x (duck_roles c d) ->
  exists gvk m role, cfg_GroupVersionKindFor c d = Ok gvk
    /\ cfg_RESTMapping c (gvk_GroupKind gvk) (gvk_Version gvk) = Ok m
    /\ (role = "view" \/ role = "edit") /\ x = Duck_role d gvk m role (verbs_of role).
Proof.
  unfold duck_roles, Duck_DesiredChildren.
  destruct (cfg_GroupVersionKindFor c d) as [gvk|] eqn:Hk; simpl; [|done].
  destruct (cfg_RESTMapping c _ _) as [m|] eqn:Hm; simpl; [|done].
  intros [<-|[<-|[]]]; eauto 10.
Qed.

Lemma duck_roles_of_type c d name role :
  role = "view" \/ role = "edit" -> duck_type_of c d = Some name ->
  exists gvk m, In (Duck_role d gvk m role (verbs_of role)) (duck_roles c d)
    /\ name = gr_String (gvr_GroupResource m).
Proof.
  unfold duck_roles, Duck_DesiredChildren, duck_type_of. intros Hrole Ht.
  destruct (cfg_GroupVersionKindFor c d) as [gvk|]; simpl in *; [|done].
  destruct (cfg_RESTMapping c _ _) as [m|]; simpl in *; [|done].
  exists gvk, m. destruct Hrole as [-> | ->]; simpl; naive_solver.
Qed.

Lemma ducktype_roles_in t x :
  In x (ducktype_roles t) <->
  exists role, (role = "view" \/ role = "edit") /\ x = DuckType_aggregate_role (dt_Name t) role.
Proof. simpl. naive_solver. Qed.

Lemma desired_roles_in c ds ts x :
  x ∈ desired_roles c ds ts <->
  (exists d, d ∈ ds /\ In x (duck_roles c d))
  \/ exists t role, t ∈ ts /\ (role = "view" \/ role = "edit")
       /\ x = DuckType_aggregate_role (dt_Name t) role.
Proof.
  unfold desired_roles. rewrite list_elem_of_In, in_app_iff, !in_flat_map.
  setoid_rewrite ducktype_roles_in. setoid_rewrite list_elem_of_In. naive_solver.
Qed.

(** What keeps the names apart: every duck belongs to one of the duck types,
    whose names have no dash, and ducks of one type have different names. *)
Record apart (c : Config) (ds : list Duck) (ts : list DuckType) : Prop := {
  apart_dash : forall t, t ∈ ts -> has_byte dash (dt_Name t) = false;
  apart_type : forall d n, d ∈ ds -> duck_type_of c d = Some n -> exists t, t ∈ ts /\ dt_Name t = n;
  apart_name : forall d d', d ∈ ds -> d' ∈ ds -> duck_type_of c d = duck_type_of c d' ->
    d_Name d = d_Name d' -> d = d';
}.

Lemma apart_duck_role c ds ts d x :
  apart c ds ts -> d ∈ ds -> In x (duck_roles c d) ->
  exists gvk m role, cfg_GroupVersionKindFor c d = Ok gvk
    /\ cfg_RESTMapping c (gvk_GroupKind gvk) (gvk_Version gvk) = Ok m
    /\ duck_type_of c d = Some (gr_String (gvr_GroupResource m))
    /\ (role = "view" \/ role = "edit") /\ x = Duck_role d gvk m role (verbs_of role)
    /\ has_byte dash (gr_String (gvr_GroupResource m)) = false.
Proof.
  intros Ha Hd Hx. destruct (duck_roles_in c d x Hx) as (gvk & m & role & Hk & Hm & Hr & ->).
  assert (Ht : duck_type_of c d = Some (gr_String (gvr_GroupResource m)))
    by (unfold duck_type_of; by rewrite Hk, Hm).
  destruct (apart_type _ _ _ Ha d _ Hd Ht) as (t & Hin & Hn).
  exists gvk, m, role. split_and!; try done. rewrite <- Hn. by apply (apart_dash _ _ _ Ha).
Qed.

Lemma desired_roles_names c ds ts x y :
  apart c ds ts -> x ∈ desired_roles c ds ts -> y ∈ desired_roles c ds ts ->
  cr_Name x = cr_Name y -> x = y.
Proof.
  intros Ha [(d & Hd & Hx)|(t & r & Ht & Hr & ->)]%desired_roles_in
    [(d' & Hd' & Hy)|(t' & r' & Ht' & Hr' & ->)]%desired_roles_in Heq.
  - apply (apart_duck_role _ _ _ _ _ Ha Hd) in Hx as (gvk & m & r & Hk & Hm & Hty & Hr & -> & Hdash).
    apply (apart_duck_role _ _ _ _ _ Ha Hd') in Hy as (gvk' & m' & r' & Hk' & Hm' & Hty' & Hr' & -> & Hdash').
    destruct (duck_role_name_inj d d' m m' r r') as (Ht & Hn & ->); [done..|].
    assert (d = d') as <- by (eapply (apart_name _ _ _ Ha); congruence). congruence.
  - apply (apart_duck_role _ _ _ _ _ Ha Hd) in Hx as (gvk & m & r & Hk & Hm & Hty & Hr & -> & Hdash).
    destruct (duck_role_name_not_aggregate d m r (dt_Name t') r' Hr' Hdash); [|done].
    by apply (apart_dash _ _ _ Ha).
  - apply (apart_duck_role _ _ _ _ _ Ha Hd') in Hy as (gvk & m & r' & Hk & Hm & Hty & Hr' & -> & Hdash).
    destruct (duck_role_name_not_aggregate d' m r' (dt_Name t) r Hr Hdash); [|done].
    by apply (apart_dash _ _ _ Ha).
  - by destruct (aggregate_role_name_inj (dt_Name t) (dt_Name t') r r') as [-> ->].
Qed.

(** With the names apart the cluster holds every desired role. *)
Lemma cluster_roles_lookup c ds ts k x :
  apart c ds ts ->
  cluster_roles c ds ts !! k = Some x <-> k = cr_Name x /\ x ∈ desired_roles c ds ts.
Proof.
  intros Ha. unfold cluster_roles. split.
  - intros Hk%elem_of_list_to_map_2. apply list_elem_of_fmap in Hk as (y & [= -> ->] & Hy). done.
  - intros [-> Hx]. apply elem_of_list_to_map_1'.
    + intros y Hy. apply list_elem_of_fmap in Hy as (z & [= Hn ->] & Hz).
      by eapply desired_roles_names.
    + apply list_elem_of_fmap. by exists x.
Qed.

Lemma effective_rules_in `{!AggregationLib} `{!AggregationLaws} c ds ts name role x :
  apart c ds ts -> role = "view" \/ role = "edit" ->
  x ∈ effective_rules (cluster_roles c ds ts) (DuckType_aggregate_role name role) <->
  exists d, d ∈ ds /\ duck_type_of c d = Some name
    /\ x = MkPolicyRule [gr_Group (ParseGroupResource (d_Name d))]
            [gr_Resource (ParseGroupResource (d_Name d))] (verbs_of role).
Proof.
  intros Ha Hrole. rewrite effective_rules_spec by (by eexists). split.
  - intros (k & y & Hk & Hagg & Hx). apply cluster_roles_lookup in Hk as [-> Hy]; [|done].
    apply desired_roles_in in Hy as [(d & Hd & Hy)|(t & r & _ & _ & ->)];
      [|by rewrite aggregate_not_aggregated in Hagg].
    apply (apart_duck_role _ _ _ _ _ Ha Hd) in Hy as (gvk & m & r & Hk & Hm & Hty & Hr & -> & _).
    apply type_aggregates_duck in Hagg as [-> ->]. exists d.
    apply list_elem_of_singleton in Hx. done.
  - intros (d & Hd & Ht & ->).
    destruct (duck_roles_of_type c d name role Hrole Ht) as (gvk & m & Hin & Hname).
    exists (cr_Name (Duck_role d gvk m role (verbs_of role))), (Duck_role d gvk m role (verbs_of role)).
    split_and!; [|by apply type_aggregates_duck|by apply list_elem_of_singleton].
    apply cluster_roles_lookup; [done|]. split; [done|]. apply desired_roles_in. eauto.
Qed.

(** C7: in a cluster that holds, by name, the roles the two reconcilers desire
    for the duck types [ts] and the ducks [ds], the view and edit roles of a
    duck type exist under reconcilerio-ducks-<type>-view and -edit, and the
    rules the aggregation controller gives them grant exactly read access
    (view) or read access and patch (edit) to the resources marked by the ducks
    of that type: a request is allowed iff its verb is one of the role's and a
    duck of the type names the resource.  Other duck types' ducks and the
    aggregate roles themselves contribute nothing.  This is for duck types
    whose names have no dash, ducks that belong to one of them, and ducks of
    one type with different names ([apart]); with a dash names can collide. *)
Theorem aggregate_role_grants `{!AggregationLib} `{!AggregationLaws} (c : Config)
    (ds : list Duck) (ts : list DuckType) (t : DuckType) (role verb group resource : string) :
  apart c ds ts -> t ∈ ts -> role = "view" \/ role = "edit" ->
  exists agg,
    cluster_roles c ds ts !! ("reconcilerio-ducks-" +:+ dt_Name t +:+ "-" +:+ role) = Some agg
    /\ (rules_allow verb group resource (effective_rules (cluster_roles c ds ts) agg) <->
        verb ∈ (if String.eqb role "view" then ["get"; "list"; "watch"]
                else ["get"; "list"; "watch"; "patch"])
        /\ exists d, d ∈ ds /\ duck_type_of c d = Some (dt_Name t)
             /\ ParseGroupResource (d_Name d) = MkGR group resource).
Proof.
  intros Ha Hin Hrole. exists (DuckType_aggregate_role (dt_Name t) role). split.
  { apply cluster_roles_lookup; [done|]. split; [done|]. apply desired_roles_in. eauto 10. }
  unfold rules_allow. rewrite Exists_exists. setoid_rewrite effective_rules_in; [|done..].
  change (if String.eqb role "view" then _ else _) with (verbs_of role).
  unfold rule_allows. split.
  - intros (x & (d & Hd & Ht & ->) & Hv & Hg & Hr). simpl in *.
    rewrite list_elem_of_singleton in Hg, Hr. split; [done|]. exists d.
    destruct (ParseGroupResource (d_Name d)). simpl in *. by subst.
  - intros (Hv & d & Hd & Ht & Hp). eexists. split; [by eauto|].
    simpl. rewrite Hp. simpl. split; [done|]. by rewrite !list_elem_of_singleton.
Qed.

(** Reflecting the result of the ClusterRole children on a DuckType.  Only
    the status changes.  RBAC becomes true iff the children have no aggregate
    error, the other condition is untouched, and Ready is true afterwards iff
    there is no error and the CustomResourceDefinition was established.
    Invalid and AlreadyExists errors are reported in the status and not
    returned; every other error is returned, so that the request is retried. *)
Theorem ducktype_rbac_reflect `{!ConditionLaws} (now : Z) (parent : DuckType)
    (result : ChildSetResult) :
  let '(parent', e) := DuckType_ReflectChildrenStatus now parent result in
  let failed := match AggregateError result with Some _ => true | None => false end in
  dt_marked parent parent' DuckTypeConditionRBAC
    DuckTypeConditionCustomResourceDefinitionEstablished (negb failed)
  /\ e = match AggregateError result with
         | Some e0 => if IsInvalid e0 || IsAlreadyExists e0 then None else Some e0
         | None => None
         end.
Proof.
  unfold DuckType_ReflectChildrenStatus.
  destruct (AggregateError result) as [e0|]; [|by split; [apply dt_Mark_effect; left|]].
  destruct (IsInvalid e0); [|destruct (IsAlreadyExists e0)];
    (split; [apply dt_Mark_effect; by left|done]).
Qed.

(** The same for the children of a Duck, with Available as the other
    condition. *)
Theorem duck_rbac_reflect `{!ConditionLaws} (now : Z) (parent : Duck) (result : ChildSetResult) :
  let '(parent', e) := Duck_ReflectChildrenStatus now parent result in
  let failed := match AggregateError result with Some _ => true | None => false end in
  d_marked parent parent' DuckConditionRBAC DuckConditionAvailable (negb failed)
  /\ e = match AggregateError result with
         | Some e0 => if IsInvalid e0 || IsAlreadyExists e0 then None else Some e0
         | None => None
         end.
Proof.
  unfold Duck_ReflectChildrenStatus.
  destruct (AggregateError result) as [e0|]; [|by split; [apply d_Mark_effect; left|]].
  destruct (IsInvalid e0); [|destruct (IsAlreadyExists e0)];
    (split; [apply d_Mark_effect; by left|done]).
Qed.

(** One update of an existing ClusterRole by the object manager. *)
Definition ClusterRole_sync (current desired : ClusterRole) : ClusterRole :=
  ClusterRole_MergeBeforeUpdate current (ClusterRole_HarmonizeImmutableFields current desired).

(** Updating a ClusterRole converges in one step: afterwards labels and
    aggregation rule are the desired ones, the rules are the desired ones
    unless the role is an aggregate (then the ones the cluster computed are
    kept), identity and ownership are untouched, and a second update changes
    nothing. *)
Theorem clusterrole_update_converges (current desired : ClusterRole) :
  let current' := ClusterRole_sync current desired in
  ClusterRole_sync current' desired = current'
  /\ cr_Labels current' = cr_Labels desired
  /\ cr_AggregationRule current' = cr_AggregationRule desired
  /\ cr_Rules current' = (if cr_AggregationRule desired is Some _ then cr_Rules current
                          else cr_Rules desired)
  /\ meta_set_Labels ∅ (cr_ObjectMeta current') = meta_set_Labels ∅ (cr_ObjectMeta current).
Proof.
  destruct current as [m rs a], desired as [m' rs' [a'|]];
    unfold ClusterRole_sync, ClusterRole_MergeBeforeUpdate, ClusterRole_HarmonizeImmutableFields;
    by split_and!.
Qed.
End rbac_theorems.

(** C36: without that condition the names collide: the duck r.s of the duck type
    p.g-q and the duck q-r.s of the duck type p.g are both valid, belong to
    different duck types, mark different resources, and their view roles have
    the same name, so each reconciler overwrites the other's rules. *)
Theorem duck_role_name_collision :
  let d n g := MkDuck (MkTypeMeta "" "") (meta_named n) (MkDuckSpec g "v1" "R")
                 (MkDuckStatus (MkStatus 0 [])) in
  let m1 := MkGVR "g" "v1" "p" in
  let m2 := MkGVR "g-q" "v1" "p" in
  duck_ok (d "q-r.s" "s") /\ duck_ok (d "r.s" "s")
  /\ @duck_role_name ref_schema ref_meta (d "q-r.s" "s") m1 "view"
     = @duck_role_name ref_schema ref_meta (d "r.s" "s") m2 "view"
  /\ @cr_Rules (@Duck_role ref_schema ref_meta (d "q-r.s" "s") (MkGVK "g" "v1" "P") m1 "view" view_verbs)
     <> @cr_Rules (@Duck_role ref_schema ref_meta (d "r.s" "s") (MkGVK "g-q" "v1" "P") m2 "view" view_verbs).
Proof.
  split_and!; [| |by vm_compute|by vm_compute].
  - unfold duck_ok; simpl; split_and!; try done. by exists "q-r".
  - unfold duck_ok; simpl; split_and!; try done. by exists "r".
Qed.

(** ** Witnesses *)

(** A cluster with one duck type, widgets.example.com. *)
Definition w_config : @Config ref_errors :=
  @MkConfig ref_errors (fun _ => Ok (MkGVK "example.com" "v1" "Widget"))
    (fun _ v => Ok (MkGVR "example.com" v "widgets"))
    (fun q => if String.eqb q "apps/v1"
              then Ok [MkAPIResource "deployments" "Deployment"; MkAPIResource "replicasets" "ReplicaSet"]
              else Err (api_error "NotFound")).

Definition w_childset : @ChildSetLib ref_errors :=
  @Build_ChildSetLib ref_errors (option (error ref_api_error)) id.

(** An aggregation controller: the rules of the selected roles, in the order
    of the map. *)
#[local] Instance w_aggregation : AggregationLib :=
  {| effective_rules cluster agg :=
       flat_map cr_Rules (List.filter (aggregates agg) (map snd (map_to_list cluster))) |}.

#[local] Instance w_aggregation_laws : AggregationLaws.
Proof.
  constructor. intros cluster agg x _. simpl. rewrite list_elem_of_In, in_flat_map.
  setoid_rewrite filter_In. setoid_rewrite in_map_iff. split.
  - intros (r & [([k r'] & <- & Hk) Hagg] & Hx). exists k, r'.
    by rewrite <- elem_of_map_to_list, !list_elem_of_In.
  - intros (k & r & Hk & Hagg & Hx). exists r. rewrite <- list_elem_of_In. split; [|done].
    split; [|done]. exists (k, r). by rewrite <- list_elem_of_In, elem_of_map_to_list.
Qed.

Lemma w_apart : @apart ref_schema ref_errors w_config [w_duck] [w_ducktype].
Proof.
  constructor.
  - intros t ->%list_elem_of_singleton. reflexivity.
  - intros d n ->%list_elem_of_singleton [= <-]. exists w_ducktype. by rewrite list_elem_of_singleton.
  - by intros d d' ->%list_elem_of_singleton ->%list_elem_of_singleton.
Qed.

Lemma aggregate_role_grants_witness :
  exists agg,
    @cluster_roles ref_schema ref_meta ref_errors w_config [w_duck] [w_ducktype]
      !! ("reconcilerio-ducks-" +:+ "widgets.example.com" +:+ "-" +:+ "edit") = Some agg
    /\ rules_allow "patch" "apps" "deployments"
         (effective_rules (@cluster_roles ref_schema ref_meta ref_errors w_config [w_duck] [w_ducktype])
            agg).
Proof.
  destruct (@aggregate_role_grants ref_schema ref_meta ref_errors w_aggregation w_aggregation_laws w_config
              [w_duck] [w_ducktype] w_ducktype "edit" "patch" "apps" "deployments" w_apart)
    as (agg & Hagg & Hallow); [by left|by right|].
  exists agg. split; [exact Hagg|]. apply Hallow. split; [repeat constructor|].
  exists w_duck. split; [by left|]. split; vm_compute; reflexivity.
Defined.

Lemma ducktype_rbac_reflect_witness :
  let '(parent', e) := @DuckType_ReflectChildrenStatus ref_errors w_childset ref_conditions 5 w_ducktype
                         (Some (api_error "Timeout")) in
  @dt_marked ref_conditions w_ducktype parent' DuckTypeConditionRBAC
    DuckTypeConditionCustomResourceDefinitionEstablished false
  /\ e = Some (api_error "Timeout").
Proof.
  exact (@ducktype_rbac_reflect ref_errors w_childset ref_conditions ref_conditions_laws 5 w_ducktype
           (Some (api_error "Timeout"))).
Defined.

Lemma duck_rbac_reflect_witness :
  let '(parent', e) := @Duck_ReflectChildrenStatus ref_errors w_childset ref_conditions 5 w_duck None in
  @d_marked ref_conditions w_duck parent' DuckConditionRBAC DuckConditionAvailable true /\ e = None.
Proof.
  exact (@duck_rbac_reflect ref_errors w_childset ref_conditions ref_conditions_laws 5 w_duck None).
Defined.
