(* ===== verification/ReadyCheck.v ===== *)
(** * internal/controller: DuckReconcilerReadyCheck

    The sub-reconciler that decides whether the API a duck marks exists, by
    asking the discovery client for the resources of the duck's group and
    version. *)

From S2P Require Import Prelude Platform Reference ApiV1 Webhook Runtime Rbac.

(** The references given to the tracker, in the order of the calls; their
    errors are ignored by the code. *)
Inductive TrackedRef :=
| TrackCustomResourceDefinition (name : string)
| TrackAPIService (name : string).

Section ready_check.
Context `{GoUnicode} `{Schema} `{ErrorLib} `{ConditionLib}.

(** The loop over [resources.APIResources] and the mark after it. *)
Fixpoint ready_check_loop (now : Z) (gvr : GroupVersionResource) (resource : Duck)
    (rs : list APIResource) : Duck :=
  match rs with
  | [] => d_MarkFalse now DuckConditionAvailable "NotFound" "" resource
  | apiResource :: rs' =>
      if String.eqb (d_Name resource) (gr_String (MkGR (gvr_Group gvr) (ares_Name apiResource))) then
        if negb (String.eqb (ares_Name apiResource +:+ "." +:+ ds_Group (d_Spec resource))
                            (d_Name resource))
        then d_MarkFalse now DuckConditionAvailable "Invalid"
               ".spec.group does not match resolved resource" resource
        else if negb (String.eqb (ares_Kind apiResource) (ds_Kind (d_Spec resource)))
        then d_MarkFalse now DuckConditionAvailable "Invalid"
               (".spec.kind does not match resolved kind " +:+ Quote (ares_Kind apiResource)) resource
        else d_MarkTrue now DuckConditionAvailable "Available" "" resource
      else ready_check_loop now gvr resource rs'
  end.

Definition DuckReconcilerReadyCheck_Sync (c : Config) (now : Z) (resource : Duck)
    : Duck * list TrackedRef * option err :=
  let gvr := Duck_GroupVersionResource resource in
  let tracked := [TrackCustomResourceDefinition (gr_String (gvr_GroupResource gvr));
                  TrackAPIService (gvr_Version gvr +:+ "." +:+ gvr_Group gvr)] in
  match cfg_ServerResourcesForGroupVersion c (gv_String (gvr_GroupVersion gvr)) with
  | Err e =>
      if IsNotFound e
      then (d_MarkFalse now DuckConditionAvailable "NotFound" "" resource, tracked, None)
      else (resource, tracked, Some e)
  | Ok resources => (ready_check_loop now gvr resource resources, tracked, None)
  end.
End ready_check.

(** ** Which ducks are available *)

Section ready_check_spec.
Context `{Schema} `{ErrorLib}.

(** The API server serves, in the duck's group and version, the resource the
    duck is named after, with the duck's kind. *)
Definition served (c : Config) (d : Duck) : Prop :=
  exists rs a, cfg_ServerResourcesForGroupVersion c
                 (gv_String (MkGV (ds_Group (d_Spec d)) (ds_Version (d_Spec d)))) = Ok rs
    /\ a ∈ rs /\ d_Name d = ares_Name a +:+ "." +:+ ds_Group (d_Spec d)
    /\ ares_Kind a = ds_Kind (d_Spec d).
End ready_check_spec.

Section ready_check_lemmas.
Context `{GoUnicode} `{Schema} `{ErrorLib} `{ConditionLib}.
Context `{!SchemaLaws} `{!ConditionLaws}.

Lemma Available_effect now reason msg (d : Duck) :
  d_marked d (d_MarkTrue now DuckConditionAvailable reason msg d)
    DuckConditionAvailable DuckConditionRBAC true
  /\ d_marked d (d_MarkFalse now DuckConditionAvailable reason msg d)
    DuckConditionAvailable DuckConditionRBAC false.
Proof. split; apply d_Mark_effect; by right. Qed.

(** The loop marks Available, one way or the other, and nothing else. *)
Lemma ready_check_loop_marks now gvr d rs :
  exists b, d_marked d (ready_check_loop now gvr d rs) DuckConditionAvailable DuckConditionRBAC b
    /\ (b = true <->
        exists a, List.find (fun a => String.eqb (d_Name d) (gr_String (MkGR (gvr_Group gvr) (ares_Name a)))) rs
                  = Some a
          /\ ares_Name a +:+ "." +:+ ds_Group (d_Spec d) = d_Name d
          /\ ares_Kind a = ds_Kind (d_Spec d)).
Proof.
  induction rs as [|a rs IH]; simpl.
  - exists false. split; [apply Available_effect|naive_solver].
  - destruct (String.eqb _ _); [|exact IH].
    destruct (String.eqb_spec (ares_Name a +:+ "." +:+ ds_Group (d_Spec d)) (d_Name d)); simpl;
      [destruct (String.eqb_spec (ares_Kind a) (ds_Kind (d_Spec d))); simpl|].
    + exists true. split; [apply Available_effect|naive_solver].
    + exists false. split; [apply Available_effect|naive_solver].
    + exists false. split; [apply Available_effect|naive_solver].
Qed.

(** A resource string that ends in the group was made with that group. *)
Lemma gr_String_group_eq (G n g : string) :
  gr_String (MkGR G n) = n +:+ "." +:+ g -> G = g.
Proof.
  destruct (decide (G = "")) as [->|HG].
  - rewrite gr_String_core. intros Heq. apply (f_equal String.length) in Heq.
    rewrite !string_length_app in Heq. simpl in Heq. lia.
  - rewrite gr_String_group by done. intros Heq.
    by apply string_app_inj_l, string_app_inj_l in Heq.
Qed.

Lemma Duck_gvr_eq (d : Duck) (r g : string) :
  d_Name d = r +:+ "." +:+ g -> has_byte dot r = false ->
  Duck_GroupVersionResource d = MkGVR g (ds_Version (d_Spec d)) r.
Proof.
  intros Hn Hr. unfold Duck_GroupVersionResource.
  by rewrite Hn, ParseGroupResource_dot, gr_WithVersion_eq.
Qed.
End ready_check_lemmas.

Section ready_check_theorems.
Context `{GoUnicode} `{Schema} `{ErrorLib} `{ConditionLib}.
Context `{!SchemaLaws} `{!ConditionLaws}.

(** What the check does to a duck when it does not return an error. *)
Lemma ready_check_marks (c : Config) (now : Z) (d d' : Duck) (tracked : list TrackedRef) :
  DuckReconcilerReadyCheck_Sync c now d = (d', tracked, None) ->
  exists b, d_marked d d' DuckConditionAvailable DuckConditionRBAC b /\ (b = true -> served c d).
Proof.
  unfold DuckReconcilerReadyCheck_Sync.
  destruct (cfg_ServerResourcesForGroupVersion c _) as [rs|e] eqn:Hq.
  - intros [= <- _].
    destruct (ready_check_loop_marks now (Duck_GroupVersionResource d) d rs) as (b & Hm & Hiff).
    exists b. split; [done|]. intros (a & Hfind & Hn & Hk)%Hiff. apply find_some in Hfind as [Hin Heq].
    apply String.eqb_eq in Heq. exists rs, a.
    assert (HG : gvr_Group (Duck_GroupVersionResource d) = ds_Group (d_Spec d)).
    { apply gr_String_group_eq with (n := ares_Name a). congruence. }
    split_and!; [|by apply list_elem_of_In|done|done].
    revert Hq HG. unfold Duck_GroupVersionResource.
    rewrite gr_WithVersion_eq, gvr_GroupVersion_eq. simpl. intros Hq HG. by rewrite HG in Hq.
  - destruct (IsNotFound e); [|done]. intros [= <- _]. exists false. split; [apply Available_effect|done].
Qed.

(** Soundness of availability: whenever the check leaves a duck Available
    without returning an error, the API server serves, under the group and
    version of the duck's spec, a resource of the duck's kind whose name is
    the duck's.  This needs no validation of the duck: a name whose group
    part differs from spec.group is never Available. *)
Theorem ready_check_sound (c : Config) (now : Z) (d d' : Duck) (tracked : list TrackedRef) :
  DuckReconcilerReadyCheck_Sync c now d = (d', tracked, None) ->
  Duck_is d' DuckConditionAvailable = true -> served c d.
Proof.
  intros (b & (_ & _ & _ & Hb & _) & Hs)%ready_check_marks Hav. apply Hs. congruence.
Qed.

(** C22: for a duck whose name is <resource>.<group> with its spec's group, the
    check reports exactly what discovery says: with resource names listed
    once, the duck becomes Available iff the API is served; RBAC and
    everything but the status are untouched and Ready follows.  If discovery
    answers NotFound the duck is not Available; any other discovery error is
    returned and leaves the duck as it was. *)
Theorem ready_check_complete (c : Config) (now : Z) (d : Duck) (r : string) :
  d_Name d = r +:+ "." +:+ ds_Group (d_Spec d) -> has_byte dot r = false ->
  ds_Group (d_Spec d) <> "" ->
  (forall q rs, cfg_ServerResourcesForGroupVersion c q = Ok rs -> NoDup (ares_Name <$> rs)) ->
  let '(d', tracked, e) := DuckReconcilerReadyCheck_Sync c now d in
  match cfg_ServerResourcesForGroupVersion c
          (gv_String (MkGV (ds_Group (d_Spec d)) (ds_Version (d_Spec d)))) with
  | Ok _ => e = None /\ exists b, (b = true <-> served c d)
              /\ d_marked d d' DuckConditionAvailable DuckConditionRBAC b
  | Err e0 => if IsNotFound e0
              then e = None /\ d_marked d d' DuckConditionAvailable DuckConditionRBAC false
              else e = Some e0 /\ d' = d
  end.
Proof.
  intros Hn Hr Hg Hnd. unfold DuckReconcilerReadyCheck_Sync.
  rewrite (Duck_gvr_eq d r (ds_Group (d_Spec d))) by done.
  rewrite gvr_GroupVersion_eq. simpl.
  destruct (cfg_ServerResourcesForGroupVersion c _) as [rs|e0] eqn:Hq.
  - split; [done|].
    destruct (ready_check_loop_marks now (MkGVR (ds_Group (d_Spec d)) (ds_Version (d_Spec d)) r) d rs)
      as (b & Hm & Hiff). exists b. split; [|done]. rewrite Hiff. simpl.
    split.
    + intros (a & [Hin _]%find_some & Hna & Hk). exists rs, a.
      split_and!; [done|by apply list_elem_of_In|done|done].
    + intros (rs' & a & Hq' & Hin & Hna & Hk). rewrite Hq in Hq'. injection Hq' as <-.
      exists a. split; [|done]. apply (find_unique ares_Name); [by eapply Hnd|done|].
      intros x. rewrite String.eqb_eq, gr_String_group, Hna by done. split.
      * by intros ?%string_app_inj_r.
      * by intros ->.
  - destruct (IsNotFound e0); [|done]. split; [done|apply Available_effect].
Qed.
End ready_check_theorems.

(** ** Witnesses *)

Lemma ready_check_sound_witness : @served ref_schema ref_errors w_config w_duck.
Proof.
  apply (@ready_check_sound ref_unicode ref_schema ref_errors ref_conditions ref_schema_laws
           ref_conditions_laws w_config 5 w_duck _ _ eq_refl).
  reflexivity.
Defined.

Lemma ready_check_complete_witness :
  let '(d', tracked, e) :=
    @DuckReconcilerReadyCheck_Sync ref_unicode ref_schema ref_errors ref_conditions w_config 5 w_duck in
  e = None /\ exists b, (b = true <-> @served ref_schema ref_errors w_config w_duck)
    /\ @d_marked ref_conditions w_duck d' DuckConditionAvailable DuckConditionRBAC b.
Proof.
  apply (@ready_check_complete ref_unicode ref_schema ref_errors ref_conditions ref_schema_laws
           ref_conditions_laws w_config 5 w_duck "deployments"); [reflexivity|reflexivity|done|].
  intros q rs. simpl. destruct (String.eqb q "apps/v1"); [|done]. intros [= <-].
  by apply (bool_decide_unpack _).
Defined.
