(* ===== verification/Crd.v ===== *)
(** * internal/controller: the CustomResourceDefinition of a duck type

    DuckCustomResourceDefinitionChildReconciler defines, for every DuckType, the
    custom resource its ducks are instances of, and reflects on the DuckType
    whether the API server has established it.  The file also has the JSON of a
    duck, by the tags of duck_types.go, and the meaning of the schema's keywords
    as laws of the API server's validator. *)

From S2P Require Import Prelude Platform Reference ApiV1 Webhook Runtime.

(** ** k8s.io/apiextensions-apiserver/pkg/apis/apiextensions/v1 *)

(** The fields of JSONSchemaProps the program sets.  Properties keep their
    order; Enum has the raw JSON of its values; Minimum is only ever a whole
    number. *)
Inductive JSONSchemaProps := MkSchema {
  js_Type : string;
  js_Format : string;
  js_Pattern : string;
  js_MaxLength : option Z;
  js_MinLength : option Z;
  js_Minimum : option Z;
  js_Enum : list string;
  js_Required : list string;
  js_Properties : list (string * JSONSchemaProps);
  js_Items : option JSONSchemaProps;
}.

Record CustomResourceDefinitionNames := MkNames {
  crn_Plural : string;
  crn_Singular : string;
  crn_Kind : string;
  crn_ListKind : string;
  crn_Categories : list string;
}.

Record CustomResourceColumnDefinition := MkColumn {
  col_JSONPath : string;
  col_Name : string;
  col_Type : string;
}.

Record CustomResourceDefinitionVersion := MkVersion {
  crv_Name : string;
  crv_Served : bool;
  crv_Storage : bool;
  crv_SelectableFields : list string;
  crv_StatusSubresource : bool;
  crv_AdditionalPrinterColumns : list CustomResourceColumnDefinition;
  crv_Schema : JSONSchemaProps;
}.

Record CustomResourceDefinitionSpec := MkCRDSpec {
  crs_Group : string;
  crs_Scope : string;
  crs_Names : CustomResourceDefinitionNames;
  crs_Versions : list CustomResourceDefinitionVersion;
  crs_Conversion : option string;
}.

Record CustomResourceDefinitionCondition := MkCRDCondition {
  crc_Type : string;
  crc_Status : string;
  crc_Reason : string;
  crc_Message : string;
}.

Record CustomResourceDefinition := MkCRD {
  crd_ObjectMeta : ObjectMeta;
  crd_Spec : CustomResourceDefinitionSpec;
  crd_Conditions : list CustomResourceDefinitionCondition;
}.

Definition ClusterScoped : string := "Cluster".
Definition NoneConverter : string := "None".
Definition Established : string := "Established".

(** ** The desired child *)

Definition sch_typed (t : string) : JSONSchemaProps :=
  MkSchema t "" "" None None None [] [] [] None.
Definition sch_object (required : list string) (ps : list (string * JSONSchemaProps))
    : JSONSchemaProps :=
  MkSchema "object" "" "" None None None [] required ps None.

(** The schema of [spec]. *)
Definition crd_spec_schema : JSONSchemaProps :=
  sch_object ["group"; "version"; "kind"]
    [("group", sch_typed "string"); ("version", sch_typed "string"); ("kind", sch_typed "string")].

Definition reason_pattern : string := "^[A-Za-z]([A-Za-z0-9_,:]*[A-Za-z0-9_])?$".
Definition type_pattern : string :=
  "^([a-z0-9]([-a-z0-9]*[a-z0-9])?(\.[a-z0-9]([-a-z0-9]*[a-z0-9])?)*/)?(([A-Za-z0-9][-A-Za-z0-9_.]*)?[A-Za-z0-9])$".

(** The schema of an item of [status.conditions]. *)
Definition crd_condition_schema : JSONSchemaProps :=
  sch_object ["lastTransitionTime"; "message"; "reason"; "status"; "type"]
    [("lastTransitionTime", MkSchema "string" "date-time" "" None None None [] [] [] None);
     ("message", MkSchema "string" "" "" (Some 32768%Z) None None [] [] [] None);
     ("observedGeneration", MkSchema "integer" "int64" "" None None (Some 0%Z) [] [] [] None);
     ("reason", MkSchema "string" "" reason_pattern (Some 1024%Z) (Some 1%Z) None [] [] [] None);
     ("status", MkSchema "string" "" "" None None None
        [dq +:+ "True" +:+ dq; dq +:+ "False" +:+ dq; dq +:+ "Unknown" +:+ dq] [] [] None);
     ("type", MkSchema "string" "" type_pattern (Some 316%Z) None None [] [] [] None)].

(** The schema of [status]. *)
Definition crd_status_schema : JSONSchemaProps :=
  sch_object []
    [("conditions", MkSchema "array" "" "" None None None [] [] [] (Some crd_condition_schema));
     ("observedGeneration", MkSchema "integer" "int64" "" None None None [] [] [] None);
     ("resolved", sch_object [] [("apiVersion", sch_typed "string"); ("kind", sch_typed "string")])].

Definition crd_schema : JSONSchemaProps :=
  sch_object []
    [("apiVersion", sch_typed "string");
     ("kind", sch_typed "string");
     ("metadata", sch_typed "object");
     ("spec", crd_spec_schema);
     ("status", crd_status_schema)].

Definition ready_column (field : string) : string :=
  ".status.conditions[?(@.type==" +:+ dq +:+ "Ready" +:+ dq +:+ ")]." +:+ field.

Definition crd_version : CustomResourceDefinitionVersion :=
  MkVersion "v1" true true
    [".spec.group"; ".spec.kind"]
    true
    [MkColumn (ready_column "status") "Ready" "string";
     MkColumn (ready_column "reason") "Reason" "string";
     MkColumn ".metadata.creationTimestamp" "Age" "date"]
    crd_schema.

Section crd.
Context `{ErrorLib} `{ConditionLib}.

Definition DuckType_DesiredChild (resource : DuckType) : result err CustomResourceDefinition :=
  let spec := dt_Spec resource in
  Ok (MkCRD (meta_named (dt_Name resource))
        (MkCRDSpec (dts_Group spec) ClusterScoped
           (MkNames (dts_Plural spec) (dts_Singular spec) (dts_Kind spec) (dts_ListKind spec) ["duck"])
           [crd_version]
           (Some NoneConverter))
        []).

Definition CustomResourceDefinition_MergeBeforeUpdate (current desired : CustomResourceDefinition)
    : CustomResourceDefinition :=
  MkCRD (meta_set_Labels (om_Labels (crd_ObjectMeta desired)) (crd_ObjectMeta current))
    (crd_Spec desired) (crd_Conditions current).

(** [slices.IndexFunc] and the read at the index, or the zero condition with
    reason Initializing. *)
Definition established_condition (child : CustomResourceDefinition)
    : CustomResourceDefinitionCondition :=
  match list_find (fun c => crc_Type c = Established) (crd_Conditions child) with
  | Some (_, c) => c
  | None => MkCRDCondition "" "" "Initializing" ""
  end.

Definition DuckType_ReflectChildStatus (now : Z) (parent : DuckType)
    (child : option CustomResourceDefinition) (oe : option err) : outcome (DuckType * option err) :=
  let crd := DuckTypeConditionCustomResourceDefinitionEstablished in
  match oe with
  | Some e =>
      if IsInvalid e then
        Ret (dt_MarkFalse now crd "Invalid" (ReasonForError e) parent, None)
      else if IsAlreadyExists e then
        match as_APIStatus e with
        | None => Panic "interface conversion: error is not errors.APIStatus"
        | Some None => Panic "invalid memory address or nil pointer dereference"
        | Some (Some details) =>
            Ret (dt_MarkFalse now crd "AlreadyExists"
                   ("another " +:+ sd_Kind details +:+ " already exists with name " +:+ sd_Name details)
                   parent, None)
        end
      else Ret (dt_MarkUnknown now crd "Unknown" "" parent, Some ErrQuiet)
  | None =>
      match child with
      | None => Ret (dt_MarkFalse now crd "Missing" "" parent, None)
      | Some child =>
          let established := established_condition child in
          let msg := "child CustomResourceDefinition " +:+ om_Name (crd_ObjectMeta child)
                     +:+ " is not established" in
          if negb (String.eqb (crc_Status established) ConditionTrue) then
            if String.eqb (crc_Status established) ConditionFalse
            then Ret (dt_MarkFalse now crd "NotEstablished" msg parent, None)
            else Ret (dt_MarkUnknown now crd "NotEstablished" msg parent, None)
          else Ret (dt_MarkTrue now crd "Established" "" parent, None)
      end
  end.

Definition DuckCustomResourceDefinitionChildReconciler (now : Z)
    : ChildReconciler DuckType CustomResourceDefinition :=
  MkChildReconciler
    DuckType_DesiredChild
    CustomResourceDefinition_MergeBeforeUpdate
    (DuckType_ReflectChildStatus now).
End crd.

(** ** JSON *)

Inductive json :=
| JNull
| JString (s : string)
| JInt (z : Z)
| JArr (xs : list json)
| JObj (fields : list (string * json)).

Fixpoint assoc {A} (k : string) (l : list (string * A)) : option A :=
  match l with
  | [] => None
  | (k', a) :: l' => if String.eqb k k' then Some a else assoc k l'
  end.

(** The type a schema calls the value by. *)
Definition json_type (j : json) : string :=
  match j with
  | JNull => "null" | JString _ => "string" | JInt _ => "integer"
  | JArr _ => "array" | JObj _ => "object"
  end.

(** The number of code points of a UTF-8 string: its bytes but the
    continuation bytes. *)
Fixpoint rune_count (s : string) : Z :=
  match s with
  | EmptyString => 0
  | String c s' =>
      (if ((128 <=? Ascii.N_of_ascii c) && (Ascii.N_of_ascii c <? 192))%N then 0 else 1) + rune_count s'
  end.

Definition in_int64 (z : Z) : Prop := (- 2 ^ 63 <= z < 2 ^ 63)%Z.

(** The validator of the API server, its regular expressions and string
    formats are parameters. *)
Class SchemaValidation := {
  valid : JSONSchemaProps -> json -> bool;
  pattern_matches : string -> string -> bool;
  format_accepts : string -> string -> bool;
}.

(** The documented meaning of the OpenAPI v3 keywords the program uses, for a
    schema that is not nullable: [type], then per type [minLength],
    [maxLength] (in characters), [pattern], [enum] and [format] of strings,
    [minimum] and the format int64 of integers, [items] of arrays, [required]
    and [properties] of objects. *)
Class SchemaValidationLaws `{!SchemaValidation} := {
  valid_type : forall s j, js_Type s <> "" -> valid s j = true -> js_Type s = json_type j;
  valid_string : forall s x, js_Type s = "string" ->
    valid s (JString x) = true <->
    (forall n, js_MinLength s = Some n -> (n <= rune_count x)%Z)
    /\ (forall n, js_MaxLength s = Some n -> (rune_count x <= n)%Z)
    /\ (js_Pattern s <> "" -> pattern_matches (js_Pattern s) x = true)
    /\ (js_Enum s <> [] -> (dq +:+ x +:+ dq) ∈ js_Enum s)
    /\ (js_Format s <> "" -> format_accepts (js_Format s) x = true);
  valid_integer : forall s z, js_Type s = "integer" ->
    valid s (JInt z) = true <->
    (forall n, js_Minimum s = Some n -> (n <= z)%Z) /\ (js_Format s = "int64" -> in_int64 z);
  valid_array : forall s xs, js_Type s = "array" ->
    valid s (JArr xs) = true <->
    (forall it, js_Items s = Some it -> Forall (fun j => valid it j = true) xs);
  valid_object : forall s fs, js_Type s = "object" ->
    valid s (JObj fs) = true <->
    Forall (fun k => is_Some (assoc k fs)) (js_Required s)
    /\ Forall (fun '(k, s') => forall v, assoc k fs = Some v -> valid s' v = true) (js_Properties s);
}.

(** The encodings of the library types a duck embeds: the fields of
    metav1.ObjectMeta, of metav1.Condition and of apis.Status. *)
Class LibraryJSON := {
  ObjectMeta_fields : ObjectMeta -> list (string * json);
  Condition_fields : Condition -> list (string * json);
  Status_fields : Status -> list (string * json);
}.

(** By the json tags of metav1.Condition and apis.Status; a metav1.Time is
    null when it is zero, else a string in the date-time format. *)
Class LibraryJSONLaws `{!SchemaValidation} `{!LibraryJSON} := {
  Condition_type : forall c, assoc "type" (Condition_fields c) = Some (JString (c_Type c));
  Condition_status : forall c, assoc "status" (Condition_fields c) = Some (JString (c_Status c));
  Condition_generation : forall c, assoc "observedGeneration" (Condition_fields c)
    = if (c_ObservedGeneration c =? 0)%Z then None else Some (JInt (c_ObservedGeneration c));
  Condition_time_zero : forall c, c_LastTransitionTime c = 0%Z ->
    assoc "lastTransitionTime" (Condition_fields c) = Some JNull;
  Condition_time : forall c, c_LastTransitionTime c <> 0%Z ->
    exists x, assoc "lastTransitionTime" (Condition_fields c) = Some (JString x)
      /\ format_accepts "date-time" x = true;
  Condition_reason : forall c, assoc "reason" (Condition_fields c) = Some (JString (c_Reason c));
  Condition_message : forall c, assoc "message" (Condition_fields c) = Some (JString (c_Message c));
  Status_generation : forall s, assoc "observedGeneration" (Status_fields s)
    = if (st_ObservedGeneration s =? 0)%Z then None else Some (JInt (st_ObservedGeneration s));
  Status_conditions : forall s, assoc "conditions" (Status_fields s)
    = match st_Conditions s with
      | [] => None
      | cs => Some (JArr (map (fun c => JObj (Condition_fields c)) cs))
      end;
  Status_resolved : forall s, assoc "resolved" (Status_fields s) = None;
}.

(** ** The JSON of a duck, by the tags of duck_types.go *)

Section duck_json.
Context `{!LibraryJSON}.

Definition omitempty (k v : string) : list (string * json) :=
  if String.eqb v "" then [] else [(k, JString v)].

Definition DuckSpec_json (s : DuckSpec) : json :=
  JObj [("group", JString (ds_Group s)); ("version", JString (ds_Version s));
        ("kind", JString (ds_Kind s))].

(** DuckStatus has the fields of the embedded apis.Status. *)
Definition DuckStatus_json (s : DuckStatus) : json := JObj (Status_fields (dst_Status s)).

Definition Duck_json (d : Duck) : json :=
  JObj (omitempty "kind" (tm_Kind (d_TypeMeta d)) ++ omitempty "apiVersion" (tm_APIVersion (d_TypeMeta d))
        ++ [("metadata", JObj (ObjectMeta_fields (d_ObjectMeta d)));
            ("spec", DuckSpec_json (d_Spec d));
            ("status", DuckStatus_json (d_Status d))]).
End duck_json.

(** The schema a dotted path such as .spec.group leads to. *)
Fixpoint split_dots (s cur : string) : list string :=
  match s with
  | EmptyString => [cur]
  | String c s' =>
      if Ascii.eqb c dot then cur :: split_dots s' ""
      else split_dots s' (cur +:+ String c EmptyString)
  end.

Fixpoint schema_at (path : list string) (s : JSONSchemaProps) : option JSONSchemaProps :=
  match path with
  | [] => Some s
  | k :: path' => match assoc k (js_Properties s) with
                  | Some s' => schema_at path' s'
                  | None => None
                  end
  end.

Definition selectable_ok (s : JSONSchemaProps) (field : string) : bool :=
  match split_dots field "" with
  | "" :: path => match schema_at path s with
                  | Some s' => String.eqb (js_Type s') "string"
                  | None => false
                  end
  | _ => false
  end.

Section crd_theorems.
Context `{GoUnicode} `{ErrorLib} `{!FieldLib} `{ConditionLib}.

(** C19: for a DuckType the create webhook admits, the desired
    CustomResourceDefinition is the one the user described: it has the
    DuckType's name, which is <plural>.<group> of its own spec, a lowercase
    non-empty group, plural and singular, the kind of the DuckType, the
    singular and list kind given or else the lower-cased kind and the kind
    followed by List, is cluster scoped, and has one version, v1, which is
    served, stored, has the status subresource, and whose selectable fields
    are string properties of its schema. *)
Theorem admitted_ducktype_crd `{!FieldLaws} (obj : DuckType) :
  (DuckType_ValidateCreate obj).2.2 = None ->
  let spec := dt_Spec obj in
  exists c v, DuckType_DesiredChild (DuckType_ValidateCreate obj).1 = Ok c
    /\ om_Name (crd_ObjectMeta c) = dt_Name obj
    /\ om_Name (crd_ObjectMeta c) = crn_Plural (crs_Names (crd_Spec c)) +:+ "." +:+ crs_Group (crd_Spec c)
    /\ lowercase (crs_Group (crd_Spec c)) /\ lowercase (crn_Plural (crs_Names (crd_Spec c)))
    /\ lowercase (crn_Singular (crs_Names (crd_Spec c)))
    /\ crn_Kind (crs_Names (crd_Spec c)) = dts_Kind spec /\ dts_Kind spec <> ""
    /\ crn_Singular (crs_Names (crd_Spec c))
       = (if decide (dts_Singular spec = "") then ToLower (dts_Kind spec) else dts_Singular spec)
    /\ crn_ListKind (crs_Names (crd_Spec c))
       = (if decide (dts_ListKind spec = "") then dts_Kind spec +:+ "List" else dts_ListKind spec)
    /\ crs_Scope (crd_Spec c) = "Cluster"
    /\ crs_Versions (crd_Spec c) = [v] /\ crv_Name v = "v1" /\ crv_Served v = true
    /\ crv_Storage v = true /\ crv_StatusSubresource v = true
    /\ forallb (selectable_ok (crv_Schema v)) (crv_SelectableFields v) = true.
Proof.
  destruct obj as [tm om [g p sg k lk] st]. unfold DuckType_ValidateCreate. simpl.
  rewrite ToAggregate_nil, DuckType_Validate_nil, DuckTypeSpec_Validate_nil. simpl.
  intros (Hn & Hg & Hp & Hs & Hk & Hl). eexists _, crd_version. split; [reflexivity|]. simpl.
  split_and!; try done.
  - by destruct (String.eqb_spec sg ""), (decide (sg = "")).
  - by destruct (String.eqb_spec lk ""), (decide (lk = "")).
Qed.

Lemma established_condition_found (child : CustomResourceDefinition) pre ec post :
  crd_Conditions child = pre ++ ec :: post -> Forall (fun c => crc_Type c <> Established) pre ->
  crc_Type ec = Established -> established_condition child = ec.
Proof.
  intros Hc Hpre He. unfold established_condition. rewrite Hc, list_find_app_r.
  - simpl. by rewrite decide_True.
  - by apply list_find_None.
Qed.

Lemma established_condition_missing (child : CustomResourceDefinition) :
  Forall (fun c => crc_Type c <> Established) (crd_Conditions child) ->
  established_condition child = MkCRDCondition "" "" "Initializing" "".
Proof. intros Hc. unfold established_condition. by rewrite (proj2 (list_find_None _ _) Hc). Qed.

Lemma crd_Mark_effect `{!ConditionLaws} (now : Z) (reason msg : string) (parent : DuckType) :
  let crd := DuckTypeConditionCustomResourceDefinitionEstablished in
  let marked p s := dt_marked parent p crd DuckTypeConditionRBAC (bool_decide (s = ConditionTrue))
                    /\ DuckType_cond p crd s reason msg in
  marked (dt_MarkTrue now crd reason msg parent) ConditionTrue
  /\ marked (dt_MarkFalse now crd reason msg parent) ConditionFalse
  /\ marked (dt_MarkUnknown now crd reason msg parent) ConditionUnknown.
Proof.
  intros crd marked.
  destruct (dt_Mark_effect now crd DuckTypeConditionRBAC reason msg parent
              (or_intror (conj eq_refl eq_refl))) as (M1 & M2 & M3).
  destruct (dt_Mark_cond now crd reason msg parent) as (C1 & C2 & C3); [done|].
  subst marked. split_and!; done.
Qed.

(** C23: reflecting the CustomResourceDefinition child on a DuckType, on every
    branch.  [marked s reason msg e'] says that the callback returns [e']
    having set the condition CustomResourceDefinitionEstablished to exactly
    that status, reason and message, that only the status changed, that the
    RBAC condition is untouched, and that Ready is true iff both conditions
    are.  An Invalid error is reported as False and not returned; an
    AlreadyExists error with status details likewise, naming the conflicting
    object, and without details it makes the callback panic, the only case it
    does; any other error becomes Unknown and ErrQuiet.  Without an error a
    missing child is False, and a child counts by the status of the first of
    its conditions of type Established: True, False, or, for another status or
    no such condition, Unknown. *)
Theorem ducktype_crd_reflect `{!ConditionLaws} (now : Z) (parent : DuckType)
    (child : option CustomResourceDefinition) (oe : option err) :
  let result := DuckType_ReflectChildStatus now parent child oe in
  let crd := DuckTypeConditionCustomResourceDefinitionEstablished in
  let marked s reason msg e' :=
    exists parent', result = Ret (parent', e')
      /\ dt_marked parent parent' crd DuckTypeConditionRBAC (bool_decide (s = ConditionTrue))
      /\ DuckType_cond parent' crd s reason msg in
  match oe, child with
  | Some e, _ =>
      if IsInvalid e then marked ConditionFalse "Invalid" (ReasonForError e) None
      else if IsAlreadyExists e then
        match as_APIStatus e with
        | Some (Some d) =>
            marked ConditionFalse "AlreadyExists"
              ("another " +:+ sd_Kind d +:+ " already exists with name " +:+ sd_Name d) None
        | _ => exists m, result = Panic m
        end
      else marked ConditionUnknown "Unknown" "" (Some ErrQuiet)
  | None, None => marked ConditionFalse "Missing" "" None
  | None, Some c =>
      let msg := "child CustomResourceDefinition " +:+ om_Name (crd_ObjectMeta c)
                 +:+ " is not established" in
      (forall pre ec post, crd_Conditions c = pre ++ ec :: post ->
         Forall (fun c => crc_Type c <> "Established") pre -> crc_Type ec = "Established" ->
         (crc_Status ec = ConditionTrue -> marked ConditionTrue "Established" "" None)
         /\ (crc_Status ec = ConditionFalse -> marked ConditionFalse "NotEstablished" msg None)
         /\ (crc_Status ec <> ConditionTrue -> crc_Status ec <> ConditionFalse ->
             marked ConditionUnknown "NotEstablished" msg None))
      /\ (Forall (fun c => crc_Type c <> "Established") (crd_Conditions c) ->
          marked ConditionUnknown "NotEstablished" msg None)
  end.
Proof.
  intros result crd marked. subst result marked. unfold DuckType_ReflectChildStatus.
  assert (Heff := fun reason msg => crd_Mark_effect now reason msg parent).
  destruct oe as [e|]; [|destruct child as [c|]].
  - destruct (IsInvalid e); [eexists; split; [done|apply Heff]|].
    destruct (IsAlreadyExists e); [|eexists; split; [done|apply Heff]].
    destruct (as_APIStatus e) as [[details|]|]; [|by eexists..].
    eexists; split; [done|apply Heff].
  - split.
    + intros pre ec post Hc Hpre He. rewrite (established_condition_found c pre ec post) by done.
      split_and!; [intros ->|intros ->|intros Ht%String.eqb_neq Hf%String.eqb_neq; rewrite Ht, Hf];
        (eexists; split; [done|apply Heff]).
    + intros Hc. rewrite established_condition_missing by done. eexists; split; [done|apply Heff].
  - eexists; split; [done|apply Heff].
Qed.
End crd_theorems.

Section schema_theorems.
Context `{!SchemaValidation} `{!SchemaValidationLaws} `{!LibraryJSON} `{!LibraryJSONLaws}.

(** The conditions the schema of [status.conditions] admits. *)
Definition condition_ok (c : Condition) : Prop :=
  c_LastTransitionTime c <> 0%Z
  /\ c_Status c ∈ [ConditionTrue; ConditionFalse; ConditionUnknown]
  /\ (1 <= rune_count (c_Reason c) <= 1024)%Z /\ pattern_matches reason_pattern (c_Reason c) = true
  /\ (rune_count (c_Type c) <= 316)%Z /\ pattern_matches type_pattern (c_Type c) = true
  /\ (rune_count (c_Message c) <= 32768)%Z
  /\ (0 <= c_ObservedGeneration c)%Z /\ in_int64 (c_ObservedGeneration c).

Lemma quoted_inj (a b : string) : dq +:+ a +:+ dq = dq +:+ b +:+ dq <-> a = b.
Proof. split; [|by intros ->]. by intros ?%string_app_inj_l%string_app_inj_r. Qed.

Lemma status_enum_spec (s : string) :
  (dq +:+ s +:+ dq) ∈ [dq +:+ "True" +:+ dq; dq +:+ "False" +:+ dq; dq +:+ "Unknown" +:+ dq]
  <-> s ∈ [ConditionTrue; ConditionFalse; ConditionUnknown].
Proof. rewrite !elem_of_cons, !elem_of_nil, !quoted_inj. done. Qed.

(** A field is fine when it is absent or valid. *)
Definition field_ok (fs : list (string * json)) (k : string) (s : JSONSchemaProps) : Prop :=
  forall v, assoc k fs = Some v -> valid s v = true.

Lemma field_ok_some fs k s v : assoc k fs = Some v -> field_ok fs k s <-> valid s v = true.
Proof. unfold field_ok. intros ->. naive_solver. Qed.

Lemma field_ok_none fs k s : assoc k fs = None -> field_ok fs k s.
Proof. unfold field_ok. by intros ->. Qed.

Lemma valid_null s : js_Type s <> "" -> js_Type s <> "null" -> valid s JNull = false.
Proof. intros Hne Hnn. apply not_true_iff_false. by intros ?%valid_type. Qed.

(** A string field with no keyword but the type is valid. *)
Lemma valid_plain_string x : valid (sch_typed "string") (JString x) = true.
Proof. apply valid_string; [done|]. by split_and!. Qed.

Lemma condition_time_ok c :
  field_ok (Condition_fields c) "lastTransitionTime"
    (MkSchema "string" "date-time" "" None None None [] [] [] None)
  <-> c_LastTransitionTime c <> 0%Z.
Proof.
  destruct (decide (c_LastTransitionTime c = 0%Z)) as [Hz|Hz].
  - rewrite field_ok_some by (by apply Condition_time_zero). rewrite valid_null by done. naive_solver.
  - destruct (Condition_time c Hz) as (x & Hx & Hf). rewrite field_ok_some by done.
    rewrite valid_string by done. simpl. naive_solver.
Qed.

Lemma generation_ok fs (z : Z) (min : option Z) (s := MkSchema "integer" "int64" "" None None min [] [] [] None) :
  assoc "observedGeneration" fs = (if (z =? 0)%Z then None else Some (JInt z)) ->
  (forall n, min = Some n -> (n <= 0)%Z) ->
  field_ok fs "observedGeneration" s <-> (forall n, min = Some n -> (n <= z)%Z) /\ in_int64 z.
Proof.
  intros Hf Hmin. destruct (Z.eqb_spec z 0) as [->|Hz].
  - split; [|by intros _; apply field_ok_none]. intros _. split; [done|]. unfold in_int64. lia.
  - rewrite field_ok_some by done. rewrite valid_integer by done. simpl. naive_solver.
Qed.

Lemma condition_required c :
  Forall (fun k => is_Some (assoc k (Condition_fields c)))
    ["lastTransitionTime"; "message"; "reason"; "status"; "type"].
Proof.
  repeat constructor; rewrite ?Condition_message, ?Condition_reason, ?Condition_status, ?Condition_type;
    try by eexists.
  destruct (decide (c_LastTransitionTime c = 0%Z)) as [Hz|Hz].
  - rewrite Condition_time_zero by done. by eexists.
  - destruct (Condition_time c Hz) as (x & -> & _). by eexists.
Qed.

Lemma condition_valid c :
  valid crd_condition_schema (JObj (Condition_fields c)) = true <-> condition_ok c.
Proof.
  rewrite valid_object by done. cbn [crd_condition_schema sch_object js_Required js_Properties].
  rewrite !(Forall_cons (fun '(k, s) => _)), Forall_nil.
  repeat match goal with |- context [forall v, assoc ?k ?fs = Some v -> valid ?s v = true] =>
    change (forall v, assoc k fs = Some v -> valid s v = true) with (field_ok fs k s) end.
  rewrite condition_time_ok, (generation_ok _ (c_ObservedGeneration c) (Some 0%Z))
    by (apply Condition_generation || naive_solver lia).
  rewrite !(field_ok_some _ _ _ _ (Condition_message c)), !(field_ok_some _ _ _ _ (Condition_reason c)),
    !(field_ok_some _ _ _ _ (Condition_status c)), !(field_ok_some _ _ _ _ (Condition_type c)).
  rewrite !valid_string by done. cbn [js_MinLength js_MaxLength js_Pattern js_Enum js_Format].
  rewrite status_enum_spec. assert (Hreq := condition_required c).
  unfold condition_ok. split.
  - intros (_ & Ht & (_ & Hm & _) & (Hg & Hg') & (Hr1 & Hr2 & Hr3 & _) & (_ & _ & _ & Hs & _)
      & (_ & Hy1 & Hy2 & _) & _). split_and!; eauto; by apply Hs || by apply Hr3 || by apply Hy2.
  - intros (Ht & Hs & [Hr1 Hr2] & Hr3 & Hy1 & Hy2 & Hm & Hg & Hg').
    split_and!; try done; intros; simplify_eq; done.
Qed.

Lemma status_valid st :
  valid crd_status_schema (JObj (Status_fields st)) = true
  <-> Forall condition_ok (st_Conditions st) /\ in_int64 (st_ObservedGeneration st).
Proof.
  rewrite valid_object by done. cbn [crd_status_schema sch_object js_Required js_Properties].
  rewrite !(Forall_cons (fun '(k, s) => _)), !Forall_nil.
  repeat match goal with |- context [forall v, assoc ?k ?fs = Some v -> valid ?s v = true] =>
    change (forall v, assoc k fs = Some v -> valid s v = true) with (field_ok fs k s) end.
  rewrite (generation_ok _ (st_ObservedGeneration st) None) by (apply Status_generation || done).
  assert (Hres := field_ok_none _ _ (sch_object [] [("apiVersion", sch_typed "string");
    ("kind", sch_typed "string")]) (Status_resolved st)).
  assert (Hc : field_ok (Status_fields st) "conditions"
                 (MkSchema "array" "" "" None None None [] [] [] (Some crd_condition_schema))
               <-> Forall condition_ok (st_Conditions st)).
  { assert (Hsc := Status_conditions st). destruct (st_Conditions st) as [|c cs].
    - split; [done|]. intros _. by apply field_ok_none.
    - rewrite (field_ok_some _ _ _ _ Hsc), valid_array by done. simpl js_Items.
      rewrite <- (Forall_iff _ (c :: cs) _ condition_valid).
      split; [intros Hit; specialize (Hit _ eq_refl); by rewrite List.Forall_map in Hit|].
      intros Hf it [= <-]. by apply List.Forall_map. }
  rewrite Hc. split; [tauto|]. intros [? ?]. by split_and!.
Qed.

Lemma spec_valid (s : DuckSpec) : valid crd_spec_schema (DuckSpec_json s) = true.
Proof.
  apply valid_object; [done|]. split.
  - repeat constructor; by eexists.
  - repeat constructor; intros v [= <-]; apply valid_plain_string.
Qed.

(** C20: the JSON of a duck is valid for the schema of the
    CustomResourceDefinition its duck type defines iff its conditions meet
    the limits of metav1.Condition (a transition time that is set, the three
    statuses, patterns and lengths of type, reason and message, a generation
    that is not negative) and its generations are 64-bit integers.  So nothing
    else of a Duck is ever rejected: schema and Go type agree on every field's
    name and type, and every required field is always written. *)
Theorem duck_json_conforms (d : Duck) :
  valid (crv_Schema crd_version) (Duck_json d) = true
  <-> Forall condition_ok (st_Conditions (dst_Status (d_Status d)))
      /\ in_int64 (st_ObservedGeneration (dst_Status (d_Status d))).
Proof.
  rewrite <- status_valid. unfold Duck_json. rewrite valid_object by done.
  cbn [crd_version crv_Schema crd_schema sch_object js_Required js_Properties].
  rewrite !(Forall_cons (fun '(k, s) => _)), !Forall_nil.
  assert (Hm : valid (sch_typed "object") (JObj (ObjectMeta_fields (d_ObjectMeta d))) = true)
    by (apply valid_object; [done|by split]).
  assert (Hspec := spec_valid (d_Spec d)). unfold omitempty.
  destruct (String.eqb (tm_Kind (d_TypeMeta d)) ""), (String.eqb (tm_APIVersion (d_TypeMeta d)) "");
    (split; [intros (_ & _ & _ & _ & _ & Hst & _); by apply Hst|]);
    intros Hst; split_and!; try done; intros v [= <-]; try done; apply valid_plain_string.
Qed.
End schema_theorems.

(** ** Witnesses *)

Lemma admitted_ducktype_crd_witness :
  exists c v, @DuckType_DesiredChild ref_errors
              (@DuckType_ValidateCreate ref_unicode ref_errors ref_field w_ducktype).1 = Ok c
    /\ om_Name (crd_ObjectMeta c) = "widgets.example.com" /\ crs_Versions (crd_Spec c) = [v].
Proof.
  destruct (@admitted_ducktype_crd ref_unicode ref_errors ref_field ref_field_laws w_ducktype eq_refl)
    as (c & v & Hc & Hn & H). exists c, v. split; [exact Hc|]. split; [exact Hn|]. apply H.
Defined.

Definition w_crd : CustomResourceDefinition :=
  MkCRD (meta_named "widgets.example.com")
    (MkCRDSpec "example.com" "Cluster" (MkNames "widgets" "widget" "Widget" "WidgetList" []) [crd_version]
       None)
    [MkCRDCondition Established ConditionTrue "InitialNamesAccepted" ""].

Lemma ducktype_crd_reflect_witness :
  exists parent', @DuckType_ReflectChildStatus ref_errors ref_conditions 5 w_ducktype (Some w_crd) None
    = Ret (parent', None)
  /\ @dt_marked ref_conditions w_ducktype parent' DuckTypeConditionCustomResourceDefinitionEstablished
       DuckTypeConditionRBAC true.
Proof.
  destruct (@ducktype_crd_reflect ref_errors ref_conditions ref_conditions_laws 5 w_ducktype (Some w_crd) None)
    as [H _]. destruct (H [] _ [] eq_refl) as [(p & Hp & Hm & _) _]; [constructor|reflexivity..|].
  exists p. split; [exact Hp|exact Hm].
Defined.

(** *** A validator for the keywords the program uses *)

Definition opt_le (lo hi : option Z) (z : Z) : bool :=
  (match lo with Some l => (l <=? z)%Z | None => true end)
  && (match hi with Some h => (z <=? h)%Z | None => true end).

Fixpoint w_conforms (s : JSONSchemaProps) (j : json) : bool :=
  match s with
  | MkSchema ty fmt pat maxl minl min enum req props items =>
      String.eqb ty (json_type j) &&
      match j with
      | JNull => true
      | JString x =>
          opt_le minl maxl (rune_count x)
          && (match enum with [] => true | _ => bool_decide ((dq +:+ x +:+ dq) ∈ enum) end)
      | JInt z =>
          opt_le min None z
          && (negb (String.eqb fmt "int64") || ((- 2 ^ 63 <=? z)%Z && (z <? 2 ^ 63)%Z))
      | JArr xs => match items with Some it => forallb (w_conforms it) xs | None => true end
      | JObj fs =>
          forallb (fun k => bool_decide (is_Some (assoc k fs))) req
          && forallb (fun '(k, s') => match assoc k fs with Some v => w_conforms s' v | None => true end)
               props
      end
  end.

#[local] Instance w_validation : SchemaValidation :=
  {| valid := w_conforms; pattern_matches _ _ := true; format_accepts _ _ := true |}.

Lemma opt_le_spec lo hi z :
  opt_le lo hi z = true
  <-> (forall n, lo = Some n -> (n <= z)%Z) /\ (forall n, hi = Some n -> (z <= n)%Z).
Proof.
  unfold opt_le. rewrite andb_true_iff.
  destruct lo, hi; rewrite ?Z.leb_le; naive_solver.
Qed.

Lemma forallb_iff {A} (f : A -> bool) (P : A -> Prop) l :
  (forall x, f x = true <-> P x) -> forallb f l = true <-> Forall P l.
Proof.
  intros Hf. rewrite forallb_forall, List.Forall_forall. split; intros H x Hx; by apply Hf, H.
Qed.

#[local] Instance w_validation_laws : SchemaValidationLaws.
Proof.
  constructor.
  - intros [ty fmt pat maxl minl min enum req props items] j _. simpl.
    by intros [?%String.eqb_eq _]%andb_true_iff.
  - intros [ty fmt pat maxl minl min enum req props items] x. simpl. intros ->.
    simpl. rewrite andb_true_iff, opt_le_spec. destruct enum; [naive_solver|].
    rewrite bool_decide_eq_true. naive_solver.
  - intros [ty fmt pat maxl minl min enum req props items] z. simpl. intros ->.
    simpl. rewrite andb_true_iff, opt_le_spec, orb_true_iff, negb_true_iff, String.eqb_neq, andb_true_iff.
    rewrite Z.leb_le, Z.ltb_lt. unfold in_int64. destruct (decide (fmt = "int64")); naive_solver.
  - intros [ty fmt pat maxl minl min enum req props items] xs. simpl. intros ->.
    simpl. destruct items as [it|]; [|naive_solver].
    rewrite (forallb_iff _ (fun j => w_conforms it j = true)) by done. naive_solver.
  - intros [ty fmt pat maxl minl min enum req props items] fs. simpl. intros ->.
    simpl. rewrite andb_true_iff. f_equiv; apply forallb_iff.
    + intros k. apply bool_decide_eq_true.
    + intros [k s']. destruct (assoc k fs); naive_solver.
Qed.

Definition w_generation (z : Z) : list (string * json) :=
  if (z =? 0)%Z then [] else [("observedGeneration", JInt z)].

Definition w_condition_fields (c : Condition) : list (string * json) :=
  [("type", JString (c_Type c)); ("status", JString (c_Status c));
   ("lastTransitionTime", if (c_LastTransitionTime c =? 0)%Z then JNull
                          else JString "2025-01-02T03:04:05Z");
   ("reason", JString (c_Reason c)); ("message", JString (c_Message c))]
  ++ w_generation (c_ObservedGeneration c).

#[local] Instance w_library_json : LibraryJSON :=
  {| ObjectMeta_fields m := omitempty "name" (om_Name m);
     Condition_fields := w_condition_fields;
     Status_fields s :=
       w_generation (st_ObservedGeneration s)
       ++ (match st_Conditions s with
           | [] => []
           | cs => [("conditions", JArr (map (fun c => JObj (w_condition_fields c)) cs))]
           end) |}.

#[local] Instance w_library_json_laws : LibraryJSONLaws.
Proof.
  constructor; simpl; try done; unfold w_generation.
  - intros c. by destruct (_ =? 0)%Z.
  - by intros c ->.
  - intros c Hc. apply Z.eqb_neq in Hc as ->. by eexists.
  - intros [og cs]. simpl. by destruct (og =? 0)%Z, cs.
  - intros [og cs]. simpl. by destruct (og =? 0)%Z, cs.
  - intros [og cs]. simpl. by destruct (og =? 0)%Z, cs.
Qed.

(** A duck with a condition. *)
Definition w_marked_duck : Duck :=
  MkDuck (MkTypeMeta "" "") (meta_named "deployments.apps") (MkDuckSpec "apps" "v1" "Deployment")
    (MkDuckStatus (MkStatus 1 [MkCondition "RBAC" "True" 1 7 "Defined" ""])).

Lemma duck_json_conforms_witness : valid (crv_Schema crd_version) (Duck_json w_marked_duck) = true.
Proof.
  apply (@duck_json_conforms w_validation w_validation_laws w_library_json w_library_json_laws
           w_marked_duck).
  split; [|split; [discriminate|reflexivity]].
  constructor; [|constructor]. unfold condition_ok, in_int64. simpl.
  split_and!; solve [discriminate | reflexivity | lia | by left].
Defined.
