(* ===== verification/Submanager.v ===== *)
(** * internal/submanager: a manager with a cache of its own for some types

    [Cache] routes every operation to the local cache or to the cache of the
    parent manager, by the kind of the object; [New] builds a manager around
    such a cache. *)

From S2P Require Import Prelude Platform Reference.

#[local] Open Scope go_scope.

(** ** controller-runtime's cache.Cache interface

    The types of the interface are parameters, and a cache is its methods over
    a state of its own; [co] are the variadic options, which are passed on. *)

Class CacheTypes := {
  Obj : Type;
  ObjKey : Type;
  CallOpts : Type;
  Informer : Type;
  IndexerFunc : Type;
}.

Section cache_interface.
Context `{ErrorLib} `{CacheTypes}.

Record CacheI (St : Type) := MkCacheI {
  ci_Get : St -> ObjKey -> Obj -> CallOpts -> St * (Obj * option err);
  ci_List : St -> Obj -> CallOpts -> St * (Obj * option err);
  ci_GetInformer : St -> Obj -> CallOpts -> St * result err Informer;
  ci_GetInformerForKind : St -> GroupVersionKind -> CallOpts -> St * result err Informer;
  ci_RemoveInformer : St -> Obj -> St * option err;
  ci_Start : St -> St * option err;
  ci_WaitForCacheSync : St -> St * bool;
  ci_IndexField : St -> Obj -> string -> IndexerFunc -> St * option err;
}.
End cache_interface.

Arguments MkCacheI {_ _ _} _ _ _ _ _ _ _ _.
Arguments ci_Get {_ _ _} _.
Arguments ci_List {_ _ _} _.
Arguments ci_GetInformer {_ _ _} _.
Arguments ci_GetInformerForKind {_ _ _} _.
Arguments ci_RemoveInformer {_ _ _} _.
Arguments ci_Start {_ _ _} _.
Arguments ci_WaitForCacheSync {_ _ _} _.
Arguments ci_IndexField {_ _ _} _.

(** ** type Cache struct *)

Section cache.
Context `{Schema} `{ErrorLib} `{CacheTypes}.
Context {SL SU : Type}.

(** [c_client] is the GroupVersionKindFor method of the client field, the only
    one the code uses. *)
Record Cache := MkCache {
  c_client : Obj -> result err GroupVersionKind;
  c_localTypes : gset GroupKind;
  c_local : CacheI SL;
  c_upstream : CacheI SU;
}.

Definition isLocalKind (c : Cache) (gvk : GroupVersionKind) : bool :=
  bool_decide (gvk_GroupKind gvk ∈ c_localTypes c).

Definition isLocal (c : Cache) (obj : Obj) : outcome bool :=
  match c_client c obj with
  | Err _ => Panic "GroupVersionKindFor"
  | Ok gvk => Ret (isLocalKind c gvk)
  end.

(** A call of one of the two caches, in the state of both. *)
Definition on_local {A} (s : SL * SU) (f : SL -> SL * A) : (SL * SU) * A :=
  let (l, a) := f s.1 in ((l, s.2), a).
Definition on_upstream {A} (s : SL * SU) (f : SU -> SU * A) : (SL * SU) * A :=
  let (u, a) := f s.2 in ((s.1, u), a).

Definition Cache_Get (c : Cache) (s : SL * SU) (key : ObjKey) (obj : Obj) (co : CallOpts) :=
  let! b := isLocal c obj in
  Ret (if b : bool then on_local s (fun l => ci_Get (c_local c) l key obj co)
       else on_upstream s (fun u => ci_Get (c_upstream c) u key obj co)).

Definition Cache_List (c : Cache) (s : SL * SU) (list : Obj) (co : CallOpts) :=
  let! b := isLocal c list in
  Ret (if b : bool then on_local s (fun l => ci_List (c_local c) l list co)
       else on_upstream s (fun u => ci_List (c_upstream c) u list co)).

Definition Cache_GetInformer (c : Cache) (s : SL * SU) (obj : Obj) (co : CallOpts) :=
  let! b := isLocal c obj in
  Ret (if b : bool then on_local s (fun l => ci_GetInformer (c_local c) l obj co)
       else on_upstream s (fun u => ci_GetInformer (c_upstream c) u obj co)).

Definition Cache_GetInformerForKind (c : Cache) (s : SL * SU) (gvk : GroupVersionKind)
    (co : CallOpts) : outcome ((SL * SU) * result err Informer) :=
  Ret (if isLocalKind c gvk then on_local s (fun l => ci_GetInformerForKind (c_local c) l gvk co)
       else on_upstream s (fun u => ci_GetInformerForKind (c_upstream c) u gvk co)).

Definition Cache_RemoveInformer (c : Cache) (s : SL * SU) (obj : Obj) :=
  let! b := isLocal c obj in
  Ret (if b : bool then on_local s (fun l => ci_RemoveInformer (c_local c) l obj)
       else on_upstream s (fun u => ci_RemoveInformer (c_upstream c) u obj)).

Definition Cache_Start (c : Cache) (s : SL * SU) : outcome ((SL * SU) * option err) :=
  Ret (on_local s (ci_Start (c_local c))).

Definition Cache_WaitForCacheSync (c : Cache) (s : SL * SU) : outcome ((SL * SU) * bool) :=
  let (s1, up) := on_upstream s (ci_WaitForCacheSync (c_upstream c)) in
  Ret (if up : bool then on_local s1 (ci_WaitForCacheSync (c_local c)) else (s1, false)).

Definition Cache_IndexField (c : Cache) (s : SL * SU) (obj : Obj) (field : string)
    (extractValue : IndexerFunc) :=
  let! b := isLocal c obj in
  Ret (if b : bool then on_local s (fun l => ci_IndexField (c_local c) l obj field extractValue)
       else on_upstream s (fun u => ci_IndexField (c_upstream c) u obj field extractValue)).

(** ** Calls as data *)

Inductive CacheOp :=
| OpGet (key : ObjKey) (obj : Obj) (co : CallOpts)
| OpList (list : Obj) (co : CallOpts)
| OpGetInformer (obj : Obj) (co : CallOpts)
| OpGetInformerForKind (gvk : GroupVersionKind) (co : CallOpts)
| OpRemoveInformer (obj : Obj)
| OpIndexField (obj : Obj) (field : string) (extractValue : IndexerFunc).

Inductive CacheResp :=
| RespObj (obj : Obj) (e : option err)
| RespInformer (r : result err Informer)
| RespErr (e : option err).

(** A call made on one cache. *)
Definition direct {St} (ci : CacheI St) (s : St) (op : CacheOp) : St * CacheResp :=
  match op with
  | OpGet k o co => prod_map id (fun r => RespObj r.1 r.2) (ci_Get ci s k o co)
  | OpList l co => prod_map id (fun r => RespObj r.1 r.2) (ci_List ci s l co)
  | OpGetInformer o co => prod_map id RespInformer (ci_GetInformer ci s o co)
  | OpGetInformerForKind g co => prod_map id RespInformer (ci_GetInformerForKind ci s g co)
  | OpRemoveInformer o => prod_map id RespErr (ci_RemoveInformer ci s o)
  | OpIndexField o f x => prod_map id RespErr (ci_IndexField ci s o f x)
  end.

(** The same call made on the routing cache. *)
Definition routed (c : Cache) (s : SL * SU) (op : CacheOp) : outcome ((SL * SU) * CacheResp) :=
  match op with
  | OpGet k o co => let! r := Cache_Get c s k o co in Ret (prod_map id (fun r => RespObj r.1 r.2) r)
  | OpList l co => let! r := Cache_List c s l co in Ret (prod_map id (fun r => RespObj r.1 r.2) r)
  | OpGetInformer o co => let! r := Cache_GetInformer c s o co in Ret (prod_map id RespInformer r)
  | OpGetInformerForKind g co =>
      let! r := Cache_GetInformerForKind c s g co in Ret (prod_map id RespInformer r)
  | OpRemoveInformer o => let! r := Cache_RemoveInformer c s o in Ret (prod_map id RespErr r)
  | OpIndexField o f x => let! r := Cache_IndexField c s o f x in Ret (prod_map id RespErr r)
  end.

(** The group, version and kind a call is about. *)
Definition op_gvk (c : Cache) (op : CacheOp) : result err GroupVersionKind :=
  match op with
  | OpGet _ o _ | OpList o _ | OpGetInformer o _ | OpRemoveInformer o | OpIndexField o _ _ =>
      c_client c o
  | OpGetInformerForKind g _ => Ok g
  end.

Definition op_local (c : Cache) (op : CacheOp) : bool :=
  match op_gvk c op with Ok g => isLocalKind c g | Err _ => false end.

Fixpoint run_direct {St} (ci : CacheI St) (s : St) (ops : list CacheOp) : St * list CacheResp :=
  match ops with
  | [] => (s, [])
  | op :: ops' => let (s1, r) := direct ci s op in
                  let (s2, rs) := run_direct ci s1 ops' in (s2, r :: rs)
  end.

Fixpoint run_routed (c : Cache) (s : SL * SU) (ops : list CacheOp)
    : outcome ((SL * SU) * list CacheResp) :=
  match ops with
  | [] => Ret (s, [])
  | op :: ops' => let! (s1, r) := routed c s op in
                  let! (s2, rs) := run_routed c s1 ops' in Ret (s2, r :: rs)
  end.

(** Merging the answers of the two caches back in the order of the calls. *)
Fixpoint interleave (sel : list bool) (ls us : list CacheResp) : list CacheResp :=
  match sel, ls, us with
  | true :: sel', r :: ls', _ => r :: interleave sel' ls' us
  | false :: sel', _, r :: us' => r :: interleave sel' ls us'
  | _, _, _ => []
  end.
End cache.

Arguments Cache {_ _} _ _.
Arguments CacheOp {_}.
Arguments CacheResp {_ _}.

Section cache_theorems.
Context `{Schema} `{ErrorLib} `{CacheTypes} {SL SU : Type}.

Lemma isLocal_Ret (c : Cache SL SU) obj g :
  c_client c obj = Ok g -> isLocal c obj = Ret (isLocalKind c g).
Proof. unfold isLocal. by intros ->. Qed.

Lemma prod_map_on_local {A B} (h : A -> B) (s : SL * SU) (f : SL -> SL * A) :
  prod_map id h (on_local s f) = on_local s (fun l => prod_map id h (f l)).
Proof. unfold on_local. by destruct (f s.1). Qed.

Lemma prod_map_on_upstream {A B} (h : A -> B) (s : SL * SU) (f : SU -> SU * A) :
  prod_map id h (on_upstream s f) = on_upstream s (fun u => prod_map id h (f u)).
Proof. unfold on_upstream. by destruct (f s.2). Qed.

(** One routed call is the same call on the cache its kind selects. *)
Lemma routed_direct (c : Cache SL SU) s op g :
  op_gvk c op = Ok g ->
  routed c s op = Ret (if isLocalKind c g then on_local s (fun l => direct (c_local c) l op)
                       else on_upstream s (fun u => direct (c_upstream c) u op)).
Proof.
  intros Hg. destruct op; simpl in Hg |- *;
    unfold Cache_Get, Cache_List, Cache_GetInformer, Cache_RemoveInformer, Cache_IndexField;
    try (rewrite (isLocal_Ret _ _ _ Hg)); simplify_eq; simpl;
    f_equal; destruct (isLocalKind c g); by rewrite ?prod_map_on_local, ?prod_map_on_upstream.
Qed.

(** C10: the routing cache is the two caches side by side: for any sequence of
    calls on objects whose kind is known, no call panics, the local cache
    ends as if it had received exactly the calls about local types, the
    upstream cache as if it had received the others, and every caller gets
    the answer of the cache its call went to. *)
Theorem cache_routes (c : Cache SL SU) (ops : list CacheOp) (s : SL * SU) :
  Forall (fun op => exists g, op_gvk c op = Ok g) ops ->
  let '(l, ls) := run_direct (c_local c) s.1 (List.filter (op_local c) ops) in
  let '(u, us) := run_direct (c_upstream c) s.2 (List.filter (fun op => negb (op_local c op)) ops) in
  run_routed c s ops = Ret ((l, u), interleave (map (op_local c) ops) ls us).
Proof.
  intros Hall. revert s. induction Hall as [|op ops [g Hg] Hall IH]; intros s; [by destruct s|].
  simpl. rewrite (routed_direct c s op g Hg).
  assert (Hl : op_local c op = isLocalKind c g) by (unfold op_local; by rewrite Hg).
  rewrite Hl. destruct (isLocalKind c g); simpl.
  - unfold on_local. destruct (direct (c_local c) s.1 op) as [l1 r]. simpl.
    specialize (IH (l1, s.2)). simpl in IH.
    destruct (run_direct (c_local c) l1 _) as [l ls].
    destruct (run_direct (c_upstream c) s.2 _) as [u us]. by rewrite IH.
  - unfold on_upstream. destruct (direct (c_upstream c) s.2 op) as [u1 r]. simpl.
    specialize (IH (s.1, u1)). simpl in IH.
    destruct (run_direct (c_local c) s.1 _) as [l ls].
    destruct (run_direct (c_upstream c) u1 _) as [u us]. by rewrite IH.
Qed.
End cache_theorems.

(** ** func New *)

Record CacheOptions := MkCacheOptions {
  co_SyncPeriod : option Z;
  co_ReaderFailOnMissingInformer : bool;
}.

(** controller-runtime's managers: [lib_cache] is cache.New, [client_of] the
    GroupVersionKindFor of the client of reconcilers.NewConfig(mgr, nil, 0). *)
Class ManagerTypes := {
  Mgr : Type;
  RestConfig : Type;
  SchemeT : Type;
  LibSt : Type;
}.

Section new.
Context `{Schema} `{ErrorLib} `{CacheTypes} `{ManagerTypes}.

(** The fields of manager.Options the program reads or sets. *)
Record Options := MkOptions {
  o_NewCache : option (RestConfig -> CacheOptions -> result err (Cache LibSt LibSt));
  o_Scheme : option SchemeT;
  o_SkipNameValidation : option bool;
  o_MetricsBindAddress : string;
  o_LeaderElection : bool;
  o_Cache : CacheOptions;
}.

Class ManagerLib := {
  lib_cache : RestConfig -> CacheOptions -> result err (CacheI LibSt);
  client_of : Mgr -> Obj -> result err GroupVersionKind;
  mgr_GetCache : Mgr -> CacheI LibSt;
  mgr_GetScheme : Mgr -> SchemeT;
  mgr_GetConfig : Mgr -> RestConfig;
  NewManager : RestConfig -> Options -> result err Mgr;
}.

Context `{!ManagerLib}.

Definition submanager_NewCache (mgr : Mgr) (localTypes : list GroupKind)
    (config : RestConfig) (opts : CacheOptions) : result err (Cache LibSt LibSt) :=
  let? local := lib_cache config opts in
  Ok (MkCache (client_of mgr) (list_to_set localTypes) local (mgr_GetCache mgr)).

Definition submanager_options (mgr : Mgr) (opts : Options) (localTypes : list GroupKind) : Options :=
  MkOptions
    (Some (submanager_NewCache mgr localTypes))
    (match o_Scheme opts with None => Some (mgr_GetScheme mgr) | Some s => Some s end)
    (match o_SkipNameValidation opts with None => Some true | Some b => Some b end)
    (if String.eqb (o_MetricsBindAddress opts) "" then "0" else o_MetricsBindAddress opts)
    false
    (o_Cache opts).

Definition submanager_New (mgr : Mgr) (opts : Options) (localTypes : list GroupKind) : result err Mgr :=
  NewManager (mgr_GetConfig mgr) (submanager_options mgr opts localTypes).
End new.

Arguments Options {_ _ _}.

Section new_theorems.
Context `{Schema} `{ErrorLib} `{CacheTypes} `{ManagerTypes} `{!ManagerLib}.

(** The cache a sub-manager is given routes the kinds it was created for to
    its own cache and every other kind to the parent's. *)
Lemma submanager_cache_local (mgr : Mgr) (opts : Options) localTypes newCache config copts c g :
  o_NewCache (submanager_options mgr opts localTypes) = Some newCache ->
  newCache config copts = Ok c ->
  isLocalKind c g = bool_decide (gvk_GroupKind g ∈ localTypes)
  /\ c_upstream c = mgr_GetCache mgr /\ lib_cache config copts = Ok (c_local c).
Proof.
  intros [= <-]. unfold submanager_NewCache.
  destruct (lib_cache config copts) as [local|]; simpl; [|done]. intros [= <-].
  split; [|done]. unfold isLocalKind; simpl. apply bool_decide_ext.
  by rewrite elem_of_list_to_set.
Qed.
End new_theorems.

(** ** Reference instances *)

(** A cache over the kinds it has informers for: an object is its kind, reads
    need an informer. *)
Definition ref_cache_types : CacheTypes :=
  {| Obj := GroupVersionKind; ObjKey := string; CallOpts := unit;
     Informer := GroupVersionKind; IndexerFunc := unit |}.

Definition ref_cache : @CacheI ref_errors ref_cache_types (list GroupVersionKind) :=
  @MkCacheI ref_errors ref_cache_types (list GroupVersionKind)
    (fun s _ o _ => (s, (o, if decide (o ∈ s) then None else Some (ENew "not cached"))))
    (fun s o _ => (s, (o, if decide (o ∈ s) then None else Some (ENew "not cached"))))
    (fun s o _ => (o :: s, Ok o))
    (fun s o _ => (o :: s, Ok o))
    (fun s o => (filter (fun x => x <> o) s, None))
    (fun s => (s, None))
    (fun s => (s, true))
    (fun s _ _ _ => (s, None)).

Definition ref_manager_types : ManagerTypes :=
  {| Mgr := nat; RestConfig := unit; SchemeT := unit; LibSt := list GroupVersionKind |}.

Definition ref_manager : @ManagerLib ref_errors ref_cache_types ref_manager_types :=
  @Build_ManagerLib ref_errors ref_cache_types ref_manager_types
    (fun _ _ => Ok ref_cache) (fun _ o => Ok o) (fun _ => ref_cache) (fun _ => tt) (fun _ => tt)
    (fun _ _ => Ok 1).

Definition ref_routing : @Cache ref_errors ref_cache_types (list GroupVersionKind) (list GroupVersionKind) :=
  @MkCache ref_errors ref_cache_types (list GroupVersionKind) (list GroupVersionKind)
    (fun o => Ok o) {[ MkGK "example.com" "Duck"; MkGK "example.com" "DuckList" ]} ref_cache ref_cache.

(** An informer for a local type, a read of a type that is not local and a read
    of the local type: the first and the last go to the local cache. *)
Definition ref_ops : list (@CacheOp ref_cache_types) :=
  [@OpGetInformer ref_cache_types (MkGVK "example.com" "v1" "Duck") tt;
   @OpGet ref_cache_types "a" (MkGVK "rbac.authorization.k8s.io" "v1" "ClusterRole") tt;
   @OpGet ref_cache_types "b" (MkGVK "example.com" "v1" "Duck") tt].

Lemma cache_routes_witness :
  let '(l, ls) := run_direct ref_cache [] (List.filter (@op_local ref_schema _ _ _ _ ref_routing) ref_ops) in
  let '(u, us) := run_direct ref_cache []
    (List.filter (fun op => negb (@op_local ref_schema _ _ _ _ ref_routing op)) ref_ops) in
  @run_routed ref_schema _ _ _ _ ref_routing ([], []) ref_ops
    = Ret ((l, u), interleave (map (@op_local ref_schema _ _ _ _ ref_routing) ref_ops) ls us).
Proof.
  apply (@cache_routes ref_schema ref_errors ref_cache_types _ _ ref_routing ref_ops ([], [])).
  unfold ref_ops. repeat (apply List.Forall_cons; [eexists; reflexivity|]). apply List.Forall_nil.
Defined.
