(* ===== verification/SubManagerReconciler.v ===== *)
(** * reconcilers/submanager.go: SubManagerReconciler

    One sub-manager per reconciled resource, started on the first reconcile and
    stopped when the resource is being deleted.  The reconciler's own code is a
    state-passing translation; a step relation adds the goroutine every started
    manager runs in, and the channel a shutdown blocks on. *)

From S2P Require Import Prelude Platform Reference Runtime Submanager.

Section smr.
Context `{GoUnicode} `{Schema} `{ErrorLib} `{CacheTypes} `{ManagerTypes} `{!ManagerLib}.
Context {T : Type} `{!Reconciled T}.

(** The exported fields a user sets; callbacks can be nil. *)
Record SubManagerReconciler := MkSMR {
  AssertFinalizer : string;
  Setup : option (Mgr -> option err);
  LocalTypes : option (T -> result err (list GroupKind));
  SetupWithSubManager : option (Mgr -> T -> option err);
}.

(** The goroutine of a started manager: in mgr.Start, then blocked sending on
    the unbuffered channel [done], then finished.  Its context is derived from
    the one of the Reconcile that started it, and done when [cancel] was called
    ([i_cancelled]) or that parent is done ([i_parent_done]). *)
Inductive goroutine := InStart | Sending (e : option err) | Finished.

Record instance := MkInstance { i_cancelled : bool; i_parent_done : bool; i_state : goroutine }.

(** The mutable fields of the reconciler ([managers] is None while it is the
    nil map) and the goroutines it started; an entry of [managers] is the
    number of its goroutine, which owns the entry's [done] and [cancel]. *)
Record smr_state := MkState {
  s_Name : string;
  s_SyncPeriod : option Z;
  s_initOnce : bool;
  s_mgr : option Mgr;
  s_managers : option (gmap string nat);
  s_insts : gmap nat instance;
  s_next : nat;
}.

Definition set_mgr (m : option Mgr) (s : smr_state) : smr_state :=
  MkState (s_Name s) (s_SyncPeriod s) (s_initOnce s) m (s_managers s) (s_insts s) (s_next s).
Definition set_managers (m : option (gmap string nat)) (s : smr_state) : smr_state :=
  MkState (s_Name s) (s_SyncPeriod s) (s_initOnce s) (s_mgr s) m (s_insts s) (s_next s).
Definition set_insts (i : gmap nat instance) (n : nat) (s : smr_state) : smr_state :=
  MkState (s_Name s) (s_SyncPeriod s) (s_initOnce s) (s_mgr s) (s_managers s) i n.

(** 10 hours, in seconds. *)
Definition default_sync : Z := 36000.

(** [sync.Once] counts a function that panics as done. *)
Definition smr_init (s : smr_state) : smr_state * outcome unit :=
  if s_initOnce s then (s, Ret tt)
  else
    let name := if String.eqb (s_Name s) "" then "SubManagerReconciler" else s_Name s in
    let sync := match s_SyncPeriod s with None => Some default_sync | Some p => Some p end in
    let s1 := MkState name sync true (s_mgr s) (s_managers s) (s_insts s) (s_next s) in
    match s_mgr s with
    | None => (s1, Panic "SubManagerReconciler: SetupWithManager must be called before Reconcile")
    | Some _ => (set_managers (Some ∅) s1, Ret tt)
    end.

Definition smr_Validate (r : SubManagerReconciler) (s : smr_state) : smr_state * outcome (option err) :=
  match smr_init s with
  | (s, Panic m) => (s, Panic m)
  | (s, Ret _) =>
      if String.eqb (AssertFinalizer r) "" then
        (s, Ret (Some (EFmt ("SubManagerReconciler " +:+ Quote (s_Name s)
                               +:+ " must provide AssertFinalizer"))))
      else match LocalTypes r with
           | None => (s, Ret (Some (EFmt ("SubManagerReconciler " +:+ Quote (s_Name s)
                                            +:+ " must implement LocalTypes"))))
           | Some _ =>
               match SetupWithSubManager r with
               | None => (s, Ret (Some (EFmt ("SubManagerReconciler " +:+ Quote (s_Name s)
                                                +:+ " must implement SetupWithSubManager"))))
               | Some _ => (s, Ret None)
               end
           end
  end.

Definition smr_SetupWithManager (r : SubManagerReconciler) (mgr : Mgr) (s : smr_state)
    : smr_state * outcome (option err) :=
  let s := match s_mgr s with None => set_mgr (Some mgr) s | Some _ => s end in
  match smr_init s with
  | (s, Panic m) => (s, Panic m)
  | (s, Ret _) =>
      match smr_Validate r s with
      | (s, Panic m) => (s, Panic m)
      | (s, Ret (Some e)) => (s, Ret (Some e))
      | (s, Ret None) => match Setup r with
                         | None => (s, Ret None)
                         | Some f => (s, Ret (f mgr))
                         end
      end
  end.

(** Where a call of Reconcile gets to before it returns or blocks: [Blocked]
    is the receive from [done] of the manager of a resource. *)
Inductive progress := Returned (e : option err) | Blocked (uid : string) (i : nat).

Definition smr_start (r : SubManagerReconciler) (resource : T) (s : smr_state)
    : smr_state * outcome progress :=
  match LocalTypes r with
  | None => (s, Panic "nil pointer dereference")
  | Some localTypesOf =>
      match localTypesOf resource with
      | Err _ => (s, Ret (Returned None))
      | Ok localTypes =>
          match s_mgr s with
          | None => (s, Panic "nil pointer dereference")
          | Some parent =>
              let opts := MkOptions None None None "" false (MkCacheOptions (s_SyncPeriod s) true) in
              match submanager_New parent opts localTypes with
              | Err e => (s, Ret (Returned (Some e)))
              | Ok mgr =>
                  match SetupWithSubManager r with
                  | None => (s, Panic "nil pointer dereference")
                  | Some setup =>
                      match setup mgr resource with
                      | Some e => (s, Ret (Returned (Some e)))
                      | None =>
                          match s_managers s with
                          | None => (s, Panic "assignment to entry in nil map")
                          | Some ms =>
                              let i := s_next s in
                              let s := set_managers (Some (<[ om_UID (meta_of resource) := i ]> ms)) s in
                              (set_insts (<[ i := MkInstance false false InStart ]> (s_insts s)) (S i) s,
                               Ret (Returned None))
                          end
                      end
                  end
              end
          end
      end
  end.

Definition cancel (i : nat) (s : smr_state) : smr_state :=
  set_insts (alter (fun x => MkInstance true (i_parent_done x) (i_state x)) i (s_insts s)) (s_next s) s.

(** shutdown up to the receive from [done]. *)
Definition smr_shutdown (resource : T) (s : smr_state) : smr_state * outcome progress :=
  match s_managers s ≫= lookup (om_UID (meta_of resource)) with
  | Some i => (cancel i s, Ret (Blocked (om_UID (meta_of resource)) i))
  | None => (s, Ret (Returned None))
  end.

(** shutdown from the receive on: the error is only logged. *)
Definition smr_shutdown_received (uid : string) (i : nat) (s : smr_state) : smr_state :=
  set_managers (delete uid <$> s_managers s)
    (set_insts (alter (fun x => MkInstance (i_cancelled x) (i_parent_done x) Finished) i (s_insts s)) (s_next s) s).

Definition smr_Reconcile (r : SubManagerReconciler) (resource : T) (s : smr_state)
    : smr_state * outcome progress :=
  match smr_init s with
  | (s, Panic m) => (s, Panic m)
  | (s, Ret _) =>
      match om_DeletionTimestamp (meta_of resource) with
      | Some _ => smr_shutdown resource s
      | None =>
          if negb (bool_decide (AssertFinalizer r ∈ om_Finalizers (meta_of resource))) then
            (s, Ret (Returned (Some (EFmt ("resource must contain finalizer "
                                             +:+ Quote (AssertFinalizer r))))))
          else match s_managers s ≫= lookup (om_UID (meta_of resource)) with
               | Some _ => (s, Ret (Returned None))
               | None => smr_start r resource s
               end
      end
  end.

(** ** The reconciler and its goroutines

    The controller calls Reconcile for one resource at a time.  mgr.Start can
    return at any time, on its own or because its context is done, and the
    parent of the context of a running goroutine can be done at any time. *)

Inductive call := Idle | Waiting (uid : string) (i : nat).

Inductive smr_step (r : SubManagerReconciler) : smr_state * call -> smr_state * call -> Prop :=
| step_return resource s s' e :
    smr_Reconcile r resource s = (s', Ret (Returned e)) -> smr_step r (s, Idle) (s', Idle)
| step_block resource s s' uid i :
    smr_Reconcile r resource s = (s', Ret (Blocked uid i)) -> smr_step r (s, Idle) (s', Waiting uid i)
| step_exit s c i x e :
    s_insts s !! i = Some x -> i_state x = InStart ->
    smr_step r (s, c) (set_insts (<[ i := MkInstance (i_cancelled x) (i_parent_done x) (Sending e) ]> (s_insts s))
                         (s_next s) s, c)
| step_parent_done s c i x :
    s_insts s !! i = Some x -> i_state x <> Finished ->
    smr_step r (s, c) (set_insts (<[ i := MkInstance (i_cancelled x) true (i_state x) ]> (s_insts s))
                         (s_next s) s, c)
| step_receive s uid i x e :
    s_insts s !! i = Some x -> i_state x = Sending e ->
    smr_step r (s, Waiting uid i) (smr_shutdown_received uid i s, Idle).

(** The state a SetupWithManager without error leaves behind. *)
Definition smr_ready (s : smr_state) : Prop :=
  s_initOnce s = true /\ is_Some (s_mgr s) /\ s_managers s = Some ∅ /\ s_insts s = ∅.

Definition live (x : instance) : Prop := i_state x <> Finished.

(** Entries and live goroutines correspond one to one, goroutine numbers are
    fresh, and exactly the goroutine a shutdown waits for is cancelled. *)
Record smr_inv (sc : smr_state * call) : Prop := {
  inv_once : s_initOnce sc.1 = true;
  inv_mgr : is_Some (s_mgr sc.1);
  inv_managers : is_Some (s_managers sc.1);
  inv_fresh : forall i x, s_insts sc.1 !! i = Some x -> i < s_next sc.1;
  inv_live : forall uid i, s_managers sc.1 ≫= lookup uid = Some i ->
               exists x, s_insts sc.1 !! i = Some x /\ live x;
  inv_inj : forall uid uid' i, s_managers sc.1 ≫= lookup uid = Some i ->
               s_managers sc.1 ≫= lookup uid' = Some i -> uid = uid';
  inv_owned : forall i x, s_insts sc.1 !! i = Some x -> live x ->
               exists uid, s_managers sc.1 ≫= lookup uid = Some i;
  inv_cancelled : forall i x, s_insts sc.1 !! i = Some x -> live x -> i_cancelled x = true ->
               exists uid, sc.2 = Waiting uid i;
  inv_waiting : forall uid i, sc.2 = Waiting uid i -> s_managers sc.1 ≫= lookup uid = Some i
               /\ exists x, s_insts sc.1 !! i = Some x /\ i_cancelled x = true;
}.

(** The state after the manager of [uid] was started. *)
Definition started (uid : string) (ms : gmap string nat) (s : smr_state) : smr_state :=
  set_insts (<[ s_next s := MkInstance false false InStart ]> (s_insts s)) (S (s_next s))
    (set_managers (Some (<[ uid := s_next s ]> ms)) s).
End smr.

Arguments SubManagerReconciler {_ _} _.
Arguments progress {_}.
Arguments instance {_}.

(** ** Lemmas *)

Section smr_lemmas.
Context `{GoUnicode} `{Schema} `{ErrorLib} `{CacheTypes} `{ManagerTypes} `{!ManagerLib}.
Context {T : Type} `{!Reconciled T}.
Implicit Types (r : SubManagerReconciler T) (s : smr_state) (resource : T).

Lemma smr_init_once s : s_initOnce s = true -> smr_init s = (s, Ret tt).
Proof. unfold smr_init. by intros ->. Qed.

Lemma smr_start_returned r resource s s' e :
  smr_start r resource s = (s', Ret (Returned e)) ->
  s' = s \/ e = None /\ exists ms, s_managers s = Some ms
              /\ s' = started (om_UID (meta_of resource)) ms s.
Proof. unfold smr_start. intros. go_cases; eauto 10. Qed.

Lemma smr_start_not_blocked r resource s s' uid i :
  smr_start r resource s <> (s', Ret (Blocked uid i)).
Proof. unfold smr_start. intros ?. go_cases. Qed.

Lemma smr_Reconcile_returned r resource s s' e :
  s_initOnce s = true -> smr_Reconcile r resource s = (s', Ret (Returned e)) ->
  s' = s \/ e = None /\ om_DeletionTimestamp (meta_of resource) = None
            /\ exists ms, s_managers s = Some ms /\ ms !! om_UID (meta_of resource) = None
              /\ s' = started (om_UID (meta_of resource)) ms s.
Proof.
  intros Ho. unfold smr_Reconcile, smr_shutdown. rewrite smr_init_once by done.
  destruct (om_DeletionTimestamp (meta_of resource)); [destruct (s_managers s ≫= _); naive_solver|].
  destruct (negb _); [naive_solver|].
  destruct (s_managers s ≫= _) eqn:Hm; [naive_solver|].
  intros [->|(-> & ms & Hms & ->)]%smr_start_returned; [by left|right].
  split_and!; [done..|]. exists ms. rewrite Hms in Hm. done.
Qed.

Lemma smr_Reconcile_blocked r resource s s' uid i :
  s_initOnce s = true -> smr_Reconcile r resource s = (s', Ret (Blocked uid i)) ->
  uid = om_UID (meta_of resource) /\ is_Some (om_DeletionTimestamp (meta_of resource))
  /\ s_managers s ≫= lookup uid = Some i /\ s' = cancel i s.
Proof.
  intros Ho. unfold smr_Reconcile, smr_shutdown. rewrite smr_init_once by done.
  destruct (om_DeletionTimestamp (meta_of resource)).
  - destruct (s_managers s ≫= _) eqn:Hm; naive_solver.
  - destruct (negb _); [done|]. destruct (s_managers s ≫= _); [done|].
    by intros ?%smr_start_not_blocked.
Qed.

Lemma smr_inv_fresh sc : smr_inv sc -> s_insts sc.1 !! s_next sc.1 = None.
Proof.
  intros Hinv. destruct (s_insts sc.1 !! s_next sc.1) eqn:E; [|done].
  apply (inv_fresh _ Hinv) in E. lia.
Qed.

Lemma smr_inv_started s ms uid :
  smr_inv (s, Idle) -> s_managers s = Some ms -> ms !! uid = None ->
  smr_inv (started uid ms s, Idle).
Proof.
  intros Hinv Hms Huid. assert (Hfr := smr_inv_fresh _ Hinv).
  destruct Hinv as [I1 I2 I3 I4 I5 I6 I7 I8 I9]. simpl in *. rewrite Hms in *. simpl in *.
  assert (Hnew : forall u, ms !! u <> Some (s_next s)).
  { intros u Hu. apply I5 in Hu as (x & Hx & _). congruence. }
  constructor; simpl; try done.
  - intros i x [[<- _]|[_ Hx]]%lookup_insert_Some; [lia|]. apply I4 in Hx. lia.
  - intros u i [[<- <-]|[_ Hu]]%lookup_insert_Some.
    + eexists. by rewrite lookup_insert_eq.
    + destruct (I5 _ _ Hu) as (x & Hx & Hl). exists x. split; [|done].
      rewrite lookup_insert_ne; [done|]. intros <-. by apply (Hnew u).
  - intros u u' i [[<- <-]|[Hne Hu]]%lookup_insert_Some
      [[<- Hi]|[Hne' Hu']]%lookup_insert_Some; [done| | |by eapply I6].
    + by apply Hnew in Hu'.
    + subst. by apply Hnew in Hu.
  - intros i x [[<- <-]|[Hne Hx]]%lookup_insert_Some Hl.
    + exists uid. by rewrite lookup_insert_eq.
    + destruct (I7 _ _ Hx Hl) as [u Hu]. exists u. rewrite lookup_insert_ne; [done|congruence].
  - intros i x [[<- <-]|[Hne Hx]]%lookup_insert_Some Hl Hc; [done|]. by eapply I8.
Qed.

(** Changing the goroutine [i] and not whether it is live keeps the
    correspondence; [c'] says who is cancelled afterwards. *)
Lemma smr_inv_update s c c' i (x x' : instance) :
  smr_inv (s, c) -> s_insts s !! i = Some x -> live x -> live x' ->
  (i_cancelled x' = true -> exists uid, c' = Waiting uid i) ->
  (forall j y, j <> i -> s_insts s !! j = Some y -> live y -> i_cancelled y = true ->
     exists uid, c' = Waiting uid j) ->
  (forall uid j, c' = Waiting uid j -> s_managers s ≫= lookup uid = Some j
     /\ exists y, <[ i := x' ]> (s_insts s) !! j = Some y /\ i_cancelled y = true) ->
  smr_inv (set_insts (<[ i := x' ]> (s_insts s)) (s_next s) s, c').
Proof.
  intros [I1 I2 I3 I4 I5 I6 I7 I8 I9] Hx Hl Hl' Hc Hc2 Hw. simpl in *.
  constructor; simpl; try done.
  - intros j y [[<- _]|[_ Hy]]%lookup_insert_Some; [by eapply I4|by eapply I4].
  - intros u j Hu. destruct (I5 _ _ Hu) as (y & Hy & Hly).
    destruct (decide (j = i)) as [->|Hne].
    + exists x'. by rewrite lookup_insert_eq.
    + exists y. by rewrite lookup_insert_ne.
  - intros j y [[<- <-]|[Hne Hy]]%lookup_insert_Some Hly; [by eapply I7|by eapply I7].
  - intros j y [[<- <-]|[Hne Hy]]%lookup_insert_Some Hly Hcy; [by apply Hc|by eapply Hc2].
Qed.

Lemma alter_insert_lookup {A} (f : A -> A) (i : nat) (m : gmap nat A) x :
  m !! i = Some x -> alter f i m = <[ i := f x ]> m.
Proof.
  intros Hx. apply map_eq. intros j. rewrite lookup_insert.
  destruct (decide (i = j)) as [->|Hne]; [by rewrite lookup_alter_eq, Hx|by rewrite lookup_alter_ne].
Qed.

Lemma smr_inv_block s uid i :
  smr_inv (s, Idle) -> s_managers s ≫= lookup uid = Some i ->
  smr_inv (cancel i s, Waiting uid i).
Proof.
  intros Hinv Hm. destruct (inv_live _ Hinv _ _ Hm) as (x & Hx & Hl).
  unfold cancel. simpl in Hx. rewrite (alter_insert_lookup _ _ _ _ Hx).
  eapply smr_inv_update; [done|done|done|done|eauto| |].
  - intros j y Hne Hy Hly Hc. destruct (inv_cancelled _ Hinv j y Hy Hly Hc) as [? [=]].
  - intros u j [= <- <-]. split; [done|]. eexists. by rewrite lookup_insert_eq.
Qed.

(** So does a change of [i] that keeps it live and whether it is
    cancelled. *)
Lemma smr_inv_move s c i (x x' : instance) :
  smr_inv (s, c) -> s_insts s !! i = Some x -> live x -> live x' -> i_cancelled x' = i_cancelled x ->
  smr_inv (set_insts (<[ i := x' ]> (s_insts s)) (s_next s) s, c).
Proof.
  intros Hinv Hx Hl Hl' Hc'. eapply smr_inv_update; [done|done|done|done| | |].
  - rewrite Hc'. intros Hc. by eapply (inv_cancelled _ Hinv).
  - intros j y _. apply (inv_cancelled _ Hinv).
  - intros u j Hc. destruct (inv_waiting _ Hinv u j Hc) as (Hm & y & Hy & Hcy). split; [done|].
    destruct (decide (j = i)) as [->|Hne].
    + exists x'. rewrite lookup_insert_eq. simpl in Hy. split; [done|]. congruence.
    + exists y. by rewrite lookup_insert_ne.
Qed.

Lemma smr_inv_receive s uid i x e :
  smr_inv (s, Waiting uid i) -> s_insts s !! i = Some x -> i_state x = Sending e ->
  smr_inv (smr_shutdown_received uid i s, Idle).
Proof.
  intros [I1 I2 [ms I3] I4 I5 I6 I7 I8 I9] Hx Hst. simpl in *.
  destruct (I9 _ _ eq_refl) as [Hm _]. rewrite I3 in *. simpl in *.
  unfold smr_shutdown_received. rewrite (alter_insert_lookup _ _ _ _ Hx), I3. simpl.
  constructor; simpl; try done.
  - intros j y [[<- _]|[_ Hy]]%lookup_insert_Some; by eapply I4.
  - intros u j [Hne Hu]%lookup_delete_Some. destruct (I5 _ _ Hu) as (y & Hy & Hly).
    exists y. rewrite lookup_insert_ne; [done|]. intros <-. apply Hne. by eapply I6.
  - intros u u' j [_ Hu]%lookup_delete_Some [_ Hu']%lookup_delete_Some. by eapply I6.
  - intros j y [[<- <-]|[Hne Hy]]%lookup_insert_Some Hly; [done|].
    destruct (I7 _ _ Hy Hly) as [u Hu]. exists u. rewrite lookup_delete_ne; [done|]. congruence.
  - intros j y [[<- <-]|[Hne Hy]]%lookup_insert_Some Hly Hc; [done|].
    destruct (I8 _ _ Hy Hly Hc) as [u [= <- <-]]. done.
Qed.

Lemma smr_inv_step r sc sc' : smr_inv sc -> smr_step r sc sc' -> smr_inv sc'.
Proof.
  intros Hinv Hstep. destruct Hstep as [resource s s' e Hr|resource s s' uid i Hr|s c i x e Hx Hst
    |s c i x Hx Hst|s uid i x e Hx Hst].
  - apply smr_Reconcile_returned in Hr as [->|(_ & _ & ms & Hms & Hu & ->)];
      [done|by apply smr_inv_started|by apply (inv_once _ Hinv)].
  - apply smr_Reconcile_blocked in Hr as (_ & _ & Hm & ->);
      [by apply smr_inv_block|by apply (inv_once _ Hinv)].
  - eapply smr_inv_move; [done|done|unfold live; by rewrite Hst|done|done].
  - by eapply smr_inv_move.
  - by eapply smr_inv_receive.
Qed.

Lemma smr_inv_ready s : smr_ready s -> smr_inv (s, Idle).
Proof.
  intros (Ho & Hm & Hms & Hi). constructor; simpl; rewrite ?Hms, ?Hi; simpl; try done; try by eexists.
Qed.

Lemma smr_inv_reachable r s sc : smr_ready s -> rtc (smr_step r) (s, Idle) sc -> smr_inv sc.
Proof.
  intros Hr Hsteps. apply smr_inv_ready in Hr. revert Hr.
  induction Hsteps; eauto using smr_inv_step.
Qed.
End smr_lemmas.

#[export] Hint Resolve smr_inv_step smr_inv_ready smr_inv_reachable : ducks.

(** ** Theorems *)

Section smr_theorems.
Context `{GoUnicode} `{Schema} `{ErrorLib} `{CacheTypes} `{ManagerTypes} `{!ManagerLib}.
Context {T : Type} `{!Reconciled T}.
Implicit Types (r : SubManagerReconciler T) (s : smr_state) (resource : T).

(** A reconciler as its user declares it, before SetupWithManager. *)
Definition smr_zero (name : string) (sync : option Z) : smr_state :=
  MkState name sync false None None ∅ 0.

Lemma smr_setup_ready r mgr name sync s :
  smr_SetupWithManager r mgr (smr_zero name sync) = (s, Ret None) -> smr_ready s.
Proof.
  unfold smr_SetupWithManager, smr_Validate. simpl. intros Hs.
  go_cases; split_and!; simpl; eauto.
Qed.

(** C1: from SetupWithManager on, whatever resources are reconciled and
    whenever managers exit, entries of the managers map and goroutines that
    have not finished correspond one to one: a resource has at most one
    sub-manager, none is leaked, and the cancel function of none has been
    called except of the one a shutdown is waiting for. *)
Theorem submanager_one_per_resource r mgr name sync s s' c :
  smr_SetupWithManager r mgr (smr_zero name sync) = (s, Ret None) ->
  rtc (smr_step r) (s, Idle) (s', c) ->
  (forall uid i, s_managers s' ≫= lookup uid = Some i -> exists x, s_insts s' !! i = Some x /\ live x)
  /\ (forall i x, s_insts s' !! i = Some x -> live x ->
        exists! uid, s_managers s' ≫= lookup uid = Some i)
  /\ (forall i x, s_insts s' !! i = Some x -> live x -> i_cancelled x = true ->
        exists uid, c = Waiting uid i).
Proof.
  intros Hs%smr_setup_ready Hsteps. assert (Hinv := smr_inv_reachable _ _ _ Hs Hsteps).
  split_and!; [apply (inv_live _ Hinv)| |apply (inv_cancelled _ Hinv)].
  intros i x Hx Hl. destruct (inv_owned _ Hinv i x Hx Hl) as [uid Hu].
  exists uid. split; [done|]. intros uid' Hu'. by eapply (inv_inj _ Hinv).
Qed.

(** C5: a shutdown always completes: in every reachable state in which Reconcile
    is blocked on the channel of a sub-manager, that manager's cancel function
    has been called and its goroutine has not finished, and once mgr.Start has
    returned the receive happens, after which the resource has no entry, the
    goroutine is finished and the reconciler is idle. *)
Theorem submanager_shutdown_completes r mgr name sync s s' uid i :
  smr_SetupWithManager r mgr (smr_zero name sync) = (s, Ret None) ->
  rtc (smr_step r) (s, Idle) (s', Waiting uid i) ->
  (exists x, s_insts s' !! i = Some x /\ i_cancelled x = true /\ live x)
  /\ exists s'' y, rtc (smr_step r) (s', Waiting uid i) (s'', Idle)
       /\ s_managers s'' ≫= lookup uid = None
       /\ s_insts s'' !! i = Some y /\ i_state y = Finished.
Proof.
  intros Hs%smr_setup_ready Hsteps. assert (Hinv := smr_inv_reachable _ _ _ Hs Hsteps).
  destruct (inv_waiting _ Hinv uid i eq_refl) as (Hm & x & Hx & Hc).
  destruct (inv_live _ Hinv uid i Hm) as (x' & Hx' & Hl). simpl in *.
  rewrite Hx in Hx'. injection Hx' as <-. split; [eauto|].
  destruct (inv_managers _ Hinv) as [ms Hms]. simpl in Hms.
  destruct (i_state x) as [|e|] eqn:Hst; [| |done].
  - pose (x1 := MkInstance (i_cancelled x) (i_parent_done x) (Sending None)).
    pose (s1 := set_insts (<[ i := x1 ]> (s_insts s')) (s_next s') s').
    exists (smr_shutdown_received uid i s1), (MkInstance (i_cancelled x) (i_parent_done x) Finished).
    split_and!; [|simpl; rewrite Hms; simpl; apply lookup_delete_eq| |done].
    + eapply rtc_l; [by eapply (step_exit r s' _ i x None)|].
      eapply rtc_l; [|apply rtc_refl].
      eapply (step_receive r s1 uid i x1 None); [by apply lookup_insert_eq|done].
    + simpl. by rewrite lookup_alter_eq, lookup_insert_eq.
  - exists (smr_shutdown_received uid i s'), (MkInstance (i_cancelled x) (i_parent_done x) Finished).
    split_and!; [|simpl; rewrite Hms; simpl; apply lookup_delete_eq| |done].
    + eapply rtc_l; [by eapply step_receive|apply rtc_refl].
    + simpl. by rewrite lookup_alter_eq, Hx.
Qed.

(** With the callbacks Validate asks for, a live resource's Reconcile neither
    panics nor blocks. *)
Lemma smr_Reconcile_live_returns r resource s f g :
  smr_inv (s, Idle) -> LocalTypes r = Some f -> SetupWithSubManager r = Some g ->
  om_DeletionTimestamp (meta_of resource) = None ->
  exists s' e, smr_Reconcile r resource s = (s', Ret (Returned e)).
Proof.
  intros Hinv Hf Hg Hd. unfold smr_Reconcile. rewrite smr_init_once, Hd by apply (inv_once _ Hinv).
  destruct (inv_mgr _ Hinv) as [parent Hp], (inv_managers _ Hinv) as [ms Hms]. simpl in Hp, Hms.
  unfold smr_start. rewrite Hf, Hg, Hp, Hms. repeat case_match; simplify_eq; eauto.
Qed.

(** The manager started for a resource is seen by its next Reconcile. *)
Lemma smr_Reconcile_entry r resource s i :
  smr_inv (s, Idle) -> om_DeletionTimestamp (meta_of resource) = None ->
  AssertFinalizer r ∈ om_Finalizers (meta_of resource) ->
  s_managers s ≫= lookup (om_UID (meta_of resource)) = Some i ->
  smr_Reconcile r resource s = (s, Ret (Returned None)).
Proof.
  intros Hinv Hd Hfin Hm. unfold smr_Reconcile.
  rewrite smr_init_once, Hd, bool_decide_eq_true_2, Hm by (done || apply (inv_once _ Hinv)). done.
Qed.

Lemma smr_Reconcile_finalizer r resource s s' :
  smr_inv (s, Idle) -> om_DeletionTimestamp (meta_of resource) = None ->
  smr_Reconcile r resource s = (s', Ret (Returned None)) ->
  AssertFinalizer r ∈ om_Finalizers (meta_of resource).
Proof.
  intros Hinv Hd. unfold smr_Reconcile. rewrite smr_init_once, Hd by apply (inv_once _ Hinv).
  destruct (decide (AssertFinalizer r ∈ om_Finalizers (meta_of resource))) as [?|Hn]; [done|].
  by rewrite bool_decide_eq_false_2.
Qed.

Lemma smr_Reconcile_success_entry r resource s s' f types :
  smr_inv (s, Idle) -> LocalTypes r = Some f -> f resource = Ok types ->
  om_DeletionTimestamp (meta_of resource) = None ->
  smr_Reconcile r resource s = (s', Ret (Returned None)) ->
  is_Some (s_managers s' ≫= lookup (om_UID (meta_of resource))).
Proof.
  intros Hinv Hf Ht Hd. unfold smr_Reconcile. rewrite smr_init_once, Hd by apply (inv_once _ Hinv).
  destruct (negb _); [done|].
  destruct (s_managers s ≫= _) as [i|] eqn:Hm; [intros [= <-]; by rewrite Hm|].
  unfold smr_start. rewrite Hf, Ht. repeat case_match; try done. intros [= <-]. simpl.
  rewrite lookup_insert_eq. by eexists.
Qed.

(** C6: reconciling a resource that is not being deleted, when the reconciler is
    set up and LocalTypes succeeds, neither panics nor blocks.  If it fails
    nothing has changed.  If it succeeds the resource has the asserted
    finalizer and a sub-manager of its own that has not been cancelled.  If it
    had one before, nothing has changed; else exactly one was started: the
    goroutines are the old ones and the new one of this resource.  Other
    resources' entries are untouched, and reconciling it again changes
    nothing. *)
Theorem submanager_reconcile_live r resource s f g types :
  smr_inv (s, Idle) -> LocalTypes r = Some f -> SetupWithSubManager r = Some g ->
  f resource = Ok types -> om_DeletionTimestamp (meta_of resource) = None ->
  let uid := om_UID (meta_of resource) in
  exists s' e, smr_Reconcile r resource s = (s', Ret (Returned e)) /\
    match e with
    | Some _ => s' = s
    | None =>
        AssertFinalizer r ∈ om_Finalizers (meta_of resource)
        /\ (exists i x, s_managers s' ≫= lookup uid = Some i /\ s_insts s' !! i = Some x
             /\ live x /\ i_cancelled x = false)
        /\ match s_managers s ≫= lookup uid with
           | Some _ => s' = s
           | None => s_insts s !! s_next s = None
               /\ s_managers s' ≫= lookup uid = Some (s_next s)
               /\ s_insts s' = <[ s_next s := MkInstance false false InStart ]> (s_insts s)
           end
        /\ (forall uid', uid' <> uid -> s_managers s' ≫= lookup uid' = s_managers s ≫= lookup uid')
        /\ smr_Reconcile r resource s' = (s', Ret (Returned None))
    end.
Proof.
  intros Hinv Hf Hg Ht Hd uid.
  destruct (smr_Reconcile_live_returns r resource s f g) as (s' & e & Hr); [done..|].
  exists s', e. split; [done|].
  assert (Hinv' : smr_inv (s', Idle)) by (eapply smr_inv_step; [done|by eapply step_return]).
  destruct (smr_Reconcile_returned r resource s s' e (inv_once _ Hinv) Hr)
    as [Heq|(-> & _ & ms & Hms & Hu & Heq)]; [destruct e as [e|]; [done|]|].
  all: assert (Hfin := smr_Reconcile_finalizer _ _ _ _ Hinv Hd Hr).
  all: destruct (smr_Reconcile_success_entry _ _ _ _ _ _ Hinv Hf Ht Hd Hr) as [i Hi].
  all: destruct (inv_live _ Hinv' _ _ Hi) as (x & Hx & Hl).
  all: assert (Hc : i_cancelled x = false)
    by (destruct (i_cancelled x) eqn:E; [|done];
        by destruct (inv_cancelled _ Hinv' _ _ Hx Hl E) as [? [=]]).
  all: split_and!; [done|eauto 10| | |by eapply smr_Reconcile_entry].
  - subst uid. rewrite <- Heq, Hi. done.
  - intros uid' _. by rewrite Heq.
  - rewrite Hms. simpl. subst uid. rewrite Hu, Heq. simpl. rewrite lookup_insert_eq.
    split_and!; [|done|done]. by apply (smr_inv_fresh (s, Idle)).
  - intros uid' Hne. rewrite Heq, Hms. simpl. by rewrite lookup_insert_ne.
Qed.

(** C37: a sub-manager that has exited on its own is taken for a running one: as
    long as the resource is not deleted, its Reconcile returns without error
    and without restarting the manager or looking at the error it exited
    with. *)
Theorem exited_submanager_not_restarted r resource s i x e :
  smr_inv (s, Idle) ->
  om_DeletionTimestamp (meta_of resource) = None ->
  AssertFinalizer r ∈ om_Finalizers (meta_of resource) ->
  s_managers s ≫= lookup (om_UID (meta_of resource)) = Some i ->
  s_insts s !! i = Some x -> i_state x = Sending (Some e) ->
  smr_Reconcile r resource s = (s, Ret (Returned None)).
Proof.
  intros Hinv Hd Hfin Hm _ _. by eapply smr_Reconcile_entry.
Qed.

(** C38: an error of the LocalTypes callback is dropped: Reconcile starts
    nothing and reports success, so the request is not retried. *)
Theorem localtypes_error_dropped r resource s f e :
  smr_inv (s, Idle) ->
  om_DeletionTimestamp (meta_of resource) = None ->
  AssertFinalizer r ∈ om_Finalizers (meta_of resource) ->
  s_managers s ≫= lookup (om_UID (meta_of resource)) = None ->
  LocalTypes r = Some f -> f resource = Err e ->
  smr_Reconcile r resource s = (s, Ret (Returned None)).
Proof.
  intros Hinv Hd Hfin Hm Hf He. unfold smr_Reconcile.
  rewrite smr_init_once, Hd, bool_decide_eq_true_2, Hm by (done || apply (inv_once _ Hinv)).
  simpl. unfold smr_start. by rewrite Hf, He.
Qed.
End smr_theorems.

(** ** Witnesses *)

Definition ref_resource : Reconciled ObjectMeta :=
  {| meta_of m := m; same_but_finalizers _ _ := True; same_but_finalizers_refl _ := I |}.

#[local] Existing Instances ref_unicode ref_errors ref_cache_types ref_manager_types ref_manager ref_resource.

Definition w_timeout : err := api_error "Timeout".

(** A reconciler of bare metadata whose sub-managers are local for one kind. *)
Definition w_smr : SubManagerReconciler ObjectMeta :=
  MkSMR "duck.reconciler.io/reconciler" None
    (Some (fun _ => Ok [MkGK "example.com" "Widget"])) (Some (fun _ _ => None)).

Definition w_resource (deleted : option Z) : ObjectMeta :=
  MkObjectMeta "widgets.example.com" "" "uid-1" "1" 1 deleted ∅ [] ["duck.reconciler.io/reconciler"].

Definition w_ready : smr_state :=
  (smr_SetupWithManager w_smr 0
     (smr_zero "" None)).1.

Definition w_reconcile (m : ObjectMeta) (s : smr_state) :=
  smr_Reconcile w_smr m s.

Definition w_started : smr_state :=
  (w_reconcile (w_resource None) w_ready).1.

Abbreviation w_step := (smr_step w_smr).

Lemma w_started_reachable : rtc w_step (w_ready, Idle) (w_started, Idle).
Proof. apply rtc_once. apply (step_return w_smr (w_resource None) w_ready w_started None). reflexivity. Qed.

Lemma submanager_one_per_resource_witness :
  exists! uid, s_managers w_started ≫= lookup uid = Some 0.
Proof.
  apply (submanager_one_per_resource w_smr 0 "" None w_ready w_started Idle eq_refl w_started_reachable)
    with (x := MkInstance false false InStart); [reflexivity|done].
Defined.

Lemma submanager_shutdown_completes_witness :
  let s' := (w_reconcile (w_resource (Some 7%Z)) w_started).1 in
  exists s'' y, rtc w_step (s', Waiting "uid-1" 0) (s'', Idle)
    /\ s_managers s'' ≫= lookup "uid-1" = None
    /\ s_insts s'' !! 0 = Some y /\ i_state y = Finished.
Proof.
  apply (submanager_shutdown_completes w_smr 0 "" None w_ready _ "uid-1" 0 eq_refl).
  eapply rtc_r; [apply w_started_reachable|].
  apply (step_block w_smr (w_resource (Some 7%Z)) w_started). reflexivity.
Defined.

Lemma w_ready_inv : smr_inv (w_ready, Idle).
Proof. apply smr_inv_ready, (smr_setup_ready w_smr 0 "" None). reflexivity. Qed.

Lemma w_started_inv : smr_inv (w_started, Idle).
Proof.
  apply (smr_inv_reachable w_smr w_ready); [|apply w_started_reachable].
  apply (smr_setup_ready w_smr 0 "" None). reflexivity.
Qed.

Lemma submanager_reconcile_live_witness :
  exists s' e, w_reconcile (w_resource None) w_ready = (s', Ret (Returned e)) /\ e = None
    /\ w_reconcile (w_resource None) s' = (s', Ret (Returned None)).
Proof.
  destruct (submanager_reconcile_live (Reconciled0 := ref_resource) w_smr (w_resource None) w_ready
              (fun _ => Ok [MkGK "example.com" "Widget"]) (fun _ _ => None) [MkGK "example.com" "Widget"]
              w_ready_inv eq_refl eq_refl eq_refl eq_refl) as (s' & e & Hr & He).
  exists s', e. split; [exact Hr|]. injection Hr as _ <-. split; [reflexivity|apply He].
Defined.

(** The state in which the sub-manager of the resource has exited with an
    error. *)
Definition w_exited : smr_state :=
  set_insts (<[ 0 := MkInstance false false (Sending (Some w_timeout)) ]> (s_insts w_started))
    (s_next w_started) w_started.

Lemma w_exited_inv : smr_inv (w_exited, Idle).
Proof.
  apply (smr_inv_reachable w_smr w_ready); [apply (smr_setup_ready w_smr 0 "" None); reflexivity|].
  eapply rtc_r; [apply w_started_reachable|].
  apply (step_exit w_smr w_started Idle 0 (MkInstance false false InStart) (Some w_timeout));
    reflexivity.
Qed.

Lemma exited_submanager_not_restarted_witness :
  w_reconcile (w_resource None) w_exited = (w_exited, Ret (Returned None)).
Proof.
  apply (exited_submanager_not_restarted w_smr (w_resource None) w_exited 0
           (MkInstance false false (Sending (Some w_timeout))) w_timeout w_exited_inv);
    solve [reflexivity | by left | set_solver].
Defined.

Definition w_smr_failing : SubManagerReconciler ObjectMeta :=
  MkSMR "duck.reconciler.io/reconciler" None
    (Some (fun _ => Err w_timeout)) (Some (fun _ _ => None)).

Lemma localtypes_error_dropped_witness :
  smr_Reconcile w_smr_failing (w_resource None) w_ready = (w_ready, Ret (Returned None)).
Proof.
  apply (localtypes_error_dropped w_smr_failing (w_resource None) w_ready (fun _ => Err w_timeout) w_timeout
           w_ready_inv); solve [reflexivity | set_solver].
Defined.
