(* ===== verification/Controller.v ===== *)
(** * internal/controller: the two reconcilers

    DuckTypeReconciler, DuckSubReconciler and DuckReconciler, composed of the
    sub-reconcilers of Rbac.v, Crd.v, ReadyCheck.v and SubManagerReconciler.v
    the way ducktype_controller.go composes them. *)

From S2P Require Import Prelude Platform Reference ApiV1 Webhook Runtime Rbac ReadyCheck Crd Submanager SubManagerReconciler.

(** ** A call of SubManagerReconciler.Reconcile, to its return

    The error a manager's Start returns is up to the library, [exits] is its
    choice for each goroutine. *)
Section run.
Context `{GoUnicode} `{ErrorLib} `{CacheTypes} `{ManagerTypes} `{!ManagerLib}.
Context {T : Type} `{!Reconciled T}.
Variable exits : nat -> option err.

(** mgr.Start of goroutine [i] returns, if it has not yet. *)
Definition start_returns (i : nat) (s : smr_state) : smr_state :=
  match s_insts s !! i with
  | Some x => match i_state x with
              | InStart => set_insts (<[ i := MkInstance (i_cancelled x) (i_parent_done x) (Sending (exits i)) ]> (s_insts s))
                             (s_next s) s
              | _ => s
              end
  | None => s
  end.

Definition smr_run (r : SubManagerReconciler T) (resource : T) (s : smr_state)
    : outcome (smr_state * option err) :=
  match smr_Reconcile r resource s with
  | (_, Panic m) => Panic m
  | (s', Ret (Returned e)) => Ret (s', e)
  | (s', Ret (Blocked uid i)) => Ret (smr_shutdown_received uid i (start_returns i s'), None)
  end.

(** It is a sequence of steps of the reconciler and its goroutines. *)
Lemma smr_run_steps r resource s s' e :
  smr_inv (s, Idle) -> smr_run r resource s = Ret (s', e) ->
  rtc (smr_step r) (s, Idle) (s', Idle).
Proof.
  intros Hinv. unfold smr_run. destruct (smr_Reconcile r resource s) as [s1 [[e1|uid i]|m]] eqn:Hr; [..|done].
  - intros [= <- <-]. apply rtc_once. by eapply step_return.
  - intros [= <- _]. eapply rtc_l; [by eapply step_block|].
    assert (Hinv1 : smr_inv (s1, Waiting uid i)) by (eapply smr_inv_step; [done|by eapply step_block]).
    destruct (inv_waiting _ Hinv1 uid i eq_refl) as (Hm & _).
    destruct (inv_live _ Hinv1 uid i Hm) as (x & Hx & Hl). simpl in Hx. unfold start_returns. rewrite Hx.
    destruct (i_state x) as [|e1|] eqn:Hst; [| |done].
    + eapply rtc_l; [by eapply (step_exit r s1 _ i x (exits i))|].
      apply rtc_once. eapply step_receive; [by apply lookup_insert_eq|done].
    + apply rtc_once. by eapply step_receive.
Qed.

Lemma smr_run_inv r resource s s' e :
  smr_inv (s, Idle) -> smr_run r resource s = Ret (s', e) -> smr_inv (s', Idle).
Proof.
  intros Hinv Hr. apply smr_run_steps in Hr; [|done]. revert Hinv.
  induction Hr; eauto with ducks.
Qed.

(** A live resource has one when the call returns without error, if its local
    types are known. *)
Lemma smr_run_live r resource s s' f types :
  smr_inv (s, Idle) -> LocalTypes r = Some f -> f resource = Ok types ->
  om_DeletionTimestamp (meta_of resource) = None -> smr_run r resource s = Ret (s', None) ->
  is_Some (s_managers s' ≫= lookup (om_UID (meta_of resource))).
Proof.
  intros Hinv Hf Ht Hd. unfold smr_run.
  destruct (smr_Reconcile r resource s) as [s1 [[e1|uid i]|m]] eqn:Hr; [..|done].
  - intros [= <- ->]. by eapply smr_Reconcile_success_entry.
  - apply smr_Reconcile_blocked in Hr as (_ & [? Hd'] & _); [|apply (inv_once _ Hinv)]. congruence.
Qed.

(** A terminating resource has no sub-manager when the call returns. *)
Lemma smr_run_terminating r resource s s' e :
  smr_inv (s, Idle) -> om_DeletionTimestamp (meta_of resource) <> None ->
  smr_run r resource s = Ret (s', e) ->
  e = None /\ s_managers s' ≫= lookup (om_UID (meta_of resource)) = None.
Proof.
  intros Hinv Hd. unfold smr_run, smr_Reconcile, smr_shutdown.
  rewrite smr_init_once by apply (inv_once _ Hinv).
  destruct (om_DeletionTimestamp (meta_of resource)); [|done].
  destruct (s_managers s ≫= _) as [i|] eqn:Hm; intros [= <- <-]; [|done]. split; [done|].
  destruct (inv_managers _ Hinv) as [ms Hms]. simpl in Hms.
  unfold start_returns, smr_shutdown_received; simpl.
  destruct (alter _ i (s_insts s) !! i) as [x|]; [destruct (i_state x)|]; simpl; rewrite Hms; simpl;
    apply lookup_delete_eq.
Qed.
End run.

(** ** The reconcilers *)

(** What adding or clearing a finalizer changes of the metadata. *)
Definition meta_set_Finalizers (fs : list string) (rv : string) (m : ObjectMeta) : ObjectMeta :=
  MkObjectMeta (om_Name m) (om_Namespace m) (om_UID m) rv (om_Generation m)
    (om_DeletionTimestamp m) (om_Labels m) (om_OwnerReferences m) fs.

Lemma meta_set_Finalizers_same m : meta_set_Finalizers (om_Finalizers m) (om_ResourceVersion m) m = m.
Proof. by destruct m. Qed.

#[export] Program Instance DuckType_Reconciled : Reconciled DuckType := {|
  meta_of := dt_ObjectMeta;
  same_but_finalizers p p' := exists fs rv,
    p' = MkDuckType (dt_TypeMeta p) (meta_set_Finalizers fs rv (dt_ObjectMeta p)) (dt_Spec p) (dt_Status p);
|}.
Next Obligation. intros []. eexists _, _. simpl. by rewrite meta_set_Finalizers_same. Qed.

#[export] Program Instance Duck_Reconciled : Reconciled Duck := {|
  meta_of := d_ObjectMeta;
  same_but_finalizers p p' := exists fs rv,
    p' = MkDuck (d_TypeMeta p) (meta_set_Finalizers fs rv (d_ObjectMeta p)) (d_Spec p) (d_Status p);
|}.
Next Obligation. intros []. eexists _, _. simpl. by rewrite meta_set_Finalizers_same. Qed.

Section controllers.
Context `{GoUnicode} `{Schema} `{MetaLib} `{ErrorLib} `{!ChildSetLib} `{ConditionLib}.
Context `{CacheTypes} `{ManagerTypes} `{!ManagerLib} {X : Type}.

(** reconcilers.ResourceReconciler: the type it is for, the name its Setup gives
    the controller, and the reconciler it runs at a time. *)
Record ResourceReconciler (F P : Type) := MkResourceReconciler {
  rr_Type : option TypeMeta;
  rr_Named : option string;
  rr_Reconciler : Z -> SubReconciler (X * F) P;
}.

Definition DuckReconciler `{!Engine X unit} (c : Config) (typeMeta : TypeMeta)
    : ResourceReconciler unit Duck :=
  MkResourceReconciler unit Duck (Some typeMeta)
    (Some (ToLower (gk_String (gvk_GroupKind
       (FromAPIVersionAndKind (tm_APIVersion typeMeta) (tm_Kind typeMeta))))))
    (fun now => Sequence [run_ChildSet (DuckReconcilerClusterRoleChildSetReconciler c now);
                          run_Sync (DuckReconcilerReadyCheck_Sync c now)]).

(** [NewConfig] is reconcilers.NewConfig(mgr, nil, syncPeriod);
    [SetupWithManager] that of a ResourceReconciler. *)
Class ControllerLib := {
  NewConfig : Mgr -> Config;
  SetupWithManager : Mgr -> ResourceReconciler unit Duck -> option err;
}.

Context `{!ControllerLib} `{!Engine X unit}.

Definition reconciler_finalizer : string := gv_Group APIGroupVersion +:+ "/reconciler".

Definition DuckSubReconciler : SubManagerReconciler DuckType :=
  MkSMR reconciler_finalizer None
    (Some (fun resource =>
       Ok [MkGK (dts_Group (dt_Spec resource)) (dts_Kind (dt_Spec resource));
           MkGK (dts_Group (dt_Spec resource)) (dts_ListKind (dt_Spec resource))]))
    (Some (fun mgr resource =>
       SetupWithManager mgr
         (DuckReconciler (NewConfig mgr)
            (MkTypeMeta (gv_String (MkGV (dts_Group (dt_Spec resource)) "v1"))
               (dts_Kind (dt_Spec resource)))))).

(** Its fields before SetupWithManager. *)
Definition DuckSubReconciler_state : smr_state := smr_zero "" (Some default_sync).

(** The sub-manager reconciler as the engine runs it: its fields are the [F]
    component of the world. *)
Definition run_SubManager (exits : nat -> option err) (r : SubManagerReconciler DuckType)
    : SubReconciler (X * smr_state) DuckType :=
  fun w p => match smr_run exits r p w.2 with
             | Ret (s, e) => Ret ((w.1, s), p, e)
             | Panic m => Panic m
             end.

Context `{!Engine X smr_state}.

Definition DuckTypeReconciler (exits : nat -> option err) : ResourceReconciler smr_state DuckType :=
  MkResourceReconciler smr_state DuckType None None
    (fun now =>
       WithFinalizer reconciler_finalizer
         (Sequence [run_ChildSet (DuckClusterRoleChildSetReconciler now);
                    run_Child (DuckCustomResourceDefinitionChildReconciler now);
                    run_SubManager exits DuckSubReconciler])).
End controllers.

(** ** Lemmas *)

Section controller_lemmas.
Context `{GoUnicode} `{Schema} `{MetaLib} `{ErrorLib} `{!ChildSetLib} `{ConditionLib} `{!ConditionLaws}.

Lemma rbac_reflect_marks now p result p' e :
  DuckType_ReflectChildrenStatus now p result = (p', e) ->
  exists b, dt_marked p p' DuckTypeConditionRBAC DuckTypeConditionCustomResourceDefinitionEstablished b.
Proof.
  unfold DuckType_ReflectChildrenStatus. intros Hr.
  go_cases; eexists; apply dt_Mark_effect; by left.
Qed.

Lemma crd_reflect_marks now p child oe p' e :
  DuckType_ReflectChildStatus now p child oe = Ret (p', e) ->
  exists b, dt_marked p p' DuckTypeConditionCustomResourceDefinitionEstablished DuckTypeConditionRBAC b.
Proof.
  unfold DuckType_ReflectChildStatus. intros Hr.
  go_cases; eexists; apply dt_Mark_effect; by right.
Qed.

Lemma duck_rbac_reflect_marks now p result p' e :
  Duck_ReflectChildrenStatus now p result = (p', e) ->
  exists b, d_marked p p' DuckConditionRBAC DuckConditionAvailable b.
Proof.
  unfold Duck_ReflectChildrenStatus. intros Hr.
  go_cases; eexists; apply d_Mark_effect; by left.
Qed.

Context `{CacheTypes} `{ManagerTypes} `{!ManagerLib} {X : Type}.
Context `{!ControllerLib (X := X)} `{!Engine X unit} `{!Engine X smr_state}.

(** Up to its status, the DuckType a sub-reconciler leaves is the one it was
    given. *)
Definition dt_same (p p' : DuckType) : Prop :=
  dt_TypeMeta p' = dt_TypeMeta p /\ dt_ObjectMeta p' = dt_ObjectMeta p /\ dt_Spec p' = dt_Spec p.

Lemma dt_marked_same p p' t t' b : dt_marked p p' t t' b -> dt_same p p'.
Proof. unfold dt_marked, dt_same. tauto. Qed.

Lemma dt_same_refl p : dt_same p p.
Proof. done. Qed.

Lemma dt_same_trans p p' p'' : dt_same p p' -> dt_same p' p'' -> dt_same p p''.
Proof. unfold dt_same. intuition congruence. Qed.

Lemma ducktype_roles `{!@EngineLaws _ _ X smr_state _} now (w w' : X * smr_state) p p' e :
  run_ChildSet (DuckClusterRoleChildSetReconciler now) w p = Ret (w', p', e) ->
  w'.2 = w.2 /\ dt_same p p'.
Proof.
  intros Hrun. destruct (run_ChildSet_reflects _ _ _ _ _ _ _ _ Hrun) as (Hw & Hp). split; [done|].
  destruct Hp as [[-> _]|[result Hp]]; [apply dt_same_refl|].
  apply rbac_reflect_marks in Hp as [b Hb]. by eapply dt_marked_same.
Qed.

Lemma ducktype_crd `{!@EngineLaws _ _ X smr_state _} now (w w' : X * smr_state) p p' e :
  run_Child (DuckCustomResourceDefinitionChildReconciler now) w p = Ret (w', p', e) ->
  w'.2 = w.2 /\ dt_same p p' /\
  (e = None -> om_DeletionTimestamp (dt_ObjectMeta p) = None ->
   DuckType_is p' DuckTypeConditionReady = DuckType_is p' DuckTypeConditionRBAC
     && DuckType_is p' DuckTypeConditionCustomResourceDefinitionEstablished).
Proof.
  intros Hrun. destruct (run_Child_reflects _ _ _ _ _ _ _ _ Hrun) as (Hw & Hp). split; [done|].
  destruct Hp as [[-> Hp]|(child & e0 & Hp)]; [split; [done|naive_solver]|].
  apply crd_reflect_marks in Hp as [b Hb]. split; [by eapply dt_marked_same|]. intros _ _.
  destruct Hb as (_ & _ & _ & H1' & H2' & ->). rewrite H1'. unfold DuckType_is at 2. rewrite H2'.
  apply andb_comm.
Qed.

(** The sequence of a DuckType: either a child reconciler erred and the
    sub-managers are untouched, or the sub-manager reconciler was run. *)
Lemma ducktype_sequence `{!@EngineLaws _ _ X smr_state _} exits now (w w' : X * smr_state) p p' e :
  Sequence [run_ChildSet (DuckClusterRoleChildSetReconciler now);
            run_Child (DuckCustomResourceDefinitionChildReconciler now);
            run_SubManager exits DuckSubReconciler] w p = Ret (w', p', e) ->
  dt_same p p' /\
  ((e <> None /\ w'.2 = w.2)
   \/ (smr_run exits DuckSubReconciler p' w.2 = Ret (w'.2, e)
       /\ (om_DeletionTimestamp (dt_ObjectMeta p) = None ->
           DuckType_is p' DuckTypeConditionReady = DuckType_is p' DuckTypeConditionRBAC
             && DuckType_is p' DuckTypeConditionCustomResourceDefinitionEstablished))).
Proof.
  rewrite Sequence_cons. intros ([[w1 p1] e1] & Hroles & Hs)%outcome_bind_Ret.
  apply ducktype_roles in Hroles as [Hw1 Hp1].
  destruct e1 as [e1|]; [injection Hs as <- <- <-; split; [done|by left]|].
  rewrite Sequence_cons in Hs. apply outcome_bind_Ret in Hs as ([[w2 p2] e2] & Hcrd & Hs).
  apply ducktype_crd in Hcrd as (Hw2 & Hp2 & Hready).
  assert (Hp : dt_same p p2) by (by eapply dt_same_trans).
  destruct e2 as [e2|]; [injection Hs as <- <- <-; split; [done|left; split; [done|congruence]]|].
  rewrite Sequence_cons in Hs. apply outcome_bind_Ret in Hs as ([[w3 p3] e3] & Hsub & Hs). unfold run_SubManager in Hsub.
  destruct (smr_run exits DuckSubReconciler p2 w2.2) as [[s3 e4]|] eqn:Hrun; [|done].
  injection Hsub as <- <- <-. rewrite Hw2, Hw1 in Hrun.
  assert (p' = p2 /\ w'.2 = s3 /\ e = e4) as (-> & -> & ->).
  { destruct e4; [by injection Hs as <- <- <-|]. rewrite Sequence_nil in Hs. by injection Hs as <- <- <-. }
  split; [done|right]. split; [done|]. destruct Hp1 as (_ & Hm & _). rewrite <- Hm. auto.
Qed.

Definition d_same (p p' : Duck) : Prop :=
  d_TypeMeta p' = d_TypeMeta p /\ d_ObjectMeta p' = d_ObjectMeta p /\ d_Spec p' = d_Spec p.

Lemma served_same c d d' : d_same d d' -> served c d' -> served c d.
Proof. intros (_ & Hm & Hs). unfold served, d_Name. by rewrite Hm, Hs. Qed.

(** The reconciler of a live duck, when it returns no error: both conditions
    were marked. *)
Lemma duck_sequence `{!SchemaLaws} `{!@EngineLaws _ _ X unit _} c now (w w' : X * unit) d d' :
  om_DeletionTimestamp (d_ObjectMeta d) = None ->
  Sequence [run_ChildSet (DuckReconcilerClusterRoleChildSetReconciler c now);
            run_Sync (DuckReconcilerReadyCheck_Sync c now)] w d = Ret (w', d', None) ->
  exists d1 b1 b2, d_marked d d1 DuckConditionRBAC DuckConditionAvailable b1
    /\ d_marked d1 d' DuckConditionAvailable DuckConditionRBAC b2 /\ (b2 = true -> served c d).
Proof.
  intros Hd. rewrite Sequence_cons. intros ([[w1 d1] e1] & Hroles & Hs)%outcome_bind_Ret.
  destruct e1 as [e1|]; [done|].
  destruct (run_ChildSet_reflects _ _ _ _ _ _ _ _ Hroles) as (_ & [[_ [?|?]]|[res Hres]]); [done|done|].
  apply duck_rbac_reflect_marks in Hres as [b1 Hb1].
  assert (Hsame : d_same d d1) by (unfold d_marked, d_same in *; tauto).
  rewrite Sequence_cons in Hs. apply outcome_bind_Ret in Hs as ([[w2 d2] e2] & Hsync & Hs).
  destruct e2 as [e2|]; [done|]. rewrite Sequence_nil in Hs. injection Hs as <- <-.
  destruct (run_Sync_calls _ _ _ _ _ _ _ _ Hsync) as (_ & [[_ Hdel]|[tr Hcheck]]).
  - simpl in Hdel. destruct Hsame as (_ & Hm & _). by rewrite Hm in Hdel.
  - apply ready_check_marks in Hcheck as (b2 & Hb2 & Hserved). exists d1, b1, b2.
    split_and!; [done|done|]. intros Hb. by eapply served_same, Hserved.
Qed.
End controller_lemmas.

(** ** Theorems *)

Section controller_theorems.
Context `{GoUnicode} `{Schema} `{MetaLib} `{ErrorLib} `{!ChildSetLib} `{ConditionLib} `{!ConditionLaws}.
Context `{CacheTypes} `{ManagerTypes} `{!ManagerLib} {X : Type}.
Context `{!ControllerLib (X := X)} `{!Engine X unit} `{!Engine X smr_state}.

(** C2: reconciling a DuckType that is not being deleted, when it returns without
    error: its sub-manager is there, not cancelled and not finished, with the
    finalizer that keeps it from being forgotten; the DuckType's identity and
    spec are unchanged and it is Ready iff its roles are defined and its
    CustomResourceDefinition is established. *)
Theorem ducktype_reconciled `{!@EngineLaws _ _ X smr_state _} exits now (x x' : X) s s' (p p' : DuckType) :
  smr_inv (s, Idle) -> om_DeletionTimestamp (dt_ObjectMeta p) = None ->
  rr_Reconciler _ _ (DuckTypeReconciler exits) now (x, s) p = Ret ((x', s'), p', None) ->
  (exists i y, s_managers s' ≫= lookup (om_UID (dt_ObjectMeta p)) = Some i /\ s_insts s' !! i = Some y
     /\ live y /\ i_cancelled y = false)
  /\ "duck.reconciler.io/reconciler" ∈ om_Finalizers (dt_ObjectMeta p')
  /\ dt_Spec p' = dt_Spec p /\ om_UID (dt_ObjectMeta p') = om_UID (dt_ObjectMeta p)
  /\ DuckType_is p' DuckTypeConditionReady = DuckType_is p' DuckTypeConditionRBAC
        && DuckType_is p' DuckTypeConditionCustomResourceDefinitionEstablished.
Proof.
  intros Hinv Hd Hr. simpl in Hr.
  destruct (WithFinalizer_live DuckType (H1 := DuckType_Reconciled) _ _ _ p _ _ _ Hd Hr)
    as [(_ & _ & He)|([x1 s1] & p1 & Hs1 & (fs & rv & Hp1) & Hfin & Hseq)]; [done|].
  simpl in Hs1. subst s1. apply ducktype_sequence in Hseq as ((_ & Hm & Hspec) & [[He _]|[Hrun Hready]]); [done|].
  simpl in Hrun, Hfin. rewrite <- Hm in Hfin.
  assert (Hd' : om_DeletionTimestamp (dt_ObjectMeta p') = None) by (by rewrite Hm, Hp1).
  assert (Hu : om_UID (dt_ObjectMeta p') = om_UID (dt_ObjectMeta p)) by (by rewrite Hm, Hp1).
  assert (Hinv' := smr_run_inv _ _ _ _ _ _ Hinv Hrun).
  edestruct (smr_run_live exits DuckSubReconciler p' s s') as [i Hi]; [done|reflexivity..|done|done|].
  simpl in Hi.
  destruct (inv_live _ Hinv' _ _ Hi) as (y & Hy & Hl). rewrite <- Hu.
  split_and!; [|done|by rewrite Hspec, Hp1|done|apply Hready; by rewrite Hp1].
  exists i, y. split_and!; try done. destruct (i_cancelled y) eqn:Hc; [|done].
  by destruct (inv_cancelled _ Hinv' _ _ Hy Hl Hc) as [? [=]].
Qed.

(** C4: a DuckType being deleted keeps its finalizers as long as its sub-manager
    is there: if a reconcile changes them, the sub-manager has exited and its
    entry is gone; and a reconcile without error always gets there. *)
Theorem ducktype_finalized_after_shutdown `{!@EngineLaws _ _ X smr_state _} exits now (x x' : X) s s'
    (p p' : DuckType) e :
  smr_inv (s, Idle) -> om_DeletionTimestamp (dt_ObjectMeta p) <> None ->
  rr_Reconciler _ _ (DuckTypeReconciler exits) now (x, s) p = Ret ((x', s'), p', e) ->
  e = None \/ om_Finalizers (dt_ObjectMeta p') <> om_Finalizers (dt_ObjectMeta p) ->
  smr_inv (s', Idle) /\ s_managers s' ≫= lookup (om_UID (dt_ObjectMeta p)) = None.
Proof.
  intros Hinv Hd Hr He. simpl in Hr.
  destruct (WithFinalizer_terminating DuckType (H1 := DuckType_Reconciled) _ _ _ p _ _ _ Hd Hr) as ([x1 s1] & p1 & e1 & Hseq & Hs & Herr & _).
  simpl in Hs. subst s1. apply ducktype_sequence in Hseq as ((_ & Hm & _) & Hcase).
  destruct e1 as [e1|].
  - destruct Herr as (_ & -> & ->); [done|]. destruct He as [He|He]; [done|]. by rewrite Hm in He.
  - destruct Hcase as [[He1 _]|[Hrun _]]; [done|]. simpl in Hrun.
    split; [exact (smr_run_inv _ _ _ _ _ _ Hinv Hrun)|].
    assert (Hd1 : om_DeletionTimestamp (dt_ObjectMeta p1) <> None) by (by rewrite Hm).
    destruct (smr_run_terminating exits (Reconciled0 := DuckType_Reconciled) DuckSubReconciler p1 s s' None
                Hinv Hd1 Hrun) as [_ Hno].
    simpl in Hno. by rewrite Hm in Hno.
Qed.

(** C3: a duck that is not being deleted and is Ready after a reconcile without
    error marks an API that exists: its resource is served, in the version and
    with the kind of its spec; and Ready is the conjunction of the two
    conditions.  (For a duck being deleted the check is skipped and Ready stays
    as it was.) *)
Theorem duck_ready_is_served `{!SchemaLaws} `{!@EngineLaws _ _ X unit _} c typeMeta now (w w' : X * unit)
    (d d' : Duck) :
  om_DeletionTimestamp (d_ObjectMeta d) = None ->
  rr_Reconciler _ _ (DuckReconciler c typeMeta) now w d = Ret (w', d', None) ->
  Duck_is d' DuckConditionReady = Duck_is d' DuckConditionRBAC && Duck_is d' DuckConditionAvailable
  /\ (Duck_is d' DuckConditionReady = true -> served c d).
Proof.
  intros Hd Hr. simpl in Hr.
  destruct (duck_sequence _ _ _ _ _ _ Hd Hr) as (d1 & b1 & b2 & _ & (_ & _ & _ & Ha & Hrb & Hrdy) & Hs).
  assert (HR : Duck_is d' DuckConditionRBAC = Duck_is d1 DuckConditionRBAC)
    by (unfold Duck_is; by rewrite Hrb).
  rewrite Hrdy, Ha, HR. split; [apply andb_comm|]. intros [Hb _]%andb_true_iff. by apply Hs.
Qed.
End controller_theorems.

(** ** Witnesses: an engine without a cluster

    Children are always as desired, and a resource must already have the
    finalizer. *)
Section witness.
#[local] Existing Instances ref_unicode ref_schema ref_schema_laws ref_meta ref_errors ref_conditions
  ref_conditions_laws ref_cache_types ref_manager_types ref_manager w_childset.

Fixpoint ref_sequence {W P} (rs : list (SubReconciler W P)) (w : W) (p : P) : outcome (W * P * option err) :=
  match rs with
  | [] => Ret (w, p, None)
  | r :: rs' => outcome_bind (r w p) (fun '(w', p', e) =>
                  match e with Some _ => Ret (w', p', e) | None => ref_sequence rs' w' p' end)
  end.

#[local] Instance ref_engine (F : Type) : Engine unit F := {|
  run_ChildSet P C r w p :=
    let '(p', e) := csr_ReflectChildrenStatusOnParentWithError r p None in Ret (w, p', e);
  run_Child P C r w p :=
    match chr_DesiredChild r p with
    | Ok child => outcome_bind (chr_ReflectChildStatusOnParentWithError r p (Some child) None)
                    (fun '(p', e) => Ret (w, p', e))
    | Err e => Ret (w, p, Some e)
    end;
  run_Sync P T sync w p := let '(p', _, e) := sync p in Ret (w, p', e);
  Sequence P := ref_sequence;
  WithFinalizer P _ f r w p :=
    if decide (om_DeletionTimestamp (meta_of p) <> None \/ f ∈ om_Finalizers (meta_of p)) then r w p
    else Ret (w, p, Some (ENew "conflict"));
|}.

Lemma ref_engine_laws (F : Type) : @EngineLaws ref_errors w_childset unit F (ref_engine F).
Proof.
  constructor; simpl; try done.
  - intros P HP C r w p w' p' e. destruct (csr_ReflectChildrenStatusOnParentWithError r p None) eqn:Hr.
    intros [= <- <- <-]. split; [done|]. right. by exists None.
  - intros P HP C r w p w' p' e. destruct (chr_DesiredChild r p) as [child|e0].
    + intros ([p1 e1] & Hr & [= <- <- <-])%outcome_bind_Ret. split; [done|]. right. by exists (Some child), None.
    + intros [= <- <- <-]. split; [done|]. left. by split; [|left].
  - intros P HP T sync w p w' p' e. destruct (sync p) as [[p1 tr] e1] eqn:Hs.
    intros [= <- <- <-]. split; [done|]. right. by exists tr.
  - intros P HP f r w p w' p' e Hd. case_decide as Hf.
    + intros Hr. right. exists w, p. split_and!; [done|apply same_but_finalizers_refl|naive_solver|done].
    + intros [= <- <- <-]. by left.
  - intros P HP f r w p w' p' e Hd. rewrite decide_True by (by left).
    intros Hr. exists w', p', e. split_and!; try done. intros _. apply same_but_finalizers_refl.
Qed.

#[local] Instance ref_controller : ControllerLib (X := unit) := {|
  NewConfig _ := w_config; SetupWithManager _ _ := None;
|}.

Definition w_dt (deleted : option Z) : DuckType :=
  MkDuckType (MkTypeMeta "" "") (w_resource deleted)
    (MkDuckTypeSpec "example.com" "widgets" "widget" "Widget" "WidgetList")
    (MkDuckTypeStatus (MkStatus 0 [])).

Definition w_exits : nat -> option err := fun _ => None.

Definition w_reconcile_dt (s : smr_state) (p : DuckType) : outcome ((unit * smr_state) * DuckType * option err) :=
  rr_Reconciler _ _ (DuckTypeReconciler w_exits) 5 (tt, s) p.

Lemma ducktype_reconciled_witness :
  exists s' p', w_reconcile_dt w_ready (w_dt None) = Ret ((tt, s'), p', None)
    /\ "duck.reconciler.io/reconciler" ∈ om_Finalizers (dt_ObjectMeta p').
Proof.
  destruct (w_reconcile_dt w_ready (w_dt None)) as [[[[[] s'] p'] [e|]]|m] eqn:Hr;
    [by vm_compute in Hr| |by vm_compute in Hr].
  exists s', p'. split; [reflexivity|].
  apply (@ducktype_reconciled ref_unicode ref_schema ref_meta ref_errors w_childset ref_conditions
           ref_conditions_laws ref_cache_types ref_manager_types ref_manager unit ref_controller
           (ref_engine unit) (ref_engine smr_state) (ref_engine_laws smr_state)
           w_exits 5 tt tt w_ready s' (w_dt None) p' w_ready_inv eq_refl Hr).
Defined.

(** The DuckType has a sub-manager when it is deleted. *)
Lemma ducktype_finalized_after_shutdown_witness :
  s_managers w_started ≫= lookup "uid-1" = Some 0
  /\ exists s' p', w_reconcile_dt w_started (w_dt (Some 9%Z)) = Ret ((tt, s'), p', None)
    /\ s_managers s' ≫= lookup "uid-1" = None.
Proof.
  split; [reflexivity|].
  destruct (w_reconcile_dt w_started (w_dt (Some 9%Z))) as [[[[[] s'] p'] [e|]]|m] eqn:Hr;
    [by vm_compute in Hr| |by vm_compute in Hr].
  exists s', p'. split; [reflexivity|].
  apply (@ducktype_finalized_after_shutdown ref_unicode ref_schema ref_meta ref_errors w_childset ref_conditions
           ref_conditions_laws ref_cache_types ref_manager_types ref_manager unit ref_controller
           (ref_engine unit) (ref_engine smr_state) (ref_engine_laws smr_state)
           w_exits 5 tt tt w_started s' (w_dt (Some 9%Z)) p' None w_started_inv); [done|exact Hr|by left].
Defined.

Lemma duck_ready_is_served_witness :
  served w_config w_duck.
Proof.
  destruct (rr_Reconciler _ _ (DuckReconciler w_config (MkTypeMeta "example.com/v1" "Widget")) 5 (tt, tt) w_duck)
    as [[[w' d'] [e|]]|m] eqn:Hr; [by vm_compute in Hr| |by vm_compute in Hr].
  apply (@duck_ready_is_served ref_unicode ref_schema ref_meta ref_errors w_childset ref_conditions
           ref_conditions_laws unit (ref_engine unit) ref_schema_laws (ref_engine_laws unit)
           w_config (MkTypeMeta "example.com/v1" "Widget") 5 (tt, tt) w' w_duck d' eq_refl Hr).
  vm_compute in Hr. injection Hr as <- <-. reflexivity.
Defined.
End witness.
