(* ===== verification/Client.v ===== *)
(** * client: the duck client

    client.go: a client for the objects of every kind the ready ducks of a duck
    type mark.  The client it wraps is a record of operations on a world [W];
    an operation that fills in the object it is given returns it.  Code is
    written in a small state and error monad. *)

From S2P Require Import Prelude Platform Reference ApiV1 Webhook.

(** The types behind client.Object, client.ObjectList and the option lists of
    the calls, with the accessors of [GetObjectKind]. *)
Class ClientTypes := {
  CObj : Type;
  CList : Type;
  Item : Type;
  GetOptions : Type;
  ListOptions : Type;
  no_list_options : ListOptions;
  DeleteAllOfOptions : Type;
  WriteOptions : Type;
  ApplyConfiguration : Type;
  PatchT : Type;
  ClientScheme : Type;
  Mapper : Type;
  obj_GVK : CObj -> GroupVersionKind;
  obj_SetGVK : GroupVersionKind -> CObj -> CObj;
  list_GVK : CList -> GroupVersionKind;
}.

Class ClientTypesLaws `{ClientTypes} : Prop := {
  obj_GVK_Set : forall g o, obj_GVK (obj_SetGVK g o) = g;
}.

(** A runtime.Object, by what the type assertion to client.Object finds: an
    object, or something without object metadata, such as a list. *)
Inductive RuntimeObject `{ClientTypes} :=
| IsObject (o : CObj)
| IsList (l : CList).

(** unstructured.UnstructuredList *)
Record UnstructuredList `{ClientTypes} := MkUList {
  ul_GVK : GroupVersionKind;
  ul_Items : list Item;
}.

Record ObjectKey := MkObjectKey { key_Namespace : string; key_Name : string }.

(** client.ObjectKeyFromObject *)
Definition ObjectKeyFromObject (m : ObjectMeta) : ObjectKey :=
  MkObjectKey (om_Namespace m) (om_Name m).

Section client.
Context `{GoUnicode} `{Schema} `{ErrorLib} `{ConditionLib} `{ClientTypes} {W : Type}.

(** The wrapped client: one field for each dynamic type the code passes to
    Get, List and TrackAndList itself, and one for the caller's objects. *)
Record Client := MkClient {
  cl_Get_DuckType : W -> ObjectKey -> DuckType -> W * (DuckType * option err);
  cl_List_Ducks : W -> DuckList -> ListOptions -> W * (DuckList * option err);
  cl_TrackAndList_Ducks : W -> DuckList -> ListOptions -> W * (DuckList * option err);
  cl_Get : W -> ObjectKey -> CObj -> GetOptions -> W * (CObj * option err);
  cl_TrackAndGet : W -> ObjectKey -> CObj -> GetOptions -> W * (CObj * option err);
  cl_List : W -> UnstructuredList -> ListOptions -> W * (UnstructuredList * option err);
  cl_TrackAndList : W -> UnstructuredList -> ListOptions -> W * (UnstructuredList * option err);
  cl_Apply : W -> ApplyConfiguration -> WriteOptions -> W * (ApplyConfiguration * option err);
  cl_Create : W -> CObj -> WriteOptions -> W * (CObj * option err);
  cl_Delete : W -> CObj -> WriteOptions -> W * (CObj * option err);
  cl_Update : W -> CObj -> WriteOptions -> W * (CObj * option err);
  cl_Patch : W -> CObj -> PatchT -> WriteOptions -> W * (CObj * option err);
  cl_DeleteAllOf : W -> CObj -> DeleteAllOfOptions -> W * (CObj * option err);
  cl_Scheme : ClientScheme;
  cl_RESTMapper : Mapper;
  cl_IsObjectNamespaced : RuntimeObject -> result err bool;
}.

(** [duck.Convert] of reconciler.io/runtime: fill the target list from the
    source through JSON. *)
Variable Convert : UnstructuredList -> CList -> CList * option err.

Record duckClient := MkDuckClient { dc_client : Client; dc_duckType : DuckType }.

Definition New_Client (duckType : string) (client : Client) : duckClient :=
  MkDuckClient client
    (MkDuckType (MkTypeMeta "" "") (meta_named duckType) (MkDuckTypeSpec "" "" "" "" "")
       (MkDuckTypeStatus (MkStatus 0 []))).

Definition ErrUnknownDuckType : err := ENew "unknown duck type".
Definition ErrUnknownDuck : err := ENew "unknown duck".
Definition ErrDuckTypeNotReady : err := ENew "duck type is not ready".

(** ** State and errors *)

Definition M (A : Type) : Type := W -> W * result err A.
Definition mret {A} (a : A) : M A := fun w => (w, Ok a).
Definition mthrow {A} (e : err) : M A := fun w => (w, Err e).
Definition mthen {A B} (m : M A) (k : A -> M B) : M B :=
  fun w => match m w with
           | (w', Ok a) => k a w'
           | (w', Err e) => (w', Err e)
           end.

(** ** ducks, duck and setDuckVersion *)

Definition duck_matches (duckGK : GroupKind) (duck : Duck) : bool :=
  if gk_Empty duckGK then true
  else if String.eqb (gk_Group duckGK) (ds_Group (d_Spec duck))
          && String.eqb (gk_Kind duckGK) (ds_Kind (d_Spec duck)) then true
  else String.eqb (gk_Group duckGK) (ds_Group (d_Spec duck))
       && String.eqb (gk_Kind duckGK) (ds_Kind (d_Spec duck) +:+ "List").

(** The loop over [duckList.Items]. *)
Fixpoint ducks_loop (duckGK : GroupKind) (ducks items : list Duck) : list Duck :=
  match items with
  | [] => ducks
  | duck :: items' =>
      if negb (Duck_is duck DuckConditionReady) then ducks_loop duckGK ducks items'
      else ducks_loop duckGK (if duck_matches duckGK duck then ducks ++ [duck] else ducks) items'
  end.

Definition get_DuckType (c : duckClient) : M DuckType := fun w =>
  match cl_Get_DuckType (dc_client c) w (ObjectKeyFromObject (dt_ObjectMeta (dc_duckType c)))
          (dc_duckType c) with
  | (w', (duckType, None)) => (w', Ok duckType)
  | (w', (_, Some e)) => (w', Err (if IsNotFound e then ErrUnknownDuckType else e))
  end.

Definition list_Ducks (c : duckClient) (track : bool) (duckList : DuckList) : M DuckList := fun w =>
  match (if track then cl_TrackAndList_Ducks (dc_client c) w duckList no_list_options
         else cl_List_Ducks (dc_client c) w duckList no_list_options) with
  | (w', (duckList', None)) => (w', Ok duckList')
  | (w', (_, Some e)) => (w', Err e)
  end.

Definition ducks (c : duckClient) (duckGK : GroupKind) (track : bool) : M (list Duck) :=
  mthen (get_DuckType c) (fun duckType =>
  match DuckType_Default duckType with
  | Err e => mthrow e
  | Ok duckType =>
      if negb (DuckType_is duckType DuckTypeConditionReady) then mthrow ErrDuckTypeNotReady
      else
        let duckList := MkDuckList (MkTypeMeta (gv_String (MkGV (dts_Group (dt_Spec duckType)) "v1"))
                                      (dts_ListKind (dt_Spec duckType)))
                          zero_ListMeta [] in
        mthen (list_Ducks c track duckList) (fun duckList =>
        let ds := ducks_loop duckGK [] (dl_Items duckList) in
        if negb (gk_Empty duckGK) && (length ds =? 0) then mthrow ErrUnknownDuck
        else mret ds)
  end).

Definition duck (c : duckClient) (duckGK : GroupKind) (track : bool) : M Duck :=
  mthen (ducks c duckGK track) (fun ds =>
  match ds with
  | [d] => mret d
  | _ => mthrow ErrUnknownDuck
  end).

(** The object is left as it was when there is an error. *)
Definition setDuckVersion (c : duckClient) (obj : CObj) (track : bool) : M CObj :=
  let gvk := obj_GVK obj in
  mthen (duck c (gvk_GroupKind gvk) track) (fun d =>
  mret (obj_SetGVK (MkGVK (gvk_Group gvk) (ds_Version (d_Spec d)) (gvk_Kind gvk)) obj)).

(** ** Reads *)

Definition Client_Get (c : duckClient) (key : ObjectKey) (obj : CObj) (opts : GetOptions) (w : W)
    : W * (CObj * option err) :=
  match setDuckVersion c obj false w with
  | (w', Err e) => (w', (obj, Some e))
  | (w', Ok obj') => cl_Get (dc_client c) w' key obj' opts
  end.

Definition Client_TrackAndGet (c : duckClient) (key : ObjectKey) (obj : CObj) (opts : GetOptions) (w : W)
    : W * (CObj * option err) :=
  match setDuckVersion c obj true w with
  | (w', Err e) => (w', (obj, Some e))
  | (w', Ok obj') => cl_TrackAndGet (dc_client c) w' key obj' opts
  end.

Definition list_gvk_of (d : Duck) : GroupVersionKind :=
  MkGVK (ds_Group (d_Spec d)) (ds_Version (d_Spec d)) (ds_Kind (d_Spec d) +:+ "List").

(** The loop of List and TrackAndList over the ducks. *)
Fixpoint list_loop (list_one : W -> UnstructuredList -> ListOptions -> W * (UnstructuredList * option err))
    (opts : ListOptions) (ds : list Duck) (aggregate : list Item) : M (list Item) :=
  match ds with
  | [] => mret aggregate
  | d :: ds' => fun w =>
      match list_one w (MkUList _ (list_gvk_of d) []) opts with
      | (w', (_, Some e)) => (w', Err e)
      | (w', (duckList, None)) => list_loop list_one opts ds' (aggregate ++ ul_Items duckList) w'
      end
  end.

Definition Client_List (c : duckClient) (list : CList) (opts : ListOptions) (w : W)
    : W * (CList * option err) :=
  match mthen (ducks c (gvk_GroupKind (list_GVK list)) false)
          (fun ds => list_loop (cl_List (dc_client c)) opts ds []) w with
  | (w', Err e) => (w', (list, Some e))
  | (w', Ok items) => (w', Convert (MkUList _ (MkGVK "" "" "") items) list)
  end.

Definition Client_TrackAndList (c : duckClient) (list : CList) (opts : ListOptions) (w : W)
    : W * (CList * option err) :=
  match mthen (ducks c (gvk_GroupKind (list_GVK list)) true)
          (fun ds => list_loop (cl_TrackAndList (dc_client c)) opts ds []) w with
  | (w', Err e) => (w', (list, Some e))
  | (w', Ok items) => (w', Convert (MkUList _ (MkGVK "" "" "") items) list)
  end.

(** ** Writes, and the operations that are passed on *)

(** DeleteAllOf works on copies of [obj]. *)
Fixpoint delete_loop (c : duckClient) (obj : CObj) (opts : DeleteAllOfOptions) (ds : list Duck) : M unit :=
  match ds with
  | [] => mret tt
  | d :: ds' => fun w =>
      match cl_DeleteAllOf (dc_client c) w
              (obj_SetGVK (MkGVK (ds_Group (d_Spec d)) (ds_Version (d_Spec d)) (ds_Kind (d_Spec d))) obj)
              opts with
      | (w', (_, Some e)) => (w', Err e)
      | (w', (_, None)) => delete_loop c obj opts ds' w'
      end
  end.

Definition Client_DeleteAllOf (c : duckClient) (obj : CObj) (opts : DeleteAllOfOptions) (w : W)
    : W * option err :=
  match mthen (ducks c (gvk_GroupKind (obj_GVK obj)) false) (delete_loop c obj opts) w with
  | (w', Err e) => (w', Some e)
  | (w', Ok _) => (w', None)
  end.

Definition Client_Apply (c : duckClient) (w : W) (obj : ApplyConfiguration) (opts : WriteOptions) :=
  cl_Apply (dc_client c) w obj opts.
Definition Client_Create (c : duckClient) (w : W) (obj : CObj) (opts : WriteOptions) :=
  cl_Create (dc_client c) w obj opts.
Definition Client_Delete (c : duckClient) (w : W) (obj : CObj) (opts : WriteOptions) :=
  cl_Delete (dc_client c) w obj opts.
Definition Client_Update (c : duckClient) (w : W) (obj : CObj) (opts : WriteOptions) :=
  cl_Update (dc_client c) w obj opts.
Definition Client_Patch (c : duckClient) (w : W) (obj : CObj) (patch : PatchT) (opts : WriteOptions) :=
  cl_Patch (dc_client c) w obj patch opts.
Definition Client_Scheme (c : duckClient) : ClientScheme := cl_Scheme (dc_client c).
Definition Client_RESTMapper (c : duckClient) : Mapper := cl_RESTMapper (dc_client c).
Definition Client_IsObjectNamespaced (c : duckClient) (obj : RuntimeObject) : result err bool :=
  cl_IsObjectNamespaced (dc_client c) obj.

(** The object is copied first, so the caller's is never updated. *)
Definition Client_GroupVersionKindFor (c : duckClient) (obj : RuntimeObject) (w : W)
    : outcome (W * result err GroupVersionKind) :=
  match obj with
  | IsObject o => Ret (mthen (setDuckVersion c o false) (fun o' => mret (obj_GVK o')) w)
  | IsList _ => Panic "interface conversion: runtime.Object is not client.Object"
  end.

Definition Client_Watch (c : duckClient) (list : CList) (opts : ListOptions) : outcome unit :=
  Panic "Watch is not implemented for duck types".
Definition Client_Status (c : duckClient) : outcome unit :=
  Panic "Status sub resource client is not implemented for duck types".
Definition Client_SubResource (c : duckClient) (subResource : string) : outcome unit :=
  Panic "SubResource client is not implemented for duck types".
End client.

Arguments Client {_ _} _.
Arguments duckClient {_ _} _.

(** ** The cluster a client reads and writes

    What the wrapped client promises, against a view of the world: the duck
    types, the ducks of each duck type's list kind and the objects of each
    kind.  Reads answer from the view and leave it alone; the tracking reads
    answer like the plain ones; DeleteAllOf removes the objects of the kind it
    selects, or fails and changes nothing. *)

Section view.
Context `{Schema} `{ErrorLib} `{ClientTypes} {W : Type}.

Record View := MkView {
  v_ducktype : ObjectKey -> result err DuckType;
  v_ducks : TypeMeta -> result err (list Duck);
  v_objects : GroupVersionKind -> result err (list Item);
}.

Class ClusterView := {
  view : W -> View;
  list_selects : ListOptions -> Item -> bool;
  delete_selects : DeleteAllOfOptions -> Item -> bool;
}.

(** Two worlds with the same duck types, ducks and objects. *)
Definition same_view `{ClusterView} (w w' : W) : Prop :=
  (forall k, v_ducktype (view w) k = v_ducktype (view w') k)
  /\ (forall t, v_ducks (view w) t = v_ducks (view w') t)
  /\ (forall g, v_objects (view w) g = v_objects (view w') g).

#[export] Instance same_view_equiv `{ClusterView} : Equivalence same_view.
Proof.
  split.
  - done.
  - intros x y (H1' & H2' & H3'). split_and!; congruence.
  - intros x y z (A1 & A2 & A3) (B1 & B2 & B3).
    split_and!; intros; [rewrite A1, B1|rewrite A2, B2|rewrite A3, B3]; done.
Qed.

(** How an answer with an error pointer reads as a result. *)
Definition answers {A B} (p : A * option err) (r : result err B) (get : A -> B) : Prop :=
  match r with
  | Ok b => p.2 = None /\ get p.1 = b
  | Err e => p.2 = Some e
  end.

(** What a deletion leaves of the objects of a kind: no new ones, every object
    it does not select, and, if it succeeded, none that it selects. *)
Definition shrinks (selects : Item -> bool) (r r' : result err (list Item)) : Prop :=
  match r, r' with
  | Ok before, Ok after =>
      (forall x, x ∈ after -> x ∈ before)
      /\ (forall x, x ∈ before -> selects x = false -> x ∈ after)
  | Err e, Err e' => e = e'
  | _, _ => False
  end.

Definition none_left (selects : Item -> bool) (r : result err (list Item)) : Prop :=
  match r with
  | Ok items => forall x, x ∈ items -> selects x = false
  | Err _ => True
  end.

Class ClientLaws `{ClusterView} (cl : Client W) : Prop := {
  get_DuckType_law : forall w k dt,
    let '(w', p) := cl_Get_DuckType cl w k dt in
    same_view w w' /\ answers p (v_ducktype (view w) k) id;
  list_Ducks_law : forall w l,
    let '(w', p) := cl_List_Ducks cl w l no_list_options in
    same_view w w' /\ answers p (v_ducks (view w) (dl_TypeMeta l)) dl_Items;
  track_Ducks_law : forall w l,
    let '(w', p) := cl_TrackAndList_Ducks cl w l no_list_options in
    same_view w w' /\ answers p (v_ducks (view w) (dl_TypeMeta l)) dl_Items;
  list_law : forall w g v k opts,
    let '(w', p) := cl_List cl w (MkUList _ (MkGVK g v (k +:+ "List")) []) opts in
    same_view w w' /\
    answers p (result_map (List.filter (list_selects opts)) (v_objects (view w) (MkGVK g v k))) ul_Items;
  track_law : forall w g v k opts,
    let '(w', p) := cl_TrackAndList cl w (MkUList _ (MkGVK g v (k +:+ "List")) []) opts in
    same_view w w' /\
    answers p (result_map (List.filter (list_selects opts)) (v_objects (view w) (MkGVK g v k))) ul_Items;
  deleteAllOf_law : forall w o opts,
    let '(w', (_, e)) := cl_DeleteAllOf cl w o opts in
    (forall g, shrinks (delete_selects opts) (v_objects (view w) g) (v_objects (view w') g))
    /\ (forall g, gvk_GroupKind g <> gvk_GroupKind (obj_GVK o) ->
          v_objects (view w') g = v_objects (view w) g)
    /\ (e = None -> none_left (delete_selects opts) (v_objects (view w') (obj_GVK o)));
}.

(** ** The contract of the duck client, without its state *)

Context `{GoUnicode} `{ConditionLib}.

(** The ready ducks of a duck type that mark a kind, or every kind if none is
    asked for. *)
Definition spec_ducks (v : View) (name : ObjectKey) (g : GroupKind) : result err (list Duck) :=
  match v_ducktype v name with
  | Err e => Err (if IsNotFound e then ErrUnknownDuckType else e)
  | Ok t =>
      if negb (DuckType_is t DuckTypeConditionReady) then Err ErrDuckTypeNotReady
      else
        let listKind := if String.eqb (dts_ListKind (dt_Spec t)) "" then dts_Kind (dt_Spec t) +:+ "List"
                        else dts_ListKind (dt_Spec t) in
        match v_ducks v (MkTypeMeta (gv_String (MkGV (dts_Group (dt_Spec t)) "v1")) listKind) with
        | Err e => Err e
        | Ok items =>
            match List.filter (fun d => Duck_is d DuckConditionReady && duck_matches g d) items with
            | [] => if gk_Empty g then Ok [] else Err ErrUnknownDuck
            | ds => Ok ds
            end
        end
  end.

(** The objects of the kinds the ducks mark, in the order of the ducks. *)
Fixpoint spec_objects `{ClusterView} (v : View) (opts : ListOptions) (ds : list Duck)
    : result err (list Item) :=
  match ds with
  | [] => Ok []
  | d :: ds' =>
      match v_objects v (DuckSpec_GroupVersionKind (d_Spec d)) with
      | Err e => Err e
      | Ok items => result_map (app (List.filter (list_selects opts) items)) (spec_objects v opts ds')
      end
  end.

(** The version a kind is read with: that of the only ready duck for it. *)
Definition spec_version (v : View) (name : ObjectKey) (g : GroupKind) : result err string :=
  match spec_ducks v name g with
  | Err e => Err e
  | Ok [d] => Ok (ds_Version (d_Spec d))
  | Ok _ => Err ErrUnknownDuck
  end.
End view.

(** ** Lemmas *)

Section client_lemmas.
Context `{GoUnicode} `{Schema} `{ErrorLib} `{ConditionLib} `{ClientTypes} {W : Type}.
Context `{!@ClusterView _ _ W}.
Context (c : @duckClient _ _ W) `{!ClientLaws (dc_client c)}.
Implicit Types (w : W) (ds : list Duck).

Definition type_key : ObjectKey := ObjectKeyFromObject (dt_ObjectMeta (dc_duckType c)).

(** A computation that reads: it leaves the view alone and its result is a
    function of the view. *)
Definition reads {A} (m : @M _ W A) (f : View -> result err A) : Prop :=
  forall w, same_view w (m w).1 /\ (m w).2 = f (view w).

Lemma spec_ducks_proper w w' k g :
  same_view w w' -> spec_ducks (view w) k g = spec_ducks (view w') k g.
Proof.
  intros (Ht & Hd & _). unfold spec_ducks. rewrite Ht.
  destruct (v_ducktype (view w') k) as [t|]; [|done]. by rewrite Hd.
Qed.

Lemma spec_objects_proper w w' opts ds :
  same_view w w' -> spec_objects (view w) opts ds = spec_objects (view w') opts ds.
Proof.
  intros (_ & _ & Ho). induction ds as [|d ds IH]; [done|]. simpl. by rewrite Ho, IH.
Qed.

Lemma ducks_loop_filter g acc items :
  ducks_loop g acc items
  = acc ++ List.filter (fun d => Duck_is d DuckConditionReady && duck_matches g d) items.
Proof.
  revert acc. induction items as [|d items IH]; intros acc; simpl; [by rewrite app_nil_r|].
  destruct (Duck_is d DuckConditionReady); simpl; [|apply IH].
  rewrite IH. destruct (duck_matches g d); [by rewrite <- app_assoc|done].
Qed.

Lemma get_DuckType_reads :
  reads (get_DuckType c) (fun v => match v_ducktype v type_key with
                                   | Ok t => Ok t
                                   | Err e => Err (if IsNotFound e then ErrUnknownDuckType else e)
                                   end).
Proof.
  intros w. unfold get_DuckType. pose proof (get_DuckType_law w type_key (dc_duckType c)) as Hl.
  unfold type_key in *. destruct (cl_Get_DuckType _ _ _ _) as [w' [dt e]]. destruct Hl as [Hv Ha].
  destruct (v_ducktype (view w) _) as [t|e0]; simpl in Ha; [destruct Ha as [-> <-]|subst]; done.
Qed.

Lemma list_Ducks_reads track l :
  forall w, same_view w (list_Ducks c track l w).1
    /\ result_map dl_Items (list_Ducks c track l w).2 = v_ducks (view w) (dl_TypeMeta l).
Proof.
  intros w. unfold list_Ducks.
  assert (Hl := if track return let '(w', p) := if track then cl_TrackAndList_Ducks (dc_client c) w l no_list_options
                                       else cl_List_Ducks (dc_client c) w l no_list_options in
                                same_view w w' /\ answers p (v_ducks (view w) (dl_TypeMeta l)) dl_Items
                then track_Ducks_law w l else list_Ducks_law w l).
  destruct (if track then _ else _) as [w' [l' e]]. destruct Hl as [Hv Ha].
  destruct (v_ducks (view w) _) as [items|e0]; simpl in Ha; [destruct Ha as [-> <-]|subst]; done.
Qed.

Lemma ducks_reads g track : reads (ducks c g track) (fun v => spec_ducks v type_key g).
Proof.
  intros w. unfold ducks, mthen, spec_ducks. destruct (get_DuckType_reads w) as [Hv Hr].
  destruct (get_DuckType c w) as [w1 r]. simpl in *. subst r.
  destruct (v_ducktype (view w) type_key) as [t|e]; [|done].
  change (DuckType_is (dt_set_Spec _ t) _) with (DuckType_is t DuckTypeConditionReady).
  destruct (DuckType_is t DuckTypeConditionReady); [|done]. simpl.
  set (l := MkDuckList _ _ _). destruct (list_Ducks_reads track l w1) as [Hv2 Hr2].
  destruct (list_Ducks c track l w1) as [w2 r]. simpl in *.
  assert (Hv' := Hv). destruct Hv' as (_ & Hd & _). rewrite Hd, <- Hr2.
  destruct r as [dl|e]; simpl; [|split; [by etrans|done]].
  rewrite ducks_loop_filter. simpl.
  destruct (List.filter _ _) as [|d ds] eqn:Hf; simpl.
  - rewrite andb_true_r. destruct (gk_Empty g); (split; [by etrans|done]).
  - rewrite andb_false_r. split; [by etrans|done].
Qed.

Lemma setDuckVersion_reads obj track :
  reads (setDuckVersion c obj track)
    (fun v => result_map (fun ver => obj_SetGVK (MkGVK (gvk_Group (obj_GVK obj)) ver (gvk_Kind (obj_GVK obj))) obj)
                (spec_version v type_key (gvk_GroupKind (obj_GVK obj)))).
Proof.
  intros w. unfold setDuckVersion, duck, mthen, spec_version.
  destruct (ducks_reads (gvk_GroupKind (obj_GVK obj)) track w) as [Hv Hr].
  destruct (ducks c _ track w) as [w1 r]. simpl in *. subst r.
  destruct (spec_ducks _ _ _) as [[|d [|d' ds]]|e]; done.
Qed.

(** The loops over the ducks, for either of the two list calls. *)
Definition lists (list_one : W -> UnstructuredList -> ListOptions -> W * (UnstructuredList * option err)) : Prop :=
  forall w g v k opts,
    let '(w', p) := list_one w (MkUList _ (MkGVK g v (k +:+ "List")) []) opts in
    same_view w w' /\
    answers p (result_map (List.filter (list_selects opts)) (v_objects (view w) (MkGVK g v k))) ul_Items.

Lemma list_loop_reads list_one opts ds acc :
  lists list_one ->
  reads (list_loop list_one opts ds acc) (fun v => result_map (app acc) (spec_objects v opts ds)).
Proof.
  intros Hl. revert acc. induction ds as [|d ds IH]; intros acc w; simpl; [by rewrite app_nil_r|].
  unfold list_gvk_of. specialize (Hl w (ds_Group (d_Spec d)) (ds_Version (d_Spec d)) (ds_Kind (d_Spec d)) opts).
  destruct (list_one _ _ _) as [w1 [ul e]]. destruct Hl as [Hv Ha].
  unfold DuckSpec_GroupVersionKind.
  destruct (v_objects (view w) _) as [items|e0]; simpl in Ha; [destruct Ha as [-> Hi]|by subst].
  simpl. destruct (IH (acc ++ ul_Items ul) w1) as [Hv2 Hr2]. split; [by etrans|].
  rewrite Hr2, (spec_objects_proper w w1) by done. simpl in Hi. rewrite Hi.
  destruct (spec_objects (view w1) opts ds); [|done]. simpl. by rewrite <- app_assoc.
Qed.

Lemma list_all_reads list_one g track opts :
  lists list_one ->
  reads (mthen (ducks c g track) (fun ds => list_loop list_one opts ds []))
    (fun v => result_bind (spec_ducks v type_key g) (spec_objects v opts)).
Proof.
  intros Hl w. unfold mthen. destruct (ducks_reads g track w) as [Hv Hr].
  destruct (ducks c g track w) as [w1 r]. simpl in *. subst r.
  destruct (spec_ducks (view w) type_key g) as [ds|e]; [|done].
  destruct (list_loop_reads list_one opts ds [] Hl w1) as [Hv2 Hr2]. split; [by etrans|].
  cbn [result_bind]. rewrite Hr2, (spec_objects_proper w w1) by done. by destruct (spec_objects _ _ _).
Qed.

(** After deleting for a list of ducks. *)
Lemma shrinks_refl sel r : shrinks sel r r.
Proof. by destruct r. Qed.

Lemma shrinks_trans sel r1 r2 r3 : shrinks sel r1 r2 -> shrinks sel r2 r3 -> shrinks sel r1 r3.
Proof. destruct r1, r2, r3; simpl; naive_solver. Qed.

Lemma none_left_shrinks sel r r' : none_left sel r -> shrinks sel r r' -> none_left sel r'.
Proof. destruct r, r'; simpl; naive_solver. Qed.

Lemma delete_loop_effect `{!ClientTypesLaws} obj opts ds w :
  let '(w', r) := delete_loop c obj opts ds w in
  exists done rest, ds = done ++ rest
    /\ (forall g, shrinks (delete_selects opts) (v_objects (view w) g) (v_objects (view w') g))
    /\ Forall (fun d => none_left (delete_selects opts)
                          (v_objects (view w') (DuckSpec_GroupVersionKind (d_Spec d)))) done
    /\ match r with
       | Ok _ => rest = []
       | Err _ => exists d rest', rest = d :: rest'
       end
    /\ (forall g, (forall d, d ∈ done ++ take 1 rest ->
             gvk_GroupKind g <> gvk_GroupKind (DuckSpec_GroupVersionKind (d_Spec d))) ->
          v_objects (view w') g = v_objects (view w) g).
Proof.
  revert w. induction ds as [|d ds IH]; intros w; simpl.
  { exists [], []. split_and!; [done| |constructor|done|done]. intros g. apply shrinks_refl. }
  set (o := obj_SetGVK _ obj). pose proof (deleteAllOf_law w o opts) as Hd.
  destruct (cl_DeleteAllOf (dc_client c) w o opts) as [w1 [o' [e|]]]; destruct Hd as (Hs & Hf & Hn);
    unfold o in Hf, Hn; rewrite obj_GVK_Set in Hf, Hn.
  - exists [], (d :: ds). split_and!; [done|done|constructor|eauto|].
    intros g Hg. apply Hf. apply Hg. simpl. rewrite take_0. by apply list_elem_of_singleton.
  - specialize (IH w1). destruct (delete_loop c obj opts ds w1) as [w2 r].
    destruct IH as (dn & rest & -> & Hs2 & Hn2 & Hr & Hf2).
    exists (d :: dn), rest. split_and!; [done| | |done|].
    + intros g. by eapply shrinks_trans.
    + constructor; [|done]. eapply none_left_shrinks; [by apply Hn|apply Hs2].
    + intros g Hg. rewrite Hf2, Hf; [done| |].
      * apply Hg. simpl. apply elem_of_cons. by left.
      * intros d' Hd'. apply Hg. simpl. apply elem_of_cons. by right.
Qed.
End client_lemmas.

(** ** Theorems *)

Section client_theorems.
Context `{GoUnicode} `{Schema} `{ErrorLib} `{ConditionLib} `{ClientTypes} {W : Type}.
Context `{!@ClusterView _ _ W}.
Context (c : @duckClient _ _ W) `{!ClientLaws (dc_client c)}.
Variable Convert : UnstructuredList -> CList -> CList * option err.

(** C8: List and TrackAndList implement their contract against the cluster: the
    caller's list is converted from the objects of the kinds marked by the
    ready ducks the asked-for kind selects, concatenated in the order of the
    ducks; if the duck type is unknown or not ready, no duck matches or one of
    the reads fails, that error is returned and the list is untouched.  Either
    way the cluster is unchanged. *)
Theorem client_list_refines (l : CList) (opts : ListOptions) (w : W) :
  let expected := result_bind (spec_ducks (view w) (type_key c) (gvk_GroupKind (list_GVK l)))
                    (spec_objects (view w) opts) in
  let answer := match expected with
                | Ok items => Convert (MkUList _ (MkGVK "" "" "") items) l
                | Err e => (l, Some e)
                end in
  (same_view w (Client_List Convert c l opts w).1 /\ (Client_List Convert c l opts w).2 = answer)
  /\ (same_view w (Client_TrackAndList Convert c l opts w).1
      /\ (Client_TrackAndList Convert c l opts w).2 = answer).
Proof.
  split; [unfold Client_List|unfold Client_TrackAndList].
  - destruct (list_all_reads c (cl_List (dc_client c)) (gvk_GroupKind (list_GVK l)) false opts
                list_law w) as [Hv Hr].
    destruct (mthen _ _ w) as [w' r]. simpl in *. rewrite <- Hr. by destruct r.
  - destruct (list_all_reads c (cl_TrackAndList (dc_client c)) (gvk_GroupKind (list_GVK l)) true opts
                track_law w) as [Hv Hr].
    destruct (mthen _ _ w) as [w' r]. simpl in *. rewrite <- Hr. by destruct r.
Qed.

(** C9: Get and TrackAndGet read the object with the version of the only ready
    duck for its group and kind, and nothing else of the object's identity is
    changed before the read; without exactly one such duck the object is
    untouched, nothing is read, and the error says why. *)
Theorem client_get_refines (key : ObjectKey) (obj : CObj) (opts : GetOptions) (w : W) :
  let versioned ver := obj_SetGVK (MkGVK (gvk_Group (obj_GVK obj)) ver (gvk_Kind (obj_GVK obj))) obj in
  let version := spec_version (view w) (type_key c) (gvk_GroupKind (obj_GVK obj)) in
  (exists w1, same_view w w1 /\
     Client_Get c key obj opts w = match version with
                                   | Ok ver => cl_Get (dc_client c) w1 key (versioned ver) opts
                                   | Err e => (w1, (obj, Some e))
                                   end)
  /\ (exists w1, same_view w w1 /\
     Client_TrackAndGet c key obj opts w = match version with
                                   | Ok ver => cl_TrackAndGet (dc_client c) w1 key (versioned ver) opts
                                   | Err e => (w1, (obj, Some e))
                                   end).
Proof.
  split; [unfold Client_Get|unfold Client_TrackAndGet].
  - destruct (setDuckVersion_reads c obj false w) as [Hv Hr].
    destruct (setDuckVersion c obj false w) as [w1 r]. exists w1. simpl in *. subst r.
    split; [done|]. by destruct (spec_version _ _ _).
  - destruct (setDuckVersion_reads c obj true w) as [Hv Hr].
    destruct (setDuckVersion c obj true w) as [w1 r]. exists w1. simpl in *. subst r.
    split; [done|]. by destruct (spec_version _ _ _).
Qed.

(** The ready ducks of the duck type of the client. *)
Definition ready_ducks (v : View) : list Duck :=
  match spec_ducks v (type_key c) (MkGK "" "") with Ok ds => ds | Err _ => [] end.

Lemma ready_ducks_matching `{!SchemaLaws} v g ds :
  spec_ducks v (type_key c) (MkGK "" "") = Ok ds -> gk_Empty g = false ->
  spec_ducks v (type_key c) g = match List.filter (duck_matches g) ds with
                                | [] => Err ErrUnknownDuck
                                | ds' => Ok ds'
                                end.
Proof.
  assert (He : gk_Empty (MkGK "" "") = true) by (by apply gk_Empty_spec).
  assert (Hm : forall d, duck_matches (MkGK "" "") d = true) by (intros; unfold duck_matches; by rewrite He).
  unfold spec_ducks. destruct (v_ducktype v (type_key c)) as [t|]; [|done].
  destruct (DuckType_is t DuckTypeConditionReady); [|done]. simpl.
  destruct (v_ducks v _) as [items|]; [|done]. rewrite He. intros Hds Hg. rewrite Hg.
  assert (Hf : List.filter (fun d => Duck_is d DuckConditionReady && duck_matches g d) items
               = List.filter (duck_matches g) ds); [|by rewrite Hf].
  transitivity (List.filter (duck_matches g)
    (List.filter (fun d => Duck_is d DuckConditionReady && duck_matches (MkGK "" "") d) items)).
  - clear Hds. induction items as [|d items IH]; [done|]. simpl.
    rewrite Hm, andb_true_r.
    destruct (Duck_is d DuckConditionReady); simpl; [|done].
    by destruct (duck_matches g d); rewrite IH.
  - f_equal. by destruct (List.filter _ items); simplify_eq.
Qed.

(** C24: GroupVersionKindFor finds every kind the duck type covers: if the ready
    ducks mark distinct kinds and no kind is another's list kind, then for an
    object of the kind of a ready duck, whatever version it carries, the answer
    is the kind with that duck's version, and nothing of the cluster changes. *)
Theorem client_kind_resolved `{!SchemaLaws} `{!ClientTypesLaws} (obj : CObj) (d : Duck) (w : W) :
  let kind_of x := (ds_Group (d_Spec x), ds_Kind (d_Spec x)) in
  d ∈ ready_ducks (view w) -> gvk_GroupKind (obj_GVK obj) = MkGK (ds_Group (d_Spec d)) (ds_Kind (d_Spec d)) ->
  ds_Kind (d_Spec d) <> "" ->
  NoDup (kind_of <$> ready_ducks (view w)) ->
  (forall x, x ∈ ready_ducks (view w) -> ds_Kind (d_Spec x) +:+ "List" <> ds_Kind (d_Spec d)) ->
  exists w', same_view w w'
    /\ Client_GroupVersionKindFor c (IsObject obj) w = Ret (w', Ok (DuckSpec_GroupVersionKind (d_Spec d))).
Proof.
  intros kind_of Hd Hgk Hk Hnd Hl. unfold Client_GroupVersionKindFor, mthen.
  destruct (setDuckVersion_reads c obj false w) as [Hv Hr].
  destruct (setDuckVersion c obj false w) as [w1 r]. simpl in *. subst r.
  exists w1. split; [done|].
  unfold spec_version, ready_ducks in *.
  destruct (spec_ducks (view w) (type_key c) (MkGK "" "")) as [ds|] eqn:Hds; [|by apply not_elem_of_nil in Hd].
  assert (Hne : gk_Empty (gvk_GroupKind (obj_GVK obj)) = false).
  { apply not_true_iff_false. rewrite gk_Empty_spec, Hgk. naive_solver. }
  rewrite (ready_ducks_matching _ _ ds) by done.
  rewrite (filter_unique kind_of _ ds d); [|done|done|].
  - simpl. rewrite obj_GVK_Set. rewrite gvk_GroupKind_eq in Hgk. injection Hgk as -> ->. done.
  - intros x Hx. unfold duck_matches. rewrite Hne, Hgk. unfold kind_of; simpl.
    specialize (Hl x Hx). rewrite <- String.eqb_neq, String.eqb_sym in Hl. rewrite Hl, andb_false_r.
    rewrite <- andb_lazy_alt, andb_true_r, andb_true_iff, !String.eqb_eq, pair_equal_spec.
    by split; intros [-> ->].
Qed.

(** C25: DeleteAllOf deletes for the ready ducks that match, in order, and stops
    at the first failure: no object is created, objects that are not selected
    and objects of other kinds are untouched, after success none of the selected
    objects of the matching kinds is left, and after a failure none is left for
    the ducks before the failing one while the kinds after it were not touched.
    An error before the first deletion leaves the cluster unchanged. *)
Theorem client_delete_all_refines `{!ClientTypesLaws} (obj : CObj) (opts : DeleteAllOfOptions) (w : W) :
  let '(w', e) := Client_DeleteAllOf c obj opts w in
  match spec_ducks (view w) (type_key c) (gvk_GroupKind (obj_GVK obj)) with
  | Err e0 => e = Some e0 /\ same_view w w'
  | Ok ds => exists finished rest, ds = finished ++ rest
      /\ (e = None <-> rest = [])
      /\ (forall g, shrinks (delete_selects opts) (v_objects (view w) g) (v_objects (view w') g))
      /\ Forall (fun d => none_left (delete_selects opts)
                            (v_objects (view w') (DuckSpec_GroupVersionKind (d_Spec d)))) finished
      /\ (forall g, (forall d, d ∈ finished ++ take 1 rest ->
             gvk_GroupKind g <> gvk_GroupKind (DuckSpec_GroupVersionKind (d_Spec d))) ->
           v_objects (view w') g = v_objects (view w) g)
  end.
Proof.
  unfold Client_DeleteAllOf, mthen.
  destruct (ducks_reads c (gvk_GroupKind (obj_GVK obj)) false w) as [Hv Hr].
  destruct (ducks c _ false w) as [w1 r]. simpl in *. subst r.
  destruct (spec_ducks _ _ _) as [ds|e0]; [|done].
  pose proof (delete_loop_effect c obj opts ds w1) as Hd.
  destruct (delete_loop c obj opts ds w1) as [w2 r].
  destruct Hd as (dn & rest & -> & Hs & Hn & Hr & Hf). destruct Hv as (_ & _ & Ho).
  destruct r as [[]|e]; setoid_rewrite Ho.
  - subst rest. by exists dn, [].
  - exists dn, rest. split_and!; try done. split; [done|]. by destruct Hr as (? & ? & ->).
Qed.
End client_theorems.

(** ** Witnesses: a cluster with one duck type *)

Section witness.
#[local] Existing Instances ref_unicode ref_schema ref_errors ref_conditions
  ref_schema_laws ref_conditions_laws.

#[local] Instance ref_client_types : ClientTypes := {|
  CObj := GroupVersionKind; CList := GroupVersionKind * list string; Item := string;
  GetOptions := unit; ListOptions := unit; no_list_options := tt; DeleteAllOfOptions := unit;
  WriteOptions := unit; ApplyConfiguration := unit; PatchT := unit; ClientScheme := unit; Mapper := unit;
  obj_GVK o := o; obj_SetGVK g _ := g; list_GVK := fst;
|}.

#[local] Instance ref_client_types_laws : ClientTypesLaws.
Proof. by constructor. Qed.

(** The world: the duck type, its ducks, and the names of the objects of each
    kind. *)
Record cluster := MkCluster {
  rw_type : DuckType;
  rw_ducks : list Duck;
  rw_objects : GroupVersionKind -> list string;
}.

Definition singular (g : GroupVersionKind) (k : string) : GroupVersionKind :=
  MkGVK (gvk_Group g) (gvk_Version g) k.

(** The kind whose list kind is asked for. *)
Definition strip_List (s : string) : string :=
  String.substring 0 (String.length s - 4) s.

Definition ref_list (w : cluster) (l : UnstructuredList) (_ : unit)
    : cluster * (UnstructuredList * option err) :=
  (w, (MkUList _ (ul_GVK l) (rw_objects w (singular (ul_GVK l) (strip_List (gvk_Kind (ul_GVK l))))), None)).

Definition ref_ducks (w : cluster) (l : DuckList) (_ : unit) : cluster * (DuckList * option err) :=
  (w, (MkDuckList (dl_TypeMeta l) (dl_ListMeta l) (rw_ducks w), None)).

Definition ref_client_get (w : cluster) (_ : ObjectKey) (o : GroupVersionKind) (_ : unit)
    : cluster * (GroupVersionKind * option err) := (w, (o, None)).

Definition ref_write (w : cluster) (o : GroupVersionKind) (_ : unit)
    : cluster * (GroupVersionKind * option err) := (w, (o, None)).

Definition ref_client : @Client ref_errors ref_client_types cluster :=
  @MkClient ref_errors ref_client_types cluster
    (fun w _ _ => (w, (rw_type w, None))) ref_ducks ref_ducks ref_client_get ref_client_get ref_list ref_list
    (fun w a _ => (w, (a, None))) ref_write ref_write ref_write (fun w o _ _ => (w, (o, None)))
    (fun w o _ => (MkCluster (rw_type w) (rw_ducks w)
                     (fun g => if decide (g = o) then [] else rw_objects w g), (o, None)))
    tt tt (fun _ => Ok true).

#[local] Instance ref_view : @ClusterView ref_errors ref_client_types cluster := {|
  view w := MkView (fun _ => Ok (rw_type w)) (fun _ => Ok (rw_ducks w)) (fun g => Ok (rw_objects w g));
  list_selects _ _ := true; delete_selects _ _ := true;
|}.

Lemma substring_app (a b : string) : String.substring 0 (String.length a) (a +:+ b) = a.
Proof.
  induction a as [|x a IH]; [by destruct b|].
  change (String x a +:+ b) with (String x (a +:+ b)). simpl. by rewrite IH.
Qed.

Lemma strip_List_app k : strip_List (k +:+ "List") = k.
Proof.
  unfold strip_List. rewrite string_length_app. simpl.
  replace (String.length k + 4 - 4) with (String.length k) by lia. apply substring_app.
Qed.

Lemma filter_all {A} (l : list A) : List.filter (fun _ => true) l = l.
Proof. induction l as [|x l IH]; [done|]. simpl. by rewrite IH. Qed.

#[local] Instance ref_client_laws : ClientLaws ref_client.
Proof.
  constructor; try done.
  - intros w g v k opts. simpl. rewrite strip_List_app, filter_all. done.
  - intros w g v k opts. simpl. rewrite strip_List_app, filter_all. done.
  - intros w o opts. simpl. split_and!.
    + intros g. destruct (decide (g = o)); simpl; [|done]. set_solver.
    + intros g Hg. by rewrite decide_False by (by intros ->).
    + intros _. rewrite decide_True by done. set_solver.
Qed.

(** A ready duck and a ready duck type. *)
Definition ready_status : Status :=
  MkStatus 0 [MkCondition ConditionReady ConditionTrue 0 0 "Ready" ""].

Definition w_cluster : cluster :=
  MkCluster (dt_set_Status (MkDuckTypeStatus ready_status) w_ducktype)
    [d_set_Status (MkDuckStatus ready_status) w_duck; w_duck]
    (fun g => if decide (g = MkGVK "apps" "v1" "Deployment") then ["web"; "db"] else []).

Definition w_client : @duckClient ref_errors ref_client_types cluster :=
  New_Client "widgets.example.com" ref_client.

Definition w_convert (u : UnstructuredList) (l : GroupVersionKind * list string)
    : (GroupVersionKind * list string) * option err := ((l.1, ul_Items u), None).

Lemma client_list_refines_witness :
  (Client_List w_convert w_client (MkGVK "" "" "", []) tt w_cluster).2 = ((MkGVK "" "" "", ["web"; "db"]), None).
Proof.
  destruct (client_list_refines w_client w_convert (MkGVK "" "" "", []) tt w_cluster) as [[_ Hl] _].
  rewrite Hl. vm_compute. reflexivity.
Defined.

Lemma client_get_refines_witness :
  exists w1, same_view w_cluster w1 /\
    Client_Get w_client (MkObjectKey "default" "web") (MkGVK "apps" "" "Deployment") tt w_cluster
    = cl_Get ref_client w1 (MkObjectKey "default" "web") (MkGVK "apps" "v1" "Deployment") tt.
Proof.
  destruct (client_get_refines w_client (MkObjectKey "default" "web") (MkGVK "apps" "" "Deployment") tt
              w_cluster) as [(w1 & Hv & Hg) _].
  exists w1. split; [exact Hv|]. exact Hg.
Defined.

Lemma client_kind_resolved_witness :
  exists w', same_view w_cluster w'
    /\ Client_GroupVersionKindFor w_client (IsObject (MkGVK "apps" "" "Deployment")) w_cluster
       = Ret (w', Ok (MkGVK "apps" "v1" "Deployment")).
Proof.
  apply (client_kind_resolved w_client (MkGVK "apps" "" "Deployment")
           (d_set_Status (MkDuckStatus ready_status) w_duck) w_cluster).
  - by left.
  - reflexivity.
  - done.
  - repeat constructor. set_solver.
  - intros x [->|[]%not_elem_of_nil]%elem_of_cons. done.
Defined.

Lemma client_delete_all_refines_witness :
  v_objects (view (Client_DeleteAllOf w_client (MkGVK "apps" "" "Deployment") tt w_cluster).1)
    (MkGVK "example.com" "v1" "Widget")
  = v_objects (view w_cluster) (MkGVK "example.com" "v1" "Widget").
Proof.
  destruct (client_delete_all_refines w_client (MkGVK "apps" "" "Deployment") tt w_cluster)
    as (dn & rest & Hds & _ & _ & _ & Hf).
  apply Hf. intros d Hd. assert (Hin : d ∈ dn ++ rest) by (destruct rest; set_solver).
  rewrite <- Hds in Hin. vm_compute in Hin. apply elem_of_cons in Hin as [->|[]%not_elem_of_nil]. done.
Defined.
End witness.
