(* ===== verification/System.v ===== *)
(** * The controllers and the duck client together

    The duck client trusts the Ready condition of ducks; the Duck reconciler sets
    it.  What the reconciler promises is stated as an interface, the client's
    theorem is proved against it, and the reconciler's ducks meet it. *)

From S2P Require Import Prelude Platform Reference ApiV1 Webhook Runtime Rbac ReadyCheck Controller Client.

(** Every ready duck of the cluster marks an API that [serves] holds for. *)
Class ReadyDucks `{ErrorLib} `{ConditionLib} `{ClientTypes} (v : View) (serves : Duck -> Prop) : Prop :=
  ready_ducks_serve : forall tm items d,
    v_ducks v tm = Ok items -> d ∈ items -> Duck_is d DuckConditionReady = true -> serves d.

(** ** The client, against the interface *)

Section client_side.
Context `{GoUnicode} `{Schema} `{ErrorLib} `{ConditionLib} `{ClientTypes} {W : Type}.
Context `{!@ClusterView _ _ W}.
Implicit Types (v : View) (serves : Duck -> Prop).

Lemma spec_ducks_serve v serves `{!ReadyDucks v serves} k g ds :
  spec_ducks v k g = Ok ds -> Forall (fun d => serves d /\ duck_matches g d = true) ds.
Proof.
  unfold spec_ducks. destruct (v_ducktype v k) as [t|]; [|done]. destruct (negb _); [done|].
  destruct (v_ducks v _) as [items|] eqn:Hv; [|done]. intros Hds.
  assert (Hin : forall d, d ∈ ds -> d ∈ items /\ Duck_is d DuckConditionReady && duck_matches g d = true).
  { intros d Hd. rewrite list_elem_of_In in Hd. rewrite list_elem_of_In.
    apply (filter_In (fun d => Duck_is d DuckConditionReady && duck_matches g d)). destruct (List.filter _ items); [destruct (gk_Empty g); simplify_eq; by destruct Hd|by simplify_eq]. }
  apply Forall_forall. intros d Hd. destruct (Hin d Hd) as [Hi [Hr Hm]%andb_true_iff].
  split; [by eapply ready_ducks_serve|done].
Qed.

Context (c : @duckClient _ _ W) `{!ClientLaws (dc_client c)}.

(** What Get does with an object of a kind that is no ready duck's list kind: it
    fails without reading, or reads it as the kind and version a duck marks. *)
Lemma Get_serves `{!SchemaLaws} w serves `{!ReadyDucks (view w) serves} key obj opts :
  gk_Empty (gvk_GroupKind (obj_GVK obj)) = false ->
  (forall d, serves d -> ds_Kind (d_Spec d) +:+ "List" <> gvk_Kind (obj_GVK obj)) ->
  exists w1, same_view w w1 /\
    ((exists e, Client_Get c key obj opts w = (w1, (obj, Some e)))
     \/ exists d, serves d
        /\ Client_Get c key obj opts w
           = cl_Get (dc_client c) w1 key (obj_SetGVK (DuckSpec_GroupVersionKind (d_Spec d)) obj) opts).
Proof.
  intros Hne Hl. unfold Client_Get. destruct (setDuckVersion_reads c obj false w) as [Hv Hr].
  destruct (setDuckVersion c obj false w) as [w1 r]. simpl in *. subst r. exists w1. split; [done|].
  unfold spec_version. destruct (spec_ducks _ _ _) as [ds|e] eqn:Hds; [|left; by eexists].
  apply (spec_ducks_serve (view w) serves) in Hds. destruct ds as [|d [|d' ds]]; [left; by eexists| |left; by eexists].
  right. exists d. apply Forall_singleton in Hds as [Hs Hm]. split; [done|]. simpl.
  specialize (Hl d Hs). unfold duck_matches in Hm. rewrite Hne, gvk_GroupKind_eq in Hm. simpl in Hm.
  rewrite <- String.eqb_neq, String.eqb_sym in Hl. rewrite Hl, andb_false_r in Hm.
  destruct (String.eqb_spec (gvk_Group (obj_GVK obj)) (ds_Group (d_Spec d))) as [->|]; [|done].
  destruct (String.eqb_spec (gvk_Kind (obj_GVK obj)) (ds_Kind (d_Spec d))) as [->|]; done.
Qed.

Lemma List_serves (Convert : UnstructuredList -> CList -> CList * option err) w serves `{!ReadyDucks (view w) serves}
    l opts :
  (exists e, (Client_List Convert c l opts w).2 = (l, Some e))
  \/ exists ds items, Forall (fun d => serves d /\ duck_matches (gvk_GroupKind (list_GVK l)) d = true) ds
       /\ spec_objects (view w) opts ds = Ok items
       /\ (Client_List Convert c l opts w).2 = Convert (MkUList _ (MkGVK "" "" "") items) l.
Proof.
  unfold Client_List.
  destruct (list_all_reads c (cl_List (dc_client c)) (gvk_GroupKind (list_GVK l)) false opts list_law w) as [_ Hr].
  destruct (mthen _ _ w) as [w' r]. simpl in *. subst r.
  destruct (spec_ducks _ _ _) as [ds|e] eqn:Hds; simpl; [|left; by eexists].
  apply (spec_ducks_serve (view w) serves) in Hds.
  destruct (spec_objects (view w) opts ds) as [items|e] eqn:Ho; [|left; by eexists]. right. by exists ds, items.
Qed.
End client_side.

(** ** The reconciler meets the interface *)

Section controller_side.
Context `{GoUnicode} `{Schema} `{MetaLib} `{ErrorLib} `{!ChildSetLib} `{ConditionLib} `{!ConditionLaws} `{!SchemaLaws}.
Context {X : Type} `{!Engine X unit} `{!@EngineLaws _ _ X unit _}.

(** The duck is what a reconcile without error made of a duck that was not being
    deleted. *)
Definition reconciled (cfg : Config) (d' : Duck) : Prop :=
  exists typeMeta now (w w' : X * unit) d, om_DeletionTimestamp (d_ObjectMeta d) = None
    /\ rr_Reconciler _ _ (DuckReconciler cfg typeMeta) now w d = Ret (w', d', None).

Lemma reconciled_served cfg d' :
  reconciled cfg d' -> Duck_is d' DuckConditionReady = true -> served cfg d'.
Proof.
  intros (tm & now & w & w' & d & Hd & Hr) Hrdy. simpl in Hr.
  destruct (duck_sequence _ _ _ _ _ _ Hd Hr) as (d1 & b1 & b2 & (A1 & A2 & A3 & _) & (B1 & B2 & B3 & _ & _ & Hb) & Hs).
  rewrite Hb in Hrdy. apply andb_true_iff in Hrdy as [-> _].
  eapply served_same; [|by apply Hs]. unfold d_same. split_and!; congruence.
Qed.

Context `{!ClientTypes} {W : Type} `{!@ClusterView _ _ W}.
Context (c : @duckClient _ _ W) `{!ClientLaws (dc_client c)}.

Lemma reconciled_ready_ducks cfg (v : View) :
  (forall tm items d, v_ducks v tm = Ok items -> d ∈ items -> reconciled cfg d) -> ReadyDucks v (served cfg).
Proof. intros Hv tm items d Hi Hd. by apply reconciled_served, (Hv tm items). Qed.

(** C11: a duck client reads only APIs that exist, when the ducks of the cluster
    are as a reconcile without error left them and were not being deleted then.
    Get of an object with a group or kind set, whose kind is not the list kind
    of a ready duck, either fails without reading or reads the object as
    exactly the group, version and kind of a ready duck, and the API server
    serves that duck's resource in that version with that kind.  List returns
    an error, or the objects of such ducks only. *)
Theorem client_reads_served_kinds (Convert : UnstructuredList -> CList -> CList * option err) cfg w key obj opts l lopts :
  (forall tm items d, v_ducks (view w) tm = Ok items -> d ∈ items -> reconciled cfg d) ->
  (gk_Empty (gvk_GroupKind (obj_GVK obj)) = false ->
   (forall tm items d, v_ducks (view w) tm = Ok items -> d ∈ items -> Duck_is d DuckConditionReady = true ->
      ds_Kind (d_Spec d) +:+ "List" <> gvk_Kind (obj_GVK obj)) ->
   exists w1, same_view w w1 /\
     ((exists e, Client_Get c key obj opts w = (w1, (obj, Some e)))
      \/ exists d, served cfg d
         /\ Client_Get c key obj opts w
            = cl_Get (dc_client c) w1 key (obj_SetGVK (DuckSpec_GroupVersionKind (d_Spec d)) obj) opts))
  /\ ((exists e, (Client_List Convert c l lopts w).2 = (l, Some e))
      \/ exists ds items, Forall (fun d => served cfg d /\ duck_matches (gvk_GroupKind (list_GVK l)) d = true) ds
           /\ spec_objects (view w) lopts ds = Ok items
           /\ (Client_List Convert c l lopts w).2 = Convert (MkUList _ (MkGVK "" "" "") items) l).
Proof.
  intros Hv. pose proof (reconciled_ready_ducks cfg (view w) Hv) as HR. split.
  - intros Hne Hl.
    assert (HR' : ReadyDucks (view w) (fun d => served cfg d
                    /\ ds_Kind (d_Spec d) +:+ "List" <> gvk_Kind (obj_GVK obj))).
    { intros tm items d Hi Hd Hr. split; [by eapply ready_ducks_serve|by eapply Hl]. }
    destruct (Get_serves c w _ key obj opts Hne (fun d Hd => proj2 Hd))
      as (w1 & Hw & [He|(d & [Hs _] & Hg)]); exists w1; eauto.
  - by apply (List_serves c Convert w (served cfg)).
Qed.
End controller_side.

(** ** Witness: a cluster whose duck the reconciler has made ready *)
Section witness.
#[local] Existing Instances ref_unicode ref_schema ref_schema_laws ref_meta ref_errors ref_conditions
  ref_conditions_laws w_childset ref_engine ref_engine_laws ref_client_types ref_view ref_client_laws.

Definition w_reconcile (d : Duck) : outcome ((unit * unit) * Duck * option err) :=
  rr_Reconciler _ _ (DuckReconciler w_config (MkTypeMeta "example.com/v1" "Widget")) 5 (tt, tt) d.

Definition w_reconciled_duck : Duck := match w_reconcile w_duck with Ret (_, d, _) => d | Panic _ => w_duck end.

Definition w_system : cluster :=
  MkCluster (dt_set_Status (MkDuckTypeStatus ready_status) w_ducktype) [w_reconciled_duck]
    (fun g => if decide (g = MkGVK "apps" "v1" "Deployment") then ["web"; "db"] else []).

Lemma w_system_reconciled tm items d :
  v_ducks (view w_system) tm = Ok items -> d ∈ items -> reconciled (X := unit) w_config d.
Proof.
  intros [= <-] [->|[]%not_elem_of_nil]%elem_of_cons.
  exists (MkTypeMeta "example.com/v1" "Widget"), 5%Z, (tt, tt), (tt, tt), w_duck. split; [done|].
  unfold w_reconciled_duck, w_reconcile. vm_compute. reflexivity.
Qed.

Lemma client_reads_served_kinds_witness :
  Duck_is w_reconciled_duck DuckConditionReady = true
  /\ (exists w1 d, served w_config d
       /\ Client_Get w_client (MkObjectKey "default" "web") (MkGVK "apps" "" "Deployment") tt w_system
          = cl_Get ref_client w1 (MkObjectKey "default" "web") (DuckSpec_GroupVersionKind (d_Spec d)) tt)
  /\ exists ds items, Forall (fun d => served w_config d /\ duck_matches (gvk_GroupKind (MkGVK "" "" "")) d = true) ds
       /\ (Client_List w_convert w_client (MkGVK "" "" "", []) tt w_system).2 = ((MkGVK "" "" "", items), None)
       /\ items = ["web"; "db"].
Proof.
  split; [reflexivity|].
  destruct (client_reads_served_kinds (X := unit) w_client w_convert w_config w_system
              (MkObjectKey "default" "web") (MkGVK "apps" "" "Deployment") tt (MkGVK "" "" "", []) tt
              w_system_reconciled) as [Hget Hlist]. split.
  - destruct (Hget eq_refl) as (w1 & _ & [[e He]|(d & Hs & Hg)]).
    + by intros tm its d [= <-] [->|[]%not_elem_of_nil]%elem_of_cons _.
    + exfalso. vm_compute in He. done.
    + exists w1, d. split; [exact Hs|exact Hg].
  - destruct Hlist as [[e He]|(ds & items & Hds & _ & Hl)].
    + exfalso. vm_compute in He. done.
    + exists ds, items. split_and!; [exact Hds|exact Hl|]. vm_compute in Hl. by injection Hl.
Defined.
End witness.
