(* ===== verification/Broker.v ===== *)
(** * client: the broker

    broker.go, the type [broker]: one goroutine (Start) owns the set of
    subscribers and fans events out to them; Publish and Subscribe talk to it
    over channels.  Every channel operation is a step that is possible when the
    channel lets it: a send when the buffer has room, a receive when it has an
    element.  Goroutines interleave freely. *)

From S2P Require Import Prelude Platform.

Section broker.
Context {E : Type}.

(** The goroutine of a subscriber: blocked in [b.subCh <- msgCh] (Subscribe has
    not returned), waiting for its context, blocked in [b.unsubCh <- msgCh],
    finished. *)
Inductive phase := Joining | Watching | Leaving | Left_.

(** A subscriber's channel [msgCh]: its buffer and, as history, the events read
    from it, the number of events fanned out before it was entered in [subs],
    and the number of events the loop could not put into it since. *)
Record subscriber := MkSubscriber {
  s_phase : phase;
  s_buf : list E;
  s_got : list E;
  s_from : nat;
  s_dropped : nat;
}.

(** The channels of the broker, the state of Start, the callers blocked in
    Publish, the subscribers, and the history of the events the loop took from
    [publishCh]. *)
Record broker := MkBroker {
  b_publishCh : list E;
  b_subCh : list nat;
  b_unsubCh : list nat;
  b_running : bool;
  b_cancelled : bool;
  b_subs : gset nat;
  b_chans : gmap nat subscriber;
  b_publishers : list E;
  b_log : list E;
}.

Definition ch_cap : nat := 1.
Definition msg_cap : nat := 5.

(** NewBroker's [&broker{...}], with Start running. *)
Definition broker_new : broker := MkBroker [] [] [] true false ∅ ∅ [] [].

Definition set_phase (p : phase) (x : subscriber) : subscriber :=
  MkSubscriber p (s_buf x) (s_got x) (s_from x) (s_dropped x).

(** ** Publish and Subscribe *)

Definition Publish (msg : E) (b : broker) : broker :=
  MkBroker (b_publishCh b) (b_subCh b) (b_unsubCh b) (b_running b) (b_cancelled b) (b_subs b)
    (b_chans b) (b_publishers b ++ [msg]) (b_log b).

(** The send of the [i]th blocked caller. *)
Definition Publish_send (i : nat) (b : broker) : option broker :=
  match b_publishers b !! i with
  | Some msg =>
      if length (b_publishCh b) <? ch_cap then
        Some (MkBroker (b_publishCh b ++ [msg]) (b_subCh b) (b_unsubCh b) (b_running b) (b_cancelled b)
                (b_subs b) (b_chans b) (delete i (b_publishers b)) (b_log b))
      else None
  | None => None
  end.

Definition Subscribe (n : nat) (b : broker) : option broker :=
  match b_chans b !! n with
  | Some _ => None
  | None => Some (MkBroker (b_publishCh b) (b_subCh b) (b_unsubCh b) (b_running b) (b_cancelled b)
                    (b_subs b) (<[ n := MkSubscriber Joining [] [] 0 0 ]> (b_chans b)) (b_publishers b)
                    (b_log b))
  end.

Definition Subscribe_send (n : nat) (b : broker) : option broker :=
  match b_chans b !! n with
  | Some x =>
      match s_phase x with
      | Joining =>
          if length (b_subCh b) <? ch_cap then
            Some (MkBroker (b_publishCh b) (b_subCh b ++ [n]) (b_unsubCh b) (b_running b) (b_cancelled b)
                    (b_subs b) (<[ n := set_phase Watching x ]> (b_chans b)) (b_publishers b) (b_log b))
          else None
      | _ => None
      end
  | None => None
  end.

(** [<-ctx.Done()] of the subscriber's context. *)
Definition Subscribe_done (n : nat) (b : broker) : option broker :=
  match b_chans b !! n with
  | Some x =>
      match s_phase x with
      | Watching => Some (MkBroker (b_publishCh b) (b_subCh b) (b_unsubCh b) (b_running b) (b_cancelled b)
                            (b_subs b) (<[ n := set_phase Leaving x ]> (b_chans b)) (b_publishers b)
                            (b_log b))
      | _ => None
      end
  | None => None
  end.

Definition Subscribe_unsub (n : nat) (b : broker) : option broker :=
  match b_chans b !! n with
  | Some x =>
      match s_phase x with
      | Leaving =>
          if length (b_unsubCh b) <? ch_cap then
            Some (MkBroker (b_publishCh b) (b_subCh b) (b_unsubCh b ++ [n]) (b_running b) (b_cancelled b)
                    (b_subs b) (<[ n := set_phase Left_ x ]> (b_chans b)) (b_publishers b) (b_log b))
          else None
      | _ => None
      end
  | None => None
  end.

(** TrackedSource: the channel of Subscribe as a source of the controller library,
    with its EnqueueTracked handler. *)
Definition TrackedSource {Source Handler} (source_Channel : nat -> Handler -> Source) (EnqueueTracked : Handler)
    (n : nat) (b : broker) : option (broker * Source) :=
  match Subscribe n b with
  | Some b' => Some (b', source_Channel n EnqueueTracked)
  | None => None
  end.

(** The reader of the channel Subscribe returned. *)
Definition Subscriber_recv (n : nat) (b : broker) : option broker :=
  match b_chans b !! n with
  | Some x =>
      match s_buf x with
      | msg :: rest =>
          Some (MkBroker (b_publishCh b) (b_subCh b) (b_unsubCh b) (b_running b) (b_cancelled b) (b_subs b)
                  (<[ n := MkSubscriber (s_phase x) rest (s_got x ++ [msg]) (s_from x) (s_dropped x) ]>
                     (b_chans b)) (b_publishers b) (b_log b))
      | [] => None
      end
  | None => None
  end.

(** ** Start: the cases of the select *)

Definition Start_done (b : broker) : option broker :=
  if b_running b && b_cancelled b then
    Some (MkBroker (b_publishCh b) (b_subCh b) (b_unsubCh b) false (b_cancelled b) (b_subs b) (b_chans b)
            (b_publishers b) (b_log b))
  else None.

Definition enter (now : nat) (x : subscriber) : subscriber :=
  MkSubscriber (s_phase x) (s_buf x) (s_got x) now (s_dropped x).

Definition Start_sub (b : broker) : option broker :=
  if b_running b then
    match b_subCh b with
    | n :: rest => Some (MkBroker (b_publishCh b) rest (b_unsubCh b) (b_running b) (b_cancelled b)
                           ({[ n ]} ∪ b_subs b) (alter (enter (length (b_log b))) n (b_chans b))
                           (b_publishers b) (b_log b))
    | [] => None
    end
  else None.

Definition Start_unsub (b : broker) : option broker :=
  if b_running b then
    match b_unsubCh b with
    | n :: rest => Some (MkBroker (b_publishCh b) (b_subCh b) rest (b_running b) (b_cancelled b)
                           (b_subs b ∖ {[ n ]}) (b_chans b) (b_publishers b) (b_log b))
    | [] => None
    end
  else None.

(** The select with a default: the send happens if the buffer has room. *)
Definition try_send (msg : E) (x : subscriber) : subscriber :=
  if length (s_buf x) <? msg_cap
  then MkSubscriber (s_phase x) (s_buf x ++ [msg]) (s_got x) (s_from x) (s_dropped x)
  else MkSubscriber (s_phase x) (s_buf x) (s_got x) (s_from x) (S (s_dropped x)).

(** [for msgCh := range subs]: the sends are to different channels, so their
    order does not matter. *)
Definition fan_out (msg : E) (subs : gset nat) (chans : gmap nat subscriber) : gmap nat subscriber :=
  map_imap (fun n x => Some (if decide (n ∈ subs) then try_send msg x else x)) chans.

Definition Start_publish (b : broker) : option broker :=
  if b_running b then
    match b_publishCh b with
    | msg :: rest => Some (MkBroker rest (b_subCh b) (b_unsubCh b) (b_running b) (b_cancelled b) (b_subs b)
                             (fan_out msg (b_subs b) (b_chans b)) (b_publishers b) (b_log b ++ [msg]))
    | [] => None
    end
  else None.

(** The manager's runnable calls [cancel]. *)
Definition broker_cancel (b : broker) : broker :=
  MkBroker (b_publishCh b) (b_subCh b) (b_unsubCh b) (b_running b) true (b_subs b) (b_chans b)
    (b_publishers b) (b_log b).

(** ** Interleavings *)

(** One iteration of the loop of Start. *)
Inductive loop_step (b b' : broker) : Prop :=
| loop_done : Start_done b = Some b' -> loop_step b b'
| loop_sub : Start_sub b = Some b' -> loop_step b b'
| loop_unsub : Start_unsub b = Some b' -> loop_step b b'
| loop_publish : Start_publish b = Some b' -> loop_step b b'.

Inductive broker_step (b b' : broker) : Prop :=
| step_loop : loop_step b b' -> broker_step b b'
| step_cancel : b' = broker_cancel b -> broker_step b b'
| step_publish msg : b' = Publish msg b -> broker_step b b'
| step_publish_send i : Publish_send i b = Some b' -> broker_step b b'
| step_subscribe n : Subscribe n b = Some b' -> broker_step b b'
| step_subscribe_send n : Subscribe_send n b = Some b' -> broker_step b b'
| step_subscribe_done n : Subscribe_done n b = Some b' -> broker_step b b'
| step_subscribe_unsub n : Subscribe_unsub n b = Some b' -> broker_step b b'
| step_recv n : Subscriber_recv n b = Some b' -> broker_step b b'.

(** The events that reached a subscriber's channel. *)
Definition delivered (x : subscriber) : list E := s_got x ++ s_buf x.
End broker.

Arguments subscriber : clear implicits.
Arguments broker : clear implicits.

(** ** Invariant *)

Section broker_inv.
Context {E : Type}.
Implicit Types (b : broker E) (x : subscriber E) (n : nat).

(** A subscriber's channel holds at most five events, in the order they were
    published; since it was entered every event was put into it or counted as
    dropped; it is entered at most once, and leaves [subs] only after its
    goroutine has asked for it. *)
Record sub_ok b n x : Prop := {
  so_cap : length (s_buf x) <= msg_cap;
  so_from : s_from x <= length (b_log b);
  so_order : delivered x `sublist_of` drop (s_from x) (b_log b);
  so_count : n ∈ b_subs b -> length (delivered x) + s_dropped x = length (b_log b) - s_from x;
  so_fresh : s_phase x = Joining \/ n ∈ b_subCh b ->
    (n ∉ b_subs b) /\ delivered x = [] /\ s_dropped x = 0;
  so_joining : s_phase x = Joining -> n ∉ b_subCh b;
  so_unsub : n ∈ b_unsubCh b -> s_phase x = Left_;
  so_active : s_phase x = Watching \/ s_phase x = Leaving -> n ∈ b_subCh b \/ n ∈ b_subs b;
}.

Record broker_inv b : Prop := {
  bi_publish : length (b_publishCh b) <= ch_cap;
  bi_sub : length (b_subCh b) <= ch_cap;
  bi_unsub : length (b_unsubCh b) <= ch_cap;
  bi_chans : forall n x, b_chans b !! n = Some x -> sub_ok b n x;
  bi_known : forall n, n ∈ b_subCh b \/ n ∈ b_unsubCh b \/ n ∈ b_subs b -> is_Some (b_chans b !! n);
}.

(** A subscriber the step is not about: only what it sees of the broker
    matters. *)
Lemma sub_ok_frame b b' n x :
  sub_ok b n x -> b_log b' = b_log b ->
  (n ∈ b_subs b' <-> n ∈ b_subs b) -> (n ∈ b_subCh b' <-> n ∈ b_subCh b) ->
  (n ∈ b_unsubCh b' -> n ∈ b_unsubCh b) -> sub_ok b' n x.
Proof.
  intros [C1 C2 C3 C4 C5 C6 C7 C8] Hl Hs Hc Hu.
  constructor; rewrite ?Hl, ?Hs, ?Hc; auto.
Qed.

Lemma broker_new_inv : broker_inv (@broker_new E).
Proof.
  constructor; simpl; unfold ch_cap; try lia.
  - intros n x Hx. by rewrite lookup_empty in Hx.
  - set_solver.
Qed.

(** Replacing one subscriber. *)
Lemma broker_inv_chan b b' n x x' :
  broker_inv b -> b_chans b !! n = Some x -> b_chans b' = <[ n := x' ]> (b_chans b) ->
  b_publishCh b' = b_publishCh b -> b_log b' = b_log b -> b_subs b' = b_subs b ->
  length (b_subCh b') <= ch_cap -> length (b_unsubCh b') <= ch_cap ->
  (forall m, m <> n -> m ∈ b_subCh b' <-> m ∈ b_subCh b) ->
  (forall m, m <> n -> m ∈ b_unsubCh b' -> m ∈ b_unsubCh b) ->
  sub_ok b' n x' -> broker_inv b'.
Proof.
  intros [I1 I2 I3 I4 I5] Hx Hch Hp Hl Hs Hc Hu Hcm Hum Hok.
  constructor; rewrite ?Hp; try done.
  - rewrite Hch. intros m y [[<- <-]|[Hne Hy]]%lookup_insert_Some; [done|].
    apply (sub_ok_frame b); [by apply I4|done|by rewrite Hs|auto..].
  - rewrite Hch. intros m Hm. destruct (decide (m = n)) as [->|Hne]; [rewrite lookup_insert_eq; by eexists|].
    rewrite lookup_insert_ne by done. apply I5. rewrite Hs in Hm.
    destruct Hm as [Hm|[Hm|Hm]]; [left; by apply Hcm|right; left; by apply Hum|auto].
Qed.

Lemma inv_Subscribe b b' n : broker_inv b -> Subscribe n b = Some b' -> broker_inv b'.
Proof.
  intros [I1 I2 I3 I4 I5] Hs. unfold Subscribe in Hs.
  destruct (b_chans b !! n) eqn:Hn; [done|]. injection Hs as <-.
  assert (Hk : (n ∉ b_subCh b) /\ (n ∉ b_unsubCh b) /\ n ∉ b_subs b).
  { split_and!; intros Hin; destruct (I5 n) as [? ?]; naive_solver congruence. }
  destruct Hk as (Hk1 & Hk2 & Hk3). constructor; simpl; try done.
  - intros m y [[<- <-]|[Hne Hy]]%lookup_insert_Some; [|by eapply sub_ok_frame; [by apply I4|done..]].
    constructor; simpl; try done; try (unfold msg_cap; lia); [apply sublist_nil_l|naive_solver].
  - intros m Hm. destruct (decide (m = n)) as [->|]; [rewrite lookup_insert_eq; by eexists|].
    rewrite lookup_insert_ne by done. by apply I5.
Qed.

Lemma length_snoc_cap {A} (l : list A) (a : A) :
  (length l <? ch_cap) = true -> length (l ++ [a]) <= ch_cap.
Proof. rewrite Nat.ltb_lt, length_app. simpl. unfold ch_cap. lia. Qed.

Lemma elem_snoc_ne {A} (l : list A) (a m : A) : m <> a -> m ∈ l ++ [a] <-> m ∈ l.
Proof. rewrite elem_of_app, list_elem_of_singleton. naive_solver. Qed.

Lemma inv_Subscribe_send b b' n : broker_inv b -> Subscribe_send n b = Some b' -> broker_inv b'.
Proof.
  intros Hinv Hs. unfold Subscribe_send in Hs.
  destruct (b_chans b !! n) as [x|] eqn:Hn; [|done]. destruct (s_phase x) eqn:Hp; try done.
  destruct (length (b_subCh b) <? ch_cap) eqn:Hc; [|done]. injection Hs as <-.
  assert (Hok := bi_chans _ Hinv _ _ Hn). destruct (so_fresh _ _ _ Hok (or_introl Hp)) as (F1 & F2 & F3).
  eapply (broker_inv_chan b _ n x); simpl; try done.
  - by apply length_snoc_cap.
  - apply (bi_unsub _ Hinv).
  - intros m Hm. by apply elem_snoc_ne.
  - destruct Hok as [C1 C2 C3 C4 C5 C6 C7 C8]. constructor; simpl; try done.
    + intros Hu. rewrite C7 in Hp by done. done.
    + intros _. left. apply elem_of_app. right. by apply list_elem_of_singleton.
Qed.

Lemma inv_Subscribe_done b b' n : broker_inv b -> Subscribe_done n b = Some b' -> broker_inv b'.
Proof.
  intros Hinv Hs. unfold Subscribe_done in Hs.
  destruct (b_chans b !! n) as [x|] eqn:Hn; [|done]. destruct (s_phase x) eqn:Hp; try done.
  injection Hs as <-. assert (Hok := bi_chans _ Hinv _ _ Hn).
  eapply (broker_inv_chan b _ n x); simpl; try done;
    [apply (bi_sub _ Hinv)|apply (bi_unsub _ Hinv)|].
  destruct Hok as [C1 C2 C3 C4 C5 C6 C7 C8]. constructor; simpl; try done.
  - intros [?|?]; [done|auto].
  - intros Hu. rewrite C7 in Hp by done. done.
  - auto.
Qed.

Lemma inv_Subscribe_unsub b b' n : broker_inv b -> Subscribe_unsub n b = Some b' -> broker_inv b'.
Proof.
  intros Hinv Hs. unfold Subscribe_unsub in Hs.
  destruct (b_chans b !! n) as [x|] eqn:Hn; [|done]. destruct (s_phase x) eqn:Hp; try done.
  destruct (length (b_unsubCh b) <? ch_cap) eqn:Hc; [|done]. injection Hs as <-.
  assert (Hok := bi_chans _ Hinv _ _ Hn).
  eapply (broker_inv_chan b _ n x); simpl; try done;
    [apply (bi_sub _ Hinv)|by apply length_snoc_cap|intros m Hm; by apply elem_snoc_ne|].
  destruct Hok as [C1 C2 C3 C4 C5 C6 C7 C8]. constructor; simpl; try done.
  - intros [?|?]; [done|auto].
  - naive_solver.
Qed.

Lemma inv_Subscriber_recv b b' n : broker_inv b -> Subscriber_recv n b = Some b' -> broker_inv b'.
Proof.
  intros Hinv Hs. unfold Subscriber_recv in Hs.
  destruct (b_chans b !! n) as [x|] eqn:Hn; [|done]. destruct (s_buf x) as [|msg rest] eqn:Hb; [done|].
  injection Hs as <-. assert (Hok := bi_chans _ Hinv _ _ Hn).
  assert (Hd : delivered (MkSubscriber (s_phase x) rest (s_got x ++ [msg]) (s_from x) (s_dropped x)) = delivered x).
  { unfold delivered; simpl. by rewrite Hb, <- app_assoc. }
  eapply (broker_inv_chan b _ n x); simpl; try done;
    [apply (bi_sub _ Hinv)|apply (bi_unsub _ Hinv)|].
  destruct Hok as [C1 C2 C3 C4 C5 C6 C7 C8]. rewrite Hb in C1. simpl in C1.
  constructor; rewrite ?Hd; simpl; try done. lia.
Qed.

(** A channel of capacity one holds nothing behind its head. *)
Lemma cap_one {A} (a : A) l : length (a :: l) <= ch_cap -> l = [].
Proof. unfold ch_cap. destruct l; [done|]. simpl. lia. Qed.

Lemma inv_Start_sub b b' : broker_inv b -> Start_sub b = Some b' -> broker_inv b'.
Proof.
  intros [I1 I2 I3 I4 I5] Hs. unfold Start_sub in Hs. destruct (b_running b); [|done].
  destruct (b_subCh b) as [|n rest] eqn:Hc; [done|]. injection Hs as <-.
  assert (rest = []) as -> by (by eapply cap_one). constructor; simpl; try done; try (unfold ch_cap; lia).
  - intros m y. destruct (decide (m = n)) as [->|Hne].
    + rewrite lookup_alter_eq. destruct (b_chans b !! n) as [x|] eqn:Hx; [|done].
      intros [= <-]. destruct (I4 _ _ Hx) as [C1 C2 C3 C4 C5 C6 C7 C8]. rewrite Hc in *.
      destruct C5 as (F1 & F2 & F3); [right; by left|].
      assert (Hd : delivered (enter (length (b_log b)) x) = []) by exact F2.
      constructor; rewrite ?Hd; simpl; try done; try lia; [apply sublist_nil_l| |set_solver|set_solver].
      intros [Hj|Hin]; [|by apply not_elem_of_nil in Hin]. by destruct (C6 Hj); left.
    + rewrite lookup_alter_ne by done. intros Hy.
      apply (sub_ok_frame b); [by apply I4|done| | |done]; simpl; rewrite ?Hc; set_solver.
  - intros m Hm. assert (Hk : is_Some (b_chans b !! m)) by (apply I5; set_solver).
    destruct (decide (m = n)) as [->|]; [rewrite lookup_alter_eq|by rewrite lookup_alter_ne].
    destruct Hk as [x ->]. by eexists.
Qed.

Lemma inv_Start_unsub b b' : broker_inv b -> Start_unsub b = Some b' -> broker_inv b'.
Proof.
  intros [I1 I2 I3 I4 I5] Hs. unfold Start_unsub in Hs. destruct (b_running b); [|done].
  destruct (b_unsubCh b) as [|n rest] eqn:Hc; [done|]. injection Hs as <-.
  assert (rest = []) as -> by (by eapply cap_one). constructor; simpl; try done; try (unfold ch_cap; lia).
  - intros m y Hy. destruct (I4 _ _ Hy) as [C1 C2 C3 C4 C5 C6 C7 C8]. rewrite Hc in *.
    constructor; simpl; try done; [set_solver|set_solver|by intros ?%not_elem_of_nil|].
    intros Hp. destruct (C8 Hp) as [?|?]; [by left|right].
    apply elem_of_difference. split; [done|]. intros ->%elem_of_singleton.
    rewrite C7 in Hp by (by left). naive_solver.
  - intros m Hm. apply I5. set_solver.
Qed.

Lemma fan_out_lookup msg subs (chans : gmap nat (subscriber E)) n :
  fan_out msg subs chans !! n = (fun x => if decide (n ∈ subs) then try_send msg x else x) <$> chans !! n.
Proof. unfold fan_out. rewrite map_lookup_imap. by destruct (chans !! n). Qed.

(** A fan-out appends the event to the channel or counts it. *)
Lemma try_send_effect msg x :
  s_phase (try_send msg x) = s_phase x /\ s_from (try_send msg x) = s_from x /\
  ((delivered (try_send msg x) = delivered x ++ [msg] /\ s_dropped (try_send msg x) = s_dropped x
    /\ length (s_buf x) < msg_cap /\ length (s_buf (try_send msg x)) = S (length (s_buf x)))
   \/ (delivered (try_send msg x) = delivered x /\ s_dropped (try_send msg x) = S (s_dropped x)
       /\ msg_cap <= length (s_buf x) /\ s_buf (try_send msg x) = s_buf x)).
Proof.
  unfold try_send. destruct (Nat.ltb_spec (length (s_buf x)) msg_cap) as [Hlt|Hge]; split_and!; try done.
  - left. unfold delivered; simpl. rewrite app_assoc, length_app. simpl. split_and!; (done || lia).
  - right. done.
Qed.

Lemma sublist_drop_snoc (d l : list E) k msg :
  k <= length l -> d `sublist_of` drop k l ->
  (d ++ [msg]) `sublist_of` drop k (l ++ [msg]) /\ d `sublist_of` drop k (l ++ [msg]).
Proof.
  intros Hk Hd. rewrite drop_app_le by done. split; [by apply sublist_app|].
  etrans; [done|]. by apply sublist_inserts_r.
Qed.

Lemma inv_Start_publish b b' : broker_inv b -> Start_publish b = Some b' -> broker_inv b'.
Proof.
  intros [I1 I2 I3 I4 I5] Hs. unfold Start_publish in Hs. destruct (b_running b); [|done].
  destruct (b_publishCh b) as [|msg rest] eqn:Hc; [done|]. injection Hs as <-.
  assert (rest = []) as -> by (by eapply cap_one). constructor; simpl; try done; try (unfold ch_cap; lia).
  - intros n y. rewrite fan_out_lookup. destruct (b_chans b !! n) as [x|] eqn:Hx; [|done].
    simpl. intros [= <-]. destruct (I4 _ _ Hx) as [C1 C2 C3 C4 C5 C6 C7 C8].
    destruct (sublist_drop_snoc _ _ _ msg C2 C3) as [S1 S2].
    destruct (decide (n ∈ b_subs b)) as [Hin|Hin].
    + destruct (try_send_effect msg x) as (Hph & Hfr & [(Hd & Hdr & Hlt & Hb)|(Hd & Hdr & Hge & Hb)]);
        constructor; simpl; rewrite ?Hph, ?Hfr, ?Hd, ?Hdr, ?Hb, ?length_app; simpl; try done; try lia;
        try (intros Hf; by destruct (C5 Hf)); specialize (C4 Hin); lia.
    + constructor; simpl; try done; [rewrite length_app; simpl; lia].
  - intros n Hn. rewrite fan_out_lookup. destruct (I5 n Hn) as [x ->]. by eexists.
Qed.

(** Steps of the publishers, of cancel and of the end of the loop. *)
Lemma broker_inv_idle b b' :
  broker_inv b -> length (b_publishCh b') <= ch_cap -> b_subCh b' = b_subCh b ->
  b_unsubCh b' = b_unsubCh b -> b_subs b' = b_subs b -> b_chans b' = b_chans b -> b_log b' = b_log b ->
  broker_inv b'.
Proof.
  intros [I1 I2 I3 I4 I5] Hp Hs Hu Hss Hch Hl. constructor; rewrite ?Hs, ?Hu, ?Hss, ?Hch; try done.
  intros n x Hx. apply (sub_ok_frame b); rewrite ?Hs, ?Hu, ?Hss; auto.
Qed.

Lemma broker_inv_step b b' : broker_inv b -> broker_step b b' -> broker_inv b'.
Proof.
  intros Hinv Hs. destruct Hs as [Hl| -> |msg ->|i Hi|n Hn|n Hn|n Hn|n Hn|n Hn].
  - destruct Hl as [Hd|Hl|Hl|Hl]; [|by eapply inv_Start_sub|by eapply inv_Start_unsub|by eapply inv_Start_publish].
    unfold Start_done in Hd. destruct (_ && _); [|done]. injection Hd as <-.
    apply (broker_inv_idle b); try done. apply (bi_publish _ Hinv).
  - apply (broker_inv_idle b); try done. apply (bi_publish _ Hinv).
  - apply (broker_inv_idle b); try done. apply (bi_publish _ Hinv).
  - unfold Publish_send in Hi. destruct (b_publishers b !! i); [|done].
    destruct (length (b_publishCh b) <? ch_cap) eqn:Hc; [|done]. injection Hi as <-.
    apply (broker_inv_idle b); try done. by apply length_snoc_cap.
  - by eapply inv_Subscribe.
  - by eapply inv_Subscribe_send.
  - by eapply inv_Subscribe_done.
  - by eapply inv_Subscribe_unsub.
  - by eapply inv_Subscriber_recv.
Qed.

Definition broker_reachable b : Prop := rtc broker_step broker_new b.

Lemma broker_inv_rtc b b' : broker_inv b -> rtc broker_step b b' -> broker_inv b'.
Proof. intros Hinv Hs. induction Hs; eauto using broker_inv_step. Qed.

Lemma broker_inv_reachable b : broker_reachable b -> broker_inv b.
Proof. apply broker_inv_rtc, broker_new_inv. Qed.
End broker_inv.

#[export] Hint Resolve broker_inv_step broker_inv_rtc broker_inv_reachable : ducks.

Section broker_theorems.
Context {E : Type}.
Implicit Types (b : broker E) (x : subscriber E) (n : nat).

(** C12: events reach subscribers in the order they were published and at most
    once: what a subscriber's channel ever held is a subsequence of the events
    published since it was entered.  A channel never holds more than five
    events, and while it is subscribed every event was delivered or counted as
    dropped, so a subscriber that dropped none has all of them. *)
Theorem broker_delivery_in_order b n x :
  broker_reachable b -> b_chans b !! n = Some x ->
  length (s_buf x) <= 5
  /\ delivered x `sublist_of` drop (s_from x) (b_log b)
  /\ (n ∈ b_subs b -> length (delivered x) + s_dropped x = length (b_log b) - s_from x)
  /\ (n ∈ b_subs b -> s_dropped x = 0 -> delivered x = drop (s_from x) (b_log b)).
Proof.
  intros Hr Hx. destruct (bi_chans _ (broker_inv_reachable _ Hr) _ _ Hx) as [C1 C2 C3 C4 _ _ _ _].
  split_and!; [done|done|done|]. intros Hin H0. apply sublist_same_length; [done|].
  rewrite length_drop. specialize (C4 Hin). lia.
Qed.

(** One round of the fan-out: the oldest published event is appended to the
    channel of every subscriber with room and, for the others, dropped; nobody
    else's channel changes and no subscriber can block the loop. *)
Theorem broker_fan_out b msg rest :
  b_running b = true -> b_publishCh b = msg :: rest ->
  exists b', Start_publish b = Some b' /\ b_publishCh b' = rest /\ b_log b' = b_log b ++ [msg]
  /\ b_subs b' = b_subs b /\
  forall n, match b_chans b !! n, b_chans b' !! n with
            | Some x, Some x' =>
                delivered x' = (if decide (n ∈ b_subs b) then
                                  if decide (length (s_buf x) < 5) then delivered x ++ [msg] else delivered x
                                else delivered x)
                /\ s_phase x' = s_phase x /\ s_got x' = s_got x
            | None, None => True
            | _, _ => False
            end.
Proof.
  intros Hr Hp. unfold Start_publish. rewrite Hr, Hp. eexists. split; [done|].
  split_and!; [done..|]. intros n. simpl. rewrite fan_out_lookup.
  destruct (b_chans b !! n) as [x|]; simpl; [|done]. destruct (decide (n ∈ b_subs b)); [|done].
  unfold try_send, msg_cap, delivered.
  destruct (decide (length (s_buf x) < 5)) as [Hlt|Hge].
  - rewrite (proj2 (Nat.ltb_lt _ _) Hlt). simpl. by rewrite app_assoc.
  - rewrite (proj2 (Nat.ltb_ge _ _)) by lia. done.
Qed.

(** C14: publishing never waits for subscribers: while Start runs, a caller
    blocked in Publish gets its event out by steps of the loop and its own send
    alone, after the events already in the channel. *)
Theorem broker_publish_progress b i msg :
  broker_reachable b -> b_running b = true -> b_publishers b !! i = Some msg ->
  exists b', rtc (fun s s' => Start_publish s = Some s' \/ Publish_send i s = Some s') b b'
    /\ b_log b' = b_log b ++ b_publishCh b ++ [msg]
    /\ b_publishers b' = delete i (b_publishers b).
Proof.
  intros Hre Hr Hi. assert (Hcap := bi_publish _ (broker_inv_reachable _ Hre)).
  destruct b as [pc sc uc run can subs chans pubs log]; simpl in *. subst run.
  destruct pc as [|m0 pc].
  - eexists. split; [|split].
    + eapply rtc_l; [right; unfold Publish_send; simpl; rewrite Hi; reflexivity|].
      eapply rtc_l; [left; reflexivity|apply rtc_refl].
    + reflexivity.
    + reflexivity.
  - apply cap_one in Hcap as ->. eexists. split; [|split].
    + eapply rtc_l; [left; reflexivity|].
      eapply rtc_l; [right; unfold Publish_send; simpl; rewrite Hi; reflexivity|].
      eapply rtc_l; [left; reflexivity|apply rtc_refl].
    + simpl. by rewrite <- app_assoc.
    + reflexivity.
Qed.

(** ** After a subscriber's goroutine has finished *)

Lemma left_step b b' n x :
  broker_inv b -> b_chans b !! n = Some x -> s_phase x = Left_ -> n ∉ b_subCh b -> broker_step b b' ->
  exists x', b_chans b' !! n = Some x' /\ s_phase x' = Left_ /\ (n ∉ b_subCh b')
    /\ (n ∈ b_unsubCh b' -> n ∈ b_unsubCh b) /\ (n ∈ b_subs b' -> n ∈ b_subs b)
    /\ (n ∈ b_subs b -> n ∈ b_subs b' \/ n ∈ b_unsubCh b)
    /\ (n ∉ b_subs b -> delivered x' = delivered x).
Proof.
  intros Hinv Hx Hp Hsub Hs.
  destruct Hs as [Hl| -> |msg ->|i Hi|m Hm|m Hm|m Hm|m Hm|m Hm]; [|eauto 10..| | | | | |].
  - destruct Hl as [Hl|Hl|Hl|Hl].
    + unfold Start_done in Hl. destruct (_ && _); [|done]. injection Hl as <-. eauto 10.
    + unfold Start_sub in Hl. destruct (b_running b); [|done].
      destruct (b_subCh b) as [|m rest] eqn:Hc; [done|]. injection Hl as <-. simpl.
      apply not_elem_of_cons in Hsub as [Hnm Hsub].
      exists x. rewrite lookup_alter_ne by done. split_and!; [done..| |set_solver|done]. set_solver.
    + unfold Start_unsub in Hl. destruct (b_running b); [|done].
      destruct (b_unsubCh b) as [|m rest] eqn:Hc; [done|]. injection Hl as <-. simpl.
      exists x. split_and!; [done..|by right|set_solver| |done].
      destruct (decide (n = m)); set_solver.
    + unfold Start_publish in Hl. destruct (b_running b); [|done].
      destruct (b_publishCh b) as [|msg rest]; [done|]. injection Hl as <-. simpl.
      rewrite fan_out_lookup, Hx. simpl. eexists. split; [done|].
      destruct (try_send_effect msg x) as (Hph & _). split_and!; try done; [by destruct (decide _); rewrite ?Hph|auto|].
      intros Hn. by rewrite decide_False.
  - unfold Publish_send in Hi. destruct (b_publishers b !! i); [|done].
    destruct (_ <? _); [|done]. injection Hi as <-. eauto 10.
  - unfold Subscribe in Hm. destruct (b_chans b !! m) eqn:Hxm; [done|]. injection Hm as <-. simpl.
    exists x. rewrite lookup_insert_ne by congruence. eauto 10.
  - unfold Subscribe_send in Hm. destruct (b_chans b !! m) as [y|] eqn:Hxm; [|done].
    destruct (s_phase y) eqn:Hy; try done. destruct (_ <? _); [|done]. injection Hm as <-. simpl.
    assert (m <> n) by congruence. exists x. rewrite lookup_insert_ne, elem_snoc_ne by done. eauto 10.
  - unfold Subscribe_done in Hm. destruct (b_chans b !! m) as [y|] eqn:Hxm; [|done].
    destruct (s_phase y) eqn:Hy; try done. injection Hm as <-. simpl.
    assert (m <> n) by congruence. exists x. rewrite lookup_insert_ne by done. eauto 10.
  - unfold Subscribe_unsub in Hm. destruct (b_chans b !! m) as [y|] eqn:Hxm; [|done].
    destruct (s_phase y) eqn:Hy; try done. destruct (_ <? _); [|done]. injection Hm as <-. simpl.
    assert (m <> n) by congruence. exists x. rewrite lookup_insert_ne, elem_snoc_ne by done. eauto 10.
  - unfold Subscriber_recv in Hm. destruct (b_chans b !! m) as [y|] eqn:Hxm; [|done].
    destruct (s_buf y) as [|msg rest] eqn:Hy; [done|]. injection Hm as <-. simpl.
    destruct (decide (m = n)) as [->|Hne]; [|exists x; rewrite lookup_insert_ne by done; eauto 10].
    rewrite Hx in Hxm. injection Hxm as ->. rewrite lookup_insert_eq. eexists. split; [done|].
    split_and!; try done; [auto|]. intros _. unfold delivered; simpl. by rewrite Hy, <- app_assoc.
Qed.


(** Once finished and out of the unsubscribe channel, nothing takes a subscriber
    out of [subs]. *)
Lemma left_in_subs_forever b b' n x :
  broker_inv b -> b_chans b !! n = Some x -> s_phase x = Left_ ->
  n ∈ b_subs b -> n ∉ b_subCh b -> n ∉ b_unsubCh b -> rtc broker_step b b' -> n ∈ b_subs b'.
Proof.
  intros Hinv Hx Hp Hs Hc Hu Hsteps. revert x Hinv Hx Hp Hs Hc Hu.
  induction Hsteps as [b|b b1 b2 Hstep _ IH]; intros x Hinv Hx Hp Hs Hc Hu; [done|].
  destruct (left_step b b1 n x Hinv Hx Hp Hc Hstep) as (x1 & Hx1 & Hp1 & Hc1 & Hu1 & _ & Hs1 & _).
  apply (IH x1); [by eauto with ducks|done|done|naive_solver|done|naive_solver].
Qed.

(** C40: after Start has returned a full publish channel stays full, so every
    caller of Publish, present or future, stays blocked: no step of any
    goroutine ever takes its event. *)
Theorem broker_publish_blocked_after_stop b b' :
  b_running b = false -> length (b_publishCh b) = 1 -> rtc broker_step b b' ->
  b_running b' = false /\ b_publishCh b' = b_publishCh b
  /\ b_publishers b `prefix_of` b_publishers b' /\ forall i, Publish_send i b' = None.
Proof.
  intros Hr Hp Hsteps. revert Hr Hp.
  induction Hsteps as [b|b b1 b2 Hstep _ IH]; intros Hr Hp.
  - split_and!; [done..|]. intros i. unfold Publish_send. rewrite Hp. by destruct (_ !! i).
  - assert (H1 : b_running b1 = false /\ b_publishCh b1 = b_publishCh b
                 /\ b_publishers b `prefix_of` b_publishers b1).
    { destruct Hstep as [Hl| -> |msg ->|i Hi|m Hm|m Hm|m Hm|m Hm|m Hm].
      - destruct Hl as [Hl|Hl|Hl|Hl];
          [unfold Start_done in Hl|unfold Start_sub in Hl|unfold Start_unsub in Hl|unfold Start_publish in Hl];
          by rewrite Hr in Hl.
      - done.
      - split_and!; [done..|]. by apply prefix_app_r.
      - unfold Publish_send in Hi. rewrite Hp in Hi. by destruct (_ !! i).
      - unfold Subscribe in Hm. go_cases; done.
      - unfold Subscribe_send in Hm. go_cases; done.
      - unfold Subscribe_done in Hm. go_cases; done.
      - unfold Subscribe_unsub in Hm. go_cases; done.
      - unfold Subscriber_recv in Hm. go_cases; done. }
    destruct H1 as (Hr1 & Hc1 & Hp1). destruct IH as (A1 & A2 & A3 & A4); [done|by rewrite Hc1|].
    split_and!; [done|congruence|by etrans|done].
Qed.
End broker_theorems.

(** ** Concrete runs *)

(** Subscriber 0 joins, its context ends at once, and the select of Start takes
    the unsubscribe request before the subscribe request. *)
Definition race_run : list (broker nat -> option (broker nat)) :=
  [Subscribe 0; Subscribe_send 0; Subscribe_done 0; Subscribe_unsub 0; Start_unsub; Start_sub].

Fixpoint run_steps (fs : list (broker nat -> option (broker nat))) (b : broker nat) : option (broker nat) :=
  match fs with
  | [] => Some b
  | f :: fs' => match f b with Some b' => run_steps fs' b' | None => None end
  end.

Lemma run_steps_rtc fs b b' :
  Forall (fun f => forall s s', f s = Some s' -> broker_step s s') fs ->
  run_steps fs b = Some b' -> rtc broker_step b b'.
Proof.
  intros Hfs. revert b. induction Hfs as [|f fs Hf _ IH]; simpl; intros b Hr; [by injection Hr as ->|].
  destruct (f b) as [b1|] eqn:Hb; [|done]. eapply rtc_l; [by apply Hf|by apply IH].
Qed.

Ltac broker_run := repeat (apply List.Forall_cons; [intros ? ? Hf; solve [eauto using broker_step, loop_step | injection Hf as <-; eauto using broker_step]|]);
  apply List.Forall_nil.

(** C39: a subscription whose context ends early can leak: in a reachable state
    the goroutine of the subscriber has finished, yet its channel is in [subs],
    and it stays there in every later state. *)
Theorem broker_unsubscribe_race :
  exists (b : broker nat) x, broker_reachable b /\ b_chans b !! 0 = Some x /\ s_phase x = Left_
    /\ forall b', rtc broker_step b b' -> 0 ∈ b_subs b'.
Proof.
  destruct (run_steps race_run broker_new) as [b|] eqn:Hb; [|done].
  assert (Hr : broker_reachable b) by (apply (run_steps_rtc race_run); [unfold race_run; broker_run|done]).
  vm_compute in Hb. injection Hb as <-. eexists _, _. split_and!; [exact Hr|reflexivity|reflexivity|].
  intros b' Hb'. eapply left_in_subs_forever; [by eauto with ducks|reflexivity|reflexivity| | | |done].
  - by apply (bool_decide_unpack _).
  - by apply not_elem_of_nil.
  - by apply not_elem_of_nil.
Qed.

(** A run with one subscriber and one event. *)
Definition deliver_run : list (broker nat -> option (broker nat)) :=
  [Subscribe 0; Subscribe_send 0; Start_sub; (fun b => Some (Publish 7 b)); Publish_send 0; Start_publish].

Definition run_of (fs : list (broker nat -> option (broker nat))) : broker nat :=
  default broker_new (run_steps fs broker_new).

Lemma deliver_run_reachable : broker_reachable (run_of deliver_run).
Proof. apply (run_steps_rtc deliver_run); [unfold deliver_run; broker_run|reflexivity]. Qed.

Lemma broker_delivery_in_order_witness :
  exists x, b_chans (run_of deliver_run) !! 0 = Some x /\ delivered x = drop (s_from x) [7].
Proof.
  eexists. split; [reflexivity|].
  apply (broker_delivery_in_order (run_of deliver_run) 0 _ deliver_run_reachable eq_refl);
    [by apply (bool_decide_unpack _)|reflexivity].
Defined.

Lemma broker_fan_out_witness :
  exists b', Start_publish (run_of (take 5 deliver_run)) = Some b' /\ b_log b' = [7].
Proof.
  destruct (broker_fan_out (run_of (take 5 deliver_run)) 7 [] eq_refl eq_refl) as (b' & Hb & _ & Hl & _).
  exists b'. split; [exact Hb|exact Hl].
Defined.

Lemma broker_publish_progress_witness :
  exists b', rtc (fun s s' => Start_publish s = Some s' \/ Publish_send 0 s = Some s')
               (run_of (take 4 deliver_run)) b' /\ b_log b' = [7].
Proof.
  destruct (broker_publish_progress (run_of (take 4 deliver_run)) 0 7) as (b' & Hb & Hl & _).
  - apply (run_steps_rtc (take 4 deliver_run)); [unfold deliver_run; broker_run|reflexivity].
  - reflexivity.
  - reflexivity.
  - exists b'. split; [exact Hb|exact Hl].
Defined.



Definition stop_run : list (broker nat -> option (broker nat)) :=
  [(fun b => Some (broker_cancel b)); Start_done; (fun b => Some (Publish 7 b)); Publish_send 0;
   (fun b => Some (Publish 8 b))].

Lemma broker_publish_blocked_after_stop_witness :
  b_publishers (run_of stop_run) = [8] /\ Publish_send 0 (run_of stop_run) = None.
Proof.
  split; [reflexivity|].
  apply (broker_publish_blocked_after_stop (run_of stop_run) (run_of stop_run)); [reflexivity|reflexivity|].
  apply rtc_refl.
Defined.
