(* ===== verification/BrokerProgress.v ===== *)
(** * client: the broker settles

    Left alone, that is without new calls of Publish or Subscribe and without
    contexts that end, the goroutines of a running broker come to rest: the
    number of their steps is bounded, and when none is left every channel is
    empty, no caller is blocked, and every event was fanned out. *)

From S2P Require Import Prelude Platform Broker.

Section progress.
Context {E : Type}.
Implicit Types (b : broker E) (x : subscriber E) (n : nat).

(** The steps of the goroutines that have work: the loop, the blocked callers of
    Publish and Subscribe, the goroutines that leave, and the readers of the
    subscribers' channels. *)
Inductive internal_step b b' : Prop :=
| int_loop : loop_step b b' -> internal_step b b'
| int_publish_send i : Publish_send i b = Some b' -> internal_step b b'
| int_subscribe_send n : Subscribe_send n b = Some b' -> internal_step b b'
| int_subscribe_unsub n : Subscribe_unsub n b = Some b' -> internal_step b b'
| int_recv n : Subscriber_recv n b = Some b' -> internal_step b b'.

Lemma internal_is_step b b' : internal_step b b' -> broker_step b b'.
Proof. destruct 1; eauto using broker_step. Qed.

(** ** A bound on the steps *)

(** What a subscriber still has to do: two steps to get in or out, and one for
    every event in its channel. *)
Definition sub_work x : nat :=
  length (s_buf x) + match s_phase x with Joining | Leaving => 2 | _ => 0 end.

Definition subs_work (chans : gmap nat (subscriber E)) : nat := map_fold (fun _ x w => sub_work x + w) 0 chans.

(** A published event is one step, and puts at most one event into every
    channel; a blocked caller is one step more. *)
Definition broker_work b : nat :=
  S (S (size (b_chans b))) * length (b_publishers b) + S (size (b_chans b)) * length (b_publishCh b)
  + length (b_subCh b) + length (b_unsubCh b) + (if b_running b then 1 else 0) + subs_work (b_chans b).

Lemma subs_work_insert n x (m : gmap nat (subscriber E)) :
  m !! n = None -> subs_work (<[ n := x ]> m) = sub_work x + subs_work m.
Proof. intros Hn. unfold subs_work. rewrite map_fold_insert_L; [done|intros; lia|done]. Qed.

(** Replacing a subscriber. *)
Lemma subs_work_update n x x' (m : gmap nat (subscriber E)) :
  m !! n = Some x ->
  subs_work (<[ n := x' ]> m) + sub_work x = subs_work m + sub_work x' /\ size (<[ n := x' ]> m) = size m.
Proof.
  intros Hn. assert (Hd : delete n m !! n = None) by apply lookup_delete_eq.
  pose proof (subs_work_insert n x' (delete n m) Hd) as H1. pose proof (subs_work_insert n x (delete n m) Hd) as H2.
  rewrite insert_delete_eq in H1. rewrite insert_delete_id in H2 by done. split; [lia|].
  by rewrite map_size_insert_Some.
Qed.

Lemma subs_work_alter_enter k n (m : gmap nat (subscriber E)) :
  subs_work (alter (enter k) n m) = subs_work m /\ size (alter (enter k) n m) = size m.
Proof.
  destruct (m !! n) as [x|] eqn:Hn; [rewrite (alter_alt_Some _ _ _ _ Hn)|by rewrite alter_id by congruence].
  destruct (subs_work_update n x (enter k x) m Hn) as [H1 H2]. split; [|done].
  assert (sub_work (enter k x) = sub_work x) by done. lia.
Qed.

Lemma sub_work_try_send msg x : sub_work (try_send msg x) <= S (sub_work x).
Proof. unfold try_send, sub_work. destruct (_ <? _); simpl; rewrite ?length_app; simpl; lia. Qed.

Lemma fan_out_insert msg subs n x (m : gmap nat (subscriber E)) :
  fan_out msg subs (<[ n := x ]> m)
  = <[ n := if decide (n ∈ subs) then try_send msg x else x ]> (fan_out msg subs m).
Proof. unfold fan_out. by erewrite map_imap_insert_Some. Qed.

Lemma subs_work_fan_out msg subs (m : gmap nat (subscriber E)) :
  subs_work (fan_out msg subs m) <= size m + subs_work m /\ size (fan_out msg subs m) = size m.
Proof.
  induction m as [|n x m Hn IH] using map_ind; [by vm_compute; split; [lia|]|].
  assert (Hf : fan_out msg subs m !! n = None) by (by rewrite fan_out_lookup, Hn).
  rewrite fan_out_insert, !subs_work_insert, !map_size_insert_None by done.
  pose proof (sub_work_try_send msg x). destruct (decide (n ∈ subs)); lia.
Qed.

Lemma loop_work b b' : loop_step b b' -> broker_work b' < broker_work b.
Proof.
  destruct 1 as [Hl|Hl|Hl|Hl]; unfold broker_work.
  - unfold Start_done in Hl. destruct (b_running b); [|done]. destruct (b_cancelled b); [|done].
    injection Hl as <-. simpl. lia.
  - unfold Start_sub in Hl. destruct (b_running b); [|done]. destruct (b_subCh b) as [|n rest]; [done|].
    injection Hl as <-. cbn [b_chans b_publishers b_publishCh b_subCh b_unsubCh b_running length].
    destruct (subs_work_alter_enter (length (b_log b)) n (b_chans b)) as [-> ->]. lia.
  - unfold Start_unsub in Hl. destruct (b_running b); [|done]. destruct (b_unsubCh b) as [|n rest]; [done|].
    injection Hl as <-. cbn [b_chans b_publishers b_publishCh b_subCh b_unsubCh b_running length]. lia.
  - unfold Start_publish in Hl. destruct (b_running b); [|done]. destruct (b_publishCh b) as [|msg rest]; [done|].
    injection Hl as <-. cbn [b_chans b_publishers b_publishCh b_subCh b_unsubCh b_running length].
    destruct (subs_work_fan_out msg (b_subs b) (b_chans b)) as [Hw ->]. lia.
Qed.

Lemma internal_work b b' : internal_step b b' -> broker_work b' < broker_work b.
Proof.
  destruct 1 as [Hl|i Hi|n Hn|n Hn|n Hn]; [by apply loop_work|..]; unfold broker_work.
  - unfold Publish_send in Hi. destruct (b_publishers b !! i) as [msg|] eqn:Hp; [|done].
    destruct (_ <? _); [|done]. injection Hi as <-. simpl.
    pose proof (length_delete (b_publishers b) i ltac:(by eexists)) as Hd. apply lookup_lt_Some in Hp.
    rewrite length_app, Hd. simpl. nia.
  - unfold Subscribe_send in Hn. destruct (b_chans b !! n) as [x|] eqn:Hx; [|done].
    destruct (s_phase x) eqn:Hph; try done. destruct (_ <? _); [|done]. injection Hn as <-.
    cbn [b_chans b_publishers b_publishCh b_subCh b_unsubCh b_running]. rewrite length_app.
    destruct (subs_work_update n x (set_phase Watching x) (b_chans b) Hx) as [Hw ->].
    unfold sub_work in Hw. rewrite Hph in Hw. simpl in *. lia.
  - unfold Subscribe_unsub in Hn. destruct (b_chans b !! n) as [x|] eqn:Hx; [|done].
    destruct (s_phase x) eqn:Hph; try done. destruct (_ <? _); [|done]. injection Hn as <-.
    cbn [b_chans b_publishers b_publishCh b_subCh b_unsubCh b_running]. rewrite length_app.
    destruct (subs_work_update n x (set_phase Left_ x) (b_chans b) Hx) as [Hw ->].
    unfold sub_work in Hw. rewrite Hph in Hw. simpl in *. lia.
  - unfold Subscriber_recv in Hn. destruct (b_chans b !! n) as [x|] eqn:Hx; [|done].
    destruct (s_buf x) as [|msg rest] eqn:Hb; [done|]. injection Hn as <-.
    cbn [b_chans b_publishers b_publishCh b_subCh b_unsubCh b_running].
    destruct (subs_work_update n x (MkSubscriber (s_phase x) rest (s_got x ++ [msg]) (s_from x) (s_dropped x)) (b_chans b) Hx) as [Hw ->].
    unfold sub_work in Hw. rewrite Hb in Hw. simpl in *. lia.
Qed.

Lemma nsteps_work k b b' : nsteps internal_step k b b' -> k + broker_work b' <= broker_work b.
Proof. induction 1 as [|k b b1 b2 Hs _ IH]; [lia|]. apply internal_work in Hs. lia. Qed.

(** By the capacities of the channels, a bound in the numbers of subscribers and
    of blocked callers of Publish. *)
Definition settle_bound b : nat :=
  (size (b_chans b) + 2) * length (b_publishers b) + 8 * size (b_chans b) + 4.

Lemma subs_work_bound (m : gmap nat (subscriber E)) :
  (forall n x, m !! n = Some x -> length (s_buf x) <= msg_cap) -> subs_work m <= 7 * size m.
Proof.
  induction m as [|n x m Hn IH] using map_ind; intros Hm; [by vm_compute; lia|].
  rewrite subs_work_insert, map_size_insert_None by done.
  assert (Hx : length (s_buf x) <= 5) by (apply (Hm n); apply lookup_insert_eq).
  assert (IH' : subs_work m <= 7 * size m).
  { apply IH. intros n' x' Hx'. apply (Hm n'). rewrite lookup_insert_ne; [done|]. congruence. }
  assert (sub_work x <= 7) by (unfold sub_work; destruct (s_phase x); lia). lia.
Qed.

Lemma broker_work_bound b : broker_inv b -> broker_work b <= settle_bound b.
Proof.
  intros [I1 I2 I3 I4 _]. unfold broker_work, settle_bound, ch_cap in *.
  pose proof (subs_work_bound (b_chans b) (fun n x Hx => so_cap _ _ _ (I4 n x Hx))).
  destruct (b_running b); nia.
Qed.

(** ** Where it comes to rest *)

Record settled b : Prop := {
  se_publishCh : b_publishCh b = [];
  se_subCh : b_subCh b = [];
  se_unsubCh : b_unsubCh b = [];
  se_publishers : b_publishers b = [];
  se_chans : forall n x, b_chans b !! n = Some x ->
    s_buf x = [] /\ (s_phase x = Watching /\ n ∈ b_subs b \/ s_phase x = Left_);
}.

Definition idle x : Prop := s_buf x = [] /\ (s_phase x = Watching \/ s_phase x = Left_).

#[local] Instance phase_eq : EqDecision phase.
Proof. solve_decision. Defined.
#[local] Instance idle_dec x : Decision (idle x).
Proof. unfold idle. destruct (s_buf x); [|right; naive_solver]. destruct (s_phase x); (left + right); naive_solver. Defined.

Lemma busy_steps b n x :
  b_chans b !! n = Some x -> ~ idle x -> b_subCh b = [] -> b_unsubCh b = [] -> exists b', internal_step b b'.
Proof.
  intros Hx Hi Hs Hu. destruct (s_buf x) as [|msg rest] eqn:Hb.
  - destruct (s_phase x) eqn:Hp; try (destruct Hi; unfold idle; naive_solver).
    + eexists. apply (int_subscribe_send _ _ n). unfold Subscribe_send. by rewrite Hx, Hp, Hs.
    + eexists. apply (int_subscribe_unsub _ _ n). unfold Subscribe_unsub. by rewrite Hx, Hp, Hu.
  - eexists. apply (int_recv _ _ n). unfold Subscriber_recv. by rewrite Hx, Hb.
Qed.

(** A running broker at rest is settled. *)
Lemma settled_or_steps b :
  broker_inv b -> b_running b = true -> settled b \/ exists b', internal_step b b'.
Proof.
  intros Hinv Hr. destruct (b_publishCh b) as [|msg rest] eqn:Hp.
  2: { right. eexists. apply int_loop, loop_publish. unfold Start_publish. by rewrite Hr, Hp. }
  destruct (b_subCh b) as [|n rest] eqn:Hs.
  2: { right. eexists. apply int_loop, loop_sub. unfold Start_sub. by rewrite Hr, Hs. }
  destruct (b_unsubCh b) as [|n rest] eqn:Hu.
  2: { right. eexists. apply int_loop, loop_unsub. unfold Start_unsub. by rewrite Hr, Hu. }
  destruct (b_publishers b) as [|msg rest] eqn:Hb.
  2: { right. eexists. apply (int_publish_send _ _ 0). unfold Publish_send. by rewrite Hb, Hp. }
  destruct (decide (map_Forall (fun _ x => idle x) (b_chans b))) as [Hi|Hi].
  - left. constructor; try done. intros n x Hx. destruct (Hi n x Hx) as [Hbuf Hph]. split; [done|].
    destruct Hph as [Hph|]; [left|by right]. split; [done|].
    destruct (so_active _ _ _ (bi_chans _ Hinv n x Hx) (or_introl Hph)) as [Hin|]; [|done].
    rewrite Hs in Hin. by apply not_elem_of_nil in Hin.
  - right. apply map_not_Forall in Hi as (n & x & Hx & Hi); [|by apply _]. by eapply busy_steps.
Qed.

(** A broker that is not cancelled keeps running, and loses no event. *)
Lemma internal_keeps b b' :
  internal_step b b' -> b_cancelled b = false ->
  b_cancelled b' = false /\ b_running b' = b_running b
  /\ b_log b' ++ b_publishCh b' ++ b_publishers b' ≡ₚ b_log b ++ b_publishCh b ++ b_publishers b.
Proof.
  intros Hs Hc. destruct Hs as [[Hl|Hl|Hl|Hl]|i Hi|n Hn|n Hn|n Hn].
  - unfold Start_done in Hl. rewrite Hc, andb_false_r in Hl. done.
  - unfold Start_sub in Hl. go_cases; done.
  - unfold Start_unsub in Hl. go_cases; done.
  - unfold Start_publish in Hl. destruct (b_running b) eqn:Hr; [|done].
    destruct (b_publishCh b) as [|msg rest]; [done|]. injection Hl as <-. simpl. by rewrite <- app_assoc.
  - unfold Publish_send in Hi. destruct (b_publishers b !! i) as [msg|] eqn:Hp; [|done].
    destruct (_ <? _); [|done]. injection Hi as <-. simpl. split_and!; [done|done|].
    rewrite <- app_assoc. by rewrite <- (delete_Permutation _ _ _ Hp).
  - unfold Subscribe_send in Hn. go_cases; done.
  - unfold Subscribe_unsub in Hn. go_cases; done.
  - unfold Subscriber_recv in Hn. go_cases; done.
Qed.

Lemma internal_rtc_keeps b b' :
  rtc internal_step b b' -> broker_inv b -> b_cancelled b = false ->
  broker_inv b' /\ b_cancelled b' = false /\ b_running b' = b_running b
  /\ b_log b' ++ b_publishCh b' ++ b_publishers b' ≡ₚ b_log b ++ b_publishCh b ++ b_publishers b.
Proof.
  induction 1 as [|b b1 b2 Hs _ IH]; intros Hinv Hc; [done|].
  destruct (internal_keeps b b1 Hs Hc) as (Hc1 & Hr1 & Hl1).
  destruct IH as (I & C & R & L); [by eapply broker_inv_step, internal_is_step|done|].
  split_and!; [done|done|congruence|by rewrite L].
Qed.

Lemma reaches_settled b :
  broker_inv b -> b_running b = true -> b_cancelled b = false -> exists b', rtc internal_step b b' /\ settled b'.
Proof.
  remember (broker_work b) as w eqn:Hw. revert b Hw. induction (lt_wf w) as [w _ IH]. intros b -> Hinv Hr Hc.
  destruct (settled_or_steps b Hinv Hr) as [|[b1 Hs]]; [exists b; by split; [apply rtc_refl|]|].
  destruct (internal_keeps b b1 Hs Hc) as (Hc1 & Hr1 & _).
  destruct (IH (broker_work b1) (internal_work _ _ Hs) b1 eq_refl) as (b' & Hrtc & Hse);
    [by eapply broker_inv_step, internal_is_step|congruence|done|].
  exists b'. split; [by eapply rtc_l|done].
Qed.

(** C13: a running broker that is left alone settles: its goroutines take at most
    (n + 2) p + 8 n + 4 steps, with n subscribers and p blocked callers of
    Publish, whatever their order, and when they can take no more
    the broker is settled: all channels are empty and no caller is blocked.  Then every event that was published has
    been fanned out, and every subscriber has read or lost each event since it
    was entered. *)
Theorem broker_settles b :
  broker_reachable b -> b_running b = true -> b_cancelled b = false ->
  (forall k b', nsteps internal_step k b b' -> k <= (size (b_chans b) + 2) * length (b_publishers b) + 8 * size (b_chans b) + 4)
  /\ (exists b', rtc internal_step b b' /\ settled b')
  /\ (forall b', rtc internal_step b b' ->
        (settled b' \/ exists b'', internal_step b' b'')
        /\ (settled b' ->
             b_log b' ≡ₚ b_log b ++ b_publishCh b ++ b_publishers b
             /\ forall n x, b_chans b' !! n = Some x -> n ∈ b_subs b' ->
                  length (s_got x) + s_dropped x = length (b_log b') - s_from x)).
Proof.
  intros Hre Hr Hc. assert (Hinv := broker_inv_reachable _ Hre). split_and!.
  - intros k b' Hk%nsteps_work. pose proof (broker_work_bound b Hinv) as Hb. unfold settle_bound in Hb. lia.
  - by apply reaches_settled.
  - intros b' Hs. destruct (internal_rtc_keeps b b' Hs Hinv Hc) as (Hinv' & _ & Hr' & Hl). split.
    + apply settled_or_steps; [done|congruence].
    + intros [S1 S2 S3 S4 S5]. rewrite S1, S4, !app_nil_r in Hl. split; [done|]. intros n x Hx Hn.
      pose proof (so_count _ _ _ (bi_chans _ Hinv' n x Hx) Hn) as Hcount.
      destruct (S5 n x Hx) as [Hb _]. unfold delivered in Hcount. by rewrite Hb, app_nil_r in Hcount.
Qed.
End progress.

(** A broker with a subscriber that joins and a blocked caller of Publish. *)
Definition settle_run : list (broker nat -> option (broker nat)) :=
  [Subscribe 0; (fun b => Some (Publish 7 b))].

Lemma broker_settles_witness :
  exists b' : broker nat, rtc internal_step (run_of settle_run) b' /\ b_log b' ≡ₚ [7].
Proof.
  destruct (broker_settles (run_of settle_run)) as (_ & (b' & Hr & Hs) & Hall).
  - apply (run_steps_rtc settle_run); [unfold settle_run; broker_run|reflexivity].
  - reflexivity.
  - reflexivity.
  - exists b'. split; [exact Hr|]. exact (proj1 (proj2 (Hall b' Hr) Hs)).
Defined.
