(* ===== verification/Informers.v ===== *)
(** * client: the informers of a broker

    The runnable NewBroker adds to the manager (broker.go): it watches the ducks
    of a duck type and keeps one event handler on the kind each ready duck
    marks, until it is stopped.  The handlers run under the mutex [m], so their
    effects are sequential. *)

From S2P Require Import Prelude Platform Reference ApiV1 Webhook Broker.

Section lib.
Context `{ErrorLib}.

(** Informers of the manager's cache and their handler registrations. *)
Class InformerLib := {
  IW : Type;
  Inf : Type;
  Reg : Type;
  Unstructured : Type;
  u_GetName : Unstructured -> string;
  FromUnstructured : Unstructured -> result err Duck;
  GetInformer : IW -> GroupVersionKind -> IW * result err Inf;
  AddEventHandler : IW -> Inf -> IW * result err Reg;
  RemoveEventHandler : IW -> Inf -> Reg -> IW * option err;
  (** the handlers events are sent to *)
  active : IW -> Inf -> Reg -> Prop;
}.

(** Conversion keeps the name; a registration is new, and stands for one handler
    until it is removed; a failed call changes no handler. *)
Class InformerLaws `{InformerLib} : Prop := {
  FromUnstructured_name : forall u d, FromUnstructured u = Ok d -> d_Name d = u_GetName u;
  GetInformer_active : forall w g i x, active (GetInformer w g).1 i x <-> active w i x;
  AddEventHandler_active : forall w i,
    match AddEventHandler w i with
    | (w', Ok x) => (forall j, ~ active w j x)
                    /\ forall j y, active w' j y <-> active w j y \/ (j = i /\ y = x)
    | (w', Err _) => forall j y, active w' j y <-> active w j y
    end;
  RemoveEventHandler_active : forall w i x,
    match RemoveEventHandler w i x with
    | (w', None) => forall j y, active w' j y <-> active w j y /\ ~ (j = i /\ y = x)
    | (w', Some _) => forall j y, active w' j y <-> active w j y
    end;
}.
End lib.

Section informers.
Context `{GoUnicode} `{Schema} `{ErrorLib} `{ConditionLib} `{!InformerLib}.

(** The variables the closures share. *)
Record runnable := MkRunnable {
  r_world : IW;
  r_duckInformers : gmap string Inf;
  r_duckRegistrations : gmap string Reg;
}.

Definition r_set_world (w : IW) (s : runnable) : runnable :=
  MkRunnable w (r_duckInformers s) (r_duckRegistrations s).

Definition informOn (r : Duck) (s : runnable) : runnable :=
  match r_duckInformers s !! d_Name r with
  | Some _ => s
  | None =>
      if negb (Duck_is r DuckConditionReady) then s
      else match GetInformer (r_world s) (DuckSpec_GroupVersionKind (d_Spec r)) with
           | (w, Err _) => r_set_world w s
           | (w, Ok duckInformer) =>
               match AddEventHandler w duckInformer with
               | (w, Err _) => r_set_world w s
               | (w, Ok duckRegistration) =>
                   MkRunnable w (<[ d_Name r := duckInformer ]> (r_duckInformers s))
                     (<[ d_Name r := duckRegistration ]> (r_duckRegistrations s))
               end
           end
  end.

(** What an informer hands to a handler: an object, or the tombstone
    (cache.DeletedFinalStateUnknown) of one whose deletion was missed. *)
Inductive delivery := Obj (u : Unstructured) | Tombstone.

Inductive event := EvAdd (obj : delivery) | EvUpdate (oldObj newObj : delivery) | EvDelete (obj : delivery).

Definition AddFunc (obj : delivery) (s : runnable) : outcome runnable :=
  match obj with
  | Tombstone => Panic "interface conversion"
  | Obj u => match FromUnstructured u with
             | Err _ => Panic "FromUnstructured"
             | Ok r => Ret (informOn r s)
             end
  end.

Definition UpdateFunc (oldObj newObj : delivery) (s : runnable) : outcome runnable :=
  match newObj with
  | Tombstone => Panic "interface conversion"
  | Obj u => match FromUnstructured u with
             | Err _ => Panic "FromUnstructured"
             | Ok r => Ret (informOn r s)
             end
  end.

Definition DeleteFunc (obj : delivery) (s : runnable) : outcome runnable :=
  match obj with
  | Tombstone => Panic "interface conversion"
  | Obj u =>
      let name := u_GetName u in
      match r_duckRegistrations s !! name with
      | None => Ret s
      | Some registration =>
          match r_duckInformers s !! name with
          | None => Panic "nil pointer dereference"
          | Some informer =>
              match RemoveEventHandler (r_world s) informer registration with
              | (w, Some _) => Ret (r_set_world w s)
              | (w, None) => Ret (MkRunnable w (delete name (r_duckInformers s))
                                    (delete name (r_duckRegistrations s)))
              end
          end
      end
  end.

Definition handle (ev : event) (s : runnable) : outcome runnable :=
  match ev with
  | EvAdd obj => AddFunc obj s
  | EvUpdate oldObj newObj => UpdateFunc oldObj newObj s
  | EvDelete obj => DeleteFunc obj s
  end.

Fixpoint handle_all (evs : list event) (s : runnable) : outcome runnable :=
  match evs with
  | [] => Ret s
  | ev :: evs' => outcome_bind (handle ev s) (handle_all evs')
  end.

(** The runnable up to [<-ctx.Done()]: the duck type's own informer and its
    handler, or the error it returns. *)
Definition runnable_start (duck : GroupKind) (w : IW) : IW * result err (runnable * Inf * Reg) :=
  match GetInformer w (gk_WithVersion duck "v1") with
  | (w, Err e) => (w, Err e)
  | (w, Ok duckTypeInformer) =>
      match AddEventHandler w duckTypeInformer with
      | (w, Err e) => (w, Err e)
      | (w, Ok duckTypeRegistration) =>
          (w, Ok (MkRunnable w ∅ ∅, duckTypeInformer, duckTypeRegistration))
      end
  end.

(** [for name, registration := range duckRegistrations]; the order is the
    list's. *)
Fixpoint stop_loop (informers : gmap string Inf) (regs : list (string * Reg)) (w : IW)
    : outcome (IW * option err) :=
  match regs with
  | [] => Ret (w, None)
  | (name, registration) :: regs' =>
      match informers !! name with
      | None => Panic "nil pointer dereference"
      | Some informer =>
          match RemoveEventHandler w informer registration with
          | (w, Some e) => Ret (w, Some e)
          | (w, None) => stop_loop informers regs' w
          end
      end
  end.

(** The runnable from [<-ctx.Done()] on, for one iteration order: it cancels
    the context of the broker's Start, then removes the handlers. *)
Definition runnable_stop {E : Type} (duckTypeInformer : Inf) (duckTypeRegistration : Reg)
    (order : list (string * Reg)) (s : runnable) (b : broker E) : broker E * outcome (IW * option err) :=
  let b := broker_cancel b in
  match RemoveEventHandler (r_world s) duckTypeInformer duckTypeRegistration with
  | (w, Some e) => (b, Ret (w, Some e))
  | (w, None) => (b, stop_loop (r_duckInformers s) order w)
  end.
End informers.

Arguments runnable {_ _}.

(** ** Invariant *)

Section informers_lemmas.
Context `{GoUnicode} `{Schema} `{ErrorLib} `{ConditionLib} `{!InformerLib} `{!InformerLaws}.
Implicit Types (s : runnable) (base : Inf -> Reg -> Prop).

(** [base] are the handlers of others.  The active handlers are those and one
    per entry of the two maps, which have the same keys. *)
Record runnable_inv base s : Prop := {
  ri_dom : forall n, is_Some (r_duckInformers s !! n) <-> is_Some (r_duckRegistrations s !! n);
  ri_active : forall i x, active (r_world s) i x <->
    base i x \/ exists n, r_duckInformers s !! n = Some i /\ r_duckRegistrations s !! n = Some x;
  ri_inj : forall n m x, r_duckRegistrations s !! n = Some x -> r_duckRegistrations s !! m = Some x -> n = m;
  ri_own : forall n x i, r_duckRegistrations s !! n = Some x -> ~ base i x;
}.

Lemma runnable_inv_world base s w :
  (forall i x, active w i x <-> active (r_world s) i x) -> runnable_inv base s ->
  runnable_inv base (r_set_world w s).
Proof. intros Hw [I1 I2 I3 I4]. constructor; simpl; try done. intros i x. by rewrite Hw. Qed.

Lemma informOn_inv base r s : runnable_inv base s -> runnable_inv base (informOn r s).
Proof.
  intros Hinv. unfold informOn. destruct (r_duckInformers s !! d_Name r) eqn:Hn; [done|].
  destruct (negb _); [done|].
  pose proof (GetInformer_active (r_world s) (DuckSpec_GroupVersionKind (d_Spec r))) as Hg.
  destruct (GetInformer _ _) as [w [inf|e]]; simpl in Hg; [|by apply runnable_inv_world].
  pose proof (AddEventHandler_active w inf) as Ha.
  destruct (AddEventHandler w inf) as [w' [reg|e]];
    [|apply runnable_inv_world; [intros i x; by rewrite Ha|done]].
  destruct Ha as [Hfresh Ha], Hinv as [I1 I2 I3 I4].
  assert (Hreg : r_duckRegistrations s !! d_Name r = None).
  { apply eq_None_not_Some. rewrite <- I1, Hn. by intros [? ?]. }
  assert (Hnew : forall n, r_duckRegistrations s !! n = Some reg -> False).
  { intros n Hx. destruct (proj2 (I1 n)) as [i Hi]; [by eexists|].
    apply (Hfresh i). rewrite Hg, I2. eauto. }
  assert (Hbase : forall i, ~ base i reg) by (intros i Hb; apply (Hfresh i); rewrite Hg, I2; by left).
  constructor; simpl.
  - intros n. rewrite !lookup_insert. destruct (decide _); [split; by eexists|apply I1].
  - intros i x. rewrite Ha, Hg, I2. setoid_rewrite lookup_insert_Some. naive_solver.
  - intros n m x [[<- <-]|[_ Hx]]%lookup_insert_Some [[<- Hy]|[_ Hy]]%lookup_insert_Some; try done; subst;
      [by destruct (Hnew m)|by destruct (Hnew n)|by eapply I3].
  - intros n x i [[<- <-]|[_ Hx]]%lookup_insert_Some; [apply Hbase|by eapply I4].
Qed.

Lemma DeleteFunc_inv base obj s s' :
  runnable_inv base s -> DeleteFunc obj s = Ret s' -> runnable_inv base s'.
Proof.
  intros Hinv Hd. unfold DeleteFunc in Hd. destruct obj as [u|]; [|done].
  destruct (r_duckRegistrations s !! u_GetName u) as [reg|] eqn:Hr; [|by injection Hd as <-].
  destruct (r_duckInformers s !! u_GetName u) as [inf|] eqn:Hi; [|done].
  pose proof (RemoveEventHandler_active (r_world s) inf reg) as Ha.
  destruct (RemoveEventHandler _ _ _) as [w [e|]]; injection Hd as <-;
    [by apply runnable_inv_world|].
  destruct Hinv as [I1 I2 I3 I4]. constructor; simpl.
  - intros n. rewrite !lookup_delete. destruct (decide _); [|apply I1].
    split; by intros [? ?].
  - intros i x. rewrite Ha, I2. setoid_rewrite lookup_delete_Some. split.
    + intros [[Hb|(n & Hn & Hx)] Hne]; [by left|right]. exists n.
      assert (u_GetName u <> n) by (intros <-; naive_solver congruence). done.
    + intros [Hb|(n & [Hne Hn] & [_ Hx])].
      * split; [by left|]. intros [-> ->]. by eapply I4.
      * split; [by right; exists n|]. intros [-> ->]. by apply Hne, (I3 _ _ _ Hr).
  - intros n m x [_ Hx]%lookup_delete_Some [_ Hy]%lookup_delete_Some. by eapply I3.
  - intros n x i [_ Hx]%lookup_delete_Some. by eapply I4.
Qed.

Lemma handle_inv base ev s s' : runnable_inv base s -> handle ev s = Ret s' -> runnable_inv base s'.
Proof.
  intros Hinv. destruct ev as [[u|]|o [u|]|obj]; simpl; try done; [..|by apply DeleteFunc_inv].
  all: destruct (FromUnstructured u); [|done]; intros [= <-]; by apply informOn_inv.
Qed.

Lemma handle_all_inv base evs s s' :
  runnable_inv base s -> handle_all evs s = Ret s' -> runnable_inv base s'.
Proof.
  revert s. induction evs as [|ev evs IH]; simpl; intros s Hinv Hh; [by injection Hh as <-|].
  destruct (handle ev s) as [s1|] eqn:Hs; [|done]. eapply IH; [|done]. by eapply handle_inv.
Qed.

Lemma runnable_start_inv duck w w1 s ti tx :
  runnable_start duck w = (w1, Ok (s, ti, tx)) ->
  runnable_inv (fun i x => active w i x \/ (i = ti /\ x = tx)) s /\ (forall i, ~ active w i tx).
Proof.
  unfold runnable_start. pose proof (GetInformer_active w (gk_WithVersion duck "v1")) as Hg.
  destruct (GetInformer _ _) as [w2 [inf|e]]; [|done]. simpl in Hg.
  pose proof (AddEventHandler_active w2 inf) as Ha.
  destruct (AddEventHandler w2 inf) as [w3 [reg|e]]; [|done]. intros [= _ <- <- <-].
  destruct Ha as [Hf Ha]. split; [|intros i; by rewrite <- Hg].
  constructor; simpl; try done; intros; rewrite ?lookup_empty.
  - done.
  - rewrite Ha, Hg. setoid_rewrite lookup_empty. naive_solver.
Qed.

Lemma stop_loop_effect base infs regs w :
  NoDup regs.*2 ->
  (forall n x, (n, x) ∈ regs -> is_Some (infs !! n) /\ forall i, ~ base i x) ->
  (forall i x, active w i x <-> base i x \/ exists n, (n, x) ∈ regs /\ infs !! n = Some i) ->
  exists w' e rest, stop_loop infs regs w = Ret (w', e) /\ (e = None <-> rest = [])
    /\ rest `suffix_of` regs
    /\ forall i x, active w' i x <-> base i x \/ exists n, (n, x) ∈ rest /\ infs !! n = Some i.
Proof.
  revert w. induction regs as [|[n x] regs IH]; intros w Hnd Hin Hact; simpl.
  { exists w, None, []. split_and!; done. }
  destruct (Hin n x) as [[inf Hinf] Hb]; [by left|]. rewrite Hinf.
  pose proof (RemoveEventHandler_active w inf x) as Hrm. apply NoDup_cons in Hnd as [Hx Hnd].
  destruct (RemoveEventHandler w inf x) as [w1 [e|]].
  { exists w1, (Some e), ((n, x) :: regs). split_and!; [done|done|done|].
    intros i y. by rewrite Hrm, Hact. }
  destruct (IH w1 Hnd) as (w' & e & rest & Hs & He & Hsuf & Hact').
  - intros m y Hm. apply Hin. by right.
  - intros i y. rewrite Hrm, Hact. setoid_rewrite elem_of_cons. split.
    + intros [[Hbase|(m & [[= -> ->]|Hm] & Hi)] Hne]; [by left| |by right; eauto]. naive_solver congruence.
    + intros Hy. split; [naive_solver|]. intros [-> ->].
      destruct Hy as [Hbase|(m & Hm & _)]; [by eapply Hb|]. apply Hx, list_elem_of_fmap. by exists (m, x).
  - exists w', e, rest. split_and!; [done|done|by apply suffix_cons_r|done].
Qed.

(** The registrations of the map, in some order. *)
Lemma regs_NoDup base s order :
  runnable_inv base s -> order ≡ₚ map_to_list (r_duckRegistrations s) -> NoDup order.*2.
Proof.
  intros Hinv Ho. rewrite Ho. apply NoDup_fmap_2_strong; [|apply NoDup_map_to_list].
  intros [n x] [m y] Hn%elem_of_map_to_list Hm%elem_of_map_to_list. simpl. intros ->.
  f_equal. by eapply (ri_inj _ _ Hinv).
Qed.

(** ** Events without failures *)

Definition no_failures : Prop :=
  (forall w g, exists w' i, GetInformer w g = (w', Ok i))
  /\ (forall w i, exists w' x, AddEventHandler w i = (w', Ok x))
  /\ (forall w i x, exists w', RemoveEventHandler w i x = (w', None)).

(** The ducks that were ready when an event showed them, and have not been
    deleted since. *)
Fixpoint spec_informed (evs : list event) (names : gset string) : gset string :=
  match evs with
  | [] => names
  | EvAdd (Obj u) :: evs' | EvUpdate _ (Obj u) :: evs' =>
      match FromUnstructured u with
      | Ok d => spec_informed evs' (if Duck_is d DuckConditionReady then {[ u_GetName u ]} ∪ names else names)
      | Err _ => spec_informed evs' names
      end
  | EvDelete (Obj u) :: evs' => spec_informed evs' (names ∖ {[ u_GetName u ]})
  | _ :: evs' => spec_informed evs' names
  end.

(** The events of an informer that has not missed a deletion. *)
Definition well_formed (ev : event) : Prop :=
  match ev with
  | EvAdd obj | EvUpdate _ obj => exists u d, obj = Obj u /\ FromUnstructured u = Ok d
  | EvDelete obj => exists u, obj = Obj u
  end.

Lemma informOn_dom r s :
  no_failures -> dom (r_duckInformers (informOn r s)) =
  (if Duck_is r DuckConditionReady then {[ d_Name r ]} ∪ dom (r_duckInformers s)
   else dom (r_duckInformers s)).
Proof.
  intros (Hg & Ha & _). unfold informOn. destruct (r_duckInformers s !! d_Name r) as [i|] eqn:Hn.
  { apply elem_of_dom_2 in Hn. destruct (Duck_is _ _); [set_solver|done]. }
  destruct (Duck_is r DuckConditionReady); [|done]. simpl.
  destruct (Hg (r_world s) (DuckSpec_GroupVersionKind (d_Spec r))) as (w1 & i & ->).
  destruct (Ha w1 i) as (w2 & x & ->). simpl. by rewrite dom_insert_L.
Qed.

Lemma DeleteFunc_dom base u s :
  no_failures -> runnable_inv base s ->
  exists s', DeleteFunc (Obj u) s = Ret s'
    /\ dom (r_duckInformers s') = dom (r_duckInformers s) ∖ {[ u_GetName u ]}.
Proof.
  intros (_ & _ & Hrm) Hinv. simpl.
  destruct (r_duckRegistrations s !! u_GetName u) as [x|] eqn:Hx.
  - destruct (proj2 (ri_dom _ _ Hinv (u_GetName u))) as [i Hi]; [by eexists|]. rewrite Hi.
    destruct (Hrm (r_world s) i x) as [w ->]. eexists. split; [done|]. simpl. by rewrite dom_delete_L.
  - exists s. split; [done|]. assert (Hn : r_duckInformers s !! u_GetName u = None).
    { apply eq_None_not_Some. rewrite (ri_dom _ _ Hinv), Hx. by intros [? ?]. }
    apply not_elem_of_dom in Hn. set_solver.
Qed.
End informers_lemmas.

(** ** Theorems *)

Section informers_theorems.
Context `{GoUnicode} `{Schema} `{ErrorLib} `{ConditionLib} `{!InformerLib} `{!InformerLaws}.

(** C16: from the start of the runnable on, whatever events arrive and whichever
    calls fail, the active handlers are exactly those there were before, the one
    on the duck type and one for every entry of the map of informers; the two
    maps have the same keys and no two ducks share a registration. *)
Theorem broker_one_handler_per_duck (duck : GroupKind) (w w1 : IW) (s s' : runnable) ti tx evs :
  runnable_start duck w = (w1, Ok (s, ti, tx)) -> handle_all evs s = Ret s' ->
  (forall n, is_Some (r_duckInformers s' !! n) <-> is_Some (r_duckRegistrations s' !! n))
  /\ (forall i x, active (r_world s') i x <->
        active w i x \/ (i = ti /\ x = tx)
        \/ exists n, r_duckInformers s' !! n = Some i /\ r_duckRegistrations s' !! n = Some x)
  /\ (forall n m x, r_duckRegistrations s' !! n = Some x -> r_duckRegistrations s' !! m = Some x -> n = m).
Proof.
  intros [Hinv _]%runnable_start_inv Hh. destruct (handle_all_inv _ _ _ _ Hinv Hh) as [I1 I2 I3 _].
  split_and!; [done| |done]. intros i x. rewrite I2. tauto.
Qed.

(** C18: stopping the runnable cancels the broker's loop and does not panic, in
    whatever order the map is iterated; if it returns no error, every handler it ever added is gone and
    all others are as before it started; if it returns an error, no handler of
    anyone else is gone and it has added none. *)
Theorem broker_stop_removes_handlers {E : Type} (duck : GroupKind) (w w1 : IW) (s s' : runnable) ti tx evs order
    (b : broker E) :
  runnable_start duck w = (w1, Ok (s, ti, tx)) -> handle_all evs s = Ret s' ->
  order ≡ₚ map_to_list (r_duckRegistrations s') ->
  exists b' w2 e, runnable_stop ti tx order s' b = (b', Ret (w2, e))
    /\ b_cancelled b' = true
    /\ (e = None -> forall i x, active w2 i x <-> active w i x)
    /\ (forall i x, active w i x -> active w2 i x)
    /\ (forall i x, active w2 i x -> active (r_world s') i x).
Proof.
  intros [Hinv Hfr]%runnable_start_inv Hh Ho. apply (handle_all_inv _ _ _ _ Hinv) in Hh as Hinv'.
  assert (Hcopy := Hinv'). destruct Hcopy as [I1 I2 I3 I4]. unfold runnable_stop.
  pose proof (RemoveEventHandler_active (r_world s') ti tx) as Hrm.
  destruct (RemoveEventHandler _ ti tx) as [w3 [e|]].
  { exists (broker_cancel b), w3, (Some e). split_and!; [done|done|done| |]; intros i x; rewrite Hrm; [rewrite I2; auto|done]. }
  assert (Hreg : forall n x, (n, x) ∈ order <-> r_duckRegistrations s' !! n = Some x).
  { intros n x. by rewrite Ho, elem_of_map_to_list. }
  destruct (stop_loop_effect (active w) (r_duckInformers s') order w3)
    as (w2 & e & rest & Hs & He & Hsuf & Hact).
  - by eapply regs_NoDup.
  - intros n x Hn%Hreg. split; [apply I1; by eexists|]. intros i Hb. by apply (I4 n x i); [|left].
  - intros i x. rewrite Hrm, I2. setoid_rewrite Hreg. split; [naive_solver|].
    intros Hor. split; [naive_solver|]. intros [-> ->].
    destruct Hor as [Ha|(n & Hn & _)]; [by eapply Hfr|]. by apply (I4 n tx ti); [|right].
  - exists (broker_cancel b), w2, e. split_and!; [by rewrite Hs|done| | |].
    + intros ->. assert (rest = []) as -> by (by apply He). intros i x. rewrite Hact.
      setoid_rewrite elem_of_nil. naive_solver.
    + intros i x Ha. apply Hact. by left.
    + intros i x [Ha|(n & Hn & Hi)]%Hact; apply I2; [auto|right]. exists n. split; [done|].
      apply Hreg. destruct Hsuf as [k ->]. apply elem_of_app. by right.
Qed.

(** C17: as long as no call fails and no deletion is missed, the handlers do not
    panic and there is an informer for exactly the ducks that were ready in
    some event and have not been deleted since; a duck that an event shows as
    no longer ready keeps its informer. *)
Theorem broker_informs_on_ready_ducks (duck : GroupKind) (w w1 : IW) (s : runnable) ti tx evs :
  no_failures -> Forall well_formed evs -> runnable_start duck w = (w1, Ok (s, ti, tx)) ->
  exists s', handle_all evs s = Ret s' /\ dom (r_duckInformers s') = spec_informed evs ∅.
Proof.
  intros Hnf Hwf Hst. destruct (runnable_start_inv _ _ _ _ _ _ Hst) as [Hinv _].
  assert (Hdom : dom (r_duckInformers s) = ∅).
  { revert Hst. unfold runnable_start. destruct (GetInformer _ _) as [? []]; [|done].
    destruct (AddEventHandler _ _) as [? []]; [|done]. intros [= _ <- _ _]. apply dom_empty_L. }
  rewrite <- Hdom. clear Hdom Hst. revert s Hinv.
  induction Hwf as [|ev evs Hev _ IH]; intros s Hinv; [by exists s|].
  destruct ev as [o|o' o|o]; simpl in Hev.
  - destruct Hev as (u & d & -> & Hu). simpl. rewrite Hu. simpl.
    destruct (IH (informOn d s)) as (s' & Hs' & Hd'); [by apply informOn_inv|]. exists s'. split; [done|].
    rewrite Hd', informOn_dom by done. by rewrite (FromUnstructured_name _ _ Hu).
  - destruct Hev as (u & d & -> & Hu). simpl. rewrite Hu. simpl.
    destruct (IH (informOn d s)) as (s' & Hs' & Hd'); [by apply informOn_inv|]. exists s'. split; [done|].
    rewrite Hd', informOn_dom by done. by rewrite (FromUnstructured_name _ _ Hu).
  - destruct Hev as [u ->]. destruct (DeleteFunc_dom _ u s Hnf Hinv) as (s1 & Hs1 & Hd1).
    destruct (IH s1) as (s' & Hs' & Hd'); [by eapply DeleteFunc_inv|]. exists s'.
    split; [|by rewrite Hd', Hd1]. change (outcome_bind (DeleteFunc (Obj u) s) (handle_all evs) = Ret s').
    by rewrite Hs1.
Qed.

(** A duck that already has an informer is not looked at again: an event that
    shows it with another version or kind, or no longer ready, leaves the
    informer on the kind it had. *)
Theorem broker_informer_not_refreshed (u : Unstructured) (d : Duck) (old : delivery) (s : runnable) i :
  FromUnstructured u = Ok d -> r_duckInformers s !! d_Name d = Some i ->
  UpdateFunc old (Obj u) s = Ret s.
Proof. intros Hu Hi. simpl. rewrite Hu. unfold informOn. by rewrite Hi. Qed.
End informers_theorems.

(** ** Witnesses: informers are kinds, registrations numbers *)

Section witness.
#[local] Existing Instances ref_unicode ref_schema ref_errors ref_conditions.

Definition fresh_reg (w : list (GroupVersionKind * nat)) : nat := S (list_max w.*2).

#[local] Instance ref_informers : InformerLib := {|
  IW := list (GroupVersionKind * nat); Inf := GroupVersionKind; Reg := nat; Unstructured := Duck;
  u_GetName := d_Name; FromUnstructured := Ok;
  GetInformer w g := (w, Ok g);
  AddEventHandler w i := ((i, fresh_reg w) :: w, Ok (fresh_reg w));
  RemoveEventHandler w i x := (filter (fun p => p <> (i, x)) w, None);
  active w i x := (i, x) ∈ w;
|}.

Lemma fresh_reg_fresh w (i : GroupVersionKind) : (i, fresh_reg w) ∉ w.
Proof.
  intros Hin. assert (Hle : Forall (fun k => k <= list_max w.*2) w.*2) by (by apply list_max_le).
  rewrite Forall_forall in Hle. specialize (Hle (fresh_reg w)). unfold fresh_reg in *.
  assert (S (list_max w.*2) ∈ w.*2) by (apply list_elem_of_fmap; by exists (i, S (list_max w.*2))).
  specialize (Hle H). lia.
Qed.

#[local] Instance ref_informers_laws : InformerLaws.
Proof.
  constructor.
  - intros u d [= ->]. done.
  - done.
  - intros w i. simpl. split; [intros j; apply fresh_reg_fresh|].
    intros j y. rewrite elem_of_cons. naive_solver.
  - intros w i x. simpl. intros j y. rewrite list_elem_of_filter. naive_solver.
Qed.

Definition no_handlers : IW := @nil (GroupVersionKind * nat).

Definition w_ready_duck : Duck :=
  d_set_Status (MkDuckStatus (MkStatus 0 [MkCondition ConditionReady ConditionTrue 0 0 "Ready" ""])) w_duck.

Definition u_duck : @Unstructured ref_errors ref_informers := w_duck.
Definition u_ready_duck : @Unstructured ref_errors ref_informers := w_ready_duck.

Definition w_events : list (@event ref_errors ref_informers) :=
  [EvAdd (Obj u_duck); EvUpdate (Obj u_duck) (Obj u_ready_duck)].

Definition w_start : runnable := MkRunnable [(MkGVK "example.com" "v1" "Widget", 1)] ∅ ∅.

Lemma w_start_eq :
  runnable_start (MkGK "example.com" "Widget") no_handlers =
    ([(MkGVK "example.com" "v1" "Widget", 1)], Ok (w_start, MkGVK "example.com" "v1" "Widget", 1)).
Proof. reflexivity. Qed.

Definition w_informed : runnable :=
  MkRunnable [(MkGVK "apps" "v1" "Deployment", 2); (MkGVK "example.com" "v1" "Widget", 1)]
    {[ "deployments.apps" := MkGVK "apps" "v1" "Deployment" ]} {[ "deployments.apps" := 2 ]}.

Lemma w_informed_eq : handle_all w_events w_start = Ret w_informed.
Proof. reflexivity. Qed.

Lemma broker_one_handler_per_duck_witness :
  active (r_world w_informed) (MkGVK "apps" "v1" "Deployment") 2.
Proof.
  apply (broker_one_handler_per_duck (MkGK "example.com" "Widget") no_handlers _ w_start w_informed _ _ w_events
           w_start_eq w_informed_eq).
  right. right. exists "deployments.apps". split; reflexivity.
Defined.

Lemma broker_stop_removes_handlers_witness :
  exists b' w2 e, runnable_stop (MkGVK "example.com" "v1" "Widget") 1 [("deployments.apps", 2)] w_informed
      (@broker_new nat) = (b', Ret (w2, e))
    /\ b_cancelled b' = true /\ (e = None -> forall i x, active w2 i x <-> active no_handlers i x).
Proof.
  destruct (broker_stop_removes_handlers (MkGK "example.com" "Widget") no_handlers _ w_start w_informed
              (MkGVK "example.com" "v1" "Widget") 1 w_events [("deployments.apps", 2)] (@broker_new nat)
              w_start_eq w_informed_eq) as (b' & w2 & e & Hs & Hc & Ha & _).
  - change (r_duckRegistrations w_informed) with ({[ "deployments.apps" := 2 ]} : gmap string nat).
    by rewrite map_to_list_singleton.
  - exists b', w2, e. split; [exact Hs|]. split; [exact Hc|exact Ha].
Defined.

Lemma broker_informs_on_ready_ducks_witness :
  exists s', handle_all w_events w_start = Ret s'
    /\ dom (r_duckInformers s') = spec_informed w_events ∅.
Proof.
  apply (broker_informs_on_ready_ducks (MkGK "example.com" "Widget") no_handlers
           [(MkGVK "example.com" "v1" "Widget", 1)] w_start
           (MkGVK "example.com" "v1" "Widget") 1 w_events); [| |exact w_start_eq].
  - split_and!; intros; simpl; eauto.
  - unfold w_events. apply List.Forall_cons; [|apply List.Forall_cons; [|apply List.Forall_nil]].
    + exists w_duck, w_duck. split; reflexivity.
    + exists w_ready_duck, w_ready_duck. split; reflexivity.
Defined.

Lemma broker_informer_not_refreshed_witness :
  UpdateFunc (@Obj ref_errors ref_informers u_ready_duck) (@Obj ref_errors ref_informers u_duck) w_informed = Ret w_informed.
Proof.
  apply (broker_informer_not_refreshed u_duck w_duck _ w_informed
           (MkGVK "apps" "v1" "Deployment")); reflexivity.
Defined.
End witness.
