(* ===== verification/DeepCopy.v ===== *)
(** * api/v1: deep copies

    zz_generated.deepcopy.go, over the heap of Heap.v.  The item slices of lists
    and the condition slices of statuses are in the heap; what metav1.ObjectMeta
    and metav1.ListMeta refer to is up to the library, as are the copies of
    these two and of apis.Status. *)

From S2P Require Import Prelude Slices Heap Platform ApiV1.

(** apis.Status with its slice. *)
Record sStatus := MkSStatus { ss_ObservedGeneration : Z; ss_Conditions : slice }.

(** The lists; their items are in the heap. *)
Record sDuckList (SListMeta : Type) := MkSDuckList {
  sdl_TypeMeta : TypeMeta;
  sdl_ListMeta : SListMeta;
  sdl_Items : slice;
}.

Record sDuckTypeList (SListMeta : Type) := MkSDuckTypeList {
  sdtl_TypeMeta : TypeMeta;
  sdtl_ListMeta : SListMeta;
  sdtl_Items : slice;
}.

Arguments MkSDuckList {_} _ _ _.
Arguments sdl_TypeMeta {_} _.
Arguments sdl_ListMeta {_} _.
Arguments sdl_Items {_} _.
Arguments MkSDuckTypeList {_} _ _ _.
Arguments sdtl_TypeMeta {_} _.
Arguments sdtl_ListMeta {_} _.
Arguments sdtl_Items {_} _.

(** ** The generated functions *)

Section generated.
Context {LCell SMeta : Type}.

Record sDuckStatus := MkSDuckStatus { sds_Status : sStatus }.
Record sDuckTypeStatus := MkSDuckTypeStatus { sdts_Status : sStatus }.

Record sDuck := MkSDuck {
  sd_TypeMeta : TypeMeta;
  sd_ObjectMeta : SMeta;
  sd_Spec : DuckSpec;
  sd_Status : sDuckStatus;
}.

Record sDuckType := MkSDuckType {
  sdt_TypeMeta : TypeMeta;
  sdt_ObjectMeta : SMeta;
  sdt_Spec : DuckTypeSpec;
  sdt_Status : sDuckTypeStatus;
}.

(** The cells of the libraries' structs, and the arrays of the slices. *)
Inductive cell :=
| CLib (c : LCell)
| CConditions (a : array Condition)
| CDucks (a : array sDuck)
| CDuckTypes (a : array sDuckType).

#[export] Instance conditions_cell : ArrayCell cell Condition :=
  {| of_array := CConditions; to_array c := match c with CConditions a => Some a | _ => None end;
     to_of_array a := eq_refl |}.
#[export] Instance ducks_cell : ArrayCell cell sDuck :=
  {| of_array := CDucks; to_array c := match c with CDucks a => Some a | _ => None end;
     to_of_array a := eq_refl |}.
#[export] Instance ducktypes_cell : ArrayCell cell sDuckType :=
  {| of_array := CDuckTypes; to_array c := match c with CDuckTypes a => Some a | _ => None end;
     to_of_array a := eq_refl |}.

Abbreviation heap := (gmap loc cell).

(** Conditions are structs of strings, numbers and times. *)
#[export] Instance Condition_copyable : @DeepCopyable cell Condition Condition := copy_plain Condition.
#[export] Instance Condition_copy_laws : @DeepCopyLaws _ _ _ Condition_copyable := copy_plain_laws Condition.

(** DeepCopyInto of apis.Status, which is the library's. *)
Class StatusCopy := { Status_DeepCopyInto : heap -> sStatus -> heap * sStatus }.

#[export] Instance Status_copyable `{StatusCopy} : DeepCopyable sStatus Status := {|
  valid h s := valid_slice h (ss_Conditions s);
  fp h s := fp_slice h (ss_Conditions s);
  rd h s := MkStatus (ss_ObservedGeneration s) (rd_slice h (ss_Conditions s));
  copy_into := Status_DeepCopyInto;
|}.

Context `{MC : !@DeepCopyable cell SMeta ObjectMeta} `{SC : !StatusCopy}.

Definition DuckSpec_DeepCopyInto (h : heap) (in_ : DuckSpec) : heap * DuckSpec := (h, in_).
Definition DuckSpec_DeepCopy := deep_copy DuckSpec_DeepCopyInto.

Definition DuckTypeSpec_DeepCopyInto (h : heap) (in_ : DuckTypeSpec) : heap * DuckTypeSpec := (h, in_).
Definition DuckTypeSpec_DeepCopy := deep_copy DuckTypeSpec_DeepCopyInto.

Definition DuckStatus_DeepCopyInto (h : heap) (in_ : sDuckStatus) : heap * sDuckStatus :=
  let '(h, st) := copy_into h (sds_Status in_) in (h, MkSDuckStatus st).
Definition DuckStatus_DeepCopy := deep_copy DuckStatus_DeepCopyInto.

Definition DuckTypeStatus_DeepCopyInto (h : heap) (in_ : sDuckTypeStatus) : heap * sDuckTypeStatus :=
  let '(h, st) := copy_into h (sdts_Status in_) in (h, MkSDuckTypeStatus st).
Definition DuckTypeStatus_DeepCopy := deep_copy DuckTypeStatus_DeepCopyInto.

Definition Duck_DeepCopyInto (h : heap) (in_ : sDuck) : heap * sDuck :=
  let '(h, om) := copy_into h (sd_ObjectMeta in_) in
  let '(h, st) := DuckStatus_DeepCopyInto h (sd_Status in_) in
  (h, MkSDuck (sd_TypeMeta in_) om (sd_Spec in_) st).
Definition Duck_DeepCopy := deep_copy Duck_DeepCopyInto.
Definition Duck_DeepCopyObject := deep_copy_object Duck_DeepCopy.

Definition DuckType_DeepCopyInto (h : heap) (in_ : sDuckType) : heap * sDuckType :=
  let '(h, om) := copy_into h (sdt_ObjectMeta in_) in
  let '(h, st) := DuckTypeStatus_DeepCopyInto h (sdt_Status in_) in
  (h, MkSDuckType (sdt_TypeMeta in_) om (sdt_Spec in_) st).
Definition DuckType_DeepCopy := deep_copy DuckType_DeepCopyInto.
Definition DuckType_DeepCopyObject := deep_copy_object DuckType_DeepCopy.

#[export] Instance DuckSpec_copyable : @DeepCopyable cell DuckSpec DuckSpec := {|
  valid _ _ := True; fp _ _ := ∅; rd _ s := s; copy_into := DuckSpec_DeepCopyInto;
|}.

#[export] Instance DuckTypeSpec_copyable : @DeepCopyable cell DuckTypeSpec DuckTypeSpec := {|
  valid _ _ := True; fp _ _ := ∅; rd _ s := s; copy_into := DuckTypeSpec_DeepCopyInto;
|}.

#[export] Instance DuckStatus_copyable : DeepCopyable sDuckStatus DuckStatus := {|
  valid h s := valid h (sds_Status s);
  fp h s := fp h (sds_Status s);
  rd h s := MkDuckStatus (rd h (sds_Status s));
  copy_into := DuckStatus_DeepCopyInto;
|}.

#[export] Instance DuckTypeStatus_copyable : DeepCopyable sDuckTypeStatus DuckTypeStatus := {|
  valid h s := valid h (sdts_Status s);
  fp h s := fp h (sdts_Status s);
  rd h s := MkDuckTypeStatus (rd h (sdts_Status s));
  copy_into := DuckTypeStatus_DeepCopyInto;
|}.

#[export] Instance Duck_copyable : DeepCopyable sDuck Duck := {|
  valid h s := valid h (sd_ObjectMeta s) /\ valid h (sd_Status s)
    /\ fp h (sd_ObjectMeta s) ## fp h (sd_Status s);
  fp h s := fp h (sd_ObjectMeta s) ∪ fp h (sd_Status s);
  rd h s := MkDuck (sd_TypeMeta s) (rd h (sd_ObjectMeta s)) (sd_Spec s) (rd h (sd_Status s));
  copy_into := Duck_DeepCopyInto;
|}.

#[export] Instance DuckType_copyable : DeepCopyable sDuckType DuckType := {|
  valid h s := valid h (sdt_ObjectMeta s) /\ valid h (sdt_Status s)
    /\ fp h (sdt_ObjectMeta s) ## fp h (sdt_Status s);
  fp h s := fp h (sdt_ObjectMeta s) ∪ fp h (sdt_Status s);
  rd h s := MkDuckType (sdt_TypeMeta s) (rd h (sdt_ObjectMeta s)) (sdt_Spec s) (rd h (sdt_Status s));
  copy_into := DuckType_DeepCopyInto;
|}.

(** [in.ListMeta.DeepCopyInto(&out.ListMeta)] is the library's. *)
Context {SListMeta : Type} `{LC : !@DeepCopyable cell SListMeta ListMeta}.

Definition DuckList_DeepCopyInto (h : heap) (in_ : sDuckList SListMeta) : heap * sDuckList SListMeta :=
  let '(h, lm) := copy_into h (sdl_ListMeta in_) in
  let '(h, items) := copy_slice (A := sDuck) h (sdl_Items in_) in
  (h, MkSDuckList (sdl_TypeMeta in_) lm items).
Definition DuckList_DeepCopy := deep_copy DuckList_DeepCopyInto.
Definition DuckList_DeepCopyObject := deep_copy_object DuckList_DeepCopy.

Definition DuckTypeList_DeepCopyInto (h : heap) (in_ : sDuckTypeList SListMeta) : heap * sDuckTypeList SListMeta :=
  let '(h, lm) := copy_into h (sdtl_ListMeta in_) in
  let '(h, items) := copy_slice (A := sDuckType) h (sdtl_Items in_) in
  (h, MkSDuckTypeList (sdtl_TypeMeta in_) lm items).
Definition DuckTypeList_DeepCopy := deep_copy DuckTypeList_DeepCopyInto.
Definition DuckTypeList_DeepCopyObject := deep_copy_object DuckTypeList_DeepCopy.

#[export] Instance DuckList_copyable : DeepCopyable (sDuckList SListMeta) DuckList := {|
  valid h s := valid h (sdl_ListMeta s) /\ valid_slice (A := sDuck) h (sdl_Items s)
    /\ fp h (sdl_ListMeta s) ## fp_slice (A := sDuck) h (sdl_Items s);
  fp h s := fp h (sdl_ListMeta s) ∪ fp_slice (A := sDuck) h (sdl_Items s);
  rd h s := MkDuckList (sdl_TypeMeta s) (rd h (sdl_ListMeta s)) (rd_slice (A := sDuck) h (sdl_Items s));
  copy_into := DuckList_DeepCopyInto;
|}.

#[export] Instance DuckTypeList_copyable : DeepCopyable (sDuckTypeList SListMeta) DuckTypeList := {|
  valid h s := valid h (sdtl_ListMeta s) /\ valid_slice (A := sDuckType) h (sdtl_Items s)
    /\ fp h (sdtl_ListMeta s) ## fp_slice (A := sDuckType) h (sdtl_Items s);
  fp h s := fp h (sdtl_ListMeta s) ∪ fp_slice (A := sDuckType) h (sdtl_Items s);
  rd h s := MkDuckTypeList (sdtl_TypeMeta s) (rd h (sdtl_ListMeta s)) (rd_slice (A := sDuckType) h (sdtl_Items s));
  copy_into := DuckTypeList_DeepCopyInto;
|}.
End generated.

Arguments sDuck : clear implicits.
Arguments sDuckType : clear implicits.
Arguments cell : clear implicits.
Arguments StatusCopy : clear implicits.

Section generated_laws.
Context {LCell SMeta SListMeta : Type}.
Context `{MC : !@DeepCopyable (cell LCell SMeta) SMeta ObjectMeta} `{ML : !@DeepCopyLaws _ _ _ MC}.
Context `{SC : !StatusCopy LCell SMeta} `{SL : !@DeepCopyLaws _ _ _ (Status_copyable (LCell := LCell) (SMeta := SMeta))}.

#[export] Instance DuckSpec_copy_laws : @DeepCopyLaws (cell LCell SMeta) _ _ DuckSpec_copyable.
Proof. exact (copy_plain_laws DuckSpec). Qed.

#[export] Instance DuckTypeSpec_copy_laws : @DeepCopyLaws (cell LCell SMeta) _ _ DuckTypeSpec_copyable.
Proof. exact (copy_plain_laws DuckTypeSpec). Qed.

#[export] Instance DuckStatus_copy_laws : @DeepCopyLaws (cell LCell SMeta) _ _ DuckStatus_copyable.
Proof.
  exact (copyable_one_laws sds_Status (fun _ st => MkSDuckStatus st) (fun _ v => MkDuckStatus v)
           (fun _ _ => eq_refl) (fun _ _ _ => eq_refl)).
Qed.

#[export] Instance DuckTypeStatus_copy_laws : @DeepCopyLaws (cell LCell SMeta) _ _ DuckTypeStatus_copyable.
Proof.
  exact (copyable_one_laws sdts_Status (fun _ st => MkSDuckTypeStatus st) (fun _ v => MkDuckTypeStatus v)
           (fun _ _ => eq_refl) (fun _ _ _ => eq_refl)).
Qed.

#[export] Instance Duck_copy_laws : @DeepCopyLaws (cell LCell SMeta) _ _ Duck_copyable.
Proof.
  exact (copyable_two_laws sd_ObjectMeta sd_Status (fun s om st => MkSDuck (sd_TypeMeta s) om (sd_Spec s) st)
           (fun s v w => MkDuck (sd_TypeMeta s) v (sd_Spec s) w)
           (fun _ _ _ => eq_refl) (fun _ _ _ => eq_refl) (fun _ _ _ _ _ => eq_refl)).
Qed.

#[export] Instance DuckType_copy_laws : @DeepCopyLaws (cell LCell SMeta) _ _ DuckType_copyable.
Proof.
  exact (copyable_two_laws sdt_ObjectMeta sdt_Status
           (fun s om st => MkSDuckType (sdt_TypeMeta s) om (sdt_Spec s) st)
           (fun s v w => MkDuckType (sdt_TypeMeta s) v (sdt_Spec s) w)
           (fun _ _ _ => eq_refl) (fun _ _ _ => eq_refl) (fun _ _ _ _ _ => eq_refl)).
Qed.

Context `{LC : !@DeepCopyable (cell LCell SMeta) SListMeta ListMeta} `{LL : !@DeepCopyLaws _ _ _ LC}.

#[export] Instance DuckList_copy_laws : @DeepCopyLaws (cell LCell SMeta) _ _ DuckList_copyable.
Proof.
  exact (@copyable_two_laws _ _ _ _ _ _ _ _ (copyable_slice_laws (A := sDuck SMeta)) _ _
           sdl_ListMeta sdl_Items (fun s m l => MkSDuckList (sdl_TypeMeta s) m l)
           (fun s v w => MkDuckList (sdl_TypeMeta s) v w)
           (fun _ _ _ => eq_refl) (fun _ _ _ => eq_refl) (fun _ _ _ _ _ => eq_refl)).
Qed.

#[export] Instance DuckTypeList_copy_laws : @DeepCopyLaws (cell LCell SMeta) _ _ DuckTypeList_copyable.
Proof.
  exact (@copyable_two_laws _ _ _ _ _ _ _ _ (copyable_slice_laws (A := sDuckType SMeta)) _ _
           sdtl_ListMeta sdtl_Items (fun s m l => MkSDuckTypeList (sdtl_TypeMeta s) m l)
           (fun s v w => MkDuckTypeList (sdtl_TypeMeta s) v w)
           (fun _ _ _ => eq_refl) (fun _ _ _ => eq_refl) (fun _ _ _ _ _ => eq_refl)).
Qed.
End generated_laws.

(** ** Theorems *)

Section deepcopy_theorems.
Context {LCell SMeta SListMeta : Type}.
Context `{LC : !@DeepCopyable (cell LCell SMeta) SListMeta ListMeta} `{LL : !@DeepCopyLaws _ _ _ LC}.
Context `{MC : !@DeepCopyable (cell LCell SMeta) SMeta ObjectMeta} `{ML : !@DeepCopyLaws _ _ _ MC}.
Context `{SC : !StatusCopy LCell SMeta} `{SL : !@DeepCopyLaws _ _ _ (Status_copyable (LCell := LCell) (SMeta := SMeta))}.

(** C29: DeepCopy of a DuckList, and of every duck in it, is deep: given that the
    libraries' copies of the list's and the ducks' metadata and of the status
    are, the copy reads the
    same, the original is unchanged, and neither sees a later write to the
    other.  A nil list copies to nil. *)
Theorem ducklist_deepcopy_independent (h : gmap loc (cell LCell SMeta)) (s : sDuckList SListMeta) :
  valid h s ->
  (exists h' s', DuckList_DeepCopy h (Some s) = (h', Some s') /\ independent_copy h h' s s')
  /\ DuckList_DeepCopyObject h None = (h, None).
Proof.
  intros Hwf. split; [|done]. pose proof (copy_independent h s Hwf) as Hc. simpl in Hc.
  unfold DuckList_DeepCopy, deep_copy. destruct (DuckList_DeepCopyInto h s) as [h' s']. eauto.
Qed.

(** The same for a DuckTypeList. *)
Theorem ducktypelist_deepcopy_independent (h : gmap loc (cell LCell SMeta)) (s : sDuckTypeList SListMeta) :
  valid h s ->
  (exists h' s', DuckTypeList_DeepCopy h (Some s) = (h', Some s') /\ independent_copy h h' s s')
  /\ DuckTypeList_DeepCopyObject h None = (h, None).
Proof.
  intros Hwf. split; [|done]. pose proof (copy_independent h s Hwf) as Hc. simpl in Hc.
  unfold DuckTypeList_DeepCopy, deep_copy. destruct (DuckTypeList_DeepCopyInto h s) as [h' s']. eauto.
Qed.
End deepcopy_theorems.

(** ** Witnesses: metadata without references, a copy of the status and of the
    list metadata with its pointer *)
Section witness.
Abbreviation ref_cell := (cell Z ObjectMeta).

#[local] Instance ref_meta_copyable : @DeepCopyable ref_cell ObjectMeta ObjectMeta := copy_plain ObjectMeta.
#[local] Instance ref_meta_copy_laws : @DeepCopyLaws _ _ _ ref_meta_copyable := copy_plain_laws ObjectMeta.

(** A ListMeta whose count is behind a pointer. *)
Record sListMeta := MkSListMeta { slm_Continue : string; slm_RemainingItemCount : option loc }.

Definition count_at (h : gmap loc ref_cell) (l : loc) : option Z :=
  match h !! l with Some (CLib z) => Some z | _ => None end.

#[local] Instance ref_listmeta_copyable : @DeepCopyable ref_cell sListMeta ListMeta := {|
  valid h s := match slm_RemainingItemCount s with Some l => is_Some (count_at h l) | None => True end;
  fp _ s := match slm_RemainingItemCount s with Some l => {[ l ]} | None => ∅ end;
  rd h s := MkListMeta "" "" (slm_Continue s) (slm_RemainingItemCount s ≫= count_at h);
  copy_into h s :=
    match slm_RemainingItemCount s ≫= count_at h with
    | Some z => (<[ fresh (dom h) := CLib z ]> h, MkSListMeta (slm_Continue s) (Some (fresh (dom h))))
    | None => (h, s)
    end;
|}.

#[local] Instance ref_listmeta_copy_laws : @DeepCopyLaws _ _ _ ref_listmeta_copyable.
Proof.
  constructor; simpl.
  - intros h [c [l|]]; simpl; [|set_solver]. intros Hs ? ->%elem_of_singleton. apply elem_of_dom.
    unfold count_at in Hs. destruct (h !! l); [by eexists|by destruct Hs].
  - intros h h' [c [l|]]; simpl; [|done]. intros Hl. unfold count_at. by rewrite Hl by set_solver.
  - intros h [c [l|]]; simpl; [|by intros _; split_and!; [..|set_solver|]]. intros [z Hz]. rewrite Hz. simpl.
    assert (Hf := is_fresh (dom h)). unfold count_at at 1 2. rewrite lookup_insert_eq.
    split_and!; [by apply insert_subseteq, not_elem_of_dom|by eexists|set_solver|done].
Qed.

Definition ref_status_copy : StatusCopy Z ObjectMeta :=
  {| Status_DeepCopyInto h s :=
       let '(h', o) := copy_slice (A := Condition) h (ss_Conditions s) in
       (h', MkSStatus (ss_ObservedGeneration s) o) |}.
#[local] Existing Instance ref_status_copy.

#[local] Instance ref_status_copy_laws : @DeepCopyLaws _ _ _ (Status_copyable (LCell := Z) (SMeta := ObjectMeta)).
Proof.
  exact (@copyable_one_laws ref_cell _ _ _ (copyable_slice_laws (A := Condition)) _ _ ss_Conditions
           (fun s l => MkSStatus (ss_ObservedGeneration s) l)
           (fun s v => MkStatus (ss_ObservedGeneration s) v)
           (fun _ _ => eq_refl) (fun _ _ _ => eq_refl)).
Qed.

(** One duck with one condition, and a count. *)
Definition w_heap : gmap loc ref_cell :=
  <[ 0 := CConditions (MkArray 1 [MkCondition ConditionReady ConditionTrue 0 0 "Ready" ""]) ]>
  (<[ 1 := CDucks (MkArray 1 [MkSDuck (MkTypeMeta "" "") (meta_named "deployments.apps")
                     (MkDuckSpec "apps" "v1" "Deployment")
                     (MkSDuckStatus (MkSStatus 0 (MkSlice (Some 0) 1)))]) ]>
  (<[ 2 := CLib 7%Z ]> ∅)).

Definition w_list : sDuckList sListMeta :=
  MkSDuckList (MkTypeMeta "" "") (MkSListMeta "" (Some 2)) (MkSlice (Some 1) 1).

Lemma w_list_valid : valid w_heap w_list.
Proof.
  split_and!; [by eexists| |by apply (bool_decide_eq_true_1 _); vm_compute].
  split; [eexists; split; [reflexivity|simpl; lia]|]. constructor; [|constructor].
  split_and!; [done| |set_solver].
  split; [eexists; split; [reflexivity|simpl; lia]|]. by repeat constructor.
Qed.

Lemma ducklist_deepcopy_independent_witness :
  exists h' s', DuckList_DeepCopy w_heap (Some w_list) = (h', Some s') /\ rd h' s' = rd w_heap w_list
    /\ lm_RemainingItemCount (dl_ListMeta (rd h' s')) = Some 7%Z.
Proof.
  destruct (ducklist_deepcopy_independent w_heap w_list w_list_valid) as [(h' & s' & Hc & Hr & _) _].
  exists h', s'. split; [exact Hc|]. split; [exact Hr|]. rewrite Hr. reflexivity.
Defined.

Definition w_heap_types : gmap loc ref_cell :=
  <[ 1 := CDuckTypes (MkArray 1 [MkSDuckType (MkTypeMeta "" "") (meta_named "widgets.example.com")
                        (MkDuckTypeSpec "example.com" "widgets" "widget" "Widget" "WidgetList")
                        (MkSDuckTypeStatus (MkSStatus 0 nil_slice))]) ]> ∅.

Definition w_list_types : sDuckTypeList sListMeta :=
  MkSDuckTypeList (MkTypeMeta "" "") (MkSListMeta "" None) (MkSlice (Some 1) 1).

Lemma ducktypelist_deepcopy_independent_witness :
  exists h' s', DuckTypeList_DeepCopy w_heap_types (Some w_list_types) = (h', Some s')
    /\ rd h' s' = rd w_heap_types w_list_types.
Proof.
  destruct (ducktypelist_deepcopy_independent w_heap_types w_list_types) as [(h' & s' & Hc & Hr & _) _].
  - split_and!; [done| |set_solver].
    split; [eexists; split; [reflexivity|simpl; lia]|]. by repeat constructor.
  - exists h', s'. split; [exact Hc|exact Hr].
Defined.
End witness.
