(* ===== verification/Dies.v ===== *)
(** * api/v1: dies

    zz_generated.die.go (and internal/testresources).  The generated die types
    have the same methods, written here once for a resource type [T]; the
    instances for the die types of the program are in ApiDies.v and
    TestResources.v.  A die is a cell of its own, which a method of a mutable die
    updates and returns, while a method of an immutable die returns a new one.
    The resource a die manages refers to cells of the heap of Heap.v. *)

From S2P Require Import Prelude Slices Heap Platform.

#[local] Open Scope go_scope.

(** The struct of a die.  [die_frozen] is the embedded FrozenObjectMeta of the
    dies of objects; other dies have none. *)
Record die (T Frozen : Type) := MkDie {
  die_frozen : Frozen;
  die_mutable : bool;
  die_r : T;
  die_seal : T;
}.
Arguments MkDie {_ _} _ _ _ _.
Arguments die_frozen {_ _} _.
Arguments die_mutable {_ _} _.
Arguments die_r {_ _} _.
Arguments die_seal {_ _} _.

(** The dies of resources [T] among the dies [D] of a program, and
    FreezeObjectMeta, which makes [die_frozen] from the resource. *)
Class DieKind (D T Frozen : Type) := {
  freeze : T -> Frozen;
  to_any : die T Frozen -> D;
  of_any : D -> option (die T Frozen);
  of_to_any : forall d, of_any (to_any d) = Some d;
}.

(** A program with one kind of die. *)
Definition only_kind {T Frozen} (f : T -> Frozen) : DieKind (die T Frozen) T Frozen :=
  {| freeze := f; to_any d := d; of_any := Some; of_to_any d := eq_refl |}.

(** The memory: the cells resources refer to, and the dies. *)
Record dstate (cell D : Type) := MkDState { ds_heap : gmap loc cell; ds_dies : gmap loc D }.
Arguments MkDState {_ _} _ _.
Arguments ds_heap {_ _} _.
Arguments ds_dies {_ _} _.

(** Reflection and JSON paths for DieStampAt: [F] are the values passed as callback
    functions, [RV] reflected values, which refer to a part of the resource. *)
Record Reflection (cell D T F RV Path : Type) := {
  NumIn : F -> nat;
  NumOut : F -> nat;
  (** jsonpath.Parse and FindResults, on the resource *)
  Parse : string -> result string Path;
  FindResults : Path -> T -> dstate cell D -> result string (list (list RV));
  (** whether the value, or its address, can be passed to the callback *)
  AssignableTo : RV -> F -> bool;
  AddrAssignableTo : RV -> F -> bool;
  (** calling the callback with the value ([false]) or its address ([true]) *)
  Call : F -> RV -> bool -> T -> dstate cell D -> outcome (dstate cell D * T);
}.
Arguments NumIn {_ _ _ _ _ _} _.
Arguments NumOut {_ _ _ _ _ _} _.
Arguments Parse {_ _ _ _ _ _} _.
Arguments FindResults {_ _ _ _ _ _} _.
Arguments AssignableTo {_ _ _ _ _ _} _.
Arguments AddrAssignableTo {_ _ _ _ _ _} _.
Arguments Call {_ _ _ _ _ _} _.

Section dies.
Context {cell D T V Frozen : Type} `{DC : !@DeepCopyable cell T V} `{DK : !DieKind D T Frozen}.
Abbreviation state := (dstate cell D).

Definition set_heap (h : gmap loc cell) (s : state) : state := MkDState h (ds_dies s).
Definition put_die (p : loc) (d : die T Frozen) (s : state) : state :=
  MkDState (ds_heap s) (<[ p := to_any d ]> (ds_dies s)).

(** [&DuckSpecDie{...}] *)
Definition new_die (d : die T Frozen) (s : state) : state * loc :=
  let p := fresh (dom (ds_dies s)) in (put_die p d s, p).

Definition get_die (p : loc) (s : state) : outcome (die T Frozen) :=
  match ds_dies s !! p ≫= of_any with
  | Some d => Ret d
  | None => Panic "nil pointer dereference"
  end.

Definition copy_T (r : T) (s : state) : state * T :=
  let '(h, r') := copy_into (ds_heap s) r in (set_heap h s, r').

Definition Die_DeepCopy (p : loc) (s : state) : outcome (state * loc) :=
  let! d := get_die p s in
  let '(s, r) := copy_T (die_r d) s in
  Ret (new_die (MkDie (freeze r) (die_mutable d) r (die_seal d)) s).

Definition DieImmutable (immutable : bool) (p : loc) (s : state) : outcome (state * loc) :=
  let! d := get_die p s in
  if Bool.eqb (die_mutable d) (negb immutable) then Ret (s, p)
  else
    let! (s, p') := Die_DeepCopy p s in
    let! d' := get_die p' s in
    Ret (put_die p' (MkDie (die_frozen d') (negb immutable) (die_r d') (die_seal d')) s, p').

Definition DieFeed (r : T) (p : loc) (s : state) : outcome (state * loc) :=
  let! d := get_die p s in
  if die_mutable d then Ret (put_die p (MkDie (freeze r) (die_mutable d) r (die_seal d)) s, p)
  else Ret (new_die (MkDie (freeze r) (die_mutable d) r (die_seal d)) s).

Definition DieFeedPtr (zero : T) (r : option T) (p : loc) (s : state) : outcome (state * loc) :=
  DieFeed (match r with None => zero | Some r => r end) p s.

Definition DieRelease (p : loc) (s : state) : outcome (state * T) :=
  let! d := get_die p s in
  if die_mutable d then Ret (s, die_r d) else Ret (copy_T (die_r d) s).

(** The pointer is to the released value. *)
Definition DieReleasePtr (p : loc) (s : state) : outcome (state * T) :=
  let! (s, r) := DieRelease p s in Ret (s, r).

(** A callback is given a pointer to the resource and can write through it. *)
Definition DieStamp (fn : T -> state -> outcome (state * T)) (p : loc) (s : state)
    : outcome (state * loc) :=
  let! (s, r) := DieRelease p s in
  let! (s, r) := fn r s in
  DieFeed r p s.

Fixpoint with_loop (fns : list (option (loc -> state -> outcome state))) (nd : loc) (s : state)
    : outcome state :=
  match fns with
  | [] => Ret s
  | None :: fns' => with_loop fns' nd s
  | Some fn :: fns' => let! s := fn nd s in with_loop fns' nd s
  end.

(** [blank] is the package variable DuckSpecBlank. *)
Definition DieWith (blank : loc) (fns : list (option (loc -> state -> outcome state))) (p : loc) (s : state)
    : outcome (state * loc) :=
  let! (s, r) := DieRelease p s in
  let! (s, nd) := DieFeed r blank s in
  let! (s, nd) := DieImmutable false nd s in
  let! s := with_loop fns nd s in
  let! (s, r) := DieRelease nd s in
  DieFeed r p s.

Definition DieSealFeed (r : T) (p : loc) (s : state) : outcome (state * loc) :=
  let! d := get_die p s in
  let! (s, p) := (if negb (die_mutable d) then Die_DeepCopy p s else Ret (s, p)) in
  let '(s, r) := copy_T r s in
  let! d := get_die p s in
  Ret (put_die p (MkDie (die_frozen d) (die_mutable d) (die_r d) r) s, p).

Definition DieSeal (p : loc) (s : state) : outcome (state * loc) :=
  let! d := get_die p s in DieSealFeed (die_r d) p s.

Definition DieSealFeedPtr (zero : T) (r : option T) (p : loc) (s : state) : outcome (state * loc) :=
  DieSealFeed (match r with None => zero | Some r => r end) p s.

Definition DieSealRelease (p : loc) (s : state) : outcome (state * T) :=
  let! d := get_die p s in Ret (copy_T (die_seal d) s).

(** ** Encodings: json and yaml marshalling are the libraries' *)

Context {Bytes : Type}.

Definition DieFeedJSON (Unmarshal : Bytes -> state -> state * result string T) (j : Bytes) (p : loc)
    (s : state) : outcome (state * loc) :=
  match Unmarshal j s with
  | (_, Err e) => Panic e
  | (s, Ok r) => DieFeed r p s
  end.

Definition DieReleaseJSON (Marshal : T -> state -> result string Bytes) (p : loc) (s : state)
    : outcome (state * Bytes) :=
  let! (s, r) := DieReleasePtr p s in
  match Marshal r s with
  | Err e => Panic e
  | Ok j => Ret (s, j)
  end.

Definition DieFeedYAML (Unmarshal : Bytes -> state -> state * result string T) (y : Bytes) (p : loc)
    (s : state) : outcome (state * loc) :=
  match Unmarshal y s with
  | (_, Err e) => Panic e
  | (s, Ok r) => DieFeed r p s
  end.

Definition DieFeedYAMLFile (ReadFile : string -> result string Bytes)
    (Unmarshal : Bytes -> state -> state * result string T) (name : string) (p : loc) (s : state)
    : outcome (state * loc) :=
  match ReadFile name with
  | Err e => Panic e
  | Ok y => DieFeedYAML Unmarshal y p s
  end.

Definition DieReleaseYAML (Marshal : T -> state -> result string Bytes) (p : loc) (s : state)
    : outcome (state * Bytes) :=
  let! (s, r) := DieReleasePtr p s in
  match Marshal r s with
  | Err e => Panic e
  | Ok y => Ret (s, y)
  end.

(** [A] is the type of another value, which is marshalled or unmarshalled
    into. *)
Definition DieFeedDuck {A} (MarshalA : A -> state -> result string Bytes)
    (Unmarshal : Bytes -> state -> state * result string T) (v : A) (p : loc) (s : state)
    : outcome (state * loc) :=
  match MarshalA v s with
  | Err e => Panic e
  | Ok data => DieFeedJSON Unmarshal data p s
  end.

Definition DieReleaseDuck {A} (Marshal : T -> state -> result string Bytes)
    (UnmarshalA : Bytes -> A -> state -> state * result string A) (v : A) (p : loc) (s : state)
    : outcome (state * A) :=
  let! (s, data) := DieReleaseJSON Marshal p s in
  match UnmarshalA data v s with
  | (_, Err e) => Panic e
  | (s, Ok v) => Ret (s, v)
  end.

Definition DieFeedRawExtension {R} (MarshalRaw : R -> state -> result string Bytes)
    (Unmarshal : Bytes -> state -> state * result string T) (raw : R) (p : loc) (s : state)
    : outcome (state * loc) :=
  match MarshalRaw raw s with
  | Err e => Panic e
  | Ok j => DieFeedJSON Unmarshal j p s
  end.

(** [raw] is the zero RawExtension. *)
Definition DieReleaseRawExtension {R} (Marshal : T -> state -> result string Bytes)
    (UnmarshalRaw : Bytes -> R -> state -> state * result string R) (raw : R) (p : loc) (s : state)
    : outcome (state * R) :=
  let! (s, j) := DieReleaseJSON Marshal p s in
  match UnmarshalRaw j raw s with
  | (_, Err e) => Panic e
  | (s, Ok raw) => Ret (s, raw)
  end.

Definition DieSealReleasePtr (p : loc) (s : state) : outcome (state * T) :=
  let! (s, r) := DieSealRelease p s in Ret (s, r).

Definition DieDiff {O} (Diff : T -> T -> O -> state -> string) (opts : O) (p : loc) (s : state) : outcome string :=
  let! d := get_die p s in Ret (Diff (die_seal d) (die_r d) opts s).

Definition DiePatch {O} (Create : T -> T -> O -> state -> result string Bytes) (patchType : O) (p : loc)
    (s : state) : outcome (result string Bytes) :=
  let! d := get_die p s in Ret (Create (die_seal d) (die_r d) patchType s).

(** ** What the dies of objects have besides (lines of DuckDie) *)

Definition Die_DeepCopyObject (p : loc) (s : state) : outcome (state * T) :=
  let! d := get_die p s in Ret (copy_T (die_r d) s).

Definition Die_GetObjectKind {K} (GetObjectKind : T -> K) (p : loc) (s : state) : outcome (state * K) :=
  let! (s, r) := DieRelease p s in Ret (s, GetObjectKind r).

Definition Die_MarshalJSON (Marshal : T -> state -> result string Bytes) (p : loc) (s : state)
    : outcome (result string Bytes) :=
  let! d := get_die p s in Ret (Marshal (die_r d) s).

(** json.Unmarshal fills the resource as far as it gets, also when it fails. *)
Definition Die_UnmarshalJSON (Unmarshal : Bytes -> state -> state * T * option string) (b : Bytes) (p : loc)
    (s : state) : outcome (state * option string) :=
  let! d := get_die p s in
  if negb (die_mutable d) then
    Ret (s, Some "cannot unmarshal into immutable dies, create a mutable version first")
  else
    let '(s, resource, err) := Unmarshal b s in
    let! (s, p') := DieFeed resource p s in
    let! d' := get_die p' s in
    Ret (put_die p d' s, err).

(** [Unst] is the object of an unstructured.Unstructured. *)
Definition DieReleaseUnstructured {Unst} (ToUnstructured : T -> state -> result string Unst) (p : loc) (s : state)
    : outcome (state * Unst) :=
  let! (s, r) := DieReleasePtr p s in
  match ToUnstructured r s with
  | Err e => Panic e
  | Ok u => Ret (s, u)
  end.

(** ** DieStampAt: reflection and JSON paths *)

Fixpoint stamp_at_loop {F RV Path} (R : Reflection cell D T F RV Path) (fn : F) (cvs : list RV) (r : T) (s : state)
    : outcome (state * T) :=
  match cvs with
  | [] => Ret (s, r)
  | cv :: cvs' =>
      let! (s, r) :=
        (if AssignableTo R cv fn then Call R fn cv false r s
         else if AddrAssignableTo R cv fn then Call R fn cv true r s
         else Panic "callback function must accept value of type") in
      stamp_at_loop R fn cvs' r s
  end.

Definition stamp_at {F RV Path} (R : Reflection cell D T F RV Path) (jp : string) (fn : F) (r : T) (s : state)
    : outcome (state * T) :=
  if negb (NumIn R fn =? 1) then Panic "callback function must have 1 input parameters"
  else if negb (NumOut R fn =? 0) then Panic "callback function must have 0 output parameters"
  else match Parse R ("{" +:+ jp +:+ "}") with
       | Err e => Panic e
       | Ok cp => match FindResults R cp r s with
                  | Err _ => Ret (s, r)
                  | Ok [] => Panic "index out of range"
                  | Ok (cvs :: _) => stamp_at_loop R fn cvs r s
                  end
       end.

Definition DieStampAt {F RV Path} (R : Reflection cell D T F RV Path) (jp : string) (fn : F) : loc -> state -> outcome (state * loc) :=
  DieStamp (stamp_at R jp fn).

(** ** A field with a die of its own *)

(** [d := Blank.DieImmutable(false).DieFeed(r); fn(d); ... d.DieRelease()] *)
Definition with_die (blank : loc) (fn : loc -> state -> outcome state) (r : T) (s : state) : outcome (state * T) :=
  let! (s, nd) := DieImmutable false blank s in
  let! (s, nd) := DieFeed r nd s in
  let! s := fn nd s in
  DieRelease nd s.
End dies.

(** [(&XDie{}).DieFeed(X{})], with [fz] the zero FrozenObjectMeta *)
Definition make_blank {cell D T Frozen} `{!DieKind D T Frozen} (fz : Frozen) (zero : T)
    (s : dstate cell D) : outcome (dstate cell D * loc) :=
  let '(s, p) := new_die (MkDie fz false zero zero) s in DieFeed zero p s.

(** Updating the field [get] of a struct with what [k] makes of it. *)
Definition on_field {cell D T U : Type} (get : U -> T) (set : T -> U -> U)
    (k : T -> dstate cell D -> outcome (dstate cell D * T)) (r : U) (s : dstate cell D)
    : outcome (dstate cell D * U) :=
  let! (s, v) := k (get r) s in Ret (s, set v r).

(** [func(r) { r.Field = v }] and the like: a callback that only replaces plain
    fields. *)
Definition assign {cell D T : Type} (f : T -> T) (r : T) (s : dstate cell D) : outcome (dstate cell D * T) :=
  Ret (s, f r).

(** ** A list of conditions with a die for the elements

    [stamp] is what the library's ConditionDie makes of a condition:
    [d := ConditionBlank.DieImmutable(false).DieFeed(c); fn(d); d.DieRelease()]. *)
Section conditions.
Context {cell D : Type} `{!ArrayCell cell Condition}.
Variable grow : nat -> nat.

(** [metav1.Condition{Type: v}] *)
Definition new_condition (v : string) : Condition := MkCondition v "" 0 0 "" "".

(** The first index whose type is [v], from [i] on. *)
Fixpoint find_condition (v : string) (i : nat) (cs : list Condition) : option (nat * Condition) :=
  match cs with
  | [] => None
  | c :: cs' => if String.eqb v (c_Type c) then Some (i, c) else find_condition v (S i) cs'
  end.

Definition conditions_die (v : string) (stamp : Condition -> dstate cell D -> outcome (dstate cell D * Condition))
    (r : slice) (s : dstate cell D) : outcome (dstate cell D * slice) :=
  match find_condition v 0 (slice_read (ds_heap s) r) with
  | Some (i, c) =>
      let! (s, c) := stamp c s in
      let! h := slice_set (ds_heap s) r i c in
      Ret (set_heap h s, r)
  | None =>
      let! (s, c) := stamp (new_condition v) s in
      let '(h, r) := append grow (ds_heap s) r c in
      Ret (set_heap h s, r)
  end.
End conditions.

(** ** The dies of metav1, which are the library's

    Functions are the callbacks passed to the dies; an operation [_with] is
    [d := Blank.DieImmutable(false).DieFeed(v); fn(d); d.DieRelease()]. *)
Class MetaDies (cell D SMeta FMeta : Type) := {
  FreezeObjectMeta : SMeta -> FMeta;
  frozen_zero : FMeta;
  meta_zero : SMeta;
  TypeMetaFn : Type;
  ObjectMetaFn : Type;
  ConditionFn : Type;
  TypeMetaDie_with : TypeMetaFn -> TypeMeta -> dstate cell D -> outcome (dstate cell D * TypeMeta);
  ObjectMetaDie_with : ObjectMetaFn -> SMeta -> dstate cell D -> outcome (dstate cell D * SMeta);
  ConditionDie_with : ConditionFn -> Condition -> dstate cell D -> outcome (dstate cell D * Condition);
  (** [func(d) { d.Name(name) }] *)
  ObjectMetaDie_Name : string -> ObjectMetaFn;
  (** the runtime's growth of slices *)
  slice_growth : nat -> nat;
}.
