(* ===== verification/DieLaws.v ===== *)
(** * Laws of dies

    What a callback and a method of a die do, as a relation between the values
    before and after and a frame: the cells and the dies that can change.  The
    relations compose, so the effect of a chain of calls, of nested dies and of
    DieWith follows from the effects of the callbacks. *)

From S2P Require Import Prelude Slices Heap Platform Dies.

#[local] Open Scope go_scope.

(** ** Frames *)

Section frames.
Context {cell D : Type}.
Implicit Types (s : dstate cell D) (F P : gset loc).

(** From [s] to [s'], of the cells only those in [F] change, and of the dies only
    those in [P]; new ones can appear. *)
Record frame s s' F P : Prop := {
  fr_cells : forall l, l ∈ dom (ds_heap s) -> l ∉ F -> ds_heap s' !! l = ds_heap s !! l;
  fr_dom : dom (ds_heap s) ⊆ dom (ds_heap s');
  fr_dies : forall q, q ∈ dom (ds_dies s) -> q ∉ P -> ds_dies s' !! q = ds_dies s !! q;
  fr_dom_dies : dom (ds_dies s) ⊆ dom (ds_dies s');
}.

Lemma frame_refl s F P : frame s s F P.
Proof. done. Qed.

Lemma frame_trans s s1 s2 F P F' P' :
  frame s s1 F P -> frame s1 s2 F' P' -> F' ∩ dom (ds_heap s) ⊆ F -> P' ∩ dom (ds_dies s) ⊆ P ->
  frame s s2 F P.
Proof.
  intros [A1 A2 A3 A4] [B1 B2 B3 B4] HF HP. constructor; [|set_solver| |set_solver].
  - intros l Hl Hn. rewrite <- A1 by done. apply B1; set_solver.
  - intros q Hq Hn. rewrite <- A3 by done. apply B3; set_solver.
Qed.

Lemma frame_weaken s s' F P F' P' :
  frame s s' F P -> F ∩ dom (ds_heap s) ⊆ F' -> P ∩ dom (ds_dies s) ⊆ P' -> frame s s' F' P'.
Proof. intros Hf HF HP. eapply frame_trans; [apply (frame_refl s F' P')|done|done|done]. Qed.

(** Allocation of cells. *)
Lemma frame_heap s h : ds_heap s ⊆ h -> frame s (set_heap h s) ∅ ∅.
Proof.
  intros Hs. constructor; simpl; [|by apply subseteq_dom|done|done].
  intros l [c Hc]%elem_of_dom _. rewrite Hc. by eapply lookup_weaken.
Qed.

(** The dies [B] stay. *)
Lemma frame_keeps s s' F P (B : gmap loc D) :
  frame s s' F P -> B ⊆ ds_dies s -> P ## dom B -> B ⊆ ds_dies s'.
Proof.
  intros Hf HB HP. apply map_subseteq_spec. intros b x Hb.
  assert (Hx : ds_dies s !! b = Some x) by (by eapply lookup_weaken).
  apply elem_of_dom_2 in Hb. rewrite (fr_dies _ _ _ _ Hf); [done|by eapply elem_of_dom_2|set_solver].
Qed.
End frames.

(** ** Values over a frame *)

Section values.
Context {cell D T V : Type} `{DL : @DeepCopyLaws cell T V DC}.
Implicit Types (s : dstate cell D) (r : T).

Definition value s r : V := rd (ds_heap s) r.
Definition ok s r : Prop := valid (ds_heap s) r.
Definition cells s r : gset loc := fp (ds_heap s) r.

Lemma cells_dom s r : ok s r -> cells s r ⊆ dom (ds_heap s).
Proof. apply dc_valid. Qed.

Lemma frame_value s s' F P r :
  frame s s' F P -> ok s r -> cells s r ## F -> cells s' r = cells s r /\ value s' r = value s r /\ ok s' r.
Proof.
  intros Hf Hok HF. destruct (dc_local (ds_heap s) (ds_heap s') r) as (H1 & H2 & H3); [|split_and!; [exact H1|exact H2|exact (H3 Hok)]].
  intros l Hl. apply (fr_cells _ _ _ _ Hf); [by apply (cells_dom s r Hok)|set_solver].
Qed.

Lemma copy_T_effect s r s' r' :
  ok s r -> copy_T r s = (s', r') ->
  frame s s' ∅ ∅ /\ ds_dies s' = ds_dies s /\ ok s' r' /\ value s' r' = value s r
  /\ cells s' r' ## dom (ds_heap s).
Proof.
  intros Hok Hc. unfold copy_T in Hc. pose proof (dc_copy (ds_heap s) r Hok) as Hd.
  destruct (copy_into (ds_heap s) r) as [h r1]. injection Hc as <- <-. destruct Hd as (Hs & Hv & Hf & Hr).
  split_and!; [by apply frame_heap|done|done|done|done].
Qed.
End values.

(** ** Methods *)

Section methods.
Context {cell D T V Frozen : Type} `{DL : @DeepCopyLaws cell T V DC} `{DK : !DieKind D T Frozen}.
Implicit Types (s : dstate cell D) (p : loc) (r : T) (d : die T Frozen) (B : gmap loc D).

Definition die_at s p d : Prop := ds_dies s !! p = Some (to_any d).

Lemma die_at_dom s p d : die_at s p d -> p ∈ dom (ds_dies s).
Proof. apply elem_of_dom_2. Qed.

Lemma get_die_at s p d : die_at s p d -> get_die p s = Ret d.
Proof. unfold die_at, get_die. intros ->. simpl. by rewrite of_to_any. Qed.

Lemma frame_die_at s s' F P p d : frame s s' F P -> die_at s p d -> p ∉ P -> die_at s' p d.
Proof. intros Hf Hp Hn. unfold die_at. rewrite (fr_dies _ _ _ _ Hf); [done|by eapply die_at_dom|done]. Qed.

Lemma die_at_kept s s' F p d : frame s s' F ∅ -> die_at s p d -> die_at s' p d.
Proof. intros Hf Hp. eapply frame_die_at; [exact Hf|done|set_solver]. Qed.

Lemma frame_put s p d : frame s (put_die p d s) ∅ {[ p ]}.
Proof.
  constructor; simpl; [done|done| |set_solver]. intros q _ Hq. rewrite lookup_insert_ne; set_solver.
Qed.

Lemma die_at_put s p d : die_at (put_die p d s) p d.
Proof. apply lookup_insert_eq. Qed.

Lemma new_die_effect d s s' p :
  new_die d s = (s', p) ->
  frame s s' ∅ ∅ /\ ds_heap s' = ds_heap s /\ (p ∉ dom (ds_dies s)) /\ die_at s' p d.
Proof.
  unfold new_die. set (q := fresh (dom (ds_dies s))). assert (Hq : q ∉ dom (ds_dies s)) by apply is_fresh.
  intros [= <- <-]. split_and!; [|done|done|apply die_at_put].
  eapply frame_weaken; [apply frame_put|set_solver|set_solver].
Qed.

Lemma DieRelease_effect p s d :
  die_at s p d -> ok s (die_r d) ->
  exists s' r, DieRelease p s = Ret (s', r) /\ frame s s' ∅ ∅ /\ ds_dies s' = ds_dies s
    /\ ok s' r /\ value s' r = value s (die_r d)
    /\ (if die_mutable d then s' = s /\ r = die_r d else cells s' r ## dom (ds_heap s)).
Proof.
  intros Hp Hok. unfold DieRelease. rewrite (get_die_at _ _ _ Hp). simpl. destruct (die_mutable d).
  - exists s, (die_r d). split_and!; done.
  - destruct (copy_T (die_r d) s) as [s' r] eqn:Hc.
    apply copy_T_effect in Hc as (Hf & Hd & Ho & Hv & Hx); [|done]. exists s', r. by split_and!.
Qed.

Lemma DieFeed_effect r p s d :
  die_at s p d ->
  exists s' p', DieFeed r p s = Ret (s', p') /\ ds_heap s' = ds_heap s
    /\ die_at s' p' (MkDie (freeze r) (die_mutable d) r (die_seal d))
    /\ (if die_mutable d then p' = p /\ frame s s' ∅ {[ p ]} else (p' ∉ dom (ds_dies s)) /\ frame s s' ∅ ∅).
Proof.
  intros Hp. unfold DieFeed. rewrite (get_die_at _ _ _ Hp). simpl. destruct (die_mutable d) eqn:Hm.
  - eexists _, p. split_and!; [done|done|apply die_at_put|done|apply frame_put].
  - destruct (new_die _ s) as [s' p'] eqn:Hn. apply new_die_effect in Hn as (Hf & Hh & Hq & Hd).
    exists s', p'. by split_and!.
Qed.

(** A callback of DieStamp that turns the value it is given into [f] of it.  The
    dies [B] (the package's blank dies) are there; the callback changes only the
    cells of the resource it is given, and no existing die. *)
Definition stamped (f : V -> V) s r s' r' : Prop :=
  ok s' r' /\ value s' r' = f (value s r)
  /\ frame s s' (cells s r) ∅ /\ cells s' r' ∩ dom (ds_heap s) ⊆ cells s r.

Definition stamps B (fn : T -> dstate cell D -> outcome (dstate cell D * T)) (f : V -> V) : Prop :=
  forall s r, B ⊆ ds_dies s -> ok s r -> exists s' r', fn r s = Ret (s', r') /\ stamped f s r s' r'.

Lemma stamped_refl s r : ok s r -> stamped (fun v => v) s r s r.
Proof. intros Ho. split_and!; [done|done|apply frame_refl|set_solver]. Qed.

Lemma stamped_trans f g s r s1 r1 s2 r2 :
  stamped f s r s1 r1 -> stamped g s1 r1 s2 r2 -> stamped (fun v => g (f v)) s r s2 r2.
Proof.
  intros (A1 & A2 & A3 & A4) (B1 & B2 & B3 & B4). pose proof (fr_dom _ _ _ _ A3).
  split_and!; [done|congruence| |set_solver]. eapply frame_trans; [exact A3|exact B3| |]; set_solver.
Qed.

(** What a method that returns a die did: the new die has the same seal and
    mutability and the value [f v]; a mutable die was changed in place, an
    immutable one is as it was. *)
Record edited (f : V -> V) s p d s' p' d' : Prop := {
  ed_at : die_at s' p' d';
  ed_mutable : die_mutable d' = die_mutable d;
  ed_seal : die_seal d' = die_seal d;
  ed_frozen : die_frozen d = freeze (die_r d) -> die_frozen d' = freeze (die_r d');
  ed_ok : ok s' (die_r d');
  ed_value : value s' (die_r d') = f (value s (die_r d));
  ed_place : if die_mutable d then p' = p else p' ∉ dom (ds_dies s);
  ed_frame : frame s s' (if die_mutable d then cells s (die_r d) else ∅) (if die_mutable d then {[ p ]} else ∅);
  ed_cells : cells s' (die_r d') ∩ dom (ds_heap s) ⊆ if die_mutable d then cells s (die_r d) else ∅;
}.

Definition edits B (m : loc -> dstate cell D -> outcome (dstate cell D * loc)) (f : V -> V) : Prop :=
  forall s p d, B ⊆ ds_dies s -> die_at s p d -> ok s (die_r d) -> (die_mutable d = true -> p ∉ dom B) ->
  exists s' p' d', m p s = Ret (s', p') /\ edited f s p d s' p' d'.

Lemma stamp_edited B fn f s p d :
  B ⊆ ds_dies s -> die_at s p d -> ok s (die_r d) ->
  (forall s1 r1, B ⊆ ds_dies s1 -> ok s1 r1 -> value s1 r1 = value s (die_r d) ->
     exists s2 r2, fn r1 s1 = Ret (s2, r2) /\ stamped f s1 r1 s2 r2) ->
  exists s' p' d', DieStamp fn p s = Ret (s', p') /\ edited f s p d s' p' d'.
Proof.
  intros HB Hp Hok Hfn.
  destruct (DieRelease_effect p s d Hp Hok) as (s1 & r1 & Hrel & Hf1 & Hd1 & Ho1 & Hv1 & Hm1).
  destruct (Hfn s1 r1) as (s2 & r2 & Hst & Ho2 & Hv2 & Hf2 & Hc2); [by rewrite Hd1|done|done|].
  assert (Hp2 : die_at s2 p d) by (eapply frame_die_at; [exact Hf2|unfold die_at; by rewrite Hd1|set_solver]).
  destruct (DieFeed_effect r2 p s2 d Hp2) as (s3 & p3 & Hfeed & Hh & Hat & Hpl).
  exists s3, p3, (MkDie (freeze r2) (die_mutable d) r2 (die_seal d)).
  unfold DieStamp. rewrite Hrel. simpl. rewrite Hst. simpl. split; [done|].
  assert (HF : frame s s2 (if die_mutable d then cells s (die_r d) else ∅) ∅).
  { eapply frame_trans; [eapply frame_weaken; [exact Hf1|set_solver|set_solver]|exact Hf2| |set_solver].
    destruct (die_mutable d); [by destruct Hm1 as [-> ->]; set_solver|set_solver]. }
  split; simpl; try done.
  - unfold ok. by rewrite Hh.
  - unfold value at 1. rewrite Hh. fold (value s2 r2). by rewrite Hv2, Hv1.
  - destruct (die_mutable d); [naive_solver|]. destruct Hpl as [Hpl _]. pose proof (fr_dom_dies _ _ _ _ HF). set_solver.
  - destruct (die_mutable d); destruct Hpl as [_ Hpl].
    + eapply frame_trans; [eapply frame_weaken; [exact HF|set_solver|set_solver]|exact Hpl|set_solver|set_solver].
    + eapply frame_trans; [exact HF|exact Hpl|set_solver|set_solver].
  - unfold cells at 1. rewrite Hh. fold (cells s2 r2). pose proof (fr_dom _ _ _ _ Hf1).
    destruct (die_mutable d); [by destruct Hm1 as [-> ->]|set_solver].
Qed.

Lemma stamp_edits B fn f : stamps B fn f -> edits B (DieStamp fn) f.
Proof. intros Hfn s p d HB Hp Hok _. apply (stamp_edited B); auto. Qed.

Lemma edited_trans f g s p d s1 p1 d1 s2 p2 d2 :
  edited f s p d s1 p1 d1 -> edited g s1 p1 d1 s2 p2 d2 -> edited (fun v => g (f v)) s p d s2 p2 d2.
Proof.
  intros [A1 A2 A3 A4 A5 A6 A7 A8 A9] [B1 B2 B3 B4 B5 B6 B7 B8 B9].
  pose proof (fr_dom _ _ _ _ A8) as Hd. pose proof (fr_dom_dies _ _ _ _ A8) as Hdd.
  rewrite A2 in *. split; [done|congruence|congruence|auto|done|by rewrite B6, A6| | |].
  - destruct (die_mutable d); [congruence|set_solver].
  - eapply frame_trans; [exact A8|exact B8| |]; destruct (die_mutable d); subst; set_solver.
  - destruct (die_mutable d); set_solver.
Qed.

(** After a method the blank dies are still there, and the result can be edited
    again. *)
Lemma edited_keeps B f s p d s' p' d' :
  edited f s p d s' p' d' -> B ⊆ ds_dies s -> (die_mutable d = true -> p ∉ dom B) ->
  B ⊆ ds_dies s' /\ (die_mutable d' = true -> p' ∉ dom B).
Proof.
  intros [_ A2 _ _ _ _ A7 A8 _] HB Hp. rewrite A2. split.
  - eapply frame_keeps; [exact A8|done|]. destruct (die_mutable d); set_solver.
  - intros Hm. rewrite Hm in A7. subst. auto.
Qed.

(** The die the method was called on. *)
Lemma edited_old f s p d s' p' d' :
  edited f s p d s' p' d' -> die_at s p d -> ok s (die_r d) ->
  if die_mutable d then p' = p else die_at s' p d /\ value s' (die_r d) = value s (die_r d).
Proof.
  intros E Hp Hok. pose proof (ed_place _ _ _ _ _ _ _ E) as Hpl. pose proof (ed_frame _ _ _ _ _ _ _ E) as Hf.
  destruct (die_mutable d); [done|]. split; [by eapply die_at_kept|].
  eapply frame_value; [exact Hf|done|set_solver].
Qed.

(** One method after the other, on the die the first returns. *)
Definition and_then (m m' : loc -> dstate cell D -> outcome (dstate cell D * loc)) (p : loc) (s : dstate cell D)
    : outcome (dstate cell D * loc) :=
  let! (s, p) := m p s in m' p s.

Lemma edits_seq B m m' f g : edits B m f -> edits B m' g -> edits B (and_then m m') (fun v => g (f v)).
Proof.
  intros Hm Hm' s p d HB Hp Hok Hpb. destruct (Hm s p d HB Hp Hok Hpb) as (s1 & p1 & d1 & H1 & E1).
  destruct (edited_keeps B _ _ _ _ _ _ _ E1 HB Hpb) as [HB1 Hpb1].
  destruct (Hm' s1 p1 d1 HB1 (ed_at _ _ _ _ _ _ _ E1) (ed_ok _ _ _ _ _ _ _ E1) Hpb1) as (s2 & p2 & d2 & H2 & E2).
  exists s2, p2, d2. unfold and_then. rewrite H1. simpl. split; [done|]. by eapply edited_trans.
Qed.

(** A callback given a mutable die. *)
Definition touches B (fn : loc -> dstate cell D -> outcome (dstate cell D)) (f : V -> V) : Prop :=
  forall s p d, B ⊆ ds_dies s -> die_at s p d -> ok s (die_r d) -> die_mutable d = true -> p ∉ dom B ->
  exists s' d', fn p s = Ret s' /\ edited f s p d s' p d'.

(** [func(d) { d.Method(...) }] *)
Definition calling (m : loc -> dstate cell D -> outcome (dstate cell D * loc)) (p : loc) (s : dstate cell D)
    : outcome (dstate cell D) :=
  let! (s, _) := m p s in Ret s.

Lemma calling_touches B m f : edits B m f -> touches B (calling m) f.
Proof.
  intros Hm s p d HB Hp Hok Hmut Hpb. destruct (Hm s p d HB Hp Hok (fun _ => Hpb)) as (s' & p' & d' & H1 & E).
  pose proof (ed_place _ _ _ _ _ _ _ E) as Hpl. rewrite Hmut in Hpl. subst p'.
  exists s', d'. unfold calling. by rewrite H1.
Qed.

Lemma edited_refl s p d :
  die_at s p d -> ok s (die_r d) -> die_mutable d = true -> edited (fun v => v) s p d s p d.
Proof. intros Hp Hok Hm. split; rewrite ?Hm; try done; set_solver. Qed.

(** ** DieImmutable and DieWith *)

Lemma DieImmutable_effect b p s d :
  die_at s p d -> ok s (die_r d) ->
  exists s' p' d', DieImmutable b p s = Ret (s', p') /\ die_at s' p' d' /\ die_mutable d' = negb b
    /\ die_seal d' = die_seal d /\ ok s' (die_r d') /\ value s' (die_r d') = value s (die_r d) /\ frame s s' ∅ ∅
    /\ (if Bool.eqb (die_mutable d) (negb b) then s' = s /\ p' = p /\ d' = d
        else (p' ∉ dom (ds_dies s)) /\ cells s' (die_r d') ## dom (ds_heap s)).
Proof.
  intros Hp Hok. unfold DieImmutable, Die_DeepCopy. rewrite (get_die_at _ _ _ Hp). simpl.
  destruct (Bool.eqb (die_mutable d) (negb b)) eqn:Hb.
  { exists s, p, d. apply Bool.eqb_prop in Hb. split_and!; done. }
  destruct (copy_T (die_r d) s) as [s1 r] eqn:Hc.
  apply copy_T_effect in Hc as (Hf & Hds & Ho & Hv & Hx); [|done].
  destruct (new_die _ s1) as [s2 q] eqn:Hn. apply new_die_effect in Hn as (Hf2 & Hh2 & Hq & Hat).
  simpl. rewrite (get_die_at _ _ _ Hat). simpl. rewrite Hds in Hq.
  eexists _, q, _. split_and!; [done|apply die_at_put|done|done| | | |done|].
  - unfold ok. simpl. by rewrite Hh2.
  - unfold value at 1. simpl. by rewrite Hh2.
  - eapply frame_trans; [eapply frame_trans; [exact Hf|exact Hf2|set_solver|set_solver]|apply frame_put| |]; set_solver.
  - unfold cells. simpl. by rewrite Hh2.
Qed.

Lemma make_blank_effect (fz : Frozen) (zero : T) s :
  exists s' p, make_blank fz zero s = Ret (s', p) /\ frame s s' ∅ ∅
    /\ die_at s' p (MkDie (freeze zero) false zero zero).
Proof.
  unfold make_blank. destruct (new_die _ s) as [s1 q] eqn:Hn. apply new_die_effect in Hn as (Hf & _ & _ & Hat).
  destruct (DieFeed_effect zero q s1 _ Hat) as (s' & p & -> & _ & Hat' & _ & Hf'). exists s', p.
  split_and!; [done| |done]. eapply frame_trans; [exact Hf|exact Hf'| |]; set_solver.
Qed.

(** The blank die of the package: an immutable die of a resource that is valid in
    every heap. *)
Definition blank_in B blank (z z' : T) (fz : Frozen) : Prop :=
  B !! blank = Some (to_any (MkDie fz false z z')) /\ forall h, valid h z.

Lemma with_die_stamps B blank z z' fz fn f :
  blank_in B blank z z' fz -> touches B fn f -> stamps B (with_die blank fn) f.
Proof.
  intros [Hb Hz] Hfn s r HB Hok. assert (Hat : die_at s blank (MkDie fz false z z')) by (by eapply lookup_weaken).
  destruct (DieImmutable_effect false blank s _ Hat (Hz _)) as (s1 & nd & d1 & H1 & Hat1 & Hm1 & _ & _ & _ & Hf1 & Hfr).
  simpl in Hm1, Hfr. destruct Hfr as [Hnd _].
  destruct (DieFeed_effect r nd s1 d1 Hat1) as (s2 & nd2 & H2 & Hh2 & Hat2 & Hpl2).
  rewrite Hm1 in Hat2, Hpl2. destruct Hpl2 as [-> Hf2].
  assert (Hf : frame s s2 ∅ ∅) by (eapply frame_trans; [exact Hf1|exact Hf2|set_solver|set_solver]).
  destruct (frame_value s s2 ∅ ∅ r Hf Hok) as (Hc2 & Hv2 & Ho2); [set_solver|].
  assert (HdB : dom B ⊆ dom (ds_dies s)) by (by apply subseteq_dom).
  destruct (Hfn s2 nd _ (frame_keeps _ _ _ _ _ Hf HB ltac:(set_solver)) Hat2 Ho2 eq_refl) as (s3 & d3 & H3 & E);
    [set_solver|].
  destruct (DieRelease_effect nd s3 d3 (ed_at _ _ _ _ _ _ _ E) (ed_ok _ _ _ _ _ _ _ E))
    as (s4 & r4 & H4 & _ & _ & _ & _ & Hm4).
  destruct E as [E1 E2 _ _ E5 E6 _ E8 E9]. simpl in *. rewrite E2 in Hm4. destruct Hm4 as [-> ->].
  exists s3, (die_r d3). unfold with_die. rewrite H1. simpl. rewrite H2. simpl. rewrite H3. simpl.
  split_and!; [done|split_and!; [done|by rewrite E6, Hv2| |]].
  - eapply frame_trans; [eapply frame_weaken; [exact Hf|set_solver|set_solver]|exact E8| |]; set_solver.
  - pose proof (fr_dom _ _ _ _ Hf). set_solver.
Qed.

Definition fn_denotes B (o : option (loc -> dstate cell D -> outcome (dstate cell D))) (f : V -> V) : Prop :=
  match o with None => f = fun v => v | Some fn => touches B fn f end.

Lemma with_loop_touches B fns fs :
  Forall2 (fn_denotes B) fns fs -> touches B (with_loop fns) (fun v => foldl (fun v f => f v) v fs).
Proof.
  induction 1 as [|o f fns fs Ho _ IH]; intros s p d HB Hp Hok Hm Hpb; simpl.
  { exists s, d. split; [done|]. by apply edited_refl. }
  destruct o as [fn|]; simpl in Ho; [|subst f; by apply IH].
  destruct (Ho s p d HB Hp Hok Hm Hpb) as (s1 & d1 & H1 & E1). rewrite H1. simpl.
  destruct (edited_keeps B _ _ _ _ _ _ _ E1 HB (fun _ => Hpb)) as [HB1 _].
  destruct (IH s1 p d1 HB1) as (s2 & d2 & H2 & E2); [apply E1|apply E1|by rewrite (ed_mutable _ _ _ _ _ _ _ E1)|done|].
  exists s2, d2. split; [done|]. apply (edited_trans f (fun v => foldl (fun v f => f v) v fs) _ _ _ _ _ _ _ _ _ E1 E2).
Qed.

(** Feeding a die a resource of new cells. *)
Lemma feed_edited f p s d s1 r :
  die_at s p d -> frame s s1 ∅ ∅ -> ok s1 r -> value s1 r = f (value s (die_r d)) ->
  cells s1 r ## dom (ds_heap s) ->
  exists s' p' d', DieFeed r p s1 = Ret (s', p') /\ edited f s p d s' p' d'.
Proof.
  intros Hp Hf Ho Hv Hc.
  assert (Hp1 : die_at s1 p d) by (eapply frame_die_at; [exact Hf|done|set_solver]).
  destruct (DieFeed_effect r p s1 d Hp1) as (s2 & p2 & H2 & Hh & Hat & Hpl).
  exists s2, p2, (MkDie (freeze r) (die_mutable d) r (die_seal d)). split; [done|].
  pose proof (fr_dom_dies _ _ _ _ Hf) as Hdd.
  split; simpl; try done.
  - unfold ok. by rewrite Hh.
  - unfold value at 1. by rewrite Hh.
  - destruct (die_mutable d); [naive_solver|]. destruct Hpl. set_solver.
  - destruct (die_mutable d); destruct Hpl as [_ Hpl].
    + eapply frame_trans; [eapply frame_weaken; [exact Hf|set_solver|set_solver]|exact Hpl| |]; set_solver.
    + eapply frame_trans; [exact Hf|exact Hpl| |]; set_solver.
  - unfold cells at 1. rewrite Hh. fold (cells s1 r). set_solver.
Qed.

Lemma with_edits B blank z z' fz fns fs :
  blank_in B blank z z' fz -> Forall2 (fn_denotes B) fns fs ->
  edits B (DieWith blank fns) (fun v => foldl (fun v f => f v) v fs).
Proof.
  intros [Hb Hz] Hfns s p d HB Hp Hok Hpb. unfold DieWith.
  destruct (DieRelease_effect p s d Hp Hok) as (s1 & r1 & H1 & Hf1 & Hd1 & Ho1 & Hv1 & _). rewrite H1. simpl.
  assert (Hbl : die_at s1 blank (MkDie fz false z z')).
  { unfold die_at. rewrite Hd1. by eapply lookup_weaken. }
  destruct (DieFeed_effect r1 blank s1 _ Hbl) as (s2 & q & H2 & Hh2 & Hat2 & Hq & Hf2). rewrite H2. simpl.
  assert (Ho2 : ok s2 r1) by (unfold ok; by rewrite Hh2).
  destruct (DieImmutable_effect false q s2 _ Hat2 Ho2)
    as (s3 & nd & d3 & H3 & Hat3 & Hm3 & _ & Ho3 & Hv3 & Hf3 & Hnd & Hc3). rewrite H3. simpl in *.
  assert (Hf : frame s s3 ∅ ∅).
  { eapply frame_trans; [eapply frame_trans; [exact Hf1|exact Hf2| |]|exact Hf3| |]; set_solver. }
  assert (Hnd' : nd ∉ dom (ds_dies s)).
  { pose proof (fr_dom_dies _ _ _ _ Hf1). pose proof (fr_dom_dies _ _ _ _ Hf2). set_solver. }
  assert (HdB : dom B ⊆ dom (ds_dies s)) by (by apply subseteq_dom).
  destruct (with_loop_touches B fns fs Hfns s3 nd d3 (frame_keeps _ _ _ _ _ Hf HB ltac:(set_solver)) Hat3 Ho3 Hm3)
    as (s4 & d4 & H4 & E); [set_solver|]. rewrite H4. simpl.
  destruct (DieRelease_effect nd s4 d4 (ed_at _ _ _ _ _ _ _ E) (ed_ok _ _ _ _ _ _ _ E))
    as (s5 & r5 & H5 & _ & _ & _ & _ & Hm5).
  destruct E as [E1 E2 _ _ E5 E6 _ E8 E9]. rewrite E2, Hm3 in Hm5. simpl in *. destruct Hm5 as [-> ->]. rewrite H5. simpl.
  rewrite Hm3 in *. pose proof (fr_dom _ _ _ _ Hf) as HD. pose proof (fr_dom _ _ _ _ Hf1) as HD1.
  assert (HD2 : dom (ds_heap s) ⊆ dom (ds_heap s2)) by (by rewrite Hh2).
  apply (feed_edited _ p s d); [done| |done| |set_solver].
  - eapply frame_trans; [exact Hf|exact E8| |]; set_solver.
  - rewrite E6, Hv3. unfold value at 1. rewrite Hh2. fold (value s1 r1). by rewrite Hv1.
Qed.

(** ** Seals *)

Lemma Die_DeepCopy_effect p s d :
  die_at s p d -> ok s (die_r d) ->
  exists s' p' d', Die_DeepCopy p s = Ret (s', p') /\ die_at s' p' d' /\ die_mutable d' = die_mutable d
    /\ ok s' (die_r d') /\ value s' (die_r d') = value s (die_r d) /\ frame s s' ∅ ∅
    /\ (p' ∉ dom (ds_dies s)) /\ cells s' (die_r d') ## dom (ds_heap s).
Proof.
  intros Hp Hok. unfold Die_DeepCopy. rewrite (get_die_at _ _ _ Hp). simpl.
  destruct (copy_T (die_r d) s) as [s1 r] eqn:Hc. apply copy_T_effect in Hc as (Hf & Hds & Ho & Hv & Hx); [|done].
  destruct (new_die _ s1) as [s2 q] eqn:Hn. apply new_die_effect in Hn as (Hf2 & Hh & Hq & Hat).
  eexists s2, q, _. split_and!; [done|exact Hat|done|unfold ok; by rewrite Hh|unfold value; by rewrite Hh| |by rewrite <- Hds|unfold cells; by rewrite Hh].
  eapply frame_trans; [exact Hf|exact Hf2| |]; set_solver.
Qed.

Lemma DieSeal_effect p s d :
  die_at s p d -> ok s (die_r d) ->
  exists s' p' d', DieSeal p s = Ret (s', p') /\ die_at s' p' d' /\ die_mutable d' = die_mutable d
    /\ ok s' (die_r d') /\ value s' (die_r d') = value s (die_r d)
    /\ ok s' (die_seal d') /\ value s' (die_seal d') = value s (die_r d)
    /\ cells s' (die_seal d') ## cells s' (die_r d')
    /\ (if die_mutable d then p' = p else p' ∉ dom (ds_dies s))
    /\ frame s s' ∅ (if die_mutable d then {[ p ]} else ∅).
Proof.
  intros Hp Hok.
  assert (Hpre : exists s0 p0 d0, (if negb (die_mutable d) then Die_DeepCopy p s else Ret (s, p)) = Ret (s0, p0)
    /\ die_at s0 p0 d0 /\ die_mutable d0 = die_mutable d /\ ok s0 (die_r d0)
    /\ value s0 (die_r d0) = value s (die_r d) /\ frame s s0 ∅ ∅
    /\ (if die_mutable d then p0 = p else p0 ∉ dom (ds_dies s))).
  { destruct (die_mutable d) eqn:Hm; simpl; [exists s, p, d; by split_and!|].
    destruct (Die_DeepCopy_effect p s d Hp Hok) as (s0 & p0 & d0 & H0). rewrite Hm in H0.
    exists s0, p0, d0. naive_solver. }
  destruct Hpre as (s0 & p0 & d0 & H0 & Hat0 & Hm0 & Ho0 & Hv0 & Hf0 & Hpl).
  destruct (frame_value s s0 ∅ ∅ (die_r d) Hf0 Hok) as (_ & Hvr & Hor); [set_solver|].
  destruct (copy_T (die_r d) s0) as [sc sl] eqn:Hc. pose proof Hc as Hc'.
  apply copy_T_effect in Hc' as (Hfc & Hdc & Hoc & Hvc & Hcc); [|done].
  assert (Hatc : die_at sc p0 d0) by (unfold die_at; by rewrite Hdc).
  destruct (frame_value s0 sc ∅ ∅ (die_r d0) Hfc Ho0) as (Hcr & Hvr0 & Hor0); [set_solver|].
  eexists _, p0, (MkDie (die_frozen d0) (die_mutable d0) (die_r d0) sl).
  unfold DieSeal, DieSealFeed. rewrite (get_die_at _ _ _ Hp). simpl. rewrite H0. simpl. rewrite Hc.
  rewrite (get_die_at _ _ _ Hatc). simpl. unfold ok, value, cells in *.
  split_and!; [done|apply die_at_put|done|done|simpl; congruence|done|simpl; congruence| |done|].
  - simpl. rewrite Hcr. pose proof (dc_valid _ _ Ho0). set_solver.
  - eapply frame_trans; [eapply frame_trans; [eapply frame_weaken; [exact Hf0| |]|exact Hfc| |]|apply frame_put| |];
      destruct (die_mutable d); subst; set_solver.
Qed.
End methods.

(** ** Fields *)

(** [get] and [set] are a field of the struct [U], [view] and [update] what they
    are on the values.  Replacing the field by one that refers to the field's
    cells and new ones keeps the struct valid and the other fields as they
    were. *)
Section parts.
Context {cell T V U W : Type} `{@DeepCopyable cell T V} `{@DeepCopyable cell U W}.

Record part (get : U -> T) (set : T -> U -> U) (view : W -> V) (update : V -> W -> W) : Prop := {
  part_valid : forall h r, valid h r -> valid h (get r);
  part_fp : forall h r, fp h (get r) ⊆ fp h r;
  part_view : forall h r, rd h (get r) = view (rd h r);
  part_set : forall h h' r v, valid h r -> valid h' v ->
    (forall l, l ∈ dom h -> l ∉ fp h (get r) -> h' !! l = h !! l) ->
    fp h' v ∩ dom h ⊆ fp h (get r) ->
    valid h' (set v r) /\ rd h' (set v r) = update (rd h' v) (rd h r) /\ fp h' (set v r) ∩ dom h ⊆ fp h r;
}.
End parts.

Section fields.
Context {cell D T V U W : Type} `{TL : @DeepCopyLaws cell T V TC} `{UL : @DeepCopyLaws cell U W UC}.

Lemma field_stamps (B : gmap loc D) (get : U -> T) (set : T -> U -> U) (view : W -> V) (update : V -> W -> W)
    (k : T -> dstate cell D -> outcome (dstate cell D * T)) (f : V -> V) :
  part get set view update -> stamps B k f ->
  stamps B (on_field get set k) (fun v => update (f (view v)) v).
Proof.
  intros [P1 P2 P3 P4] Hk s r HB Hok.
  destruct (Hk s (get r) HB (P1 _ _ Hok)) as (s' & v & H1 & Ho & Hv & Hf & Hc).
  destruct (P4 (ds_heap s) (ds_heap s') r v) as (Q1 & Q2 & Q3); [done|done|apply Hf|done|].
  exists s', (set v r). unfold on_field. rewrite H1. simpl. unfold stamped. split_and!; [done|done| | |done].
  - unfold value at 1. rewrite Q2. fold (value s' v). rewrite Hv. unfold value at 1. by rewrite P3.
  - eapply frame_weaken; [exact Hf| |set_solver]. pose proof (P2 (ds_heap s) r). unfold cells. set_solver.
Qed.
End fields.

(** A callback that only replaces plain fields. *)
Lemma assign_stamps {cell D T V} `{@DeepCopyLaws cell T V DC} (B : gmap loc D) (g : T -> T) (f : V -> V) :
  (forall h r, valid h r -> valid h (g r) /\ fp h (g r) = fp h r /\ rd h (g r) = f (rd h r)) ->
  stamps B (assign g) f.
Proof.
  intros Hg s r _ Hok. destruct (Hg (ds_heap s) r Hok) as (H1 & H2 & H3). exists s, (g r).
  unfold stamped. split_and!; [done|done|done|apply frame_refl|]. unfold cells. rewrite H2. set_solver.
Qed.

(** The only part of a struct of one part, and the two of a struct of two. *)
Section struct_parts.
Context {cell A VA T V : Type} `{AL : @DeepCopyLaws cell A VA AC}.

Lemma part_of_one `{UC : !@DeepCopyable cell T V} (get : T -> A) set view update :
  (forall h r, valid h r <-> valid h (get r)) -> (forall h r, fp h r = fp h (get r)) ->
  (forall v r, get (set v r) = v) ->
  (forall h r, rd h (get r) = view (rd h r)) ->
  (forall h h' v r, rd h' (set v r) = update (rd h' v) (rd h r)) ->
  part get set view update.
Proof.
  intros Hv Hf Hg Hr Hu. split.
  - intros h r. apply Hv.
  - intros h r. by rewrite Hf.
  - done.
  - intros h h' r v _ Hv' _ Hc. rewrite Hv, !Hf, Hg. by split_and!.
Qed.

Context {C VC : Type} `{CL : @DeepCopyLaws cell C VC CC}.

(** [get] is the part that is replaced, [other] the one that stays. *)
Lemma part_of_two `{UC : !@DeepCopyable cell T V} (get : T -> A) (other : T -> C) set view update :
  (forall h r, valid h r <-> valid h (get r) /\ valid h (other r) /\ fp h (get r) ## fp h (other r)) ->
  (forall h r, fp h r = fp h (get r) ∪ fp h (other r)) ->
  (forall v r, get (set v r) = v) -> (forall v r, other (set v r) = other r) ->
  (forall h r, rd h (get r) = view (rd h r)) ->
  (forall h h' v r, rd h' (other r) = rd h (other r) -> rd h' (set v r) = update (rd h' v) (rd h r)) ->
  part get set view update.
Proof.
  intros Hv Hf Hg Ho Hr Hu. split.
  - intros h r Hok. by apply Hv in Hok as (? & _).
  - intros h r. rewrite Hf. set_solver.
  - done.
  - intros h h' r v (Hv1 & Hv2 & Hd)%Hv Hv' Hl Hc.
    destruct (dc_local h h' (other r)) as (Hfo & Hro & Hvo).
    { intros l Hlo. apply Hl; [by apply (dc_valid h (other r) Hv2)|set_solver]. }
    pose proof (dc_valid h (other r) Hv2) as Hdo.
    rewrite Hv, !Hf, Hg, Ho, Hfo. split_and!; [done|auto|set_solver|by apply Hu|set_solver].
Qed.
End struct_parts.

(** A field without references. *)
Lemma part_plain {cell T U W} `{UL : @DeepCopyLaws cell U W UC} (get : U -> T) set view (update : T -> W -> W) :
  (forall h r v, (valid h (set v r) <-> valid h r) /\ fp h (set v r) = fp h r
     /\ rd h (set v r) = update v (rd h r)) ->
  (forall h r, get r = view (rd h r)) ->
  @part cell T T U W (copy_plain T) UC get set view update.
Proof.
  intros Hs Hg. split; simpl; [done|set_solver|done|]. intros h h' r v Hok _ Hl _.
  destruct (Hs h' r v) as (Hsv & Hsf & Hsr). destruct (dc_local h h' r) as (Hf & Hr & Hv).
  { intros l Hl'. apply Hl; [by apply (dc_valid h r Hok)|set_solver]. }
  rewrite Hsv, Hsf, Hsr, Hf, Hr. split_and!; [auto|done|set_solver].
Qed.

(** ** Conditions *)

(** The list with the first condition of type [v] replaced by [f] of it, or a new
    one added. *)
Fixpoint upsert (v : string) (f : Condition -> Condition) (cs : list Condition) : list Condition :=
  match cs with
  | [] => [f (new_condition v)]
  | c :: cs' => if String.eqb v (c_Type c) then f c :: cs' else c :: upsert v f cs'
  end.

Lemma find_condition_upsert v f i cs :
  match find_condition v i cs with
  | Some (j, c) => exists k, j = i + k /\ k < length cs /\ upsert v f cs = <[ k := f c ]> cs
  | None => upsert v f cs = cs ++ [f (new_condition v)]
  end.
Proof.
  revert i. induction cs as [|c cs IH]; intros i; simpl; [done|].
  destruct (String.eqb v (c_Type c)); [exists 0; split_and!; [lia|lia|done]|].
  specialize (IH (S i)). destruct (find_condition v (S i) cs) as [[j c']|]; [|by rewrite IH].
  destruct IH as (k & -> & Hk & ->). exists (S k). split_and!; [lia|lia|done].
Qed.

Section condition_slices.
Context {cell D : Type} `{!ArrayCell cell Condition}.
#[local] Instance plain_condition : @DeepCopyable cell Condition Condition := copy_plain Condition.
#[local] Instance plain_condition_laws : @DeepCopyLaws _ _ _ plain_condition := copy_plain_laws Condition.

Lemma plain_rd_slice (h : gmap loc cell) r : rd_slice h r = slice_read h r.
Proof. unfold rd_slice, rd_list. simpl. apply list_fmap_id. Qed.

Lemma plain_fp_slice (h : gmap loc cell) r :
  fp_slice h r = match sl_arr r with None => ∅ | Some l => {[ l ]} end.
Proof.
  unfold fp_slice. destruct (sl_arr r); [|done]. unfold fp_list.
  assert (Hu : ⋃ (fp h <$> slice_read h r) = ∅); [|rewrite Hu; set_solver].
  induction (slice_read h r); simpl; set_solver.
Qed.

Lemma plain_valid_slice (h : gmap loc cell) r : valid_slice h r <-> slice_wf h r.
Proof. split; [by intros [? _]|]. intros Hw. split; [done|]. by apply Forall_true. Qed.

#[local] Instance condition_slice : @DeepCopyable cell slice (list Condition) := copyable_slice.

Lemma conditions_die_stamps (B : gmap loc D) grow v stamp f :
  stamps B stamp f -> stamps B (conditions_die grow v stamp) (upsert v f).
Proof.
  intros Hst s r HB Hok. assert (Hw : slice_wf (ds_heap s) r) by exact (proj1 (plain_valid_slice _ _) Hok).
  pose proof (find_condition_upsert v f 0 (slice_read (ds_heap s) r)) as Hfind.
  unfold conditions_die, stamped, value, ok, cells in *. simpl in *.
  assert (Hin : forall c, exists s' , stamp c s = Ret (s', f c) /\ frame s s' ∅ ∅).
  { intros c. destruct (Hst s c HB I) as (s' & c' & H1 & _ & Hv & Hf & _). exists s'.
    unfold value in Hv. simpl in Hv. by subst c'. }
  destruct (find_condition v 0 _) as [[j c]|].
  - destruct Hfind as (k & -> & Hk & Hu). simpl. destruct (Hin c) as (s1 & -> & Hf). simpl.
    destruct (slice_local (ds_heap s) (ds_heap s1) r) as (Hr1 & _ & Hw1).
    { intros l Hl. apply (fr_cells _ _ _ _ Hf); [by eapply slice_wf_dom|set_solver]. }
    rewrite slice_read_length in Hk by done.
    destruct (slice_set_spec (ds_heap s1) r k (f c) (Hw1 Hw) Hk) as (h' & l & Hl & -> & Hr2 & Hw2 & Hd2 & Ho2).
    exists (set_heap h' s1), r. simpl. rewrite !plain_rd_slice, !plain_fp_slice, plain_valid_slice, Hr2, Hr1, Hu, Hl.
    split_and!; [done|done|done| |set_solver]. destruct Hf as [F1 F2 F3 F4].
    constructor; simpl; [|by rewrite Hd2|done|done]. intros l' Hl' Hn. rewrite Ho2 by set_solver. apply F1; set_solver.
  - destruct (Hin (new_condition v)) as (s1 & -> & Hf). simpl.
    destruct (slice_local (ds_heap s) (ds_heap s1) r) as (Hr1 & _ & Hw1).
    { intros l Hl. apply (fr_cells _ _ _ _ Hf); [by eapply slice_wf_dom|set_solver]. }
    destruct (append grow (ds_heap s1) r (f (new_condition v))) as [h' r'] eqn:Ha.
    apply append_spec in Ha as (Hw2 & Hr2 & l & Hl & Hor & Hd2 & Ho2); [|auto].
    exists (set_heap h' s1), r'. simpl. rewrite !plain_rd_slice, !plain_fp_slice, plain_valid_slice, Hr2, Hr1, Hfind, Hl.
    destruct Hf as [F1 F2 F3 F4].
    split_and!; [done|done|done| |destruct Hor as [->|]; set_solver].
    constructor; simpl; [|set_solver|done|done]. intros l' Hl' Hn.
    rewrite Ho2; [apply F1; set_solver|]. intros ->. destruct Hor as [Hor|]; [rewrite Hor in Hn|]; set_solver.
Qed.
End condition_slices.

(** ** The metadata's zero value and die: documented behaviour *)

Definition meta_set_Name (n : string) (m : ObjectMeta) : ObjectMeta :=
  MkObjectMeta n (om_Namespace m) (om_UID m) (om_ResourceVersion m) (om_Generation m)
    (om_DeletionTimestamp m) (om_Labels m) (om_OwnerReferences m) (om_Finalizers m).

Class MetaDiesLaws (cell D SMeta FMeta : Type) `{MC : !@DeepCopyable cell SMeta ObjectMeta}
    `{MD : !MetaDies cell D SMeta FMeta} : Prop := {
  meta_zero_valid : forall h : gmap loc cell, valid h meta_zero;
  meta_zero_fp : forall h : gmap loc cell, fp h meta_zero = ∅;
  meta_zero_rd : forall h : gmap loc cell, rd h meta_zero = blank_meta;
  ObjectMetaDie_Name_stamps : forall (B : gmap loc D) name,
    stamps B (ObjectMetaDie_with (ObjectMetaDie_Name name)) (meta_set_Name name);
}.
