(* ===== verification/DieTheorems.v ===== *)
(** * Theorems on the methods every die has

    Immutable dies do not change, DieWith runs its callbacks on a mutable copy,
    a seal is a snapshot, and what a die releases it can be fed. *)

From S2P Require Import Prelude Slices Heap Platform ApiV1 Dies DieLaws.

#[local] Open Scope go_scope.

Section theorems.
Context {cell D T V Frozen : Type} `{DL : @DeepCopyLaws cell T V DC} `{DK : !DieKind D T Frozen}.
Implicit Types (s : dstate cell D) (p : loc) (r : T) (d : die T Frozen).

(** A callback that writes only to the cells of the resource it is given, or to
    new ones, and does not touch immutable dies. *)
Definition callback_ok (fn : T -> dstate cell D -> outcome (dstate cell D * T)) : Prop :=
  forall r s s' r', ok s r -> fn r s = Ret (s', r') ->
    (forall l, l ∈ dom (ds_heap s) -> l ∉ cells s r -> ds_heap s' !! l = ds_heap s !! l)
    /\ (forall p d, die_at s p d -> die_mutable d = false -> die_at s' p d).

(** C33: stamping an immutable die leaves it as it was, whatever the callback
    writes through the pointer it is given: the callback works on a deep copy
    that reads like the die's resource, and the result is a new immutable die,
    with the callback's resource and the same seal; if the callback panics, so
    does the stamp. *)
Theorem die_stamp_immutable fn p s d :
  die_at s p d -> die_mutable d = false -> ok s (die_r d) -> callback_ok fn ->
  exists s1 r1, frame s s1 ∅ ∅ /\ value s1 r1 = value s (die_r d) /\
  match fn r1 s1 with
  | Panic m => DieStamp fn p s = Panic m
  | Ret (s2, r2) => exists s' p', DieStamp fn p s = Ret (s', p') /\ p' <> p
      /\ die_at s' p d /\ value s' (die_r d) = value s (die_r d)
      /\ die_at s' p' (MkDie (freeze r2) false r2 (die_seal d))
      /\ value s' r2 = value s2 r2
  end.
Proof.
  intros Hp Hm Hok Hfn.
  destruct (DieRelease_effect p s d Hp Hok) as (s1 & r1 & Hrel & Hf1 & Hd1 & Ho1 & Hv1 & Hc1).
  rewrite Hm in Hc1. exists s1, r1. split_and!; [done|done|]. unfold DieStamp. rewrite Hrel. simpl.
  destruct (fn r1 s1) as [[s2 r2]|m] eqn:Hf; [|done]. destruct (Hfn _ _ _ _ Ho1 Hf) as [Hcells Hdies].
  assert (Hp2 : die_at s2 p d) by (apply Hdies; [unfold die_at; by rewrite Hd1|done]).
  destruct (DieFeed_effect r2 p s2 d Hp2) as (s' & p' & Hfeed & Hh & Hat & Hpl).
  rewrite Hm in *. destruct Hpl as [Hp' Hf']. exists s', p'. simpl. rewrite Hfeed.
  split_and!; [done| | | |done|unfold value; by rewrite Hh].
  - intros ->. by apply Hp', (die_at_dom s2 p d).
  - eapply frame_die_at; [exact Hf'|done|set_solver].
  - unfold value. rewrite Hh. apply dc_local. intros l Hl.
    assert (Hl1 : l ∈ dom (ds_heap s)) by (by apply (cells_dom s (die_r d) Hok)).
    rewrite <- (fr_cells _ _ _ _ Hf1) by set_solver. apply Hcells; [by apply (fr_dom _ _ _ _ Hf1)|set_solver].
Qed.

(** A die releases what it was fed: feeding a resource to any die and releasing
    the result gives the same value, as a deep copy if the die is immutable;
    feeding a mutable die updates it in place. *)
Lemma die_feed_release r p s d :
  die_at s p d -> ok s r ->
  exists s1 p1 s2 r2, DieFeed r p s = Ret (s1, p1) /\ DieRelease p1 s1 = Ret (s2, r2)
    /\ value s2 r2 = value s r /\ value s2 r = value s r
    /\ (die_mutable d = true -> p1 = p)
    /\ (die_mutable d = false -> p1 <> p /\ cells s2 r2 ## dom (ds_heap s)).
Proof.
  intros Hp Hok. destruct (DieFeed_effect r p s d Hp) as (s1 & p1 & Hfeed & Hh & Hat & Hpl).
  assert (Ho1 : ok s1 r) by (unfold ok; by rewrite Hh).
  destruct (DieRelease_effect p1 s1 _ Hat Ho1) as (s2 & r2 & Hrel & Hf & _ & _ & Hv & Hc). simpl in Hv, Hc.
  exists s1, p1, s2, r2. assert (Hvs : value s1 r = value s r) by (unfold value; by rewrite Hh).
  split_and!; [done|done|congruence| | |].
  - destruct (frame_value s1 s2 ∅ ∅ r Hf Ho1) as (_ & Hv2 & _); [set_solver|congruence].
  - intros Hm. rewrite Hm in Hpl. naive_solver.
  - intros Hm. rewrite Hm in *. destruct Hpl as [Hn _]. rewrite Hh in Hc. split; [|done].
    intros ->. by eapply Hn, die_at_dom.
Qed.

(** A seal is a snapshot: after sealing a die, whatever a method then makes of
    its resource, in place or in a new die, the sealed resource still reads as
    the resource did when it was sealed. *)
Lemma die_seal_snapshot (B : gmap loc D) m f s p d :
  edits B m f -> B ⊆ ds_dies s -> die_at s p d -> ok s (die_r d) -> (die_mutable d = true -> p ∉ dom B) ->
  exists s1 p1 s2 p2 s3 sealed s4 r,
    DieSeal p s = Ret (s1, p1) /\ m p1 s1 = Ret (s2, p2)
    /\ DieSealRelease p2 s2 = Ret (s3, sealed) /\ value s3 sealed = value s (die_r d)
    /\ DieRelease p2 s3 = Ret (s4, r) /\ value s4 r = f (value s (die_r d)).
Proof.
  intros Hm HB Hp Hok Hpb.
  destruct (DieSeal_effect p s d Hp Hok) as (s1 & p1 & d1 & H1 & Hat1 & Hm1 & Ho1 & Hv1 & Hos & Hvs & Hsep & Hpl & Hf1).
  assert (HB1 : B ⊆ ds_dies s1) by (eapply frame_keeps; [exact Hf1|done|destruct (die_mutable d); set_solver]).
  destruct (Hm s1 p1 d1 HB1 Hat1 Ho1) as (s2 & p2 & d2 & H2 & E).
  { rewrite Hm1. intros Hmut. rewrite Hmut in Hpl. subst. auto. }
  destruct E as [E1 _ E3 _ E5 E6 _ E8 _].
  destruct (frame_value s1 s2 _ _ (die_seal d1) E8 Hos) as (_ & Hv2 & Ho2); [destruct (die_mutable d1); set_solver|].
  destruct (copy_T (die_seal d2) s2) as [s3 sealed] eqn:Hc. pose proof Hc as Hc'. rewrite E3 in Hc'.
  apply copy_T_effect in Hc' as (Hf3 & Hd3 & _ & Hv3 & _); [|done].
  destruct (frame_value s2 s3 ∅ ∅ (die_r d2) Hf3 E5) as (_ & Hvr & Hor); [set_solver|].
  destruct (DieRelease_effect p2 s3 d2) as (s4 & r & H4 & _ & _ & _ & Hv4 & _); [unfold die_at; by rewrite Hd3|done|].
  exists s1, p1, s2, p2, s3, sealed, s4, r.
  split_and!; [done|done| |congruence|done|rewrite Hv4, Hvr, E6; by rewrite Hv1].
  unfold DieSealRelease. rewrite (get_die_at _ _ _ E1). simpl. by rewrite Hc.
Qed.

(** Calling the callback with the address of every match. *)
Lemma stamp_at_loop_stamps {F RV Path} (R : Reflection cell D T F RV Path) (fn : F) (B : gmap loc D) cvs fs s r :
  Forall2 (fun cv f => AssignableTo R cv fn = false /\ AddrAssignableTo R cv fn = true /\ stamps B (Call R fn cv true) f)
    cvs fs ->
  B ⊆ ds_dies s -> ok s r ->
  exists s' r', stamp_at_loop R fn cvs r s = Ret (s', r') /\ stamped (fun v => foldl (fun v f => f v) v fs) s r s' r'.
Proof.
  intros Hc. revert s r. induction Hc as [|cv f cvs fs (Ha & Haa & Hst) _ IH]; intros s r HB Ho; simpl.
  { exists s, r. split; [done|by apply stamped_refl]. }
  rewrite Ha, Haa. destruct (Hst s r HB Ho) as (s1 & r1 & -> & S1). simpl. pose proof S1 as (Ho1 & _ & Hf1 & _).
  destruct (IH s1 r1) as (s2 & r2 & H2 & S2); [eapply frame_keeps; [exact Hf1|done|set_solver]|done|].
  exists s2, r2. split; [done|]. exact (stamped_trans f (fun v => foldl (fun v f => f v) v fs) _ _ _ _ _ _ S1 S2).
Qed.

(** DieStampAt only stamps what its path finds: a callback that does not take
    one argument and return nothing makes it panic, as does a path that does not
    parse; a path that is not found in the resource leaves the value; otherwise,
    if the callback accepts the address of every match, it is called with them
    in order, and the result is the stamp with these calls. *)
Theorem die_stamp_at {F RV Path} (R : Reflection cell D T F RV Path) (jp : string) (fn : F) (B : gmap loc D)
    s p d :
  die_at s p d -> ok s (die_r d) -> B ⊆ ds_dies s ->
  (NumIn R fn <> 1 \/ NumOut R fn <> 0 -> exists msg, DieStampAt R jp fn p s = Panic msg)
  /\ (NumIn R fn = 1 -> NumOut R fn = 0 ->
      match Parse R ("{" +:+ jp +:+ "}") with
      | Err e => DieStampAt R jp fn p s = Panic e
      | Ok path =>
          let found res := forall r s', ok s' r -> value s' r = value s (die_r d) -> FindResults R path r s' = res in
          (forall e, found (Err e) ->
             exists s' p' d', DieStampAt R jp fn p s = Ret (s', p') /\ edited (fun v => v) s p d s' p' d')
          /\ (forall cvs rest fs, found (Ok (cvs :: rest)) ->
                Forall2 (fun cv f => AssignableTo R cv fn = false /\ AddrAssignableTo R cv fn = true
                                     /\ stamps B (Call R fn cv true) f) cvs fs ->
                exists s' p' d', DieStampAt R jp fn p s = Ret (s', p')
                  /\ edited (fun v => foldl (fun v f => f v) v fs) s p d s' p' d')
      end).
Proof.
  intros Hp Hok HB. destruct (DieRelease_effect p s d Hp Hok) as (s1 & r1 & Hrel & _). split.
  - intros Hn. unfold DieStampAt, DieStamp. rewrite Hrel. simpl. unfold stamp_at.
    destruct (Nat.eqb_spec (NumIn R fn) 1); [|by eexists]. destruct (Nat.eqb_spec (NumOut R fn) 0); [lia|by eexists].
  - intros Hin Hout. destruct (Parse R _) as [path|e] eqn:Hpath.
    + split.
      * intros e Hnf. apply (stamp_edited B (stamp_at R jp fn)); try done. intros s0 r0 _ Ho Hv.
        exists s0, r0. unfold stamp_at. rewrite Hin, Hout, Hpath. simpl. rewrite (Hnf r0 s0 Ho Hv).
        split; [done|by apply stamped_refl].
      * intros cvs rest fs Hfd Hcvs. apply (stamp_edited B (stamp_at R jp fn)); try done. intros s0 r0 HB0 Ho Hv.
        unfold stamp_at. rewrite Hin, Hout, Hpath. simpl. rewrite (Hfd r0 s0 Ho Hv).
        by apply (stamp_at_loop_stamps R fn B).
    + unfold DieStampAt, DieStamp. rewrite Hrel. simpl. unfold stamp_at. by rewrite Hin, Hout, Hpath.
Qed.

Section encodings.
Context {Bytes : Type}.
Variable Marshal : T -> dstate cell D -> result string Bytes.
Variable Unmarshal : Bytes -> dstate cell D -> dstate cell D * result string T.

(** Unmarshalling what was marshalled makes a resource that reads the same, and
    changes no die. *)
Definition json_roundtrip : Prop :=
  forall r s j, ok s r -> Marshal r s = Ok j ->
    exists s' r', Unmarshal j s = (s', Ok r') /\ ds_dies s' = ds_dies s /\ ok s' r' /\ value s' r' = value s r.

(** The JSON a die releases, fed to a die, makes one that releases the same
    value. *)
Theorem die_json_roundtrip p q s s1 d e j :
  json_roundtrip -> die_at s p d -> ok s (die_r d) -> die_at s q e ->
  DieReleaseJSON Marshal p s = Ret (s1, j) ->
  exists s2 q2 s3 r3, DieFeedJSON Unmarshal j q s1 = Ret (s2, q2) /\ DieRelease q2 s2 = Ret (s3, r3)
    /\ value s3 r3 = value s (die_r d).
Proof.
  intros Hrt Hp Hok Hq. unfold DieReleaseJSON, DieReleasePtr.
  destruct (DieRelease_effect p s d Hp Hok) as (s0 & r & -> & _ & Hd & Ho & Hv & _). simpl.
  destruct (Marshal r s0) as [j'|] eqn:Hm; [|done]. intros [= <- <-].
  destruct (Hrt r s0 j' Ho Hm) as (s' & r' & Hu & Hd' & Ho' & Hv'). unfold DieFeedJSON. rewrite Hu.
  destruct (DieFeed_effect r' q s' e) as (s2 & q2 & Hf & Hh & Hat & _); [unfold die_at; by rewrite Hd', Hd|].
  destruct (DieRelease_effect q2 s2 _ Hat) as (s3 & r3 & Hrel & _ & _ & _ & Hv3 & _); [unfold ok; by rewrite Hh|].
  exists s2, q2, s3, r3. split_and!; [done|done|]. rewrite Hv3. unfold value at 1. simpl. rewrite Hh.
  fold (value s' r'). congruence.
Qed.
End encodings.
End theorems.

(** ** Witnesses: a program with dies of DuckSpec only *)
Section witness.
#[local] Instance w_spec_copy : @DeepCopyable Empty_set DuckSpec DuckSpec := copy_plain DuckSpec.
#[local] Instance w_spec_laws : @DeepCopyLaws _ _ _ w_spec_copy := copy_plain_laws DuckSpec.
#[local] Instance w_spec_kind : DieKind (die DuckSpec unit) DuckSpec unit := only_kind (fun _ => tt).

Definition w_die : die DuckSpec unit := MkDie tt false (MkDuckSpec "" "" "") (MkDuckSpec "" "" "").
Definition w_dies : dstate Empty_set (die DuckSpec unit) := MkDState ∅ {[ 0 := w_die ]}.

Lemma w_die_at : die_at w_dies 0 w_die.
Proof. by vm_compute. Qed.

Lemma w_die_ok : ok w_dies (die_r w_die).
Proof. done. Qed.

Definition w_set_group (r : DuckSpec) : DuckSpec := MkDuckSpec "apps" (ds_Version r) (ds_Kind r).

Lemma die_stamp_immutable_witness :
  exists s' p', DieStamp (assign w_set_group) 0 w_dies = Ret (s', p')
    /\ die_at s' 0 w_die /\ die_at s' p' (MkDie tt false (MkDuckSpec "apps" "" "") (MkDuckSpec "" "" "")).
Proof.
  destruct (die_stamp_immutable (assign w_set_group) 0 w_dies w_die w_die_at eq_refl w_die_ok)
    as (s1 & r1 & Hf & Hv & s' & p' & Hs & _ & Hd & _ & Hd' & _).
  - intros r s s' r' _ [= <- _]. split; [done|done].
  - exists s', p'. split_and!; [exact Hs|exact Hd|]. unfold value in Hv. simpl in Hv. by subst r1.
Defined.

(** One path, to the group, and one callback, which sets it. *)
Definition w_reflection : Reflection Empty_set (die DuckSpec unit) DuckSpec unit unit unit := {|
  NumIn _ := 1;
  NumOut _ := 0;
  Parse jp := if String.eqb jp "{.group}" then Ok tt else Err "unrecognized path";
  FindResults _ _ _ := Ok [[tt]];
  AssignableTo _ _ := false;
  AddrAssignableTo _ _ := true;
  Call _ _ _ := assign w_set_group;
|}.

Lemma die_stamp_at_witness :
  exists s' p' d', DieStampAt w_reflection ".group" tt 0 w_dies = Ret (s', p')
    /\ die_at s' p' d' /\ value s' (die_r d') = MkDuckSpec "apps" "" "".
Proof.
  destruct (die_stamp_at w_reflection ".group" tt ∅ w_dies 0 w_die w_die_at w_die_ok (map_empty_subseteq _)) as [_ Hat].
  destruct (Hat eq_refl eq_refl) as [_ Hf].
  destruct (Hf [tt] [] [w_set_group] ltac:(done)) as (s' & p' & d' & H1 & E).
  - constructor; [|constructor]. split_and!; [done|done|]. by apply assign_stamps.
  - exists s', p', d'. split_and!; [exact H1|apply E|]. apply (ed_value _ _ _ _ _ _ _ E).
Defined.

Lemma die_json_roundtrip_witness :
  exists s2 q2 s3 r3, DieFeedJSON (fun j s => (s, Ok j)) (MkDuckSpec "" "" "") 0 w_dies = Ret (s2, q2)
    /\ DieRelease q2 s2 = Ret (s3, r3) /\ value s3 r3 = MkDuckSpec "" "" "".
Proof.
  exact (die_json_roundtrip (fun r _ => Ok r) (fun j s => (s, Ok j)) 0 0 w_dies w_dies w_die w_die (MkDuckSpec "" "" "")
    ltac:(intros r s j Ho [= <-]; by exists s, r) w_die_at w_die_ok w_die_at eq_refl).
Defined.
End witness.
