(* ===== verification/DieOps.v ===== *)
(** * The methods of a die type

    diegen gives every die type the same methods.  The records below are these
    methods, in the order of the generated files, and [feed_methods] and so on
    their bodies, from Dies.v, for any resource type; a die type of the program
    is an instance. *)

From S2P Require Import Prelude Slices Heap Platform Dies.

(** encoding/json, sigs.k8s.io/yaml, osx.ReadFile, cmp.Diff and patch.Create on a
    resource type, and json on the values passed to DieFeedDuck and
    DieReleaseDuck ([Any]) and on runtime.RawExtension ([Raw]). *)
Record Codec (cell D T : Type) := {
  Bytes : Type;
  Any : Type;
  Raw : Type;
  DiffOpts : Type;
  PatchType : Type;
  json_Marshal : T -> dstate cell D -> result string Bytes;
  json_Unmarshal : Bytes -> dstate cell D -> dstate cell D * result string T;
  (** json.Unmarshal into a resource that is used even if it fails *)
  json_Fill : Bytes -> dstate cell D -> dstate cell D * T * option string;
  yaml_Marshal : T -> dstate cell D -> result string Bytes;
  yaml_Unmarshal : Bytes -> dstate cell D -> dstate cell D * result string T;
  any_Marshal : Any -> dstate cell D -> result string Bytes;
  any_Unmarshal : Bytes -> Any -> dstate cell D -> dstate cell D * result string Any;
  raw_zero : Raw;
  raw_Marshal : Raw -> dstate cell D -> result string Bytes;
  raw_Unmarshal : Bytes -> Raw -> dstate cell D -> dstate cell D * result string Raw;
  osx_ReadFile : string -> result string Bytes;
  cmp_Diff : T -> T -> DiffOpts -> dstate cell D -> string;
  patch_Create : T -> T -> PatchType -> dstate cell D -> result string Bytes;
}.
Arguments Bytes {_ _ _} _.
Arguments Any {_ _ _} _.
Arguments Raw {_ _ _} _.
Arguments DiffOpts {_ _ _} _.
Arguments PatchType {_ _ _} _.
Arguments json_Marshal {_ _ _} _.
Arguments json_Unmarshal {_ _ _} _.
Arguments json_Fill {_ _ _} _.
Arguments yaml_Marshal {_ _ _} _.
Arguments yaml_Unmarshal {_ _ _} _.
Arguments any_Marshal {_ _ _} _.
Arguments any_Unmarshal {_ _ _} _.
Arguments raw_zero {_ _ _} _.
Arguments raw_Marshal {_ _ _} _.
Arguments raw_Unmarshal {_ _ _} _.
Arguments osx_ReadFile {_ _ _} _.
Arguments cmp_Diff {_ _ _} _.
Arguments patch_Create {_ _ _} _.

Section ops.
Context {cell D T V Frozen : Type} `{DC : !@DeepCopyable cell T V} `{DK : !DieKind D T Frozen}.
Abbreviation state := (dstate cell D).
Abbreviation method := (loc -> state -> outcome (state * loc)).

Record FeedMethods (C : Codec cell D T) := {
  m_DieImmutable : bool -> method;
  m_DieFeed : T -> method;
  m_DieFeedPtr : option T -> method;
  m_DieFeedDuck : Any C -> method;
  m_DieFeedJSON : Bytes C -> method;
  m_DieFeedYAML : Bytes C -> method;
  m_DieFeedYAMLFile : string -> method;
  m_DieFeedRawExtension : Raw C -> method;
}.

Record ReleaseMethods (C : Codec cell D T) := {
  m_DieRelease : loc -> state -> outcome (state * T);
  m_DieReleasePtr : loc -> state -> outcome (state * T);
  m_DieReleaseDuck : Any C -> loc -> state -> outcome (state * Any C);
  m_DieReleaseJSON : loc -> state -> outcome (state * Bytes C);
  m_DieReleaseYAML : loc -> state -> outcome (state * Bytes C);
  m_DieReleaseRawExtension : loc -> state -> outcome (state * Raw C);
}.

Record StampMethods := {
  m_DieStamp : (T -> state -> outcome (state * T)) -> method;
  m_DieStampAt : forall F RV Path, Reflection cell D T F RV Path -> string -> F -> method;
  m_DieWith : list (option (loc -> state -> outcome state)) -> method;
  m_DeepCopy : method;
}.

Record SealMethods (C : Codec cell D T) := {
  m_DieSeal : method;
  m_DieSealFeed : T -> method;
  m_DieSealFeedPtr : option T -> method;
  m_DieSealRelease : loc -> state -> outcome (state * T);
  m_DieSealReleasePtr : loc -> state -> outcome (state * T);
  m_DieDiff : DiffOpts C -> loc -> state -> outcome string;
  m_DiePatch : PatchType C -> loc -> state -> outcome (result string (Bytes C));
}.

Record ObjectMethods (C : Codec cell D T) (Kind : Type) := {
  m_DeepCopyObject : loc -> state -> outcome (state * T);
  m_GetObjectKind : loc -> state -> outcome (state * Kind);
  m_MarshalJSON : loc -> state -> outcome (result string (Bytes C));
  m_UnmarshalJSON : Bytes C -> loc -> state -> outcome (state * option string);
}.

(** [zero] is the zero value of the resource, [blank] the blank die of the
    package. *)
Definition feed_methods (zero : T) (C : Codec cell D T) : FeedMethods C := {|
  m_DieImmutable := DieImmutable;
  m_DieFeed := DieFeed;
  m_DieFeedPtr := DieFeedPtr zero;
  m_DieFeedDuck := DieFeedDuck (any_Marshal C) (json_Unmarshal C);
  m_DieFeedJSON := DieFeedJSON (json_Unmarshal C);
  m_DieFeedYAML := DieFeedYAML (yaml_Unmarshal C);
  m_DieFeedYAMLFile := DieFeedYAMLFile (osx_ReadFile C) (yaml_Unmarshal C);
  m_DieFeedRawExtension := DieFeedRawExtension (raw_Marshal C) (json_Unmarshal C);
|}.

Definition release_methods (C : Codec cell D T) : ReleaseMethods C := {|
  m_DieRelease := DieRelease;
  m_DieReleasePtr := DieReleasePtr;
  m_DieReleaseDuck := DieReleaseDuck (json_Marshal C) (any_Unmarshal C);
  m_DieReleaseJSON := DieReleaseJSON (json_Marshal C);
  m_DieReleaseYAML := DieReleaseYAML (yaml_Marshal C);
  m_DieReleaseRawExtension := DieReleaseRawExtension (json_Marshal C) (raw_Unmarshal C) (raw_zero C);
|}.

Definition stamp_methods (blank : loc) : StampMethods := {|
  m_DieStamp := DieStamp;
  m_DieStampAt F RV Path := DieStampAt;
  m_DieWith := DieWith blank;
  m_DeepCopy := Die_DeepCopy;
|}.

Definition seal_methods (zero : T) (C : Codec cell D T) : SealMethods C := {|
  m_DieSeal := DieSeal;
  m_DieSealFeed := DieSealFeed;
  m_DieSealFeedPtr := DieSealFeedPtr zero;
  m_DieSealRelease := DieSealRelease;
  m_DieSealReleasePtr := DieSealReleasePtr;
  m_DieDiff := DieDiff (cmp_Diff C);
  m_DiePatch := DiePatch (patch_Create C);
|}.

Definition object_methods {Kind} (GetObjectKind : T -> Kind) (C : Codec cell D T) : ObjectMethods C Kind := {|
  m_DeepCopyObject := Die_DeepCopyObject;
  m_GetObjectKind := Die_GetObjectKind GetObjectKind;
  m_MarshalJSON := Die_MarshalJSON (json_Marshal C);
  m_UnmarshalJSON := Die_UnmarshalJSON (json_Fill C);
|}.
End ops.

Arguments FeedMethods {_ _ _} _.
Arguments ReleaseMethods {_ _ _} _.
Arguments StampMethods : clear implicits.
Arguments SealMethods {_ _ _} _.
Arguments ObjectMethods {_ _ _} _ _.
Arguments m_DieImmutable {_ _ _ _} _.
Arguments m_DieFeed {_ _ _ _} _.
Arguments m_DieRelease {_ _ _ _} _.
Arguments m_DieReleaseJSON {_ _ _ _} _.
Arguments m_DieFeedJSON {_ _ _ _} _.
Arguments m_DieStamp {_ _ _} _.
Arguments m_DieWith {_ _ _} _.
Arguments m_DeepCopy {_ _ _} _.
Arguments m_DieSeal {_ _ _ _} _.
Arguments m_DieSealRelease {_ _ _ _} _.
