(* ===== verification/DieContract.v ===== *)
(** * The contract of a die type

    What the generated methods promise to their callers, stated once, and that
    the methods of DieOps.v keep it for every resource type whose deep copy is
    one. *)

From S2P Require Import Prelude Slices Heap Platform Dies DieLaws DieTheorems DieOps.

#[local] Open Scope go_scope.

Section contract.
Context {cell D T V Frozen : Type} `{DL : @DeepCopyLaws cell T V DC} `{DK : !DieKind D T Frozen}.
Abbreviation state := (dstate cell D).

(** [B] are the dies that are there for good, the blank dies of the package; a
    mutable die is none of them. *)
Definition usable (B : gmap loc D) (s : state) (p : loc) (d : die T Frozen) : Prop :=
  B ⊆ ds_dies s /\ die_at s p d /\ ok s (die_r d) /\ (die_mutable d = true -> p ∉ dom B).

Record die_contract (B : gmap loc D) {K : Codec cell D T} (feeding : FeedMethods K) (releasing : ReleaseMethods K)
    (stamping : StampMethods cell D T) (sealing : SealMethods K) : Prop := {
  (** a die releases the value it was fed, in place if it is mutable; else in
      another die, as a deep copy in new cells, and the die is as it was *)
  dc_feed : forall s p d r, usable B s p d -> ok s r ->
    exists s1 p1 s2 r2, m_DieFeed feeding r p s = Ret (s1, p1) /\ m_DieRelease releasing p1 s1 = Ret (s2, r2)
      /\ value s2 r2 = value s r /\ value s2 r = value s r /\ (die_mutable d = true -> p1 = p)
      /\ (die_mutable d = false -> p1 <> p /\ cells s2 r2 ## dom (ds_heap s)
          /\ die_at s2 p d /\ value s2 (die_r d) = value s (die_r d));
  (** DieImmutable gives the die itself if it has the mutability asked for, else
      another die of the same value, in new cells; the die is as it was *)
  dc_immutable : forall s p d b, usable B s p d ->
    exists s' p' d', m_DieImmutable feeding b p s = Ret (s', p') /\ die_at s' p' d' /\ die_mutable d' = negb b
      /\ value s' (die_r d') = value s (die_r d) /\ die_at s' p d /\ value s' (die_r d) = value s (die_r d)
      /\ (die_mutable d = negb b -> s' = s /\ p' = p)
      /\ (die_mutable d = b -> p' <> p /\ cells s' (die_r d') ## dom (ds_heap s));
  (** a stamp applies what its callback does *)
  dc_stamp : forall fn f, stamps B fn f -> edits B (m_DieStamp stamping fn) f;
  (** DieWith applies its callbacks in order, but nil ones *)
  dc_with : forall fns fs, Forall2 (fn_denotes B) fns fs ->
    edits B (m_DieWith stamping fns) (fun v => foldl (fun v f => f v) v fs);
  (** a copy is another die of the same mutability whose resource reads the same
      and is in new cells; the die is as it was *)
  dc_deepcopy : forall s p d, usable B s p d ->
    exists s' p' d', m_DeepCopy stamping p s = Ret (s', p') /\ die_at s' p' d' /\ die_mutable d' = die_mutable d
      /\ value s' (die_r d') = value s (die_r d) /\ cells s' (die_r d') ## dom (ds_heap s) /\ p' <> p
      /\ die_at s' p d /\ value s' (die_r d) = value s (die_r d);
  (** the seal is what the resource was when it was sealed, whatever happens then *)
  dc_seal : forall s p d m f, usable B s p d -> edits B m f ->
    exists s1 p1 s2 p2 s3 sealed s4 r,
      m_DieSeal sealing p s = Ret (s1, p1) /\ m p1 s1 = Ret (s2, p2)
      /\ m_DieSealRelease sealing p2 s2 = Ret (s3, sealed) /\ value s3 sealed = value s (die_r d)
      /\ m_DieRelease releasing p2 s3 = Ret (s4, r) /\ value s4 r = f (value s (die_r d));
}.

Lemma die_methods_contract B blank zero z z' fz (K : Codec cell D T) :
  blank_in B blank z z' fz ->
  die_contract B (feed_methods zero K) (release_methods K) (stamp_methods blank) (seal_methods zero K).
Proof.
  intros Hb. split; simpl.
  - intros s p d r (_ & Hp & Hok & _) Hr.
    destruct (DieFeed_effect r p s d Hp) as (s1 & p1 & H1 & Hh & Hat & Hpl).
    assert (Ho1 : ok s1 r) by (unfold ok; by rewrite Hh).
    destruct (DieRelease_effect p1 s1 _ Hat Ho1) as (s2 & r2 & H2 & Hf2 & Hd2 & _ & Hv & Hx).
    assert (Hkeep : forall x, ok s x -> value s2 x = value s x).
    { intros x Hox. assert (Ho : ok s1 x) by (unfold ok; by rewrite Hh).
      destruct (frame_value s1 s2 ∅ ∅ x Hf2 Ho) as (_ & -> & _); [set_solver|]. unfold value. by rewrite Hh. }
    exists s1, p1, s2, r2. split_and!; [done|done|rewrite Hv; unfold value; by rewrite Hh|by apply Hkeep| |];
      intros Hm; simpl in Hx; rewrite Hm in Hpl, Hx; [by destruct Hpl|]. destruct Hpl as [Hn Hf].
    split_and!; [intros ->; by eapply Hn, die_at_dom|by rewrite Hh in Hx| |by apply Hkeep].
    unfold die_at. rewrite Hd2. by eapply die_at_kept.
  - intros s p d b (_ & Hp & Hok & _).
    destruct (DieImmutable_effect b p s d Hp Hok) as (s' & p' & d' & H1 & Hat & Hm & _ & _ & Hv & Hf & Hx).
    exists s', p', d'. split_and!; [done|done|done|done|by eapply die_at_kept| | |].
    + by apply (frame_value s s' ∅ ∅ (die_r d) Hf Hok).
    + intros Hmd. rewrite Hmd, Bool.eqb_reflx in Hx. naive_solver.
    + intros Hmd. rewrite Hmd, Bool.eqb_negb2 in Hx. destruct Hx as [Hn Hx]. split; [|done].
      intros ->. by eapply Hn, die_at_dom.
  - apply stamp_edits.
  - intros fns fs. by apply (with_edits B blank z z' fz).
  - intros s p d (_ & Hp & Hok & _).
    destruct (Die_DeepCopy_effect p s d Hp Hok) as (s' & p' & d' & H1 & Hat & Hm & _ & Hv & Hf & Hn & Hx).
    exists s', p', d'. split_and!; [done|done|done|done|done| |by eapply die_at_kept|].
    + intros ->. by apply Hn, (die_at_dom s p d).
    + by apply (frame_value s s' ∅ ∅ (die_r d) Hf Hok).
  - intros s p d m f (HB & Hp & Hok & Hpb) Hm. by apply (die_seal_snapshot B m f s p d).
Qed.
End contract.

(** Metadata without references, and callbacks that are functions. *)
Definition ref_meta_dies (cell D : Type) : MetaDies cell D ObjectMeta unit := {|
  FreezeObjectMeta _ := tt;
  frozen_zero := tt;
  meta_zero := blank_meta;
  TypeMetaFn := TypeMeta -> TypeMeta;
  ObjectMetaFn := ObjectMeta -> ObjectMeta;
  ConditionFn := Condition -> Condition;
  TypeMetaDie_with fn := assign fn;
  ObjectMetaDie_with fn := assign fn;
  ConditionDie_with fn := assign fn;
  ObjectMetaDie_Name := meta_set_Name;
  slice_growth n := n;
|}.

Lemma ref_meta_dies_laws (cell D : Type) :
  @MetaDiesLaws cell D ObjectMeta unit (copy_plain ObjectMeta) (ref_meta_dies cell D).
Proof. split; try done. intros B name. by apply (@assign_stamps _ _ _ _ _ (copy_plain_laws ObjectMeta)). Qed.

(** Encoding by the identity. *)
Definition ref_codec (cell D T : Type) (zero : T) : Codec cell D T := {|
  Bytes := T;
  Any := T;
  Raw := T;
  DiffOpts := unit;
  PatchType := unit;
  json_Marshal r s := Ok r;
  json_Unmarshal j s := (s, Ok j);
  json_Fill j s := (s, j, None);
  yaml_Marshal r s := Ok r;
  yaml_Unmarshal j s := (s, Ok j);
  any_Marshal a s := Ok a;
  any_Unmarshal j a s := (s, Ok j);
  raw_zero := zero;
  raw_Marshal a s := Ok a;
  raw_Unmarshal j a s := (s, Ok j);
  osx_ReadFile name := Err "not found";
  cmp_Diff a b o s := "";
  patch_Create a b o s := Ok b;
|}.
