(* ===== verification/ApiDies.v ===== *)
(** * api/v1: the die types

    zz_generated.die.go, duck_dies.go and ducktype_dies.go: the six die types as
    instances of DieOps.v, with the methods of their own.  The dies of
    metav1.TypeMeta, metav1.ObjectMeta and metav1.Condition are the library's.
    The methods do to the value of a die what their names say, also nested: what
    a method makes of a spec, a status or a condition arrives in the die of the
    object. *)

From S2P Require Import Prelude Slices Heap Platform Reference ApiV1 DeepCopy Dies DieLaws DieOps DieContract.

#[local] Open Scope go_scope.

(** ** The dies of the package *)

Inductive api_die (SMeta FMeta : Type) :=
| ADuckSpec (d : die DuckSpec unit)
| ADuckStatus (d : die sDuckStatus unit)
| ADuck (d : die (sDuck SMeta) FMeta)
| ADuckTypeSpec (d : die DuckTypeSpec unit)
| ADuckTypeStatus (d : die sDuckTypeStatus unit)
| ADuckType (d : die (sDuckType SMeta) FMeta).
Arguments ADuckSpec {_ _} _.
Arguments ADuckStatus {_ _} _.
Arguments ADuck {_ _} _.
Arguments ADuckTypeSpec {_ _} _.
Arguments ADuckTypeStatus {_ _} _.
Arguments ADuckType {_ _} _.

(** InitializeConditions of the library's condition manager, on a status in
    memory. *)
Class StatusInit (LCell SMeta FMeta : Type) := {
  Status_InitializeConditions : ConditionSet -> Z -> sStatus -> dstate (cell LCell SMeta) (api_die SMeta FMeta)
    -> outcome (dstate (cell LCell SMeta) (api_die SMeta FMeta) * sStatus);
}.

Section api_dies.
Context {LCell SMeta FMeta : Type}.
Context `{MC : !@DeepCopyable (cell LCell SMeta) SMeta ObjectMeta} `{SC : !StatusCopy LCell SMeta}.
Context `{MD : !MetaDies (cell LCell SMeta) (api_die SMeta FMeta) SMeta FMeta} `{SI : !StatusInit LCell SMeta FMeta}.
Context `{!ConditionLib} `{!Schema}.

Abbreviation C := (cell LCell SMeta).
Abbreviation D := (api_die SMeta FMeta).
Abbreviation state := (dstate C D).
Abbreviation method := (loc -> state -> outcome (state * loc)).

#[export] Instance DuckSpec_die_kind : DieKind D DuckSpec unit :=
  {| freeze r := tt; to_any := ADuckSpec; of_any x := match x with ADuckSpec d => Some d | _ => None end;
     of_to_any d := eq_refl |}.
#[export] Instance DuckStatus_die_kind : DieKind D sDuckStatus unit :=
  {| freeze r := tt; to_any := ADuckStatus; of_any x := match x with ADuckStatus d => Some d | _ => None end;
     of_to_any d := eq_refl |}.
#[export] Instance Duck_die_kind : DieKind D (sDuck SMeta) FMeta :=
  {| freeze r := FreezeObjectMeta (sd_ObjectMeta r); to_any := ADuck; of_any x := match x with ADuck d => Some d | _ => None end;
     of_to_any d := eq_refl |}.
#[export] Instance DuckTypeSpec_die_kind : DieKind D DuckTypeSpec unit :=
  {| freeze r := tt; to_any := ADuckTypeSpec; of_any x := match x with ADuckTypeSpec d => Some d | _ => None end;
     of_to_any d := eq_refl |}.
#[export] Instance DuckTypeStatus_die_kind : DieKind D sDuckTypeStatus unit :=
  {| freeze r := tt; to_any := ADuckTypeStatus; of_any x := match x with ADuckTypeStatus d => Some d | _ => None end;
     of_to_any d := eq_refl |}.
#[export] Instance DuckType_die_kind : DieKind D (sDuckType SMeta) FMeta :=
  {| freeze r := FreezeObjectMeta (sdt_ObjectMeta r); to_any := ADuckType; of_any x := match x with ADuckType d => Some d | _ => None end;
     of_to_any d := eq_refl |}.

(** ** Zero values and the blank dies *)

Definition zero_DuckSpec : DuckSpec := MkDuckSpec "" "" "".
Definition zero_DuckTypeSpec : DuckTypeSpec := MkDuckTypeSpec "" "" "" "" "".
Definition zero_DuckStatus : sDuckStatus := MkSDuckStatus (MkSStatus 0 nil_slice).
Definition zero_DuckTypeStatus : sDuckTypeStatus := MkSDuckTypeStatus (MkSStatus 0 nil_slice).
Definition zero_Duck : sDuck SMeta := MkSDuck (MkTypeMeta "" "") meta_zero zero_DuckSpec zero_DuckStatus.
Definition zero_DuckType : sDuckType SMeta :=
  MkSDuckType (MkTypeMeta "" "") meta_zero zero_DuckTypeSpec zero_DuckTypeStatus.

Definition DuckSpecBlank (s : state) : outcome (state * loc) := make_blank tt zero_DuckSpec s.
Definition DuckStatusBlank (s : state) : outcome (state * loc) := make_blank tt zero_DuckStatus s.
Definition DuckBlank (s : state) : outcome (state * loc) := make_blank frozen_zero zero_Duck s.
Definition DuckTypeSpecBlank (s : state) : outcome (state * loc) := make_blank tt zero_DuckTypeSpec s.
Definition DuckTypeStatusBlank (s : state) : outcome (state * loc) := make_blank tt zero_DuckTypeStatus s.
Definition DuckTypeBlank (s : state) : outcome (state * loc) := make_blank frozen_zero zero_DuckType s.

(** The package variables, and their initialisation. *)
Record Blanks := MkBlanks {
  b_DuckSpec : loc;
  b_DuckStatus : loc;
  b_Duck : loc;
  b_DuckTypeSpec : loc;
  b_DuckTypeStatus : loc;
  b_DuckType : loc;
}.

Definition init_blanks (s : state) : outcome (state * Blanks) :=
  let! (s, b0) := DuckSpecBlank s in
  let! (s, b1) := DuckStatusBlank s in
  let! (s, b2) := DuckBlank s in
  let! (s, b3) := DuckTypeSpecBlank s in
  let! (s, b4) := DuckTypeStatusBlank s in
  let! (s, b5) := DuckTypeBlank s in
  Ret (s, MkBlanks b0 b1 b2 b3 b4 b5).

Variable blanks : Blanks.

(** ** DuckSpecDie *)

Definition DuckSpecDie_struct : Type := die DuckSpec unit.

Definition DuckSpecDie_Group (v : string) : method :=
  DieStamp (assign (fun r => MkDuckSpec v (ds_Version r) (ds_Kind r))).
Definition DuckSpecDie_Version (v : string) : method :=
  DieStamp (assign (fun r => MkDuckSpec (ds_Group r) v (ds_Kind r))).
Definition DuckSpecDie_Kind (v : string) : method :=
  DieStamp (assign (fun r => MkDuckSpec (ds_Group r) (ds_Version r) v)).

(** ** DuckStatusDie *)

Definition DuckStatusDie_struct : Type := die sDuckStatus unit.

Definition DuckStatusDie_Status (v : sStatus) : method := DieStamp (assign (fun _ => MkSDuckStatus v)).

(** duck_dies.go *)
Definition DuckStatus_on_status := on_field (cell := C) (D := D) sds_Status (fun st _ => MkSDuckStatus st).

(** [r.InitializeConditions(ctx)]: the status through its condition manager. *)
Definition sDuckStatus_InitializeConditions (now : Z) (r : sDuckStatus) (s : state) : outcome (state * sDuckStatus) :=
  DuckStatus_on_status (Status_InitializeConditions (DuckStatus_GetConditionSet (rd (ds_heap s) r)) now) r s.

Definition DuckStatusDie_InitializeConditions (now : Z) : method := DieStamp (sDuckStatus_InitializeConditions now).
Definition DuckStatusDie_ObservedGeneration (v : Z) : method :=
  DieStamp (DuckStatus_on_status (assign (fun st => MkSStatus v (ss_Conditions st)))).
(** The slice of the arguments becomes the conditions. *)
Definition DuckStatusDie_Conditions (v : slice) : method :=
  DieStamp (DuckStatus_on_status (assign (fun st => MkSStatus (ss_ObservedGeneration st) v))).
Definition DuckStatusDie_ConditionDie (v : string) (fn : ConditionFn) : method :=
  DieStamp (DuckStatus_on_status
    (on_field ss_Conditions (fun cs st => MkSStatus (ss_ObservedGeneration st) cs)
       (conditions_die slice_growth v (ConditionDie_with fn)))).

(** ** DuckDie *)

Definition DuckDie_struct : Type := die (sDuck SMeta) FMeta.
Definition DuckDie_DieReleaseUnstructured {Unst} (ToUnstructured : sDuck SMeta -> state -> result string Unst)
    : loc -> state -> outcome (state * Unst) := DieReleaseUnstructured ToUnstructured.
(** An object's kind is its TypeMeta. *)
Definition DuckDie_object (K : Codec C D (sDuck SMeta)) : ObjectMethods K TypeMeta := object_methods sd_TypeMeta K.

Definition sd_set_TypeMeta (v : TypeMeta) (r : sDuck SMeta) : sDuck SMeta :=
  MkSDuck v (sd_ObjectMeta r) (sd_Spec r) (sd_Status r).
Definition sd_set_ObjectMeta (v : SMeta) (r : sDuck SMeta) : sDuck SMeta :=
  MkSDuck (sd_TypeMeta r) v (sd_Spec r) (sd_Status r).
Definition sd_set_Spec (v : DuckSpec) (r : sDuck SMeta) : sDuck SMeta :=
  MkSDuck (sd_TypeMeta r) (sd_ObjectMeta r) v (sd_Status r).
Definition sd_set_Status (v : sDuckStatus) (r : sDuck SMeta) : sDuck SMeta :=
  MkSDuck (sd_TypeMeta r) (sd_ObjectMeta r) (sd_Spec r) v.

Definition DuckDie_APIVersion (v : string) : method :=
  DieStamp (assign (fun r => sd_set_TypeMeta (MkTypeMeta v (tm_Kind (sd_TypeMeta r))) r)).
Definition DuckDie_Kind (v : string) : method :=
  DieStamp (assign (fun r => sd_set_TypeMeta (MkTypeMeta (tm_APIVersion (sd_TypeMeta r)) v) r)).
Definition DuckDie_TypeMetadata (v : TypeMeta) : method := DieStamp (assign (sd_set_TypeMeta v)).
Definition DuckDie_TypeMetadataDie (fn : TypeMetaFn) : method :=
  DieStamp (on_field sd_TypeMeta sd_set_TypeMeta (TypeMetaDie_with fn)).
Definition DuckDie_Metadata (v : SMeta) : method := DieStamp (assign (sd_set_ObjectMeta v)).
Definition DuckDie_MetadataDie (fn : ObjectMetaFn) : method :=
  DieStamp (on_field sd_ObjectMeta sd_set_ObjectMeta (ObjectMetaDie_with fn)).
Definition DuckDie_SpecDie (fn : loc -> state -> outcome state) : method :=
  DieStamp (on_field sd_Spec sd_set_Spec (with_die (b_DuckSpec blanks) fn)).
Definition DuckDie_StatusDie (fn : loc -> state -> outcome state) : method :=
  DieStamp (on_field sd_Status sd_set_Status (with_die (b_DuckStatus blanks) fn)).
Definition DuckDie_Spec (v : DuckSpec) : method := DieStamp (assign (sd_set_Spec v)).
Definition DuckDie_Status (v : sDuckStatus) : method := DieStamp (assign (sd_set_Status v)).

(** ** DuckTypeSpecDie *)

Definition DuckTypeSpecDie_struct : Type := die DuckTypeSpec unit.

Definition DuckTypeSpecDie_Group (v : string) : method :=
  DieStamp (assign (fun r => MkDuckTypeSpec v (dts_Plural r) (dts_Singular r) (dts_Kind r) (dts_ListKind r))).
Definition DuckTypeSpecDie_Plural (v : string) : method :=
  DieStamp (assign (fun r => MkDuckTypeSpec (dts_Group r) v (dts_Singular r) (dts_Kind r) (dts_ListKind r))).
Definition DuckTypeSpecDie_Singular (v : string) : method :=
  DieStamp (assign (fun r => MkDuckTypeSpec (dts_Group r) (dts_Plural r) v (dts_Kind r) (dts_ListKind r))).
Definition DuckTypeSpecDie_Kind (v : string) : method :=
  DieStamp (assign (fun r => MkDuckTypeSpec (dts_Group r) (dts_Plural r) (dts_Singular r) v (dts_ListKind r))).
Definition DuckTypeSpecDie_ListKind (v : string) : method :=
  DieStamp (assign (fun r => MkDuckTypeSpec (dts_Group r) (dts_Plural r) (dts_Singular r) (dts_Kind r) v)).

(** ** DuckTypeStatusDie *)

Definition DuckTypeStatusDie_struct : Type := die sDuckTypeStatus unit.

Definition DuckTypeStatusDie_Status (v : sStatus) : method := DieStamp (assign (fun _ => MkSDuckTypeStatus v)).

(** ducktype_dies.go *)
Definition DuckTypeStatus_on_status := on_field (cell := C) (D := D) sdts_Status (fun st _ => MkSDuckTypeStatus st).

(** [r.InitializeConditions(ctx)]: the status through its condition manager. *)
Definition sDuckTypeStatus_InitializeConditions (now : Z) (r : sDuckTypeStatus) (s : state) : outcome (state * sDuckTypeStatus) :=
  DuckTypeStatus_on_status (Status_InitializeConditions (DuckTypeStatus_GetConditionSet (rd (ds_heap s) r)) now) r s.

Definition DuckTypeStatusDie_InitializeConditions (now : Z) : method := DieStamp (sDuckTypeStatus_InitializeConditions now).
Definition DuckTypeStatusDie_ObservedGeneration (v : Z) : method :=
  DieStamp (DuckTypeStatus_on_status (assign (fun st => MkSStatus v (ss_Conditions st)))).
(** The slice of the arguments becomes the conditions. *)
Definition DuckTypeStatusDie_Conditions (v : slice) : method :=
  DieStamp (DuckTypeStatus_on_status (assign (fun st => MkSStatus (ss_ObservedGeneration st) v))).
Definition DuckTypeStatusDie_ConditionDie (v : string) (fn : ConditionFn) : method :=
  DieStamp (DuckTypeStatus_on_status
    (on_field ss_Conditions (fun cs st => MkSStatus (ss_ObservedGeneration st) cs)
       (conditions_die slice_growth v (ConditionDie_with fn)))).

(** ** DuckTypeDie *)

Definition DuckTypeDie_struct : Type := die (sDuckType SMeta) FMeta.
Definition DuckTypeDie_DieReleaseUnstructured {Unst} (ToUnstructured : sDuckType SMeta -> state -> result string Unst)
    : loc -> state -> outcome (state * Unst) := DieReleaseUnstructured ToUnstructured.
(** An object's kind is its TypeMeta. *)
Definition DuckTypeDie_object (K : Codec C D (sDuckType SMeta)) : ObjectMethods K TypeMeta := object_methods sdt_TypeMeta K.

Definition sdt_set_TypeMeta (v : TypeMeta) (r : sDuckType SMeta) : sDuckType SMeta :=
  MkSDuckType v (sdt_ObjectMeta r) (sdt_Spec r) (sdt_Status r).
Definition sdt_set_ObjectMeta (v : SMeta) (r : sDuckType SMeta) : sDuckType SMeta :=
  MkSDuckType (sdt_TypeMeta r) v (sdt_Spec r) (sdt_Status r).
Definition sdt_set_Spec (v : DuckTypeSpec) (r : sDuckType SMeta) : sDuckType SMeta :=
  MkSDuckType (sdt_TypeMeta r) (sdt_ObjectMeta r) v (sdt_Status r).
Definition sdt_set_Status (v : sDuckTypeStatus) (r : sDuckType SMeta) : sDuckType SMeta :=
  MkSDuckType (sdt_TypeMeta r) (sdt_ObjectMeta r) (sdt_Spec r) v.

Definition DuckTypeDie_DieDefaultTypeMetadata : method :=
  DieStamp (assign (sdt_set_TypeMeta (MkTypeMeta "duck.reconciler.io/v1" "DuckType"))).
Definition DuckTypeDie_APIVersion (v : string) : method :=
  DieStamp (assign (fun r => sdt_set_TypeMeta (MkTypeMeta v (tm_Kind (sdt_TypeMeta r))) r)).
Definition DuckTypeDie_Kind (v : string) : method :=
  DieStamp (assign (fun r => sdt_set_TypeMeta (MkTypeMeta (tm_APIVersion (sdt_TypeMeta r)) v) r)).
Definition DuckTypeDie_TypeMetadata (v : TypeMeta) : method := DieStamp (assign (sdt_set_TypeMeta v)).
Definition DuckTypeDie_TypeMetadataDie (fn : TypeMetaFn) : method :=
  DieStamp (on_field sdt_TypeMeta sdt_set_TypeMeta (TypeMetaDie_with fn)).
Definition DuckTypeDie_Metadata (v : SMeta) : method := DieStamp (assign (sdt_set_ObjectMeta v)).
Definition DuckTypeDie_MetadataDie (fn : ObjectMetaFn) : method :=
  DieStamp (on_field sdt_ObjectMeta sdt_set_ObjectMeta (ObjectMetaDie_with fn)).
Definition DuckTypeDie_SpecDie (fn : loc -> state -> outcome state) : method :=
  DieStamp (on_field sdt_Spec sdt_set_Spec (with_die (b_DuckTypeSpec blanks) fn)).
Definition DuckTypeDie_StatusDie (fn : loc -> state -> outcome state) : method :=
  DieStamp (on_field sdt_Status sdt_set_Status (with_die (b_DuckTypeStatus blanks) fn)).
Definition DuckTypeDie_Spec (v : DuckTypeSpec) : method := DieStamp (assign (sdt_set_Spec v)).
Definition DuckTypeDie_Status (v : sDuckTypeStatus) : method := DieStamp (assign (sdt_set_Status v)).

(** ducktype_dies.go: the die of a duck of the type. *)
Definition DuckTypeDie_AsDuck (name : string) (p : loc) (s : state) : outcome (state * loc) :=
  let! (s, r) := DieRelease (T := sDuckType SMeta) p s in
  let! (s, q) := DuckDie_APIVersion (gv_String (MkGV (dts_Group (sdt_Spec r)) "v1")) (b_Duck blanks) s in
  let! (s, q) := DuckDie_Kind (dts_Kind (sdt_Spec r)) q s in
  DuckDie_MetadataDie (ObjectMetaDie_Name name) q s.
End api_dies.

(** ** Values and laws *)


Definition d_set_TypeMeta (v : TypeMeta) (d : Duck) : Duck := MkDuck v (d_ObjectMeta d) (d_Spec d) (d_Status d).
Definition d_set_ObjectMeta (v : ObjectMeta) (d : Duck) : Duck := MkDuck (d_TypeMeta d) v (d_Spec d) (d_Status d).
Definition d_set_Spec (v : DuckSpec) (d : Duck) : Duck := MkDuck (d_TypeMeta d) (d_ObjectMeta d) v (d_Status d).
Definition dt_set_TypeMeta (v : TypeMeta) (d : DuckType) : DuckType :=
  MkDuckType v (dt_ObjectMeta d) (dt_Spec d) (dt_Status d).

Section laws.
Context {LCell SMeta FMeta : Type}.
Context `{MC : !@DeepCopyable (cell LCell SMeta) SMeta ObjectMeta} `{ML : !@DeepCopyLaws _ _ _ MC}.
Context `{SC : !StatusCopy LCell SMeta} `{SL : !@DeepCopyLaws _ _ _ (Status_copyable (LCell := LCell) (SMeta := SMeta))}.
Context `{MD : !MetaDies (cell LCell SMeta) (api_die SMeta FMeta) SMeta FMeta}.
Context `{!ConditionLib} `{!Schema}.

Abbreviation C := (cell LCell SMeta).
Abbreviation D := (api_die SMeta FMeta).
Abbreviation state := (dstate C D).

Context `{!MetaDiesLaws C D SMeta FMeta}.

(** ** The fields of the objects *)

Lemma part_Duck_Status : part sd_Status sd_set_Status d_Status (fun v d => d_set_Status v d) (cell := C) (U := sDuck SMeta).
Proof.
  apply (part_of_two (C := SMeta) sd_Status sd_ObjectMeta); try done.
  - intros h r. cbn. split; intros (? & ? & ?); split_and!; done.
  - intros h r. cbn. set_solver.
  - intros h h' v r Hr. cbn. by rewrite Hr.
Qed.

Lemma part_Duck_ObjectMeta : part sd_ObjectMeta sd_set_ObjectMeta d_ObjectMeta d_set_ObjectMeta (cell := C) (U := sDuck SMeta).
Proof.
  apply (part_of_two (C := sDuckStatus) sd_ObjectMeta sd_Status); try done.
  intros h h' v r Hr. cbn in *. by rewrite Hr.
Qed.

Lemma part_Duck_Spec : part sd_Spec sd_set_Spec d_Spec d_set_Spec (cell := C) (U := sDuck SMeta).
Proof. by apply part_plain. Qed.

Lemma part_DuckType_Status :
  part sdt_Status sdt_set_Status dt_Status (fun v d => dt_set_Status v d) (cell := C) (U := sDuckType SMeta).
Proof.
  apply (part_of_two (C := SMeta) sdt_Status sdt_ObjectMeta); try done.
  - intros h r. cbn. split; intros (? & ? & ?); split_and!; done.
  - intros h r. cbn. set_solver.
  - intros h h' v r Hr. cbn. by rewrite Hr.
Qed.

Lemma part_DuckType_Spec : part sdt_Spec sdt_set_Spec dt_Spec dt_set_Spec (cell := C) (U := sDuckType SMeta).
Proof. by apply part_plain. Qed.

Lemma part_DuckStatus :
  part sds_Status (fun st _ => MkSDuckStatus st) (fun v => dst_Status v) (fun v _ => MkDuckStatus v) (cell := C).
Proof. by apply part_of_one. Qed.

Lemma part_DuckTypeStatus :
  part sdts_Status (fun st _ => MkSDuckTypeStatus st) (fun v => dtst_Status v) (fun v _ => MkDuckTypeStatus v) (cell := C).
Proof. by apply part_of_one. Qed.

#[local] Instance conditions_copyable : @DeepCopyable C slice (list Condition) := copyable_slice (A := Condition).
#[local] Instance conditions_copy_laws : @DeepCopyLaws _ _ _ conditions_copyable := copyable_slice_laws (A := Condition).

Lemma part_Conditions :
  part ss_Conditions (fun cs st => MkSStatus (ss_ObservedGeneration st) cs) st_Conditions
    (fun cs st => MkStatus (st_ObservedGeneration st) cs) (cell := C).
Proof. by apply part_of_one. Qed.

(** ** The blank dies *)

Record blanks_ok (B : gmap loc D) (b : Blanks) : Prop := {
  ok_DuckSpec : blank_in (cell := C) B (b_DuckSpec b) zero_DuckSpec zero_DuckSpec tt;
  ok_DuckStatus : blank_in (cell := C) B (b_DuckStatus b) zero_DuckStatus zero_DuckStatus tt;
  ok_Duck : exists fz, blank_in (cell := C) B (b_Duck b) zero_Duck zero_Duck fz;
  ok_DuckTypeSpec : blank_in (cell := C) B (b_DuckTypeSpec b) zero_DuckTypeSpec zero_DuckTypeSpec tt;
  ok_DuckTypeStatus : blank_in (cell := C) B (b_DuckTypeStatus b) zero_DuckTypeStatus zero_DuckTypeStatus tt;
  ok_DuckType : exists fz, blank_in (cell := C) B (b_DuckType b) zero_DuckType zero_DuckType fz;
}.

Lemma zero_status_valid (h : gmap loc C) : valid h (MkSStatus 0 nil_slice).
Proof. by split; [|constructor]. Qed.

Lemma zero_Duck_valid (h : gmap loc C) : valid h zero_Duck.
Proof.
  split_and!; [apply meta_zero_valid|apply zero_status_valid|]. change (fp h meta_zero ## fp h zero_DuckStatus).
  rewrite meta_zero_fp. set_solver.
Qed.

Lemma zero_DuckType_valid (h : gmap loc C) : valid h zero_DuckType.
Proof.
  split_and!; [apply meta_zero_valid|apply zero_status_valid|]. change (fp h meta_zero ## fp h zero_DuckTypeStatus).
  rewrite meta_zero_fp. set_solver.
Qed.

(** The package's initialisation makes the six blank dies. *)
Lemma init_blanks_ok (s : state) :
  exists s' b, init_blanks s = Ret (s', b) /\ frame s s' ∅ ∅ /\ blanks_ok (ds_dies s') b.
Proof.
  unfold init_blanks, DuckSpecBlank, DuckStatusBlank, DuckBlank, DuckTypeSpecBlank, DuckTypeStatusBlank, DuckTypeBlank.
  destruct (make_blank_effect tt zero_DuckSpec s) as (s0 & b0 & -> & F0 & A0). simpl.
  destruct (make_blank_effect tt zero_DuckStatus s0) as (s1 & b1 & -> & F1 & A1). simpl.
  destruct (make_blank_effect frozen_zero zero_Duck s1) as (s2 & b2 & -> & F2 & A2). simpl.
  destruct (make_blank_effect tt zero_DuckTypeSpec s2) as (s3 & b3 & -> & F3 & A3). simpl.
  destruct (make_blank_effect tt zero_DuckTypeStatus s3) as (s4 & b4 & -> & F4 & A4). simpl.
  destruct (make_blank_effect frozen_zero zero_DuckType s4) as (s5 & b5 & -> & F5 & A5). simpl.
  assert (G5 : frame s5 s5 ∅ ∅) by apply frame_refl.
  assert (G4 : frame s4 s5 ∅ ∅) by done.
  assert (G3 : frame s3 s5 ∅ ∅) by (eapply frame_trans; [exact F4|exact G4| |]; set_solver).
  assert (G2 : frame s2 s5 ∅ ∅) by (eapply frame_trans; [exact F3|exact G3| |]; set_solver).
  assert (G1 : frame s1 s5 ∅ ∅) by (eapply frame_trans; [exact F2|exact G2| |]; set_solver).
  assert (G0 : frame s0 s5 ∅ ∅) by (eapply frame_trans; [exact F1|exact G1| |]; set_solver).
  exists s5, (MkBlanks b0 b1 b2 b3 b4 b5). split_and!; [done|eapply frame_trans; [exact F0|exact G0| |]; set_solver|].
  assert (Hs : forall h : gmap loc C, valid h (MkSStatus 0 nil_slice)) by apply zero_status_valid.
  split; simpl; [..|eexists| | |eexists]; (split; [eapply die_at_kept; [|eassumption]; eassumption|]); try done.
  - apply zero_Duck_valid.
  - apply zero_DuckType_valid.
Qed.

(** ** What the methods do *)

Variable blanks : Blanks.
Variable B : gmap loc D.
Hypothesis Hblanks : blanks_ok B blanks.

Lemma DuckSpecDie_Group_edits v : edits (cell := C) B (DuckSpecDie_Group v) (fun r => MkDuckSpec v (ds_Version r) (ds_Kind r)).
Proof. apply stamp_edits. by apply assign_stamps. Qed.
Lemma DuckSpecDie_Version_edits v : edits (cell := C) B (DuckSpecDie_Version v) (fun r => MkDuckSpec (ds_Group r) v (ds_Kind r)).
Proof. apply stamp_edits. by apply assign_stamps. Qed.
Lemma DuckSpecDie_Kind_edits v : edits (cell := C) B (DuckSpecDie_Kind v) (fun r => MkDuckSpec (ds_Group r) (ds_Version r) v).
Proof. apply stamp_edits. by apply assign_stamps. Qed.

Lemma DuckDie_SpecDie_edits fn g :
  touches (cell := C) B fn g -> edits (cell := C) B (DuckDie_SpecDie blanks fn) (fun d => d_set_Spec (g (d_Spec d)) d).
Proof.
  intros Hfn. apply stamp_edits. refine (field_stamps B _ _ _ _ _ g part_Duck_Spec _).
  eapply with_die_stamps; [apply (ok_DuckSpec _ _ Hblanks)|done].
Qed.

Lemma DuckDie_Spec_edits v : edits (cell := C) B (DuckDie_Spec v) (d_set_Spec v).
Proof. apply stamp_edits. by apply assign_stamps. Qed.

Lemma DuckDie_StatusDie_edits fn g :
  touches (cell := C) B fn g -> edits (cell := C) B (DuckDie_StatusDie blanks fn) (fun d => d_set_Status (g (d_Status d)) d).
Proof.
  intros Hfn. apply stamp_edits. refine (field_stamps B _ _ _ _ _ g part_Duck_Status _).
  eapply with_die_stamps; [apply (ok_DuckStatus _ _ Hblanks)|done].
Qed.

Lemma DuckStatusDie_ConditionDie_edits v fn f :
  stamps B (ConditionDie_with fn) f ->
  edits (cell := C) B (DuckStatusDie_ConditionDie v fn)
    (fun st => MkDuckStatus (MkStatus (st_ObservedGeneration (dst_Status st)) (upsert v f (st_Conditions (dst_Status st))))).
Proof.
  intros Hfn. apply stamp_edits. unfold DuckStatus_on_status.
  refine (field_stamps B _ _ _ _ _
    (fun st => MkStatus (st_ObservedGeneration st) (upsert v f (st_Conditions st))) part_DuckStatus _).
  refine (field_stamps B _ _ _ _ _ (upsert v f) part_Conditions _). by apply conditions_die_stamps.
Qed.

Lemma DuckDie_APIVersion_edits v :
  edits (cell := C) B (DuckDie_APIVersion v) (fun d => d_set_TypeMeta (MkTypeMeta v (tm_Kind (d_TypeMeta d))) d).
Proof. apply stamp_edits. by apply assign_stamps. Qed.

Lemma DuckDie_Kind_edits v :
  edits (cell := C) B (DuckDie_Kind v) (fun d => d_set_TypeMeta (MkTypeMeta (tm_APIVersion (d_TypeMeta d)) v) d).
Proof. apply stamp_edits. by apply assign_stamps. Qed.

Lemma DuckDie_MetadataDie_edits fn f :
  stamps B (ObjectMetaDie_with fn) f ->
  edits (cell := C) B (DuckDie_MetadataDie fn) (fun d => d_set_ObjectMeta (f (d_ObjectMeta d)) d).
Proof.
  intros Hfn. apply stamp_edits. by refine (field_stamps B _ _ _ _ _ f part_Duck_ObjectMeta _).
Qed.

Lemma DuckTypeSpecDie_edits g pl sg k lk :
  edits (cell := C) B (DuckTypeSpecDie_Group g)
    (fun r => MkDuckTypeSpec g (dts_Plural r) (dts_Singular r) (dts_Kind r) (dts_ListKind r))
  /\ edits (cell := C) B (DuckTypeSpecDie_Plural pl)
    (fun r => MkDuckTypeSpec (dts_Group r) pl (dts_Singular r) (dts_Kind r) (dts_ListKind r))
  /\ edits (cell := C) B (DuckTypeSpecDie_Singular sg)
    (fun r => MkDuckTypeSpec (dts_Group r) (dts_Plural r) sg (dts_Kind r) (dts_ListKind r))
  /\ edits (cell := C) B (DuckTypeSpecDie_Kind k)
    (fun r => MkDuckTypeSpec (dts_Group r) (dts_Plural r) (dts_Singular r) k (dts_ListKind r))
  /\ edits (cell := C) B (DuckTypeSpecDie_ListKind lk)
    (fun r => MkDuckTypeSpec (dts_Group r) (dts_Plural r) (dts_Singular r) (dts_Kind r) lk).
Proof. split_and!; apply stamp_edits; by apply assign_stamps. Qed.

(** ** Theorems *)

(** The field methods of the spec dies build every spec: called one after the
    other on any die, whatever its spec, they make one with exactly the given
    fields, in place for a mutable die, and change no other die. *)
Theorem spec_dies_build (g v k pl sg lk : string) :
  edits (cell := C) B (and_then (DuckSpecDie_Group g) (and_then (DuckSpecDie_Version v) (DuckSpecDie_Kind k)))
    (fun _ => MkDuckSpec g v k)
  /\ edits (cell := C) B
       (and_then (DuckTypeSpecDie_Group g) (and_then (DuckTypeSpecDie_Plural pl)
          (and_then (DuckTypeSpecDie_Singular sg) (and_then (DuckTypeSpecDie_Kind k) (DuckTypeSpecDie_ListKind lk)))))
       (fun _ => MkDuckTypeSpec g pl sg k lk).
Proof.
  destruct (DuckTypeSpecDie_edits g pl sg k lk) as (E1 & E2 & E3 & E4 & E5). split.
  - exact (edits_seq B _ _ _ _ (DuckSpecDie_Group_edits g)
      (edits_seq B _ _ _ _ (DuckSpecDie_Version_edits v) (DuckSpecDie_Kind_edits k))).
  - exact (edits_seq B _ _ _ _ E1 (edits_seq B _ _ _ _ E2 (edits_seq B _ _ _ _ E3 (edits_seq B _ _ _ _ E4 E5)))).
Qed.


(** C31: the die of a duck's spec and the setter agree: SpecDie with a callback that
    makes [g spec] of the spec does what Spec does with that value.  Both return
    a die with the same value, which differs from the old one in the spec only,
    in place for a mutable die; an immutable die stays as it was. *)
Theorem duck_spec_die_is_spec fn g (s : state) p d :
  touches B fn g -> B ⊆ ds_dies s -> die_at s p d -> ok s (die_r d) -> (die_mutable d = true -> p ∉ dom B) ->
  let v := value s (die_r d) in
  exists s1 p1 d1 s2 p2 d2,
    DuckDie_SpecDie blanks fn p s = Ret (s1, p1) /\ die_at s1 p1 d1
    /\ DuckDie_Spec (g (d_Spec v)) p s = Ret (s2, p2) /\ die_at s2 p2 d2
    /\ value s1 (die_r d1) = value s2 (die_r d2)
    /\ value s1 (die_r d1) = MkDuck (d_TypeMeta v) (d_ObjectMeta v) (g (d_Spec v)) (d_Status v)
    /\ (if die_mutable d then p1 = p /\ p2 = p
        else die_at s1 p d /\ value s1 (die_r d) = v /\ die_at s2 p d /\ value s2 (die_r d) = v).
Proof.
  intros Hfn HB Hp Hok Hpb v.
  destruct (DuckDie_SpecDie_edits fn g Hfn s p d HB Hp Hok Hpb) as (s1 & p1 & d1 & H1' & E1).
  destruct (DuckDie_Spec_edits (g (d_Spec v)) s p d HB Hp Hok Hpb) as (s2 & p2 & d2 & H2' & E2).
  exists s1, p1, d1, s2, p2, d2. split_and!; [done|apply E1|done|apply E2| |apply E1|].
  - by rewrite (ed_value _ _ _ _ _ _ _ E1), (ed_value _ _ _ _ _ _ _ E2).
  - pose proof (edited_old _ _ _ _ _ _ _ E1 Hp Hok) as O1. pose proof (edited_old _ _ _ _ _ _ _ E2 Hp Hok) as O2.
    destruct (die_mutable d); [done|]. destruct O1, O2. by split_and!.
Qed.

(** C32: setting a condition through the dies of the duck, its status and the
    condition is an update of the list of conditions: the first one of that type
    is replaced by what the callback makes of it, or a new one is added at the
    end; everything else of the duck stays. *)
Theorem duck_condition_die_upserts v fn f (s : state) p d :
  stamps B (ConditionDie_with fn) f -> B ⊆ ds_dies s -> die_at s p d -> ok s (die_r d) ->
  (die_mutable d = true -> p ∉ dom B) ->
  let r := value s (die_r d) in
  let st := dst_Status (d_Status r) in
  exists s' p' d', DuckDie_StatusDie blanks (calling (DuckStatusDie_ConditionDie v fn)) p s = Ret (s', p')
    /\ die_at s' p' d'
    /\ value s' (die_r d') = MkDuck (d_TypeMeta r) (d_ObjectMeta r) (d_Spec r)
         (MkDuckStatus (MkStatus (st_ObservedGeneration st) (upsert v f (st_Conditions st))))
    /\ (if die_mutable d then p' = p else die_at s' p d /\ value s' (die_r d) = r).
Proof.
  intros Hfn HB Hp Hok Hpb r st.
  destruct (DuckDie_StatusDie_edits _ _ (calling_touches _ _ _ (DuckStatusDie_ConditionDie_edits v fn f Hfn)) s p d HB Hp Hok Hpb)
    as (s' & p' & d' & H1' & E). exists s', p', d'. split_and!; [done|apply E|apply E|].
  pose proof (edited_old _ _ _ _ _ _ _ E Hp Hok). by destruct (die_mutable d).
Qed.

(** C34: AsDuck makes the die of a duck of the type: whatever the DuckType die, the
    new die is immutable and its duck has the API version group/v1 and the kind
    of the type, the given name and nothing else; the DuckType die and the blank
    die of ducks are as they were. *)
Theorem ducktype_as_duck name (s : state) p d :
  B ⊆ ds_dies s -> die_at s p d -> ok s (die_r d) ->
  let spec := dt_Spec (value s (die_r d)) in
  exists s' q e, DuckTypeDie_AsDuck blanks name p s = Ret (s', q) /\ die_at s' q e /\ die_mutable e = false
    /\ value s' (die_r e) = MkDuck (MkTypeMeta (gv_String (MkGV (dts_Group spec) "v1")) (dts_Kind spec))
                             (meta_set_Name name blank_meta) (MkDuckSpec "" "" "") (MkDuckStatus (MkStatus 0 []))
    /\ die_at s' p d /\ value s' (die_r d) = value s (die_r d) /\ B ⊆ ds_dies s'.
Proof.
  intros HB Hp Hok spec. destruct (DieRelease_effect p s d Hp Hok) as (s1 & r & H1' & Hf1 & Hd1 & Ho1 & Hv1 & _).
  assert (Hspec : sdt_Spec r = spec) by (unfold spec; by rewrite <- Hv1).
  destruct (ok_Duck _ _ Hblanks) as [fz [Hb Hz]].
  assert (HB1 : B ⊆ ds_dies s1) by (by rewrite Hd1).
  assert (Hat : die_at s1 (b_Duck blanks) (MkDie fz false zero_Duck zero_Duck)) by (by eapply lookup_weaken).
  pose proof (edits_seq B _ _ _ _ (DuckDie_APIVersion_edits (gv_String (MkGV (dts_Group spec) "v1")))
    (edits_seq B _ _ _ _ (DuckDie_Kind_edits (dts_Kind spec))
       (DuckDie_MetadataDie_edits _ _ (ObjectMetaDie_Name_stamps B name)))) as He.
  destruct (He s1 (b_Duck blanks) _ HB1 Hat (Hz _)) as (s' & q & e & H2' & E); [done|].
  exists s', q, e. unfold DuckTypeDie_AsDuck. rewrite H1'. simpl. rewrite Hspec.
  pose proof (frame_trans _ _ _ _ _ _ _ Hf1 (ed_frame _ _ _ _ _ _ _ E) ltac:(set_solver) ltac:(set_solver)) as Hf.
  split_and!; [exact H2'|apply E|apply E| | | |].
  - etransitivity; [apply (ed_value _ _ _ _ _ _ _ E)|]. cbn. by rewrite meta_zero_rd.
  - by eapply die_at_kept.
  - exact (proj1 (proj2 (frame_value s s' ∅ ∅ (die_r d) Hf Hok ltac:(set_solver)))).
  - eapply frame_keeps; [exact Hf|done|set_solver].
Qed.
End laws.

(** ** Witnesses: metadata without references, callbacks that are functions *)
Section witness.
#[local] Existing Instances ref_meta_copyable ref_meta_copy_laws ref_status_copy ref_status_copy_laws ref_conditions ref_schema.

Abbreviation ref_cell := (cell Z ObjectMeta).
Abbreviation ref_die := (api_die ObjectMeta unit).
Abbreviation ref_state := (dstate ref_cell ref_die).

#[local] Instance ref_dies : MetaDies ref_cell ref_die ObjectMeta unit := ref_meta_dies ref_cell ref_die.
#[local] Instance ref_dies_laws : MetaDiesLaws ref_cell ref_die ObjectMeta unit := ref_meta_dies_laws ref_cell ref_die.

(** The package after its initialisation. *)
Definition w_empty : ref_state := MkDState ∅ ∅.
Definition w_state : ref_state := match init_blanks w_empty with Ret (s, _) => s | Panic _ => w_empty end.
Definition w_blanks : Blanks :=
  match init_blanks w_empty with Ret (_, b) => b | Panic _ => MkBlanks 0 0 0 0 0 0 end.

Lemma w_blanks_ok : blanks_ok (ds_dies w_state) w_blanks.
Proof.
  unfold w_state, w_blanks. destruct (init_blanks_ok w_empty) as (s & b & Hi & _ & Hb). by rewrite Hi.
Qed.

Definition w_duck : die (sDuck ObjectMeta) unit := MkDie tt false zero_Duck zero_Duck.
Definition w_ducktype : die (sDuckType ObjectMeta) unit := MkDie tt false zero_DuckType zero_DuckType.

Lemma w_duck_at : die_at w_state (b_Duck w_blanks) w_duck /\ ok w_state (die_r w_duck).
Proof.
  destruct (ok_Duck _ _ w_blanks_ok) as [[] [Hd Hz]]. split; [exact Hd|apply Hz].
Qed.

Lemma w_ducktype_at : die_at w_state (b_DuckType w_blanks) w_ducktype /\ ok w_state (die_r w_ducktype).
Proof.
  destruct (ok_DuckType _ _ w_blanks_ok) as [[] [Hd Hz]]. split; [exact Hd|apply Hz].
Qed.


Lemma spec_dies_build_witness :
  edits (cell := ref_cell) (ds_dies w_state)
    (and_then (DuckSpecDie_Group "apps") (and_then (DuckSpecDie_Version "v1") (DuckSpecDie_Kind "Deployment")))
    (fun _ => MkDuckSpec "apps" "v1" "Deployment").
Proof. exact (proj1 (spec_dies_build (ds_dies w_state) "apps" "v1" "Deployment" "" "" "")). Defined.

Lemma duck_spec_die_is_spec_witness :
  exists s1 p1 d1, DuckDie_SpecDie w_blanks (calling (DuckSpecDie_Kind "Deployment")) (b_Duck w_blanks) w_state = Ret (s1, p1)
    /\ die_at s1 p1 d1 /\ d_Spec (value s1 (die_r d1)) = MkDuckSpec "" "" "Deployment".
Proof.
  destruct (duck_spec_die_is_spec w_blanks (ds_dies w_state) w_blanks_ok _ _ w_state (b_Duck w_blanks) w_duck
    (calling_touches _ _ _ (DuckSpecDie_Kind_edits _ "Deployment")) ltac:(done) (proj1 w_duck_at) (proj2 w_duck_at)
    ltac:(done)) as (s1 & p1 & d1 & s2 & p2 & d2 & H1 & A1 & _ & _ & _ & V1 & _).
  exists s1, p1, d1. split_and!; [exact H1|exact A1|]. by rewrite V1.
Defined.

Lemma duck_condition_die_upserts_witness :
  exists s1 p1 d1, DuckDie_StatusDie w_blanks
      (calling (DuckStatusDie_ConditionDie "Ready" (fun c => MkCondition (c_Type c) "True" 0 0 "" "")))
      (b_Duck w_blanks) w_state = Ret (s1, p1)
    /\ die_at s1 p1 d1
    /\ st_Conditions (dst_Status (d_Status (value s1 (die_r d1)))) = [MkCondition "Ready" "True" 0 0 "" ""].
Proof.
  destruct (duck_condition_die_upserts w_blanks (ds_dies w_state) w_blanks_ok "Ready"
    (fun c => MkCondition (c_Type c) "True" 0 0 "" "") (fun c => MkCondition (c_Type c) "True" 0 0 "" "")
    w_state (b_Duck w_blanks) w_duck ltac:(by apply assign_stamps) ltac:(done) (proj1 w_duck_at) (proj2 w_duck_at)
    ltac:(done)) as (s1 & p1 & d1 & H1 & A1 & V1 & _).
  exists s1, p1, d1. split_and!; [exact H1|exact A1|]. by rewrite V1.
Defined.

Lemma ducktype_as_duck_witness :
  exists s' q e, DuckTypeDie_AsDuck w_blanks "mine" (b_DuckType w_blanks) w_state = Ret (s', q)
    /\ die_at s' q e /\ om_Name (d_ObjectMeta (value s' (die_r e))) = "mine".
Proof.
  destruct (ducktype_as_duck w_blanks (ds_dies w_state) w_blanks_ok "mine" w_state (b_DuckType w_blanks) w_ducktype
    ltac:(done) (proj1 w_ducktype_at) (proj2 w_ducktype_at)) as (s' & q & e & H1 & A1 & _ & V1 & _).
  exists s', q, e. split_and!; [exact H1|exact A1|]. by rewrite V1.
Defined.
End witness.
