(* ===== verification/TestResources.v ===== *)
(** * internal/testresources

    A duck type with conditions that the tests of the client read through a duck
    client: its types (conditionalduck_types.go), deep copies
    (zz_generated.deepcopy.go) and dies (zz_generated.die.go).  The deep copies
    are over the heap of Heap.v, and the dies instances of DieOps.v. *)

From S2P Require Import Prelude Slices Heap Platform ApiV1 Dies DieLaws DieOps DieContract.

#[local] Open Scope go_scope.

(** ** Types *)

Record ConditionDuckStatus := MkConditionDuckStatus {
  cds_ObservedGeneration : Z;
  cds_Conditions : list Condition;
}.

Record ConditionDuck := MkConditionDuck {
  cd_TypeMeta : TypeMeta;
  cd_ObjectMeta : ObjectMeta;
  cd_Status : ConditionDuckStatus;
}.

Record ConditionDuckList := MkConditionDuckList {
  cdl_TypeMeta : TypeMeta;
  cdl_ListMeta : ListMeta;
  cdl_Items : list ConditionDuck;
}.

(** ** Deep copies: the structs with their slices *)

Record sConditionDuckStatus := MkSConditionDuckStatus { scds_ObservedGeneration : Z; scds_Conditions : slice }.

Record sConditionDuckList (SListMeta : Type) := MkSConditionDuckList {
  scdl_TypeMeta : TypeMeta;
  scdl_ListMeta : SListMeta;
  scdl_Items : slice;
}.

Arguments MkSConditionDuckList {_} _ _ _.
Arguments scdl_TypeMeta {_} _.
Arguments scdl_ListMeta {_} _.
Arguments scdl_Items {_} _.

Section generated.
Context {LCell SMeta : Type}.

Record sConditionDuck := MkSConditionDuck {
  scd_TypeMeta : TypeMeta;
  scd_ObjectMeta : SMeta;
  scd_Status : sConditionDuckStatus;
}.

Inductive tcell :=
| TLib (c : LCell)
| TConditions (a : array Condition)
| TConditionDucks (a : array sConditionDuck).

#[export] Instance tconditions_cell : ArrayCell tcell Condition :=
  {| of_array := TConditions; to_array c := match c with TConditions a => Some a | _ => None end;
     to_of_array a := eq_refl |}.
#[export] Instance conditionducks_cell : ArrayCell tcell sConditionDuck :=
  {| of_array := TConditionDucks; to_array c := match c with TConditionDucks a => Some a | _ => None end;
     to_of_array a := eq_refl |}.

#[export] Instance tCondition_copyable : @DeepCopyable tcell Condition Condition := copy_plain Condition.
#[export] Instance tCondition_copy_laws : @DeepCopyLaws _ _ _ tCondition_copyable := copy_plain_laws Condition.

Context `{MC : !@DeepCopyable tcell SMeta ObjectMeta}.

Definition ConditionDuckStatus_DeepCopyInto (h : gmap loc tcell) (in_ : sConditionDuckStatus)
    : gmap loc tcell * sConditionDuckStatus :=
  let '(h, cs) := copy_slice (A := Condition) h (scds_Conditions in_) in
  (h, MkSConditionDuckStatus (scds_ObservedGeneration in_) cs).
Definition ConditionDuckStatus_DeepCopy := deep_copy ConditionDuckStatus_DeepCopyInto.

Definition ConditionDuck_DeepCopyInto (h : gmap loc tcell) (in_ : sConditionDuck) : gmap loc tcell * sConditionDuck :=
  let '(h, om) := copy_into h (scd_ObjectMeta in_) in
  let '(h, st) := ConditionDuckStatus_DeepCopyInto h (scd_Status in_) in
  (h, MkSConditionDuck (scd_TypeMeta in_) om st).
Definition ConditionDuck_DeepCopy := deep_copy ConditionDuck_DeepCopyInto.
Definition ConditionDuck_DeepCopyObject := deep_copy_object ConditionDuck_DeepCopy.

#[export] Instance ConditionDuckStatus_copyable : @DeepCopyable tcell sConditionDuckStatus ConditionDuckStatus := {|
  valid h s := valid_slice (A := Condition) h (scds_Conditions s);
  fp h s := fp_slice (A := Condition) h (scds_Conditions s);
  rd h s := MkConditionDuckStatus (scds_ObservedGeneration s) (rd_slice (A := Condition) h (scds_Conditions s));
  copy_into := ConditionDuckStatus_DeepCopyInto;
|}.

#[export] Instance ConditionDuck_copyable : @DeepCopyable tcell sConditionDuck ConditionDuck := {|
  valid h s := valid h (scd_ObjectMeta s) /\ valid h (scd_Status s) /\ fp h (scd_ObjectMeta s) ## fp h (scd_Status s);
  fp h s := fp h (scd_ObjectMeta s) ∪ fp h (scd_Status s);
  rd h s := MkConditionDuck (scd_TypeMeta s) (rd h (scd_ObjectMeta s)) (rd h (scd_Status s));
  copy_into := ConditionDuck_DeepCopyInto;
|}.

(** [in.ListMeta.DeepCopyInto(&out.ListMeta)] is the library's. *)
Context {SListMeta : Type} `{LC : !@DeepCopyable tcell SListMeta ListMeta}.

Definition ConditionDuckList_DeepCopyInto (h : gmap loc tcell) (in_ : sConditionDuckList SListMeta)
    : gmap loc tcell * sConditionDuckList SListMeta :=
  let '(h, lm) := copy_into h (scdl_ListMeta in_) in
  let '(h, items) := copy_slice (A := sConditionDuck) h (scdl_Items in_) in
  (h, MkSConditionDuckList (scdl_TypeMeta in_) lm items).
Definition ConditionDuckList_DeepCopy := deep_copy ConditionDuckList_DeepCopyInto.
Definition ConditionDuckList_DeepCopyObject := deep_copy_object ConditionDuckList_DeepCopy.

#[export] Instance ConditionDuckList_copyable : @DeepCopyable tcell (sConditionDuckList SListMeta) ConditionDuckList := {|
  valid h s := valid h (scdl_ListMeta s) /\ valid_slice (A := sConditionDuck) h (scdl_Items s)
    /\ fp h (scdl_ListMeta s) ## fp_slice (A := sConditionDuck) h (scdl_Items s);
  fp h s := fp h (scdl_ListMeta s) ∪ fp_slice (A := sConditionDuck) h (scdl_Items s);
  rd h s := MkConditionDuckList (scdl_TypeMeta s) (rd h (scdl_ListMeta s)) (rd_slice (A := sConditionDuck) h (scdl_Items s));
  copy_into := ConditionDuckList_DeepCopyInto;
|}.
End generated.

Arguments sConditionDuck : clear implicits.
Arguments tcell : clear implicits.

(** ** Dies *)

Inductive test_die (SMeta FMeta : Type) :=
| TConditionDuck (d : die (sConditionDuck SMeta) FMeta)
| TConditionDuckStatus (d : die sConditionDuckStatus unit).
Arguments TConditionDuck {_ _} _.
Arguments TConditionDuckStatus {_ _} _.

Section test_dies.
Context {LCell SMeta FMeta : Type}.
Context `{MC : !@DeepCopyable (tcell LCell SMeta) SMeta ObjectMeta}.
Context `{MD : !MetaDies (tcell LCell SMeta) (test_die SMeta FMeta) SMeta FMeta}.

Abbreviation C := (tcell LCell SMeta).
Abbreviation D := (test_die SMeta FMeta).
Abbreviation state := (dstate C D).
Abbreviation method := (loc -> state -> outcome (state * loc)).

#[export] Instance ConditionDuck_die_kind : DieKind D (sConditionDuck SMeta) FMeta :=
  {| freeze r := FreezeObjectMeta (scd_ObjectMeta r); to_any := TConditionDuck;
     of_any x := match x with TConditionDuck d => Some d | _ => None end; of_to_any d := eq_refl |}.
#[export] Instance ConditionDuckStatus_die_kind : DieKind D sConditionDuckStatus unit :=
  {| freeze r := tt; to_any := TConditionDuckStatus;
     of_any x := match x with TConditionDuckStatus d => Some d | _ => None end; of_to_any d := eq_refl |}.

Definition zero_ConditionDuckStatus : sConditionDuckStatus := MkSConditionDuckStatus 0 nil_slice.
Definition zero_ConditionDuck : sConditionDuck SMeta :=
  MkSConditionDuck (MkTypeMeta "" "") meta_zero zero_ConditionDuckStatus.

Definition ConditionDuckBlank (s : state) : outcome (state * loc) := make_blank frozen_zero zero_ConditionDuck s.
Definition ConditionDuckStatusBlank (s : state) : outcome (state * loc) := make_blank tt zero_ConditionDuckStatus s.

(** The package variables, and their initialisation. *)
Record TestBlanks := MkTestBlanks { b_ConditionDuck : loc; b_ConditionDuckStatus : loc }.

Definition init_test_blanks (s : state) : outcome (state * TestBlanks) :=
  let! (s, b0) := ConditionDuckBlank s in
  let! (s, b1) := ConditionDuckStatusBlank s in
  Ret (s, MkTestBlanks b0 b1).

Variable blanks : TestBlanks.

(** *** ConditionDuckDie *)

Definition ConditionDuckDie_struct : Type := die (sConditionDuck SMeta) FMeta.
Definition ConditionDuckDie_feeding (K : Codec C D (sConditionDuck SMeta)) : FeedMethods K :=
  feed_methods zero_ConditionDuck K.
Definition ConditionDuckDie_releasing (K : Codec C D (sConditionDuck SMeta)) : ReleaseMethods K := release_methods K.
Definition ConditionDuckDie_stamping : StampMethods C D (sConditionDuck SMeta) := stamp_methods (b_ConditionDuck blanks).
Definition ConditionDuckDie_sealing (K : Codec C D (sConditionDuck SMeta)) : SealMethods K :=
  seal_methods zero_ConditionDuck K.
Definition ConditionDuckDie_DieReleaseUnstructured {Unst}
    (ToUnstructured : sConditionDuck SMeta -> state -> result string Unst) : loc -> state -> outcome (state * Unst) :=
  DieReleaseUnstructured ToUnstructured.
Definition ConditionDuckDie_object (K : Codec C D (sConditionDuck SMeta)) : ObjectMethods K TypeMeta :=
  object_methods scd_TypeMeta K.

Definition scd_set_TypeMeta (v : TypeMeta) (r : sConditionDuck SMeta) : sConditionDuck SMeta :=
  MkSConditionDuck v (scd_ObjectMeta r) (scd_Status r).
Definition scd_set_ObjectMeta (v : SMeta) (r : sConditionDuck SMeta) : sConditionDuck SMeta :=
  MkSConditionDuck (scd_TypeMeta r) v (scd_Status r).
Definition scd_set_Status (v : sConditionDuckStatus) (r : sConditionDuck SMeta) : sConditionDuck SMeta :=
  MkSConditionDuck (scd_TypeMeta r) (scd_ObjectMeta r) v.

Definition ConditionDuckDie_APIVersion (v : string) : method :=
  DieStamp (assign (fun r => scd_set_TypeMeta (MkTypeMeta v (tm_Kind (scd_TypeMeta r))) r)).
Definition ConditionDuckDie_Kind (v : string) : method :=
  DieStamp (assign (fun r => scd_set_TypeMeta (MkTypeMeta (tm_APIVersion (scd_TypeMeta r)) v) r)).
Definition ConditionDuckDie_TypeMetadata (v : TypeMeta) : method := DieStamp (assign (scd_set_TypeMeta v)).
Definition ConditionDuckDie_TypeMetadataDie (fn : TypeMetaFn) : method :=
  DieStamp (on_field scd_TypeMeta scd_set_TypeMeta (TypeMetaDie_with fn)).
Definition ConditionDuckDie_Metadata (v : SMeta) : method := DieStamp (assign (scd_set_ObjectMeta v)).
Definition ConditionDuckDie_MetadataDie (fn : ObjectMetaFn) : method :=
  DieStamp (on_field scd_ObjectMeta scd_set_ObjectMeta (ObjectMetaDie_with fn)).
Definition ConditionDuckDie_StatusDie (fn : loc -> state -> outcome state) : method :=
  DieStamp (on_field scd_Status scd_set_Status (with_die (b_ConditionDuckStatus blanks) fn)).
Definition ConditionDuckDie_Status (v : sConditionDuckStatus) : method := DieStamp (assign (scd_set_Status v)).

(** *** ConditionDuckStatusDie *)

Definition ConditionDuckStatusDie_struct : Type := die sConditionDuckStatus unit.
Definition ConditionDuckStatusDie_feeding (K : Codec C D sConditionDuckStatus) : FeedMethods K :=
  feed_methods zero_ConditionDuckStatus K.
Definition ConditionDuckStatusDie_releasing (K : Codec C D sConditionDuckStatus) : ReleaseMethods K := release_methods K.
Definition ConditionDuckStatusDie_stamping : StampMethods C D sConditionDuckStatus :=
  stamp_methods (b_ConditionDuckStatus blanks).
Definition ConditionDuckStatusDie_sealing (K : Codec C D sConditionDuckStatus) : SealMethods K :=
  seal_methods zero_ConditionDuckStatus K.

Definition scds_set_Conditions (cs : slice) (r : sConditionDuckStatus) : sConditionDuckStatus :=
  MkSConditionDuckStatus (scds_ObservedGeneration r) cs.

Definition ConditionDuckStatusDie_ConditionDie (v : string) (fn : ConditionFn) : method :=
  DieStamp (on_field scds_Conditions scds_set_Conditions (conditions_die slice_growth v (ConditionDie_with fn))).
Definition ConditionDuckStatusDie_ObservedGeneration (v : Z) : method :=
  DieStamp (assign (fun r => MkSConditionDuckStatus v (scds_Conditions r))).
(** The slice of the arguments becomes the conditions. *)
Definition ConditionDuckStatusDie_Conditions (v : slice) : method := DieStamp (assign (scds_set_Conditions v)).
End test_dies.

(** ** Laws *)

Section laws.
Context {LCell SMeta FMeta : Type}.
Context `{MC : !@DeepCopyable (tcell LCell SMeta) SMeta ObjectMeta} `{ML : !@DeepCopyLaws _ _ _ MC}.
Context `{MD : !MetaDies (tcell LCell SMeta) (test_die SMeta FMeta) SMeta FMeta}.

Abbreviation C := (tcell LCell SMeta).
Abbreviation D := (test_die SMeta FMeta).
Abbreviation state := (dstate C D).

#[export] Instance ConditionDuckStatus_copy_laws : @DeepCopyLaws C _ _ ConditionDuckStatus_copyable.
Proof.
  exact (@copyable_one_laws _ _ _ _ (copyable_slice_laws (A := Condition)) _ _ scds_Conditions
           (fun s l => MkSConditionDuckStatus (scds_ObservedGeneration s) l)
           (fun s v => MkConditionDuckStatus (scds_ObservedGeneration s) v)
           (fun _ _ => eq_refl) (fun _ _ _ => eq_refl)).
Qed.

#[export] Instance ConditionDuck_copy_laws : @DeepCopyLaws C _ _ ConditionDuck_copyable.
Proof.
  exact (copyable_two_laws scd_ObjectMeta scd_Status (fun s om st => MkSConditionDuck (scd_TypeMeta s) om st)
           (fun s v w => MkConditionDuck (scd_TypeMeta s) v w)
           (fun _ _ _ => eq_refl) (fun _ _ _ => eq_refl) (fun _ _ _ _ _ => eq_refl)).
Qed.

Definition cd_set_Status (v : ConditionDuckStatus) (r : ConditionDuck) : ConditionDuck :=
  MkConditionDuck (cd_TypeMeta r) (cd_ObjectMeta r) v.

Lemma part_ConditionDuck_Status :
  part scd_Status scd_set_Status cd_Status cd_set_Status (cell := C) (U := sConditionDuck SMeta).
Proof.
  apply (part_of_two (C := SMeta) scd_Status scd_ObjectMeta); try done.
  - intros h r. cbn. split; intros (? & ? & ?); split_and!; done.
  - intros h r. cbn. set_solver.
  - intros h h' v r Hr. cbn. by rewrite Hr.
Qed.

#[local] Instance tconditions_copyable : @DeepCopyable C slice (list Condition) := copyable_slice (A := Condition).
#[local] Instance tconditions_copy_laws : @DeepCopyLaws _ _ _ tconditions_copyable := copyable_slice_laws (A := Condition).

Lemma part_ConditionDuckStatus_Conditions :
  part scds_Conditions scds_set_Conditions cds_Conditions
    (fun cs st => MkConditionDuckStatus (cds_ObservedGeneration st) cs) (cell := C).
Proof. by apply part_of_one. Qed.

Context `{!MetaDiesLaws C D SMeta FMeta}.

Record test_blanks_ok (B : gmap loc D) (b : TestBlanks) : Prop := {
  ok_ConditionDuck : exists fz, blank_in (cell := C) B (b_ConditionDuck b) zero_ConditionDuck zero_ConditionDuck fz;
  ok_ConditionDuckStatus :
    blank_in (cell := C) B (b_ConditionDuckStatus b) zero_ConditionDuckStatus zero_ConditionDuckStatus tt;
}.

Lemma init_test_blanks_ok (s : state) :
  exists s' b, init_test_blanks s = Ret (s', b) /\ frame s s' ∅ ∅ /\ test_blanks_ok (ds_dies s') b.
Proof.
  unfold init_test_blanks, ConditionDuckBlank, ConditionDuckStatusBlank.
  destruct (make_blank_effect frozen_zero zero_ConditionDuck s) as (s0 & b0 & -> & F0 & A0). simpl.
  destruct (make_blank_effect tt zero_ConditionDuckStatus s0) as (s1 & b1 & -> & F1 & A1). simpl.
  exists s1, (MkTestBlanks b0 b1). split_and!; [done|eapply frame_trans; [exact F0|exact F1| |]; set_solver|].
  assert (Hs : forall h : gmap loc C, valid h zero_ConditionDuckStatus) by (by split; [|constructor]).
  split; simpl; [eexists; split; [by eapply die_at_kept|]|done].
  intros h. split_and!; [apply meta_zero_valid|apply Hs|].
  change (fp h meta_zero ## fp h zero_ConditionDuckStatus). rewrite meta_zero_fp. set_solver.
Qed.

Variable blanks : TestBlanks.
Variable B : gmap loc D.
Hypothesis Hblanks : test_blanks_ok B blanks.

Lemma ConditionDuckDie_StatusDie_edits fn g :
  touches (cell := C) B fn g ->
  edits (cell := C) B (ConditionDuckDie_StatusDie blanks fn) (fun d => cd_set_Status (g (cd_Status d)) d).
Proof.
  intros Hfn. apply stamp_edits. refine (field_stamps B _ _ _ _ _ g part_ConditionDuck_Status _).
  eapply with_die_stamps; [apply (ok_ConditionDuckStatus _ _ Hblanks)|done].
Qed.

Lemma ConditionDuckStatusDie_ConditionDie_edits v fn f :
  stamps B (ConditionDie_with fn) f ->
  edits (cell := C) B (ConditionDuckStatusDie_ConditionDie v fn)
    (fun st => MkConditionDuckStatus (cds_ObservedGeneration st) (upsert v f (cds_Conditions st))).
Proof.
  intros Hfn. apply stamp_edits.
  refine (field_stamps B _ _ _ _ _ (upsert v f) part_ConditionDuckStatus_Conditions _).
  by apply conditions_die_stamps.
Qed.

(** ** Theorems *)

(** The die types of the test resources keep the contract of dies, and setting
    a condition through the dies of the status and the condition updates the
    list of conditions and nothing else. *)
Theorem test_dies_contract (K1 : Codec C D (sConditionDuck SMeta)) (K2 : Codec C D sConditionDuckStatus) v fn f :
  stamps B (ConditionDie_with fn) f ->
  die_contract B (ConditionDuckDie_feeding K1) (ConditionDuckDie_releasing K1) (ConditionDuckDie_stamping blanks)
    (ConditionDuckDie_sealing K1)
  /\ die_contract B (ConditionDuckStatusDie_feeding K2) (ConditionDuckStatusDie_releasing K2)
       (ConditionDuckStatusDie_stamping blanks) (ConditionDuckStatusDie_sealing K2)
  /\ edits (cell := C) B (ConditionDuckDie_StatusDie blanks (calling (ConditionDuckStatusDie_ConditionDie v fn)))
       (fun r => MkConditionDuck (cd_TypeMeta r) (cd_ObjectMeta r)
          (MkConditionDuckStatus (cds_ObservedGeneration (cd_Status r)) (upsert v f (cds_Conditions (cd_Status r))))).
Proof.
  intros Hfn. destruct (ok_ConditionDuck _ _ Hblanks) as [fz Hb].
  split_and!; [eapply die_methods_contract; eassumption| |].
  - eapply die_methods_contract. apply (ok_ConditionDuckStatus _ _ Hblanks).
  - exact (ConditionDuckDie_StatusDie_edits _ _ (calling_touches _ _ _ (ConditionDuckStatusDie_ConditionDie_edits v fn f Hfn))).
Qed.
End laws.

Section deepcopy_theorem.
Context {LCell SMeta SListMeta : Type}.
Context `{LC : !@DeepCopyable (tcell LCell SMeta) SListMeta ListMeta} `{LL : !@DeepCopyLaws _ _ _ LC}.
Context `{MC : !@DeepCopyable (tcell LCell SMeta) SMeta ObjectMeta} `{ML : !@DeepCopyLaws _ _ _ MC}.

#[export] Instance ConditionDuckList_copy_laws : @DeepCopyLaws (tcell LCell SMeta) _ _ ConditionDuckList_copyable.
Proof.
  exact (@copyable_two_laws _ _ _ _ _ _ _ _ (copyable_slice_laws (A := sConditionDuck SMeta)) _ _
           scdl_ListMeta scdl_Items (fun s m l => MkSConditionDuckList (scdl_TypeMeta s) m l)
           (fun s v w => MkConditionDuckList (scdl_TypeMeta s) v w)
           (fun _ _ _ => eq_refl) (fun _ _ _ => eq_refl) (fun _ _ _ _ _ => eq_refl)).
Qed.

(** DeepCopy of a list of condition ducks is deep. *)
Theorem conditionducklist_deepcopy_independent (h : gmap loc (tcell LCell SMeta)) (s : sConditionDuckList SListMeta) :
  valid h s ->
  (exists h' s', ConditionDuckList_DeepCopy h (Some s) = (h', Some s') /\ independent_copy h h' s s')
  /\ ConditionDuckList_DeepCopyObject h None = (h, None).
Proof.
  intros Hwf. split; [|done]. pose proof (copy_independent h s Hwf) as Hc. simpl in Hc.
  unfold ConditionDuckList_DeepCopy, deep_copy. destruct (ConditionDuckList_DeepCopyInto h s) as [h' s']. eauto.
Qed.
End deepcopy_theorem.

(** ** Witnesses *)
Section witness.
Abbreviation w_tcell := (tcell unit ObjectMeta).
Abbreviation w_tdie := (test_die ObjectMeta unit).
#[local] Instance w_meta_copyable : @DeepCopyable w_tcell ObjectMeta ObjectMeta := copy_plain ObjectMeta.
#[local] Instance w_meta_copy_laws : @DeepCopyLaws _ _ _ w_meta_copyable := copy_plain_laws ObjectMeta.
#[local] Instance w_meta_dies : MetaDies w_tcell w_tdie ObjectMeta unit := ref_meta_dies w_tcell w_tdie.
#[local] Instance w_meta_dies_laws : MetaDiesLaws w_tcell w_tdie ObjectMeta unit := ref_meta_dies_laws w_tcell w_tdie.

Definition w_test_state : dstate w_tcell w_tdie :=
  match init_test_blanks (MkDState ∅ ∅) with Ret (s, _) => s | Panic _ => MkDState ∅ ∅ end.
Definition w_test_blanks : TestBlanks :=
  match init_test_blanks (LCell := unit) (SMeta := ObjectMeta) (FMeta := unit) (MkDState ∅ ∅) with
  | Ret (_, b) => b
  | Panic _ => MkTestBlanks 0 0
  end.

Lemma w_test_blanks_ok : test_blanks_ok (ds_dies w_test_state) w_test_blanks.
Proof.
  unfold w_test_state, w_test_blanks. destruct (init_test_blanks_ok (MkDState ∅ ∅)) as (s & b & Hi & _ & Hb). by rewrite Hi.
Qed.

Lemma test_dies_contract_witness :
  edits (cell := w_tcell) (V := ConditionDuck) (ds_dies w_test_state)
    (ConditionDuckDie_StatusDie w_test_blanks
       (calling (ConditionDuckStatusDie_ConditionDie "Ready" (fun c => MkCondition (c_Type c) "True" 0 0 "" ""))))
    (fun r : ConditionDuck => MkConditionDuck (cd_TypeMeta r) (cd_ObjectMeta r)
       (MkConditionDuckStatus (cds_ObservedGeneration (cd_Status r))
          (upsert "Ready" (fun c => MkCondition (c_Type c) "True" 0 0 "" "") (cds_Conditions (cd_Status r))))).
Proof.
  refine (proj2 (proj2 (test_dies_contract w_test_blanks (ds_dies w_test_state) w_test_blanks_ok
    (ref_codec _ _ _ zero_ConditionDuck) (ref_codec _ _ _ zero_ConditionDuckStatus) "Ready"
    (fun c => MkCondition (c_Type c) "True" 0 0 "" "") _ _))). by apply assign_stamps.
Defined.

#[local] Instance w_listmeta_copyable : @DeepCopyable w_tcell ListMeta ListMeta := copy_plain ListMeta.
#[local] Instance w_listmeta_copy_laws : @DeepCopyLaws _ _ _ w_listmeta_copyable := copy_plain_laws ListMeta.

Lemma conditionducklist_deepcopy_independent_witness :
  exists h' s', ConditionDuckList_DeepCopy (LCell := unit) (SMeta := ObjectMeta) ∅
      (Some (MkSConditionDuckList (MkTypeMeta "" "") zero_ListMeta nil_slice)) = (h', Some s')
    /\ rd h' s' = MkConditionDuckList (MkTypeMeta "" "") zero_ListMeta [].
Proof.
  destruct (conditionducklist_deepcopy_independent (LCell := unit) (SMeta := ObjectMeta) ∅
    (MkSConditionDuckList (MkTypeMeta "" "") zero_ListMeta nil_slice)) as [(h' & s' & Hc & Hr & _) _].
  - split_and!; [done|by split; [|constructor]|set_solver].
  - exists h', s'. split; [exact Hc|exact Hr].
Defined.
End witness.
