(* ===== verification/Main.v ===== *)
(** * cmd/main.go: assembling the process

    The flags, the TLS options of the two servers, and the calls that build and
    start the manager, each of which ends the process when it fails.  The TLS
    options are Go slices that share their arrays, and the servers read them
    when they start, so slices are modelled with their array, length and
    capacity. *)

From S2P Require Import Prelude Slices Platform Reference ApiV1.

(** ** The process *)

Definition option_to_list {A} (o : option A) : list A := match o with None => [] | Some a => [a] end.

Record flags := MkFlags {
  f_metricsAddr : string;
  f_metricsCertPath : string; f_metricsCertName : string; f_metricsCertKey : string;
  f_webhookCertPath : string; f_webhookCertName : string; f_webhookCertKey : string;
  f_enableLeaderElection : bool;
  f_probeAddr : string;
  f_secureMetrics : bool;
  f_enableHTTP2 : bool;
}.

(** The defaults the flags are declared with. *)
Definition default_flags : flags :=
  MkFlags "0" "" "tls.crt" "tls.key" "" "tls.crt" "tls.key" false ":8081" true false.

(** A certificate watcher, by the directory and the file names it was made
    with. *)
Record watcher := MkWatcher { wt_dir : string; wt_cert : string; wt_key : string }.

(** The functions in the TLS options. *)
Inductive tls_opt := DisableHTTP2 | GetCertificate (w : watcher).

#[export] Instance watcher_eq_dec : EqDecision watcher.
Proof. solve_decision. Defined.
#[export] Instance tls_opt_eq_dec : EqDecision tls_opt.
Proof. solve_decision. Defined.

Record metrics_options := MkMetricsOptions {
  mo_BindAddress : string;
  mo_SecureServing : bool;
  mo_TLSOpts : slice;
  mo_AuthFilter : bool;
}.

Record manager_options := MkManagerOptions {
  mgo_SyncPeriod : Z;
  mgo_Metrics : metrics_options;
  mgo_WebhookTLSOpts : slice;
  mgo_HealthProbeBindAddress : string;
  mgo_LeaderElection : bool;
  mgo_LeaderElectionID : string;
}.

(** What the process has when mgr.Start is called. *)
Record process := MkProcess {
  p_arrays : gmap nat (array tls_opt);
  p_options : manager_options;
  p_runnables : list watcher;
  p_checks : list string;
}.

(** How the process ends: os.Exit(1) after logging a message, or a return from
    main. *)
Inductive ending := Exit1 (msg : string) | Finished_ (p : process).

Class MainLib `{ErrorLib} := {
  certwatcher_New : watcher -> option err;
  ctrl_NewManager : manager_options -> option err;
  DuckType_SetupWithManager : option err;
  DuckType_SetupWebhookWithManager : option err;
  mgr_Add : watcher -> option err;
  mgr_AddHealthzCheck : option err;
  mgr_AddReadyzCheck : option err;
  mgr_Start : process -> option err;
}.

(** ** The scheme

    The package's init functions.  A scheme builder and the AddToScheme functions
    of the libraries are the libraries'. *)

Class SchemeLib `{ErrorLib} := {
  RScheme : Type;
  NewScheme : RScheme;
  (** scheme.Builder with the group and version, and the kinds registered *)
  builder_AddToScheme : GroupVersion -> list string -> RScheme -> RScheme * option err;
  clientgoscheme_AddToScheme : RScheme -> RScheme * option err;
  apiextensionsv1_AddToScheme : RScheme -> RScheme * option err;
  apiregistrationv1_AddToScheme : RScheme -> RScheme * option err;
  Recognizes : RScheme -> GroupVersionKind -> bool;
}.

Section scheme.
Context `{SchemeLib}.

(** What api/v1 registers with its SchemeBuilder when it is loaded. *)
Definition SchemeBuilder_kinds : list string := ["DuckType"; "DuckTypeList"].
Definition ducksv1_AddToScheme : RScheme -> RScheme * option err :=
  builder_AddToScheme APIGroupVersion SchemeBuilder_kinds.

(** [utilruntime.Must(add(scheme))] *)
Definition must_add (add : RScheme -> RScheme * option err) (s : RScheme) : outcome RScheme :=
  match add s with
  | (s, None) => Ret s
  | (_, Some _) => Panic "utilruntime.Must"
  end.

Definition init : outcome RScheme :=
  outcome_bind (must_add clientgoscheme_AddToScheme NewScheme) (fun s =>
  outcome_bind (must_add apiextensionsv1_AddToScheme s) (fun s =>
  outcome_bind (must_add apiregistrationv1_AddToScheme s) (fun s =>
  must_add ducksv1_AddToScheme s))).

(** A builder adds the kinds it was given. *)
Class SchemeLaws : Prop :=
  builder_adds : forall gv kinds s s' k, builder_AddToScheme gv kinds s = (s', None) -> k ∈ kinds ->
    Recognizes s' (MkGVK (gv_Group gv) (gv_Version gv) k) = true.

(** A process whose init did not panic knows DuckType and its list. *)
Theorem init_registers `{!SchemeLaws} s k :
  init = Ret s -> k = "DuckType" \/ k = "DuckTypeList" ->
  Recognizes s (MkGVK "duck.reconciler.io" "v1" k) = true.
Proof.
  unfold init. intros (s1 & _ & H1')%outcome_bind_Ret Hk.
  apply outcome_bind_Ret in H1' as (s2 & _ & H2'). apply outcome_bind_Ret in H2' as (s3 & _ & H3').
  unfold must_add, ducksv1_AddToScheme in H3'.
  destruct (builder_AddToScheme _ _ s3) as [s4 [e|]] eqn:Hb; [done|]. injection H3' as <-.
  apply (builder_adds _ _ _ _ k Hb). destruct Hk as [->| ->]; set_solver.
Qed.
End scheme.

Section main.
Context `{MainLib}.
Variable grow : nat -> nat.

(** [if err != nil { log; os.Exit(1) }] *)
Definition or_exit (e : option err) (msg : string) (k : ending) : ending :=
  match e with Some _ => Exit1 msg | None => k end.

(** The watcher of a server: none without a directory. *)
Definition cert_watcher (dir cert key : string) : option watcher :=
  if 0 <? String.length dir then Some (MkWatcher dir cert key) else None.

(** The part of main that builds one server's certificate watcher and appends
    its option. *)
Definition add_cert (w : option watcher) (msg : string) (h : gmap nat (array tls_opt)) (opts : slice)
    (k : gmap nat (array tls_opt) -> slice -> ending) : ending :=
  match w with
  | None => k h opts
  | Some w => or_exit (certwatcher_New w) msg
                (let '(h, opts) := append grow h opts (GetCertificate w) in k h opts)
  end.

Definition add_runnable (w : option watcher) (msg : string) (k : ending) : ending :=
  match w with None => k | Some w => or_exit (mgr_Add w) msg k end.

Definition initial_tls (f : flags) : gmap nat (array tls_opt) * slice :=
  if negb (f_enableHTTP2 f) then append grow ∅ nil_slice DisableHTTP2 else (∅, nil_slice).

(** From ctrl.NewManager on. *)
Definition main_manager (f : flags) (wm ww : option watcher) (h : gmap nat (array tls_opt))
    (metrics webhook : slice) : ending :=
  let o := MkManagerOptions 36000
             (MkMetricsOptions (f_metricsAddr f) (f_secureMetrics f) metrics (f_secureMetrics f))
             webhook (f_probeAddr f) (f_enableLeaderElection f) "356b570a.duck.reconciler.io" in
  or_exit (ctrl_NewManager o) "unable to start manager"
  (or_exit DuckType_SetupWithManager "unable to create controller"
  (or_exit DuckType_SetupWebhookWithManager "unable to create webhook"
  (add_runnable wm "unable to add metrics certificate watcher to manager"
  (add_runnable ww "unable to add webhook certificate watcher to manager"
  (or_exit mgr_AddHealthzCheck "unable to set up health check"
  (or_exit mgr_AddReadyzCheck "unable to set up ready check"
  (let p := MkProcess h o (option_to_list wm ++ option_to_list ww) ["healthz"; "readyz"] in
   or_exit (mgr_Start p) "problem running manager" (Finished_ p)))))))).

Definition main (f : flags) : ending :=
  let '(h, tlsOpts) := initial_tls f in
  let ww := cert_watcher (f_webhookCertPath f) (f_webhookCertName f) (f_webhookCertKey f) in
  let wm := cert_watcher (f_metricsCertPath f) (f_metricsCertName f) (f_metricsCertKey f) in
  add_cert ww "Failed to initialize webhook certificate watcher" h tlsOpts (fun h webhookTLSOpts =>
  add_cert wm "to initialize metrics certificate watcher" h tlsOpts (fun h metricsTLSOpts =>
  main_manager f wm ww h metricsTLSOpts webhookTLSOpts)).
End main.

(** ** Lemmas *)

Section main_theorems.
Context `{MainLib}.
Variable grow : nat -> nat.

Lemma or_exit_Finished e msg k p : or_exit e msg k = Finished_ p <-> e = None /\ k = Finished_ p.
Proof. destruct e; simpl; naive_solver. Qed.

Lemma add_runnable_Finished w msg k p :
  add_runnable w msg k = Finished_ p <->
  (forall w', w = Some w' -> mgr_Add w' = None) /\ k = Finished_ p.
Proof. destruct w; simpl; rewrite ?or_exit_Finished; naive_solver. Qed.

Lemma add_cert_Finished w msg h opts k p :
  add_cert grow w msg h opts k = Finished_ p ->
  (forall w', w = Some w' -> certwatcher_New w' = None)
  /\ exists h' opts', k h' opts' = Finished_ p
     /\ (h', opts') = match w with None => (h, opts) | Some w' => append grow h opts (GetCertificate w') end.
Proof.
  destruct w as [w|]; simpl; [|naive_solver]. rewrite or_exit_Finished. intros [Hc Hk].
  destruct (append grow h opts (GetCertificate w)) as [h' opts']. split; [naive_solver|eauto].
Qed.

(** The slice both servers start from. *)
Lemma initial_tls_spec f h s :
  initial_tls grow f = (h, s) ->
  slice_wf h s /\ slice_read h s = (if f_enableHTTP2 f then [] else [DisableHTTP2])
  /\ (sl_len s < slice_cap h s <-> f_enableHTTP2 f = false /\ 1 < grow 1).
Proof.
  unfold initial_tls. destruct (f_enableHTTP2 f); simpl.
  - intros [= <- <-]. split_and!; [done|done|]. split; [unfold slice_cap; simpl; lia|by intros [? _]].
  - intros Ha. destruct (append_spec grow ∅ nil_slice DisableHTTP2 h s eq_refl Ha) as (Hw & Hr & _).
    destruct (append_full grow ∅ nil_slice DisableHTTP2 h s (le_n 0) Ha) as (_ & Hc & Hl).
    split_and!; [done|done|]. rewrite Hc, Hl. simpl. naive_solver.
Qed.

(** What the two appends to the shared slice leave the servers with. *)
Lemma add_certs_read (ww wm : option watcher) h s h1 s1 h2 s2 :
  slice_wf h s ->
  (h1, s1) = match ww with None => (h, s) | Some w => append grow h s (GetCertificate w) end ->
  (h2, s2) = match wm with None => (h1, s) | Some w => append grow h1 s (GetCertificate w) end ->
  slice_read h2 s2 = slice_read h s ++ option_to_list (GetCertificate <$> wm)
  /\ slice_read h2 s1 = slice_read h s ++ option_to_list (GetCertificate <$>
       (if decide (sl_len s < slice_cap h s /\ is_Some ww /\ is_Some wm) then wm else ww)).
Proof.
  intros Hw E1 E2. destruct ww as [ww|], wm as [wm|]; simpl.
  - destruct (append_twice grow h s _ _ _ _ _ _ Hw (eq_sym E1) (eq_sym E2)) as [-> ->]. split; [done|].
    destruct (decide (sl_len s < slice_cap h s)) as [Hl|Hl].
    + rewrite decide_True by (by split_and!). done.
    + rewrite decide_False by tauto. done.
  - injection E2 as -> ->. rewrite decide_False by (by intros (_ & _ & [? ?])).
    destruct (append_keeps grow _ _ _ _ _ Hw (eq_sym E1)) as (-> & _ & _).
    destruct (append_spec grow _ _ _ _ _ Hw (eq_sym E1)) as (_ & -> & _). by rewrite app_nil_r.
  - injection E1 as -> ->. rewrite decide_False by (by intros (_ & [? ?] & _)).
    destruct (append_keeps grow _ _ _ _ _ Hw (eq_sym E2)) as (-> & _ & _).
    destruct (append_spec grow _ _ _ _ _ Hw (eq_sym E2)) as (_ & -> & _). by rewrite app_nil_r.
  - injection E1 as -> ->. injection E2 as -> ->. rewrite decide_False by (by intros (_ & [? ?] & _)).
    simpl. by rewrite !app_nil_r.
Qed.

Lemma cert_watcher_Some dir c k : is_Some (cert_watcher dir c k) <-> dir <> "".
Proof. unfold cert_watcher. destruct dir; simpl; split; try done; intros []; naive_solver. Qed.

(** C35: what TLS options the two servers read when main gets to the end, for
    any growth of slices, although both option slices start from one shared
    slice: the metrics server reads the option that disables HTTP/2, unless the
    flag enables it, and its own certificate if one is configured.  The webhook
    server reads the same option and its own certificate, except in one case:
    if HTTP/2 is disabled, both certificates are configured and the append that
    disabled HTTP/2 gave the slice an array with room for more, then the
    webhook server reads the metrics server's certificate instead of its own. *)
Theorem main_tls_options (f : flags) (p : process) :
  main grow f = Finished_ p ->
  let base := if f_enableHTTP2 f then [] else [DisableHTTP2] in
  let cert dir c k := if String.eqb dir "" then [] else [GetCertificate (MkWatcher dir c k)] in
  let metrics := cert (f_metricsCertPath f) (f_metricsCertName f) (f_metricsCertKey f) in
  let webhook := cert (f_webhookCertPath f) (f_webhookCertName f) (f_webhookCertKey f) in
  slice_read (p_arrays p) (mo_TLSOpts (mgo_Metrics (p_options p))) = base ++ metrics
  /\ slice_read (p_arrays p) (mgo_WebhookTLSOpts (p_options p))
     = base ++ (if decide (f_enableHTTP2 f = false /\ 1 < grow 1
                           /\ f_webhookCertPath f <> "" /\ f_metricsCertPath f <> "")
                then metrics else webhook)
  /\ mo_AuthFilter (mgo_Metrics (p_options p)) = f_secureMetrics f.
Proof.
  intros Hm base cert metrics webhook. unfold main in Hm. destruct (initial_tls grow f) as [h s] eqn:Hi.
  destruct (initial_tls_spec f h s Hi) as (Hw & Hr & Hcap).
  apply add_cert_Finished in Hm as (_ & h1 & s1 & Hm & E1).
  apply add_cert_Finished in Hm as (_ & h2 & s2 & Hm & E2).
  destruct (add_certs_read _ _ _ _ _ _ _ _ Hw E1 E2) as [Hmr Hwr].
  unfold main_manager in Hm. rewrite !or_exit_Finished, !add_runnable_Finished, !or_exit_Finished in Hm.
  destruct Hm as (_ & _ & _ & _ & _ & _ & _ & _ & [= <-]). simpl.
  rewrite Hmr, Hwr, Hr. clear Hmr Hwr E1 E2. subst metrics webhook cert. simpl.
  assert (Hcert : forall dir c k, option_to_list (GetCertificate <$> cert_watcher dir c k)
    = if String.eqb dir "" then [] else [GetCertificate (MkWatcher dir c k)]) by (by intros []).
  split_and!; [by rewrite Hcert| |done]. f_equal. rewrite <- !Hcert.
  destruct (decide (f_enableHTTP2 f = false /\ _)) as [Hd|Hd].
  - rewrite decide_True; [done|]. rewrite Hcap, !cert_watcher_Some. tauto.
  - rewrite decide_False; [done|]. rewrite Hcap, !cert_watcher_Some. tauto.
Qed.

(** Main returns normally only if every step succeeded: the certificates were
    loaded, the manager, the controller and the webhook were set up, the
    certificate watchers and both health checks were added and the manager ran
    to an end without error.  Any failure ends the process with status 1. *)
Theorem main_finishes_only_if_all_succeed (f : flags) :
  match main grow f with
  | Exit1 _ => True
  | Finished_ p =>
      Forall (fun w => certwatcher_New w = None /\ mgr_Add w = None) (p_runnables p)
      /\ p_runnables p = option_to_list (cert_watcher (f_metricsCertPath f) (f_metricsCertName f) (f_metricsCertKey f))
                         ++ option_to_list (cert_watcher (f_webhookCertPath f) (f_webhookCertName f) (f_webhookCertKey f))
      /\ ctrl_NewManager (p_options p) = None
      /\ DuckType_SetupWithManager = None /\ DuckType_SetupWebhookWithManager = None
      /\ mgr_AddHealthzCheck = None /\ mgr_AddReadyzCheck = None /\ mgr_Start p = None
  end.
Proof.
  destruct (main grow f) as [|p] eqn:Hm; [done|]. unfold main in Hm.
  destruct (initial_tls grow f) as [h s].
  apply add_cert_Finished in Hm as (Hw & h1 & s1 & Hm & _).
  apply add_cert_Finished in Hm as (Hv & h2 & s2 & Hm & _).
  unfold main_manager in Hm. rewrite !or_exit_Finished, !add_runnable_Finished, !or_exit_Finished in Hm.
  destruct Hm as (M1 & M2 & M3 & M4 & M5 & M6 & M7 & M8 & [= <-]). simpl in *.
  split_and!; try done. apply Forall_app. split.
  - destruct (cert_watcher (f_metricsCertPath f) _ _); simpl; repeat constructor; auto.
  - destruct (cert_watcher (f_webhookCertPath f) _ _); simpl; repeat constructor; auto.
Qed.
End main_theorems.

(** ** Witnesses *)

#[local] Existing Instance ref_errors.
#[local] Instance ref_main : @MainLib ref_errors :=
  @Build_MainLib ref_errors (fun _ => None) (fun _ => None) None None (fun _ => None) None None (fun _ => None).

Definition w_flags : flags :=
  MkFlags ":8443" "/metrics" "tls.crt" "tls.key" "/webhook" "tls.crt" "tls.key" false ":8081" true false.

(** The capacity of the first array decides which certificate the webhook server
    reads. *)
Lemma main_tls_options_witness :
  (exists p, main id w_flags = Finished_ p
    /\ slice_read (p_arrays p) (mgo_WebhookTLSOpts (p_options p))
       = [DisableHTTP2; GetCertificate (MkWatcher "/webhook" "tls.crt" "tls.key")])
  /\ exists p, main (fun n => 2 * n) w_flags = Finished_ p
    /\ slice_read (p_arrays p) (mgo_WebhookTLSOpts (p_options p))
       = [DisableHTTP2; GetCertificate (MkWatcher "/metrics" "tls.crt" "tls.key")].
Proof.
  split; eexists; (split; [reflexivity|]).
  - refine (proj1 (proj2 (main_tls_options id w_flags _ _))). reflexivity.
  - refine (proj1 (proj2 (main_tls_options (fun n => 2 * n) w_flags _ _))). reflexivity.
Defined.
